(** * xlrd3: the compound-document reader and the workbook-globals parser

  A shallow embedding of [xlrd/compdoc.py] and of the record cursor,
  version detection, encoding derivation, shared-string decoding and sheet
  access of [xlrd/book.py], with the properties of the design
  specification stated and settled against these definitions.

  Conventions.  Python integers are [Z]; a [bytes] object (or an [mmap]
  used through slicing) is a [list byte]; a Python [str] is the list of
  its code points; lists that the code indexes are Rocq lists read with
  Python's index and slice rules; a raised exception is the [Raise]
  outcome of [result]; a [while] loop is a fixpoint over a fuel argument
  whose exhaustion is the separate outcome [OutOfFuel]; calls to the
  logger are dropped. *)

From stdpp Require Import base list gmap strings numbers.
From Stdlib Require Import ZArith Lia Ascii DecimalString.
From Stdlib Require Strings.Byte.

Open Scope Z_scope.

(** ** The fragment of the Python runtime that the code relies on *)

Module py.

(** A Python [str]: its code points. *)
Abbreviation str := (list N).

(** A [bytes] object. *)
Abbreviation bytes := (list Byte.byte).

(** Literal text of the source, as a [str]. *)
Definition u (s : string) : str :=
  (fun a => N_of_ascii a) <$> String.list_ascii_of_string s.

(** [str(n)] for an integer. *)
Definition str_of_int (n : Z) : str :=
  u (NilZero.string_of_int (Z.to_int n)).

(** ["%04x" % n] for a field of at most sixteen hexadecimal digits. *)
Definition hex_digit (d : Z) : N :=
  Z.to_N (if d <? 10 then 48 + d else 87 + d).

Fixpoint hex_digits (fuel : nat) (n : Z) (acc : str) : str :=
  match fuel with
  | O => acc
  | S f =>
      let acc := hex_digit (n mod 16) :: acc in
      if n / 16 =? 0 then acc else hex_digits f (n / 16) acc
  end.

Definition format_04x (n : Z) : str :=
  let d := hex_digits 16 n [] in
  replicate (4 - length d) 48%N ++ d.

(** The byte of a value from 0 to 255, and literal bytes, each given by
    its value. *)
Definition byte_of (z : Z) : Byte.byte :=
  default Byte.x00 (Byte.of_N (Z.to_N z)).

Definition B (l : list Z) : bytes := byte_of <$> l.

Definition ord (b : Byte.byte) : Z := Z.of_N (Byte.to_N b).

Inductive exn : Type :=
| CompDocError (msg : str)
| XLRDError (msg : str)
| struct_error
| IndexError
| AssertionError
| OverflowError
| ZeroDivisionError
| TypeError
| ValueError
| UnicodeDecodeError
| LookupError
| KeyError
| FileNotFoundError
| RecursionError
| AttributeError.

Inductive result (A : Type) : Type :=
| Return (a : A)
| Raise (e : exn)
| OutOfFuel.
Arguments Return {A} a.
Arguments Raise {A} e.
Arguments OutOfFuel {A}.

Definition bind {A B} (m : result A) (k : A -> result B) : result B :=
  match m with
  | Return a => k a
  | Raise e => Raise e
  | OutOfFuel => OutOfFuel
  end.

Definition raises {A} (m : result A) : Prop := exists e, m = Raise e.

(** [l[i]] and [l[lo:hi]] with Python's treatment of negative and
    out-of-range positions. *)
Definition clamp (n i : Z) : Z :=
  if i <? 0 then Z.max 0 (i + n) else Z.min i n.

Definition slice {A} (l : list A) (lo hi : Z) : list A :=
  let n := Z.of_nat (length l) in
  let a := clamp n lo in
  let b := clamp n hi in
  take (Z.to_nat (b - a)) (drop (Z.to_nat a) l).

(** [l[lo:]] *)
Definition slice_from {A} (l : list A) (lo : Z) : list A :=
  drop (Z.to_nat (clamp (Z.of_nat (length l)) lo)) l.

Definition getitem {A} (l : list A) (i : Z) : result A :=
  let j := if i <? 0 then i + Z.of_nat (length l) else i in
  if j <? 0 then Raise IndexError
  else match l !! Z.to_nat j with
       | Some x => Return x
       | None => Raise IndexError
       end.

(** [a[i] = v] on an [array.array('B')]: the position must exist and the
    value must fit an unsigned byte. *)
Definition array_B_setitem (a : list Z) (i v : Z) : result (list Z) :=
  let j := if i <? 0 then i + Z.of_nat (length a) else i in
  if (j <? 0) || (Z.of_nat (length a) <=? j) then Raise IndexError
  else if (v <? 0) || (255 <? v) then Raise OverflowError
  else Return (<[Z.to_nat j := v]> a).

(** [l[i] = v] on a list. *)
Definition list_setitem {A} (l : list A) (i : Z) (v : A) : result (list A) :=
  let j := if i <? 0 then i + Z.of_nat (length l) else i in
  if (j <? 0) || (Z.of_nat (length l) <=? j) then Raise IndexError
  else Return (<[Z.to_nat j := v]> l).

(** *** [struct.unpack] with the little-endian formats of the source *)

Fixpoint le_uint (bs : bytes) : Z :=
  match bs with
  | [] => 0
  | b :: r => ord b + 256 * le_uint r
  end.

Definition le_int32 (bs : bytes) : Z :=
  let v := le_uint bs in
  if v <? 2147483648 then v else v - 4294967296.

(** ['<H'] *)
Definition unpack_H (bs : bytes) : result Z :=
  if decide (length bs = 2%nat) then Return (le_uint bs)
  else Raise struct_error.

(** ['<HH'] *)
Definition unpack_HH (bs : bytes) : result (Z * Z) :=
  if decide (length bs = 4%nat)
  then Return (le_uint (take 2 bs), le_uint (drop 2 bs))
  else Raise struct_error.

(** ['<i'] *)
Definition unpack_i (bs : bytes) : result Z :=
  if decide (length bs = 4%nat) then Return (le_int32 bs)
  else Raise struct_error.

(** The [n] 32-bit fields of ['<%di' % n], without the length check. *)
Fixpoint int32s (n : nat) (bs : bytes) : list Z :=
  match n with
  | O => []
  | S k => le_int32 (take 4 bs) :: int32s k (drop 4 bs)
  end.

(** ['<%di' % n] *)
Definition unpack_ni (n : Z) (bs : bytes) : result (list Z) :=
  if decide (Z.of_nat (length bs) = 4 * Z.max 0 n)
  then Return (int32s (Z.to_nat n) bs)
  else Raise struct_error.

(** [bisect.bisect_left(a, x)]: the binary search of the standard
    library, [lo] and [hi] closing in on the insertion point. *)
Fixpoint bisect_loop (fuel : nat) (a : list Z) (x : Z) (lo hi : nat) : nat :=
  match fuel with
  | O => lo
  | S f =>
      if decide (lo < hi)%nat then
        let mid := ((lo + hi) / 2)%nat in
        match a !! mid with
        | Some v =>
            if v <? x then bisect_loop f a x (S mid) hi
            else bisect_loop f a x lo mid
        | None => lo
        end
      else lo
  end.

Definition bisect_left (a : list Z) (x : Z) : nat :=
  bisect_loop (S (length a)) a x 0 (length a).

(** *** The two codecs that the shared-string decoder names *)

(** [bytes.decode("latin_1")] *)
Definition decode_latin_1 (bs : bytes) : str :=
  (fun b => Byte.to_N b) <$> bs.

(** The 16-bit units of a little-endian byte sequence; an odd byte at the
    end is an error. *)
Fixpoint utf16_units (bs : bytes) : result (list Z) :=
  match bs with
  | [] => Return []
  | [_] => Raise UnicodeDecodeError
  | lo :: hi :: rest =>
      match utf16_units rest with
      | Return us => Return ((ord lo + 256 * ord hi) :: us)
      | other => other
      end
  end.

Definition is_high_surrogate (w : Z) : bool := (0xD800 <=? w) && (w <=? 0xDBFF).
Definition is_low_surrogate (w : Z) : bool := (0xDC00 <=? w) && (w <=? 0xDFFF).

(** The code points of a sequence of units: a high surrogate must be
    followed by a low one, and a low one cannot stand alone. *)
Fixpoint utf16_code_points (us : list Z) : result str :=
  match us with
  | [] => Return []
  | w :: rest =>
      if is_high_surrogate w then
        match rest with
        | w2 :: rest' =>
            if is_low_surrogate w2 then
              match utf16_code_points rest' with
              | Return cs =>
                  Return (Z.to_N (0x10000 + (w - 0xD800) * 0x400 + (w2 - 0xDC00))
                          :: cs)
              | other => other
              end
            else Raise UnicodeDecodeError
        | [] => Raise UnicodeDecodeError
        end
      else if is_low_surrogate w then Raise UnicodeDecodeError
      else
        match utf16_code_points rest with
        | Return cs => Return (Z.to_N w :: cs)
        | other => other
        end
  end.

(** [bytes.decode("utf_16_le")], errors being strict. *)
Definition decode_utf_16_le (bs : bytes) : result str :=
  match utf16_units bs with
  | Return us => utf16_code_points us
  | Raise e => Raise e
  | OutOfFuel => OutOfFuel
  end.

(** A buffer handed to a slicing reader: a [bytes] object (or [mmap]), or a
    [str] (the source stores the [str] [""] for an empty short-stream
    container). *)
Inductive pybuf : Type :=
| PyBytes (b : bytes)
| PyStr (s : str).

Definition buf_slice (m : pybuf) (lo hi : Z) : pybuf :=
  match m with
  | PyBytes b => PyBytes (slice b lo hi)
  | PyStr s => PyStr (slice s lo hi)
  end.

(** [b''.join(parts)]: every part must be bytes-like. *)
Fixpoint join_bytes (parts : list pybuf) : result bytes :=
  match parts with
  | [] => Return []
  | PyBytes b :: r =>
      match join_bytes r with
      | Return t => Return (b ++ t)
      | other => other
      end
  | PyStr _ :: _ => Raise TypeError
  end.

(** [s.split(sep)] for a one-character separator. *)
Fixpoint split (sep : N) (s : str) : list str :=
  match s with
  | [] => [[]]
  | c :: r =>
      if decide (c = sep) then [] :: split sep r
      else match split sep r with
           | h :: t => (c :: h) :: t
           | [] => [[c]]
           end
  end.

(** [a // b] *)
Definition floordiv (a b : Z) : result Z :=
  if decide (b = 0) then Raise ZeroDivisionError else Return (a / b).

(** [l.pop()]: the list without its last element, and that element. *)
Definition pop {A} (l : list A) : result (list A * A) :=
  match reverse l with
  | x :: r => Return (reverse r, x)
  | [] => Raise IndexError
  end.

(** [sum(l)] *)
Definition sum (l : list Z) : Z := foldr Z.add 0 l.

End py.

Export py.

Notation "'let*' x := m 'in' k" := (py.bind m (fun x => k))
  (at level 10, x pattern, m at level 100, k at level 200,
   format "'[v' 'let*'  x  :=  m  'in' '/' k ']'").

(** ** [xlrd/compdoc.py] *)

Module compdoc.

Definition EOCSID : Z := -2.
Definition FREESID : Z := -1.
Definition SATSID : Z := -3.
Definition MSATSID : Z := -4.
Definition EVILSID : Z := -5.

(** A directory entry as [DirNode.__init__] leaves it and
    [_build_family_tree] completes it ([tsinfo] is only printed). *)
Record DirNode : Type := {
  DID : Z;
  name : str;
  etype : Z;
  colour : Z;
  left_DID : Z;
  right_DID : Z;
  root_DID : Z;
  first_SID : Z;
  tot_size : Z;
  children : list Z;
  parent : Z
}.

(** *** [class ScatteredMemory] *)

Record ScatteredMemory : Type := {
  filename : option str;
  slices : list (Z * Z);
  cum_sum : list Z
}.

(** [ScatteredMemory.__init__] *)
Definition ScatteredMemory_init (fname : option str) (sl : list (Z * Z))
  : ScatteredMemory :=
  let sizes := (fun xy : Z * Z => snd xy - fst xy) <$> sl in
  {| filename := fname;
     slices := sl;
     cum_sum := (fun x : nat => sum (take (S x) sizes)) <$> seq 0 (length sizes) |}.

(** [b''.join(mem[start_pos:end_pos] for start_pos, end_pos in slices)] *)
Definition join_slices (mem : bytes) (sl : list (Z * Z)) : bytes :=
  concat ((fun xy : Z * Z => slice mem (fst xy) (snd xy)) <$> sl).

Section Files.

(** The file system as the lazy view sees it: the bytes of the file of a
    given name, which [__getitem__] maps afresh when it has no open
    mapping. *)
Variable fs : str -> option bytes.

Definition open_mmap (self : ScatteredMemory) : result bytes :=
  match filename self with
  | None => Raise TypeError
  | Some f =>
      match fs f with
      | Some content => Return content
      | None => Raise FileNotFoundError
      end
  end.

(** [ScatteredMemory.__getitem__(item)] for an [int]. *)
Definition getitem_int (self : ScatteredMemory) (item : Z) : result Byte.byte :=
  let* mem := open_mmap self in
  let idx := bisect_left (cum_sum self) item in
  let* before :=
    (if decide (0 < idx)%nat then getitem (cum_sum self) (Z.of_nat idx - 1)
     else Return 0) in
  let _item := item - before in
  let* sl := getitem (slices self) (Z.of_nat idx) in
  let _idx := fst sl + _item in
  getitem mem _idx.

(** [ScatteredMemory.__getitem__(item)] for [slice(start, end)]. *)
Definition getitem_slice (self : ScatteredMemory) (start stop : Z)
  : result bytes :=
  let* mem := open_mmap self in
  let length := stop - start in
  let idx_0 := bisect_left (cum_sum self) start in
  let idx_1 := bisect_left (cum_sum self) stop in
  let* d_start :=
    (if decide (idx_0 = 0%nat) then Return 0
     else getitem (cum_sum self) (Z.of_nat idx_0 - 1)) in
  let data :=
    join_slices mem (slice (slices self) (Z.of_nat idx_0) (Z.of_nat idx_1 + 1)) in
  let _start := start - d_start in
  Return (slice data _start (_start + length)).

End Files.

(** What [locate_named_stream] hands back as its first component: the
    very object [mem] the document was opened on, a newly built [bytes]
    object, a lazy view, or [None]. *)
Inductive located : Type :=
| Backing (mem : bytes)
| Owned (b : bytes)
| Scattered (sm : ScatteredMemory)
| NoStream.

(** *** [class CompDoc]: the attributes [__init__] establishes *)

Record CompDoc : Type := {
  xls_path : option str;
  ignore_workbook_corruption : bool;
  mem : bytes;
  sec_size : Z;
  short_sec_size : Z;
  dir_first_sec_sid : Z;
  min_size_std_stream : Z;
  mem_data_secs : Z;
  mem_data_len : Z;
  seen : list Z;
  SAT : list Z;
  dirlist : list DirNode;
  SSCS : pybuf;
  SSAT : list Z
}.

Definition corruption_msg (name : str) (s v : Z) : str :=
  name ++ u " corruption: seen[" ++ str_of_int s ++ u "] == " ++ str_of_int v.

Definition sat_invalid_msg (name : str) (s : Z) : str :=
  u "OLE2 stream " ++ name ++ u ": sector allocation table invalid entry ("
    ++ str_of_int s ++ u ")".

(** [if seen_id is not None: if self.seen[s]: raise ...; self.seen[s] = seen_id] *)
Definition mark_seen (name : str) (seen_id : option Z) (seen : list Z) (s : Z)
  : result (list Z) :=
  match seen_id with
  | None => Return seen
  | Some id =>
      let* v := getitem seen s in
      if decide (v = 0) then array_B_setitem seen s id
      else Raise (CompDocError (corruption_msg name s v))
  end.

(** [try: s = sat[s] except IndexError: raise CompDocError(...)] *)
Definition next_sid (name : str) (sat : list Z) (s : Z) : result Z :=
  match getitem sat s with
  | Return n => Return n
  | _ => Raise (CompDocError (sat_invalid_msg name s))
  end.

(** The [while s >= 0] loop of [_get_stream] when [size is None]. *)
Fixpoint _get_stream_unsized (fuel : nat) (mem : pybuf) (base : Z)
    (sat : list Z) (sec_size : Z) (name : str) (seen_id : option Z)
    (s : Z) (sectors : list pybuf) (seen : list Z)
  : result (Z * list pybuf * list Z) :=
  if s >=? 0 then
    match fuel with
    | O => OutOfFuel
    | S fuel' =>
        let* seen := mark_seen name seen_id seen s in
        let start_pos := base + s * sec_size in
        let sectors := sectors ++ [buf_slice mem start_pos (start_pos + sec_size)] in
        let* s := next_sid name sat s in
        _get_stream_unsized fuel' mem base sat sec_size name seen_id s sectors seen
    end
  else Return (s, sectors, seen).

(** The [while s >= 0] loop of [_get_stream] when a size is given. *)
Fixpoint _get_stream_sized (fuel : nat) (mem : pybuf) (base : Z)
    (sat : list Z) (sec_size : Z) (name : str) (seen_id : option Z)
    (s todo : Z) (sectors : list pybuf) (seen : list Z)
  : result (Z * Z * list pybuf * list Z) :=
  if s >=? 0 then
    match fuel with
    | O => OutOfFuel
    | S fuel' =>
        let* seen := mark_seen name seen_id seen s in
        let start_pos := base + s * sec_size in
        let grab := if sec_size >? todo then todo else sec_size in
        let todo := todo - grab in
        let sectors := sectors ++ [buf_slice mem start_pos (start_pos + grab)] in
        let* s := next_sid name sat s in
        _get_stream_sized fuel' mem base sat sec_size name seen_id s todo sectors seen
    end
  else Return (s, todo, sectors, seen).

(** [CompDoc._get_stream]; the result carries the [seen] array as the
    call leaves it. *)
Definition _get_stream (fuel : nat) (self : CompDoc) (mem : pybuf) (base : Z)
    (sat : list Z) (sec_size : Z) (start_sid : Z) (size : option Z)
    (name : str) (seen_id : option Z) : result (bytes * list Z) :=
  match size with
  | None =>
      let* (s, sectors, seen) :=
        _get_stream_unsized fuel mem base sat sec_size name seen_id
          start_sid [] (seen self) in
      if decide (s = EOCSID) then
        let* joined := join_bytes sectors in Return (joined, seen)
      else Raise AssertionError
  | Some size =>
      let* (s, todo, sectors, seen) :=
        _get_stream_sized fuel mem base sat sec_size name seen_id
          start_sid size [] (seen self) in
      if decide (s = EOCSID) then
        let* joined := join_bytes sectors in Return (joined, seen)
      else Raise AssertionError
  end.

(** *** [CompDoc.__init__]: the master table and the allocation table *)

Definition msatx_range_msg (sid mem_data_secs : Z) : str :=
  u "MSAT extension: accessing sector " ++ str_of_int sid ++ u " but only "
    ++ str_of_int mem_data_secs ++ u " in file".

Definition msatx_invalid_msg (sid : Z) : str :=
  u "MSAT extension: invalid sector id: " ++ str_of_int sid.

(** [sid not in (EOCSID, FREESID, MSATSID)] *)
Definition msatx_continues (sid : Z) : bool :=
  negb ((sid =? EOCSID) || (sid =? FREESID) || (sid =? MSATSID)).

(** The [while] loop over the extension sectors of the master table; the
    result is [MSAT], [seen] and [actual_MSATX_sectors]. *)
Fixpoint MSATX_loop (fuel : nat) (mem : bytes) (sec_size mem_data_secs nent : Z)
    (sid : Z) (MSAT seen : list Z) (actual_MSATX_sectors : Z)
  : result (list Z * list Z * Z) :=
  if msatx_continues sid then
    match fuel with
    | O => OutOfFuel
    | S fuel' =>
        if sid >=? mem_data_secs then
          Raise (CompDocError (msatx_range_msg sid mem_data_secs))
        else if sid <? 0 then
          Raise (CompDocError (msatx_invalid_msg sid))
        else
          let* v := getitem seen sid in
          if negb (v =? 0) then
            Raise (CompDocError (corruption_msg (u "MSAT") sid v))
          else
            let* seen := array_B_setitem seen sid 1 in
            let actual_MSATX_sectors := actual_MSATX_sectors + 1 in
            let offset := 512 + sec_size * sid in
            let* ents := unpack_ni nent (slice mem offset (offset + sec_size)) in
            let* (MSAT, sid) := pop (MSAT ++ ents) in
            MSATX_loop fuel' mem sec_size mem_data_secs nent sid MSAT seen
              actual_MSATX_sectors
    end
  else Return (MSAT, seen, actual_MSATX_sectors).

(** [=== build the MSAT ===] *)
Definition build_MSAT (fuel : nat) (mem : bytes)
    (sec_size mem_data_secs MSATX_first_sec_sid MSATX_tot_secs : Z)
    (seen : list Z) : result (list Z * list Z * Z) :=
  let* nent := floordiv sec_size 4 in
  let* MSAT := unpack_ni 109 (slice mem 76 512) in
  let* SAT_sectors_reqd := floordiv (mem_data_secs + nent - 1) nent in
  let* q := floordiv (SAT_sectors_reqd - 109 + nent - 2) (nent - 1) in
  let expected_MSATX_sectors := Z.max 0 q in
  if (MSATX_tot_secs =? 0)
     && ((MSATX_first_sec_sid =? EOCSID) || (MSATX_first_sec_sid =? FREESID)
         || (MSATX_first_sec_sid =? 0))
  then Return (MSAT, seen, 0)
  else MSATX_loop fuel mem sec_size mem_data_secs nent MSATX_first_sec_sid
         MSAT seen 0.

Definition msat_invalid_msg (msid : Z) : str :=
  u "MSAT: invalid sector id: " ++ str_of_int msid.

(** The [for msidx, msid in enumerate(MSAT)] loop: [todo] holds the entries
    still to come, [done] the entries passed, as the loop has rewritten
    them; the result is [MSAT], [self.SAT], [seen] and [dump_again]. *)
Fixpoint SAT_loop (mem : bytes) (sec_size mem_data_secs nent : Z)
    (todo done SAT seen : list Z) (dump_again : bool)
  : result (list Z * list Z * list Z * bool) :=
  match todo with
  | [] => Return (done, SAT, seen, dump_again)
  | msid :: todo' =>
      if (msid =? FREESID) || (msid =? EOCSID) then
        SAT_loop mem sec_size mem_data_secs nent todo' (done ++ [msid]) SAT
          seen dump_again
      else if msid >=? mem_data_secs then
        SAT_loop mem sec_size mem_data_secs nent todo' (done ++ [EVILSID]) SAT
          seen true
      else if msid <? -2 then Raise (CompDocError (msat_invalid_msg msid))
      else
        let* v := getitem seen msid in
        if negb (v =? 0) then
          Raise (CompDocError (corruption_msg (u "MSAT extension") msid v))
        else
          let* seen := array_B_setitem seen msid 2 in
          let offset := 512 + sec_size * msid in
          let* ents := unpack_ni nent (slice mem offset (offset + sec_size)) in
          SAT_loop mem sec_size mem_data_secs nent todo' (done ++ [msid])
            (SAT ++ ents) seen dump_again
  end.

(** [for satx in xrange(mem_data_secs, len(self.SAT)): self.SAT[satx] = EVILSID] *)
Definition mark_evil_tail (mem_data_secs : Z) (SAT : list Z) : list Z :=
  let n := Z.to_nat (Z.max 0 mem_data_secs) in
  take n SAT ++ replicate (length SAT - n) EVILSID.

(** [=== build the SAT ===]; the result is [MSAT], [self.SAT] and [seen]. *)
Definition build_SAT (mem : bytes) (sec_size mem_data_secs : Z)
    (MSAT seen : list Z) : result (list Z * list Z * list Z) :=
  let* nent := floordiv sec_size 4 in
  let* (MSAT, SAT, seen, dump_again) :=
    SAT_loop mem sec_size mem_data_secs nent MSAT [] [] seen false in
  if dump_again then Return (MSAT, mark_evil_tail mem_data_secs SAT, seen)
  else Return (MSAT, SAT, seen).

(** *** [CompDoc._dir_search] *)

Section DirSearch.

(** [str.lower] *)
Variable lower : str -> str.

Fixpoint _dir_search (self : CompDoc) (path : list str) (storage_DID : Z)
  : result (option DirNode) :=
  match path with
  | [] => Raise IndexError
  | head :: tail =>
      let dl := dirlist self in
      let* storage := getitem dl storage_DID in
      (fix scan (kids : list Z) : result (option DirNode) :=
         match kids with
         | [] => Return None
         | child :: rest =>
             let* c := getitem dl child in
             if decide (lower (name c) = lower head) then
               let et := etype c in
               if et =? 2 then Return (Some c)
               else if et =? 1 then
                 match tail with
                 | [] => Raise (CompDocError (u "Requested component is a 'storage'"))
                 | _ => _dir_search self tail child
                 end
               else Raise (CompDocError (u "Requested stream is not a 'user stream'"))
             else scan rest
         end) (children storage)
  end.

(** [CompDoc.get_named_stream]; [None] when the name is not found. *)
Definition get_named_stream (fuel : nat) (self : CompDoc) (qname : str)
  : result (option bytes * list Z) :=
  let* d := _dir_search self (split 47%N qname) 0 in
  match d with
  | None => Return (None, seen self)
  | Some d =>
      if tot_size d >=? min_size_std_stream self then
        let* (b, seen) :=
          _get_stream fuel self (PyBytes (mem self)) 512 (SAT self)
            (sec_size self) (first_SID d) (Some (tot_size d)) qname
            (Some (DID d + 6)) in
        Return (Some b, seen)
      else
        let* (b, seen) :=
          _get_stream fuel self (SSCS self) 0 (SSAT self)
            (short_sec_size self) (first_SID d) (Some (tot_size d))
            (qname ++ u " (from SSCS)") None in
        Return (Some b, seen)
  end.

(** *** [CompDoc._locate_stream] *)

Definition size_exceeds_msg (qname : str) (found_limit sec_size : Z) : str :=
  qname ++ u ": size exceeds expected " ++ str_of_int (found_limit * sec_size)
    ++ u " bytes; corrupt?".

(** The [while s >= 0] loop; the result is [s], [start_pos], [end_pos],
    [slices], [tot_found] and the [seen] array at loop exit. *)
Fixpoint _locate_stream_loop (fuel : nat) (ignore : bool) (base : Z)
    (sat : list Z) (sec_size : Z) (qname : str) (seen_id found_limit : Z)
    (s p start_pos end_pos : Z) (slices : list (Z * Z)) (tot_found : Z)
    (seen : list Z)
  : result (Z * Z * Z * list (Z * Z) * Z * list Z) :=
  if s >=? 0 then
    match fuel with
    | O => OutOfFuel
    | S fuel' =>
        let* v := getitem seen s in
        if negb (v =? 0) && negb ignore then
          Raise (CompDocError (corruption_msg qname s v))
        else
          let* seen := array_B_setitem seen s seen_id in
          let tot_found := tot_found + 1 in
          if tot_found >? found_limit then
            Raise (CompDocError (size_exceeds_msg qname found_limit sec_size))
          else
            let slices' :=
              if s =? p + 1 then slices
              else if p >=? 0 then slices ++ [(start_pos, end_pos)]
                   else slices in
            let start_pos' :=
              if s =? p + 1 then start_pos else base + s * sec_size in
            let end_pos' :=
              if s =? p + 1 then end_pos + sec_size
              else base + s * sec_size + sec_size in
            let* s' := getitem sat s in
            _locate_stream_loop fuel' ignore base sat sec_size qname seen_id
              found_limit s' s start_pos' end_pos' slices' tot_found seen
    end
  else Return (s, start_pos, end_pos, slices, tot_found, seen).

Definition _locate_stream (fuel : nat) (self : CompDoc) (mem : bytes)
    (base : Z) (sat : list Z) (sec_size : Z) (start_sid : Z)
    (expected_stream_size : Z) (qname : str) (seen_id : Z)
  : result (located * Z * Z * list Z) :=
  if start_sid <? 0 then
    Raise (CompDocError (u "_locate_stream: start_sid (" ++ str_of_int start_sid
                           ++ u ") is -ve"))
  else if decide (sec_size = 0) then Raise ZeroDivisionError
  else
    let found_limit := (expected_stream_size + sec_size - 1) / sec_size in
    let* (s, start_pos, end_pos, slices, tot_found, seen) :=
      _locate_stream_loop fuel (ignore_workbook_corruption self) base sat
        sec_size qname seen_id found_limit start_sid (-99) (-9999) (-8888)
        [] 0 (seen self) in
    if negb (s =? EOCSID) then Raise AssertionError
    else if negb (tot_found =? found_limit) then Raise AssertionError
    else
      match slices with
      | [] => Return (Backing mem, start_pos, expected_stream_size, seen)
      | _ =>
          let slices := slices ++ [(start_pos, end_pos)] in
          if expected_stream_size <? 1024 * 1024 * 90 then
            Return (Owned (join_slices mem slices), 0, expected_stream_size, seen)
          else
            Return (Scattered (ScatteredMemory_init (xls_path self) slices),
                    0, expected_stream_size, seen)
      end.

Definition too_long_msg (qname : str) (size len : Z) : str :=
  qname ++ u " stream length (" ++ str_of_int size
    ++ u "bytes) > file data size (" ++ str_of_int len ++ u "bytes)".

(** [CompDoc.locate_named_stream]: the triple, and the [seen] array as
    the call leaves it. *)
Definition locate_named_stream (fuel : nat) (self : CompDoc) (qname : str)
  : result (located * Z * Z * list Z) :=
  let* d := _dir_search self (split 47%N qname) 0 in
  match d with
  | None => Return (NoStream, 0, 0, seen self)
  | Some d =>
      if tot_size d >? mem_data_len self then
        Raise (CompDocError (too_long_msg qname (tot_size d) (mem_data_len self)))
      else if tot_size d >=? min_size_std_stream self then
        _locate_stream fuel self (mem self) 512 (SAT self) (sec_size self)
          (first_SID d) (tot_size d) qname (DID d + 6)
      else
        let* (stream, seen) :=
          _get_stream fuel self (SSCS self) 0 (SSAT self)
            (short_sec_size self) (first_SID d) (Some (tot_size d))
            (qname ++ u " (from SSCS)") None in
        Return (Owned stream, 0, tot_size d, seen)
  end.

End DirSearch.

(** An outcome without the [seen] array it carries. *)
Definition forget_seen {A B} (r : result (A * B)) : result A :=
  match r with
  | Return (a, _) => Return a
  | Raise e => Raise e
  | OutOfFuel => OutOfFuel
  end.


End compdoc.

(** ** [xlrd/book.py] *)

Module book.

Definition MY_EOF : Z := 0xF00BAAA.

Definition SUPPORTED_VERSIONS : list Z := [80; 70; 50; 45; 40; 30; 21; 20].

(** The constants, tables and helpers of [xlrd/biffh.py] that the methods
    below use; that module is not among the sources, so they are taken as
    given. *)
Class Biffh : Type := {
  XL_WORKBOOK_GLOBALS : Z;
  XL_WORKBOOK_GLOBALS_4W : Z;
  XL_WORKSHEET : Z;
  bofcodes : list Z;
  boflen : Z -> option Z;
  biff_text_from_num : Z -> option str;
  encoding_from_codepage : Z -> option str;
  (** [unpack_string(data, pos, encoding, lenlen)] *)
  unpack_string : pybuf -> Z -> option str -> Z -> result str;
  (** the record codes that [parse_globals] tells apart *)
  XL_SST : Z; XL_FONT : Z; XL_FONT_B3B4 : Z; XL_FORMAT : Z; XL_XF : Z;
  XL_BOUNDSHEET : Z; XL_DATEMODE : Z; XL_CODEPAGE : Z; XL_COUNTRY : Z;
  XL_EXTERNNAME : Z; XL_EXTERNSHEET : Z; XL_FILEPASS : Z;
  XL_WRITEACCESS : Z; XL_SHEETSOFFSET : Z; XL_SHEETHDR : Z; XL_SUPBOOK : Z;
  XL_NAME : Z; XL_PALETTE : Z; XL_STYLE : Z; XL_EOF : Z; XL_CONTINUE : Z
}.

(** What the interpreter provides: [repr] of a [bytes] object and of a
    [str], [str.rstrip], and [unicode(b, encoding)] of [timemachine], that
    is [b.decode(encoding)] with the codecs that are installed. *)
Class Interpreter : Type := {
  repr_bytes : bytes -> str;
  repr_str : str -> str;
  rstrip : str -> str;
  unicode : bytes -> option str -> result str
}.

Section Workbook.

(** A decoded worksheet ([sheet.Sheet], of the sheet module) and the
    attributes of a [Book] that only the formatting, formula and sheet
    modules read and write. *)
Context {Sheet Ext : Type}.
Context `{Biffh} `{Interpreter}.

(** *** [class Book]: the attributes that the methods below use.
    [mem] and [filestr] are [None] once the resources are released; a
    buffer is read through slices only, so that a lazy view stands for the
    bytes its slices give. *)
Record Book : Type := {
  mem : option bytes;
  filestr : option bytes;
  base : Z;
  stream_len : Z;
  _position : Z;
  biff_version : Z;
  verbosity : Z;
  encoding_override : option str;
  codepage : option Z;
  encoding : option str;
  raw_user_name : bool;
  user_name : pybuf;
  formatting_info : bool;
  _resources_released : Z;
  _sheet_list : list (option Sheet);
  _sheet_names : list str;
  _sh_abs_posn : list Z;
  nsheets : Z;
  _sharedstrings : option (list str);
  _rich_text_runlist_map : option (gmap Z (list (Z * Z)));
  ext : Ext
}.

Definition set_position (self : Book) (p : Z) : Book :=
  {| mem := mem self; filestr := filestr self; base := base self;
     stream_len := stream_len self; _position := p;
     biff_version := biff_version self; verbosity := verbosity self;
     encoding_override := encoding_override self; codepage := codepage self;
     encoding := encoding self; raw_user_name := raw_user_name self;
     user_name := user_name self; formatting_info := formatting_info self;
     _resources_released := _resources_released self;
     _sheet_list := _sheet_list self; _sheet_names := _sheet_names self;
     _sh_abs_posn := _sh_abs_posn self; nsheets := nsheets self;
     _sharedstrings := _sharedstrings self;
     _rich_text_runlist_map := _rich_text_runlist_map self; ext := ext self |}.

Definition set_codepage (self : Book) (c : option Z) : Book :=
  {| mem := mem self; filestr := filestr self; base := base self;
     stream_len := stream_len self; _position := _position self;
     biff_version := biff_version self; verbosity := verbosity self;
     encoding_override := encoding_override self; codepage := c;
     encoding := encoding self; raw_user_name := raw_user_name self;
     user_name := user_name self; formatting_info := formatting_info self;
     _resources_released := _resources_released self;
     _sheet_list := _sheet_list self; _sheet_names := _sheet_names self;
     _sh_abs_posn := _sh_abs_posn self; nsheets := nsheets self;
     _sharedstrings := _sharedstrings self;
     _rich_text_runlist_map := _rich_text_runlist_map self; ext := ext self |}.

Definition set_encoding (self : Book) (e : option str) : Book :=
  {| mem := mem self; filestr := filestr self; base := base self;
     stream_len := stream_len self; _position := _position self;
     biff_version := biff_version self; verbosity := verbosity self;
     encoding_override := encoding_override self; codepage := codepage self;
     encoding := e; raw_user_name := raw_user_name self;
     user_name := user_name self; formatting_info := formatting_info self;
     _resources_released := _resources_released self;
     _sheet_list := _sheet_list self; _sheet_names := _sheet_names self;
     _sh_abs_posn := _sh_abs_posn self; nsheets := nsheets self;
     _sharedstrings := _sharedstrings self;
     _rich_text_runlist_map := _rich_text_runlist_map self; ext := ext self |}.

Definition set_user_name (self : Book) (raw : bool) (n : pybuf) : Book :=
  {| mem := mem self; filestr := filestr self; base := base self;
     stream_len := stream_len self; _position := _position self;
     biff_version := biff_version self; verbosity := verbosity self;
     encoding_override := encoding_override self; codepage := codepage self;
     encoding := encoding self; raw_user_name := raw;
     user_name := n; formatting_info := formatting_info self;
     _resources_released := _resources_released self;
     _sheet_list := _sheet_list self; _sheet_names := _sheet_names self;
     _sh_abs_posn := _sh_abs_posn self; nsheets := nsheets self;
     _sharedstrings := _sharedstrings self;
     _rich_text_runlist_map := _rich_text_runlist_map self; ext := ext self |}.

Definition set_sheet_list (self : Book) (l : list (option Sheet)) : Book :=
  {| mem := mem self; filestr := filestr self; base := base self;
     stream_len := stream_len self; _position := _position self;
     biff_version := biff_version self; verbosity := verbosity self;
     encoding_override := encoding_override self; codepage := codepage self;
     encoding := encoding self; raw_user_name := raw_user_name self;
     user_name := user_name self; formatting_info := formatting_info self;
     _resources_released := _resources_released self;
     _sheet_list := l; _sheet_names := _sheet_names self;
     _sh_abs_posn := _sh_abs_posn self; nsheets := nsheets self;
     _sharedstrings := _sharedstrings self;
     _rich_text_runlist_map := _rich_text_runlist_map self; ext := ext self |}.

Definition set_biff_version (self : Book) (v : Z) : Book :=
  {| mem := mem self; filestr := filestr self; base := base self;
     stream_len := stream_len self; _position := _position self;
     biff_version := v; verbosity := verbosity self;
     encoding_override := encoding_override self; codepage := codepage self;
     encoding := encoding self; raw_user_name := raw_user_name self;
     user_name := user_name self; formatting_info := formatting_info self;
     _resources_released := _resources_released self;
     _sheet_list := _sheet_list self; _sheet_names := _sheet_names self;
     _sh_abs_posn := _sh_abs_posn self; nsheets := nsheets self;
     _sharedstrings := _sharedstrings self;
     _rich_text_runlist_map := _rich_text_runlist_map self; ext := ext self |}.

Definition set_sst (self : Book) (strings : option (list str))
    (runs : option (gmap Z (list (Z * Z)))) : Book :=
  {| mem := mem self; filestr := filestr self; base := base self;
     stream_len := stream_len self; _position := _position self;
     biff_version := biff_version self; verbosity := verbosity self;
     encoding_override := encoding_override self; codepage := codepage self;
     encoding := encoding self; raw_user_name := raw_user_name self;
     user_name := user_name self; formatting_info := formatting_info self;
     _resources_released := _resources_released self;
     _sheet_list := _sheet_list self; _sheet_names := _sheet_names self;
     _sh_abs_posn := _sh_abs_posn self; nsheets := nsheets self;
     _sharedstrings := strings;
     _rich_text_runlist_map := runs; ext := ext self |}.

(** The other modules and the handlers that are taken as given:
    [sheet.Sheet(book, position, name, number)] and [Sheet.read(book)] of the
    sheet module (a [Sheet] object counts as true); the handlers that the
    formatting module installs; and the remaining handlers of this class,
    several of which rest on the string helpers of [biffh] and on the
    formula module.  A handler takes the payload and the workbook, and may
    read further records. *)
Class Collaborators : Type := {
  Sheet_init : Book -> Z -> str -> Z -> Sheet;
  Sheet_read : Sheet -> Book -> result (Sheet * Book);
  initialise_book : Book -> result Book;
  xf_epilogue : Book -> result Book;
  names_epilogue : Book -> result Book;
  palette_epilogue : Book -> result Book;
  handle_font : bytes -> Book -> result Book;
  handle_format : bytes -> Book -> result Book;
  handle_xf : bytes -> Book -> result Book;
  handle_boundsheet : bytes -> Book -> result Book;
  handle_datemode : bytes -> Book -> result Book;
  handle_country : bytes -> Book -> result Book;
  handle_externname : bytes -> Book -> result Book;
  handle_externsheet : bytes -> Book -> result Book;
  handle_writeaccess : bytes -> Book -> result Book;
  handle_sheetsoffset : bytes -> Book -> result Book;
  handle_sheethdr : bytes -> Book -> result Book;
  handle_supbook : bytes -> Book -> result Book;
  handle_name : bytes -> Book -> result Book;
  handle_palette : bytes -> Book -> result Book;
  handle_style : bytes -> Book -> result Book
}.

Context `{Collaborators}.

(** [self.mem[lo:hi]] *)
Definition mem_slice (self : Book) (lo hi : Z) : result bytes :=
  match mem self with
  | Some m => Return (slice m lo hi)
  | None => Raise TypeError
  end.

(** *** The record cursor *)

Definition get2bytes (self : Book) : result (Z * Book) :=
  let pos := _position self in
  let* buff_two := mem_slice self pos (pos + 2) in
  let len_buff := Z.of_nat (length buff_two) in
  let self := set_position self (_position self + len_buff) in
  if len_buff <? 2 then Return (MY_EOF, self)
  else
    match buff_two with
    | [lo; hi] => Return (Z.lor (Z.shiftl (ord hi) 8) (ord lo), self)
    | _ => Raise ValueError
    end.

Definition get_record_parts (self : Book) : result (Z * Z * bytes * Book) :=
  let pos := _position self in
  let* header := mem_slice self pos (pos + 4) in
  let* (code, length) := unpack_HH header in
  let pos := pos + 4 in
  let* data := mem_slice self pos (pos + length) in
  Return (code, length, data, set_position self (pos + length)).

(** The code is [None] when the next record is not the required one. *)
Definition get_record_parts_conditional (self : Book) (reqd_record : Z)
  : result (option Z * Z * bytes * Book) :=
  let pos := _position self in
  let* header := mem_slice self pos (pos + 4) in
  let* (code, length) := unpack_HH header in
  if negb (code =? reqd_record) then Return (None, 0, [], self)
  else
    let pos := pos + 4 in
    let* data := mem_slice self pos (pos + length) in
    Return (Some code, length, data, set_position self (pos + length)).

Definition read (self : Book) (pos length : Z) : result (bytes * Book) :=
  let* data := mem_slice self pos (pos + length) in
  Return (data, set_position self (pos + Z.of_nat (List.length data))).

(** *** [Book.getbof] *)

(** [bof_error(msg)] *)
Definition bof_error {A} (msg : str) : result A :=
  Raise (XLRDError (u "Unsupported format, or corrupt file: " ++ msg)).

Definition invalid_length_msg (length opcode : Z) : str :=
  u "Invalid length (" ++ str_of_int length ++ u ") for BOF record type 0x"
    ++ format_04x opcode.

Definition not_workbook_msg (opcode version2 streamtype build year version : Z)
  : str :=
  u "BOF not workbook/worksheet: op=0x" ++ format_04x opcode
    ++ u " vers=0x" ++ format_04x version2
    ++ u " strm=0x" ++ format_04x streamtype
    ++ u " build=" ++ str_of_int build ++ u " year=" ++ str_of_int year
    ++ u " -> BIFF" ++ str_of_int version.

(** The version that [getbof] works out from the high byte of the record
    code, the version word, the build and year fields and the stream type
    (the statements from [version = build = year = 0] to
    [version = 45  # i.e. 4W]). *)
Definition bof_version (version1 version2 build year streamtype : Z) : Z :=
  let version :=
    if version1 =? 0x08 then
      if version2 =? 0x0600 then 80
      else if version2 =? 0x0500 then
        if (year <? 1994) || (build =? 2412) || (build =? 3218)
           || (build =? 3321)
        then 50 else 70
      else if version2 =? 0x0000 then 21
      else if version2 =? 0x0007 then 21
      else if version2 =? 0x0200 then 21
      else if version2 =? 0x0300 then 30
      else if version2 =? 0x0400 then 40
      else 0
    else if version1 =? 0x04 then 40
    else if version1 =? 0x02 then 30
    else if version1 =? 0x00 then 21
    else 0 in
  if (version =? 40) && (streamtype =? XL_WORKBOOK_GLOBALS_4W) then 45
  else version.

Definition getbof (self : Book) (rqd_stream : Z) : result (Z * Book) :=
  let savpos := _position self in
  let* (opcode, self) := get2bytes self in
  if opcode =? MY_EOF then
    bof_error (u "Expected BOF record; met end of file")
  else if negb (bool_decide (opcode ∈ bofcodes)) then
    let* found := mem_slice self savpos (savpos + 8) in
    bof_error (u "Expected BOF record; found " ++ repr_bytes found)
  else
    let* (length, self) := get2bytes self in
    if length =? MY_EOF then
      bof_error (u "Incomplete BOF record[1]; met end of file")
    else if negb ((4 <=? length) && (length <=? 20)) then
      bof_error (invalid_length_msg length opcode)
    else
      let* bl := match boflen opcode with
                 | Some n => Return n
                 | None => Raise KeyError
                 end in
      let padding := replicate (Z.to_nat (Z.max 0 (bl - length))) Byte.x00 in
      let* (data, self) := read self (_position self) length in
      if Z.of_nat (List.length data) <? length then
        bof_error (u "Incomplete BOF record[2]; met end of file")
      else
        let data := data ++ padding in
        let version1 := Z.shiftr opcode 8 in
        let* (version2, streamtype) := unpack_HH (slice data 0 4) in
        let* (build, year) :=
          (if version1 =? 0x08 then unpack_HH (slice data 4 8)
           else Return (0, 0)) in
        let version := bof_version version1 version2 build year streamtype in
        let got_globals :=
          (streamtype =? XL_WORKBOOK_GLOBALS)
          || ((version =? 45) && (streamtype =? XL_WORKBOOK_GLOBALS_4W)) in
        if ((rqd_stream =? XL_WORKBOOK_GLOBALS) && got_globals)
           || (streamtype =? rqd_stream)
        then Return (version, self)
        else if (version <? 50) && (streamtype =? XL_WORKSHEET) then
          Return (version, self)
        else if (version >=? 50) && (streamtype =? 0x0100) then
          bof_error (u "Workspace file -- no spreadsheet data")
        else
          bof_error (not_workbook_msg opcode version2 streamtype build year
                       version).

(** The version check of [open_workbook_xls], from the call of [getbof]
    to [bk.biff_version = biff_version]. *)
Definition open_workbook_xls_version (bk : Book) : result Book :=
  let* (biff_version, bk) := getbof bk XL_WORKBOOK_GLOBALS in
  if biff_version =? 0 then
    Raise (XLRDError (u "Can't determine file's BIFF version"))
  else if negb (bool_decide (biff_version ∈ SUPPORTED_VERSIONS)) then
    match biff_text_from_num biff_version with
    | Some t => Raise (XLRDError (u "BIFF version " ++ t ++ u " is not supported"))
    | None => Raise KeyError
    end
  else Return (set_biff_version bk biff_version).

(** *** Sheets and the release of resources *)

Definition release_resources (self : Book) : Book :=
  {| mem := None; filestr := None; base := base self;
     stream_len := stream_len self; _position := _position self;
     biff_version := biff_version self; verbosity := verbosity self;
     encoding_override := encoding_override self; codepage := codepage self;
     encoding := encoding self; raw_user_name := raw_user_name self;
     user_name := user_name self; formatting_info := formatting_info self;
     _resources_released := 1;
     _sheet_list := _sheet_list self; _sheet_names := _sheet_names self;
     _sh_abs_posn := _sh_abs_posn self; nsheets := nsheets self;
     _sharedstrings := None;
     _rich_text_runlist_map := None; ext := ext self |}.

Definition get_sheet (self : Book) (sh_number : Z) (update_pos : bool)
  : result (Sheet * Book) :=
  if negb (_resources_released self =? 0) then
    Raise (XLRDError (u "Can't load sheets after releasing resources."))
  else
    let* self :=
      (if update_pos then
         let* p := getitem (_sh_abs_posn self) sh_number in
         Return (set_position self p)
       else Return self) in
    let* (_, self) := getbof self XL_WORKSHEET in
    let* nm := getitem (_sheet_names self) sh_number in
    let sh := Sheet_init self (_position self) nm sh_number in
    let* (sh, self) := Sheet_read sh self in
    let* l := list_setitem (_sheet_list self) sh_number (Some sh) in
    Return (sh, set_sheet_list self l).

(** [self._sheet_list[sheetx] or self.get_sheet(sheetx)] *)
Definition sheet_by_index (self : Book) (sheetx : Z) : result (Sheet * Book) :=
  let* cached := getitem (_sheet_list self) sheetx in
  match cached with
  | Some sh => Return (sh, self)
  | None => get_sheet self sheetx true
  end.

(** [self._sheet_names.index(sheet_name)] *)
Fixpoint index_of (names : list str) (nm : str) (i : Z) : option Z :=
  match names with
  | [] => None
  | n :: rest => if decide (n = nm) then Some i else index_of rest nm (i + 1)
  end.

Definition sheet_by_name (self : Book) (sheet_name : str)
  : result (Sheet * Book) :=
  match index_of (_sheet_names self) sheet_name 0 with
  | None =>
      Raise (XLRDError (u "No sheet named <" ++ repr_str sheet_name ++ u ">"))
  | Some sheetx => sheet_by_index self sheetx
  end.

(** The [for sheetx in xrange(self.nsheets)] loop of [sheets]. *)
Fixpoint sheets_loop (self : Book) (todo : list Z) : result Book :=
  match todo with
  | [] => Return self
  | sheetx :: rest =>
      let* cached := getitem (_sheet_list self) sheetx in
      match cached with
      | Some _ => sheets_loop self rest
      | None =>
          let* (_, self) := get_sheet self sheetx true in
          sheets_loop self rest
      end
  end.

Definition sheets (self : Book) : result (list (option Sheet) * Book) :=
  let* self :=
    sheets_loop self (Z.of_nat <$> seq 0 (Z.to_nat (nsheets self))) in
  Return (_sheet_list self, self).

(** *** [Book.derive_encoding] *)

(** [if s:] for a value that is a [str] or [None]. *)
Definition truthy (s : option str) : bool :=
  match s with
  | Some (_ :: _) => true
  | _ => false
  end.

Definition trial : bytes := B [116; 114; 105; 97; 108].

Definition derive_encoding (self : Book) : result (option str * Book) :=
  let self :=
    if truthy (encoding_override self) then
      set_encoding self (encoding_override self)
    else
      match codepage self with
      | None =>
          if biff_version self <? 80 then
            set_encoding self (Some (u "iso-8859-1"))
          else set_codepage self (Some 1200)
      | Some codepage =>
          match encoding_from_codepage codepage with
          | Some encoding => set_encoding self (Some encoding)
          | None =>
              if (300 <=? codepage) && (codepage <=? 1999) then
                set_encoding self (Some (u "cp" ++ str_of_int codepage))
              else if biff_version self >=? 80 then
                set_encoding (set_codepage self (Some 1200))
                  (Some (u "utf_16_le"))
              else
                set_encoding self
                  (Some (u "unknown_codepage_" ++ str_of_int codepage))
          end
      end in
  let* _ :=
    (if bool_decide (codepage self = Some 1200) then Return []
     else unicode trial (encoding self)) in
  let* self :=
    (if raw_user_name self then
       let* strg := unpack_string (user_name self) 0 (encoding self) 1 in
       Return (set_user_name self false (PyStr (rstrip strg)))
     else Return self) in
  Return (encoding self, self).

Definition handle_codepage (data : bytes) (self : Book) : result Book :=
  let* codepage := unpack_H (slice data 0 2) in
  let self := set_codepage self (Some codepage) in
  let* (_, self) := derive_encoding self in
  Return self.

(** *** [Book.handle_filepass]; the dump of the payload is logging. *)

Definition handle_filepass (data : bytes) (self : Book) : result Book :=
  let* _ :=
    (if (verbosity self >=? 2) && (biff_version self >=? 80) then
       let* kind1 := unpack_H (slice data 0 2) in
       if kind1 =? 0 then
         let* _ := unpack_HH (slice_from data 2) in Return 0
       else if kind1 =? 1 then unpack_H (slice data 4 6)
       else Return 0
     else Return 0) in
  Raise (XLRDError (u "Workbook is encrypted")).

(** *** [unpack_SST_table] *)

(** The [while True] loop that gathers the characters of one string; the
    result is [accstrg], [datainx], [data] and [pos]. *)
Fixpoint SST_chars (fuel : nat) (data_tab : list bytes) (nchars : Z)
    (datainx : Z) (data : bytes) (pos options : Z) (accstrg : str)
    (chars_got : Z) : result (str * Z * bytes * Z) :=
  match fuel with
  | O => OutOfFuel
  | S fuel' =>
      let datalen := Z.of_nat (length data) in
      let chars_need := nchars - chars_got in
      let* (accstrg, pos, chars_avail) :=
        (if negb (Z.land options 0x01 =? 0) then
           let chars_avail := Z.min (Z.shiftr (datalen - pos) 1) chars_need in
           let raw_str := slice data pos (pos + 2 * chars_avail) in
           let* decoded := decode_utf_16_le raw_str in
           Return (accstrg ++ decoded, pos + 2 * chars_avail, chars_avail)
         else
           let chars_avail := Z.min (datalen - pos) chars_need in
           let raw_str := slice data pos (pos + chars_avail) in
           Return (accstrg ++ decode_latin_1 raw_str, pos + chars_avail,
                   chars_avail)) in
      let chars_got := chars_got + chars_avail in
      if chars_got =? nchars then Return (accstrg, datainx, data, pos)
      else
        let datainx := datainx + 1 in
        let* data := getitem data_tab datainx in
        let* opt := getitem data 0 in
        SST_chars fuel' data_tab nchars datainx data 1 (ord opt) accstrg
          chars_got
  end.

(** The [for runindex in xrange(rtcount)] loop; the result is [runs],
    [datainx], [data] and [pos]. *)
Fixpoint SST_runs (count : nat) (data_tab : list bytes) (datainx : Z)
    (data : bytes) (pos : Z) (runs : list (Z * Z))
  : result (list (Z * Z) * Z * bytes * Z) :=
  match count with
  | O => Return (runs, datainx, data, pos)
  | S count' =>
      let* (datainx, data, pos) :=
        (if pos =? Z.of_nat (length data) then
           let* data := getitem data_tab (datainx + 1) in
           Return (datainx + 1, data, 0)
         else Return (datainx, data, pos)) in
      let* run := unpack_HH (slice data pos (pos + 4)) in
      SST_runs count' data_tab datainx data (pos + 4) (runs ++ [run])
  end.

(** The body of [for _unused_i in xrange(n_strings)], [todo] turns being
    left, the current one included. *)
Fixpoint SST_strings (todo : nat) (data_tab : list bytes) (n_strings : Z)
    (_unused_i : Z) (datainx : Z) (data : bytes) (pos : Z)
    (strings : list str) (richtext_runs : gmap Z (list (Z * Z)))
  : result (list str * gmap Z (list (Z * Z))) :=
  match todo with
  | O => Return (strings, richtext_runs)
  | S todo' =>
      let* nchars := unpack_H (slice data pos (pos + 2)) in
      let pos := pos + 2 in
      let* opt := getitem data pos in
      let options := ord opt in
      let pos := pos + 1 in
      let* (rtcount, pos) :=
        (if negb (Z.land options 0x08 =? 0) then
           let* rtcount := unpack_H (slice data pos (pos + 2)) in
           Return (rtcount, pos + 2)
         else Return (0, pos)) in
      let* (phosz, pos) :=
        (if negb (Z.land options 0x04 =? 0) then
           let* phosz := unpack_i (slice data pos (pos + 4)) in
           Return (phosz, pos + 4)
         else Return (0, pos)) in
      let* (accstrg, datainx, data, pos) :=
        SST_chars (S (length data_tab)) data_tab nchars datainx data pos
          options [] 0 in
      let* (richtext_runs, datainx, data, pos) :=
        (if negb (rtcount =? 0) then
           let* (runs, datainx, data, pos) :=
             SST_runs (Z.to_nat rtcount) data_tab datainx data pos [] in
           Return (<[Z.of_nat (length strings) := runs]> richtext_runs,
                   datainx, data, pos)
         else Return (richtext_runs, datainx, data, pos)) in
      let pos := pos + phosz in
      let* (datainx, data, pos) :=
        (if pos >=? Z.of_nat (length data) then
           let pos := pos - Z.of_nat (length data) in
           let datainx := datainx + 1 in
           if datainx <? Z.of_nat (length data_tab) then
             let* data := getitem data_tab datainx in
             Return (datainx, data, pos)
           else if _unused_i =? n_strings - 1 then Return (datainx, data, pos)
                else Raise AssertionError
         else Return (datainx, data, pos)) in
      SST_strings todo' data_tab n_strings (_unused_i + 1) datainx data pos
        (strings ++ [accstrg]) richtext_runs
  end.

Definition unpack_SST_table (data_tab : list bytes) (n_strings : Z)
  : result (list str * gmap Z (list (Z * Z))) :=
  let* data := getitem data_tab 0 in
  SST_strings (Z.to_nat n_strings) data_tab n_strings 0 0 data 8 [] ∅.

(** *** [Book.handle_sst] and [Book.parse_globals] *)

(** The [while True] loop of [handle_sst] over the CONTINUE records that
    follow. *)
Fixpoint SST_continues (fuel : nat) (self : Book) (strlist : list bytes)
  : result (list bytes * Book) :=
  match fuel with
  | O => OutOfFuel
  | S fuel' =>
      let* (code, nb, data, self) :=
        get_record_parts_conditional self XL_CONTINUE in
      match code with
      | None => Return (strlist, self)
      | Some _ => SST_continues fuel' self (strlist ++ [data])
      end
  end.

Definition handle_sst (fuel : nat) (data : bytes) (self : Book)
  : result Book :=
  let* uniquestrings := unpack_i (slice data 4 8) in
  let* (strlist, self) := SST_continues fuel self [data] in
  let* (strings, rt_runlist) := unpack_SST_table strlist uniquestrings in
  if formatting_info self then
    Return (set_sst self (Some strings) (Some rt_runlist))
  else Return (set_sst self (Some strings) (_rich_text_runlist_map self)).

(** The [while True] loop of [parse_globals]. *)
Fixpoint parse_globals_loop (fuel : nat) (self : Book) : result Book :=
  match fuel with
  | O => OutOfFuel
  | S fuel' =>
      let* (rc, length, data, self) := get_record_parts self in
      let next (r : result Book) : result Book :=
        let* self := r in parse_globals_loop fuel' self in
      if rc =? XL_SST then next (handle_sst fuel' data self)
      else if (rc =? XL_FONT) || (rc =? XL_FONT_B3B4) then
        next (handle_font data self)
      else if rc =? XL_FORMAT then next (handle_format data self)
      else if rc =? XL_XF then next (handle_xf data self)
      else if rc =? XL_BOUNDSHEET then next (handle_boundsheet data self)
      else if rc =? XL_DATEMODE then next (handle_datemode data self)
      else if rc =? XL_CODEPAGE then next (handle_codepage data self)
      else if rc =? XL_COUNTRY then next (handle_country data self)
      else if rc =? XL_EXTERNNAME then next (handle_externname data self)
      else if rc =? XL_EXTERNSHEET then next (handle_externsheet data self)
      else if rc =? XL_FILEPASS then next (handle_filepass data self)
      else if rc =? XL_WRITEACCESS then next (handle_writeaccess data self)
      else if rc =? XL_SHEETSOFFSET then next (handle_sheetsoffset data self)
      else if rc =? XL_SHEETHDR then next (handle_sheethdr data self)
      else if rc =? XL_SUPBOOK then next (handle_supbook data self)
      else if rc =? XL_NAME then next (handle_name data self)
      else if rc =? XL_PALETTE then next (handle_palette data self)
      else if rc =? XL_STYLE then next (handle_style data self)
      else if (Z.land rc 0xff =? 9) && negb (verbosity self =? 0) then
        parse_globals_loop fuel' self
      else if rc =? XL_EOF then
        let* self := xf_epilogue self in
        let* self := names_epilogue self in
        let* self := palette_epilogue self in
        if truthy (encoding self) then Return self
        else
          let* (_, self) := derive_encoding self in
          Return self
      else parse_globals_loop fuel' self
  end.

Definition parse_globals (fuel : nat) (self : Book) : result Book :=
  let* self := initialise_book self in
  parse_globals_loop fuel self.

End Workbook.

Arguments Book : clear implicits.
Arguments Collaborators : clear implicits.

End book.

(** ** [xlrd/book.py]: the helper functions for cell addresses *)

Module book_helpers.

(** [expand_cell_address(in_row, in_col)]: the result is [out_row],
    [out_col], [rel_row] and [rel_col]. *)
Definition expand_cell_address (in_row in_col : Z) : Z * Z * Z * Z :=
  let out_row := in_row in
  let '(out_row, rel_row) :=
    if negb (Z.land in_col 0x8000 =? 0) then
      ((if out_row >=? 32768 then out_row - 65536 else out_row), 1)
    else (out_row, 0) in
  let out_col := Z.land in_col 0xFF in
  let '(out_col, rel_col) :=
    if negb (Z.land in_col 0x4000 =? 0) then
      ((if out_col >=? 128 then out_col - 256 else out_col), 1)
    else (out_col, 0) in
  (out_row, out_col, rel_row, rel_col).

(** The default of [colname]'s second parameter. *)
Definition _A2Z : str := u "ABCDEFGHIJKLMNOPQRSTUVWXYZ".

(** The [while True] loop of [colname]. *)
Fixpoint colname_loop (fuel : nat) (colx : Z) (name : str) : result str :=
  match fuel with
  | O => OutOfFuel
  | S fuel' =>
      let quot := colx / 26 in
      let rem := colx mod 26 in
      let* letter := getitem _A2Z rem in
      let name := [letter] ++ name in
      if quot =? 0 then Return name
      else colname_loop fuel' (quot - 1) name
  end.

(** [colname(colx)], the second parameter left at its default. *)
Definition colname (fuel : nat) (colx : Z) : result str :=
  if negb (colx >=? 0) then Raise AssertionError
  else colname_loop fuel colx [].

(** ["(*%s%d)" % ("+-"[x < 0], abs(x))] *)
Definition relative_part (x : Z) : str :=
  u "(*" ++ (if x <? 0 then u "-" else u "+") ++ str_of_int (Z.abs x)
    ++ u ")".

(** [display_cell_address(rowx, colx, relrow, relcol)]; the two flags are
    integers, tested for being non-zero. *)
Definition display_cell_address (fuel : nat) (rowx colx relrow relcol : Z)
  : result str :=
  let row_part :=
    if negb (relrow =? 0) then relative_part rowx
    else u "$" ++ str_of_int (rowx + 1) in
  let* col_part :=
    (if negb (relcol =? 0) then Return (relative_part colx)
     else
       let* name := colname fuel colx in
       Return (u "$" ++ name)) in
  Return (col_part ++ row_part).

End book_helpers.


(** ** [xlrd/book.py]: the sheets by name or index *)

Module book_sheets.

Import book.

Section Sheets.

Context {Sheet Ext : Type} `{Biffh} `{Interpreter}
  `{!Collaborators Sheet Ext}.

(** The index that [sheet_loaded] and [unload_sheet] derive from their
    argument, which is an [int] or a name. *)
Definition sheet_index (self : Book Sheet Ext) (sheet_name_or_index : Z + str)
  : result Z :=
  match sheet_name_or_index with
  | inl sheetx => Return sheetx
  | inr sheet_name =>
      match index_of (_sheet_names self) sheet_name 0 with
      | Some sheetx => Return sheetx
      | None =>
          Raise (XLRDError (u "No sheet named <" ++ repr_str sheet_name
                              ++ u ">"))
      end
  end.

(** [Book.sheet_loaded] *)
Definition sheet_loaded (self : Book Sheet Ext) (sheet_name_or_index : Z + str)
  : result bool :=
  let* sheetx := sheet_index self sheet_name_or_index in
  let* sh := getitem (_sheet_list self) sheetx in
  Return (match sh with Some _ => true | None => false end).

(** [Book.unload_sheet] *)
Definition unload_sheet (self : Book Sheet Ext)
    (sheet_name_or_index : Z + str) : result (Book Sheet Ext) :=
  let* sheetx := sheet_index self sheet_name_or_index in
  let* l := list_setitem (_sheet_list self) sheetx None in
  Return (set_sheet_list self l).

(** [Book.__getitem__] *)
Definition Book_getitem (self : Book Sheet Ext) (item : Z + str)
  : result (Sheet * Book Sheet Ext) :=
  match item with
  | inl sheetx => sheet_by_index self sheetx
  | inr sheet_name => sheet_by_name self sheet_name
  end.

(** [Book.sheet_names] *)
Definition sheet_names (self : Book Sheet Ext) : list str :=
  _sheet_names self.

(** [Book.get_sheets] *)
Fixpoint get_sheets_loop (self : Book Sheet Ext) (todo : list Z)
  : result (Book Sheet Ext) :=
  match todo with
  | [] => Return self
  | sheetno :: rest =>
      let* (_, self) := get_sheet self sheetno true in
      get_sheets_loop self rest
  end.

Definition get_sheets (self : Book Sheet Ext) : result (Book Sheet Ext) :=
  get_sheets_loop self (Z.of_nat <$> seq 0 (length (_sheet_names self))).

(** [Book.__iter__]: the sheets that the generator yields when it is run
    to its end, as [list(book)] does. *)
Fixpoint iter_loop (self : Book Sheet Ext) (todo : list Z)
  : result (list Sheet * Book Sheet Ext) :=
  match todo with
  | [] => Return ([], self)
  | i :: rest =>
      let* (sh, self) := sheet_by_index self i in
      let* (shs, self) := iter_loop self rest in
      Return (sh :: shs, self)
  end.

Definition Book_iter (self : Book Sheet Ext)
  : result (list Sheet * Book Sheet Ext) :=
  iter_loop self (Z.of_nat <$> seq 0 (Z.to_nat (nsheets self))).

End Sheets.

End book_sheets.

(** ** [xlrd/compdoc.py]: the directory entries and [CompDoc.__init__] *)

Module compdoc_init.

Import compdoc.

(** Equality of bytes is decidable: [mem[0:8] != SIGNATURE] is a test. *)
#[global] Instance byte_eq_dec : EqDecision Byte.byte := Byte.byte_eq_dec.

(** Magic cookie that should appear in the first 8 bytes of the file. *)
Definition SIGNATURE : bytes :=
  B [0xD0; 0xCF; 0x11; 0xE0; 0xA1; 0xB1; 0x1A; 0xE1].

(** ['<HBBiii'] *)
Definition unpack_HBBiii (bs : bytes) : result (Z * Z * Z * Z * Z * Z) :=
  if decide (length bs = 16%nat) then
    Return (le_uint (take 2 bs),
            le_uint (take 1 (drop 2 bs)),
            le_uint (take 1 (drop 3 bs)),
            le_int32 (take 4 (drop 4 bs)),
            le_int32 (take 4 (drop 8 bs)),
            le_int32 (take 4 (drop 12 bs)))
  else Raise struct_error.

(** ['<IIII'], of which only the success is used. *)
Definition unpack_IIII (bs : bytes) : result unit :=
  if decide (length bs = 16%nat) then Return tt else Raise struct_error.

(** [DirNode.__init__(DID, dent)] *)
Definition DirNode_init (DID : Z) (dent : bytes) : result DirNode :=
  let* (cbufsize, etype, colour, left_DID, right_DID, root_DID) :=
    unpack_HBBiii (slice dent 64 80) in
  let* sizes := unpack_ni 2 (slice dent 116 124) in
  match sizes with
  | [first_SID; tot_size] =>
      let* name :=
        (if cbufsize =? 0 then Return []
         else decode_utf_16_le (slice dent 0 (cbufsize - 2))) in
      let* _ := unpack_IIII (slice dent 100 116) in
      Return {| DID := DID; name := name; etype := etype; colour := colour;
                left_DID := left_DID; right_DID := right_DID;
                root_DID := root_DID; first_SID := first_SID;
                tot_size := tot_size; children := []; parent := -1 |}
  | _ => Raise ValueError
  end.

(** [d.children.append(c)] and [d.parent = p] *)
Definition append_child (d : DirNode) (c : Z) : DirNode :=
  {| DID := DID d; name := name d; etype := etype d; colour := colour d;
     left_DID := left_DID d; right_DID := right_DID d;
     root_DID := root_DID d; first_SID := first_SID d;
     tot_size := tot_size d; children := children d ++ [c];
     parent := parent d |}.

Definition set_parent (d : DirNode) (p : Z) : DirNode :=
  {| DID := DID d; name := name d; etype := etype d; colour := colour d;
     left_DID := left_DID d; right_DID := right_DID d;
     root_DID := root_DID d; first_SID := first_SID d;
     tot_size := tot_size d; children := children d; parent := p |}.

(** [_build_family_tree(dirlist, parent_DID, child_DID)]: the list is
    passed on from one step to the next.  Every call takes one frame of
    the interpreter, also the call that returns at once; [frames] is the
    number of frames that the interpreter still allows at the call
    ([sys.getrecursionlimit()] less the depth of the callers), and a call
    beyond it raises [RecursionError]. *)
Fixpoint _build_family_tree (frames : nat) (dirlist : list DirNode)
    (parent_DID child_DID : Z) : result (list DirNode) :=
  match frames with
  | O => Raise RecursionError
  | S frames' =>
      if child_DID <? 0 then Return dirlist
      else
        let* child := getitem dirlist child_DID in
        let* dirlist :=
          _build_family_tree frames' dirlist parent_DID (left_DID child) in
        let* par := getitem dirlist parent_DID in
        let* dirlist :=
          list_setitem dirlist parent_DID (append_child par child_DID) in
        let* child := getitem dirlist child_DID in
        let* dirlist :=
          list_setitem dirlist child_DID (set_parent child parent_DID) in
        let* child := getitem dirlist child_DID in
        let* dirlist :=
          _build_family_tree frames' dirlist parent_DID (right_DID child) in
        let* child := getitem dirlist child_DID in
        if etype child =? 1 then
          _build_family_tree frames' dirlist child_DID (root_DID child)
        else Return dirlist
  end.

(** What the interpreter allows: the number of frames left for the calls
    that [CompDoc.__init__] makes. *)
Class Stack : Type := {
  frames_left : nat
}.

(** [xrange(0, stop, step)] for a positive step. *)
Definition xrange_step (stop step : Z) : list Z :=
  (fun k : nat => Z.of_nat k * step)
    <$> seq 0 (Z.to_nat ((stop + step - 1) / step)).

(** The [for pos in xrange(0, len(dbytes), 128)] loop. *)
Fixpoint dir_nodes (dbytes : bytes) (todo : list Z) (did : Z)
    (dirlist : list DirNode) : result (list DirNode) :=
  match todo with
  | [] => Return dirlist
  | pos :: rest =>
      let did := did + 1 in
      let* d := DirNode_init did (slice dbytes pos (pos + 128)) in
      dir_nodes dbytes rest did (dirlist ++ [d])
  end.

(** The [while sid >= 0 and nsecs > 0] loop that builds the short-sector
    table; the result is [sid], [nsecs], [self.SSAT] and [seen]. *)
Fixpoint SSAT_loop (fuel : nat) (mem : bytes) (sec_size nent : Z)
    (SAT : list Z) (sid nsecs : Z) (SSAT seen : list Z)
  : result (Z * Z * list Z * list Z) :=
  if (sid >=? 0) && (nsecs >? 0) then
    match fuel with
    | O => OutOfFuel
    | S fuel' =>
        let* v := getitem seen sid in
        if negb (v =? 0) then
          Raise (CompDocError (corruption_msg (u "SSAT") sid v))
        else
          let* seen := array_B_setitem seen sid 5 in
          let nsecs := nsecs - 1 in
          let start_pos := 512 + sid * sec_size in
          let* news :=
            unpack_ni nent (slice mem start_pos (start_pos + sec_size)) in
          let SSAT := SSAT ++ news in
          let* sid := getitem SAT sid in
          SSAT_loop fuel' mem sec_size nent SAT sid nsecs SSAT seen
    end
  else Return (sid, nsecs, SSAT, seen).

Section Init.

Context `{book.Interpreter} `{Stack}.

Definition marker_msg (found : bytes) : str :=
  u "Expected " ++ [34%N] ++ u "little-endian" ++ [34%N]
    ++ u " marker, found " ++ book.repr_bytes found.

(** The object under construction, when the tables are built: the
    attributes assigned so far, the directory, the short-stream container
    and the short-sector table being still to come. *)
Definition half_built (xls_path : option str) (ignore : bool) (mem : bytes)
    (sec_size short_sec_size dir_first_sec_sid min_size_std_stream
       mem_data_secs mem_data_len : Z) (seen SAT : list Z) : CompDoc :=
  {| xls_path := xls_path; ignore_workbook_corruption := ignore;
     mem := mem; sec_size := sec_size; short_sec_size := short_sec_size;
     dir_first_sec_sid := dir_first_sec_sid;
     min_size_std_stream := min_size_std_stream;
     mem_data_secs := mem_data_secs; mem_data_len := mem_data_len;
     seen := seen; SAT := SAT; dirlist := []; SSCS := PyStr [];
     SSAT := [] |}.

(** [CompDoc.__init__(xls_path, mem, ignore_workbook_corruption)] *)
Definition CompDoc_init (fuel : nat) (xls_path : option str) (mem : bytes)
    (ignore_workbook_corruption : bool) : result CompDoc :=
  if negb (bool_decide (slice mem 0 8 = SIGNATURE)) then
    Raise (CompDocError (u "Not an OLE2 compound document"))
  else if negb (bool_decide (slice mem 28 30 = B [0xFE; 0xFF])) then
    Raise (CompDocError (marker_msg (slice mem 28 30)))
  else
    let* (revision, version) := unpack_HH (slice mem 24 28) in
    let* (ssz, sssz) := unpack_HH (slice mem 30 34) in
    let ssz := if ssz >? 20 then 9 else ssz in
    let sssz := if sssz >? ssz then 6 else sssz in
    let sec_size := Z.shiftl 1 ssz in
    let short_sec_size := Z.shiftl 1 sssz in
    let* fields := unpack_ni 8 (slice mem 44 76) in
    match fields with
    | [SAT_tot_secs; dir_first_sec_sid; _unused; min_size_std_stream;
       SSAT_first_sec_sid; SSAT_tot_secs; MSATX_first_sec_sid;
       MSATX_tot_secs] =>
        let mem_data_len := Z.of_nat (length mem) - 512 in
        let left_over := mem_data_len mod sec_size in
        let mem_data_secs :=
          if negb (left_over =? 0) then mem_data_len / sec_size + 1
          else mem_data_len / sec_size in
        let seen := replicate (Z.to_nat mem_data_secs) 0 in
        let nent := sec_size / 4 in
        let* (MSAT, seen, _) :=
          build_MSAT fuel mem sec_size mem_data_secs MSATX_first_sec_sid
            MSATX_tot_secs seen in
        let* (_, SAT, seen) :=
          build_SAT mem sec_size mem_data_secs MSAT seen in
        let self :=
          half_built xls_path ignore_workbook_corruption mem sec_size
            short_sec_size dir_first_sec_sid min_size_std_stream
            mem_data_secs mem_data_len in
        let* (dbytes, seen) :=
          _get_stream fuel (self seen SAT) (PyBytes mem) 512 SAT sec_size
            dir_first_sec_sid None (u "directory") (Some 3) in
        let* dirlist :=
          dir_nodes dbytes (xrange_step (Z.of_nat (length dbytes)) 128)
            (-1) [] in
        let* root := getitem dirlist 0 in
        let* dirlist :=
          _build_family_tree frames_left dirlist 0 (root_DID root) in
        let* sscs_dir := getitem dirlist 0 in
        if negb (etype sscs_dir =? 5) then Raise AssertionError
        else
          let* (SSCS, seen) :=
            (if (first_SID sscs_dir <? 0) || (tot_size sscs_dir =? 0)
             then Return (PyStr [], seen)
             else
               let* (b, seen) :=
                 _get_stream fuel (self seen SAT) (PyBytes mem) 512 SAT
                   sec_size (first_SID sscs_dir) (Some (tot_size sscs_dir))
                   (u "SSCS") (Some 4) in
               Return (PyBytes b, seen)) in
          let* (SSAT, seen) :=
            (if tot_size sscs_dir >? 0 then
               let* (sid, nsecs, SSAT, seen) :=
                 SSAT_loop fuel mem sec_size nent SAT SSAT_first_sec_sid
                   SSAT_tot_secs [] seen in
               if (nsecs =? 0) && (sid =? EOCSID) then Return (SSAT, seen)
               else Raise AssertionError
             else Return ([], seen)) in
          Return {| xls_path := xls_path;
                    ignore_workbook_corruption := ignore_workbook_corruption;
                    mem := mem; sec_size := sec_size;
                    short_sec_size := short_sec_size;
                    dir_first_sec_sid := dir_first_sec_sid;
                    min_size_std_stream := min_size_std_stream;
                    mem_data_secs := mem_data_secs;
                    mem_data_len := mem_data_len;
                    seen := seen; SAT := SAT; dirlist := dirlist;
                    SSCS := SSCS; SSAT := SSAT |}
    | _ => Raise ValueError
    end.

End Init.

End compdoc_init.

(** ** [xlrd/book.py]: the user name of the WRITEACCESS record *)

Module book_writeaccess.

Import book.

(** [unpack_unicode(data, pos, lenlen)] of [xlrd/biffh.py], taken as
    given. *)
Class BiffhUnicode : Type := {
  unpack_unicode : bytes -> Z -> Z -> result str
}.

(** [bytes.strip()]: without the ASCII white space at both ends. *)
Definition is_space (b : Byte.byte) : bool :=
  bool_decide (ord b ∈ [32; 9; 10; 13; 11; 12]).

Fixpoint lstrip_bytes (bs : bytes) : bytes :=
  match bs with
  | b :: r => if is_space b then lstrip_bytes r else bs
  | [] => []
  end.

Definition strip_bytes (bs : bytes) : bytes :=
  reverse (lstrip_bytes (reverse (lstrip_bytes bs))).

Section WriteAccess.

Context {Sheet Ext : Type} `{Biffh} `{Interpreter} `{BiffhUnicode}.

(** [Book.handle_writeaccess] *)
Definition handle_writeaccess (data : bytes) (self : Book Sheet Ext)
  : result (Book Sheet Ext) :=
  let finish (txt : str) : result (Book Sheet Ext) :=
    Return (set_user_name self (raw_user_name self) (PyStr (rstrip txt))) in
  if biff_version self <? 80 then
    if negb (truthy (encoding self)) then
      Return (set_user_name self true (PyBytes data))
    else
      let* txt := unpack_string (PyBytes data) 0 (encoding self) 1 in
      finish txt
  else
    match unpack_unicode data 0 2 with
    | Raise UnicodeDecodeError =>
        let* txt := unpack_unicode (strip_bytes data) 0 2 in
        finish txt
    | other => let* txt := other in finish txt
    end.

End WriteAccess.

End book_writeaccess.

(** ** [xlrd/book.py]: the BOUNDSHEET and SHEETSOFFSET records *)

Module book_boundsheet.

Import book book_writeaccess.

(** Constants of [xlrd/biffh.py], taken as given. *)
Class BiffhSheetTypes : Type := {
  XL_BOUNDSHEET_WORKSHEET : Z;
  BIFF_FIRST_UNICODE : Z
}.

(** The attributes of a [Book] that the two handlers read and write
    besides those of the record [Book].  [_sheetsoffset] is created by
    [handle_sheetsoffset] only: the field holds what reading the attribute
    gives. *)
Record BoundExt (Rest : Type) : Type := {
  _sheetsoffset : result Z;
  _all_sheets_count : Z;
  _all_sheets_map : list Z;
  _sheet_visibility : list Z;
  _sheet_num_from_name : gmap str Z;
  rest : Rest
}.
Arguments _sheetsoffset {Rest} _.
Arguments _all_sheets_count {Rest} _.
Arguments _all_sheets_map {Rest} _.
Arguments _sheet_visibility {Rest} _.
Arguments _sheet_num_from_name {Rest} _.
Arguments rest {Rest} _.

(** ['<iBB'] *)
Definition unpack_iBB (bs : bytes) : result (Z * Z * Z) :=
  if decide (length bs = 6%nat) then
    Return (le_int32 (take 4 bs),
            le_uint (take 1 (drop 4 bs)),
            le_uint (take 1 (drop 5 bs)))
  else Raise struct_error.

Section BoundSheet.

Context {Sheet Rest : Type}.
Context `{Biffh} `{Interpreter} `{BiffhUnicode} `{BiffhSheetTypes}.

Definition set_sheets (self : Book Sheet (BoundExt Rest))
    (names : list str) (posn : list Z) (e : BoundExt Rest)
  : Book Sheet (BoundExt Rest) :=
  {| mem := mem self; filestr := filestr self; base := base self;
     stream_len := stream_len self; _position := _position self;
     biff_version := biff_version self; verbosity := verbosity self;
     encoding_override := encoding_override self; codepage := codepage self;
     encoding := encoding self; raw_user_name := raw_user_name self;
     user_name := user_name self; formatting_info := formatting_info self;
     _resources_released := _resources_released self;
     _sheet_list := _sheet_list self; _sheet_names := names;
     _sh_abs_posn := posn; nsheets := nsheets self;
     _sharedstrings := _sharedstrings self;
     _rich_text_runlist_map := _rich_text_runlist_map self; ext := e |}.

(** [Book.handle_sheetsoffset] *)
Definition handle_sheetsoffset (data : bytes)
    (self : Book Sheet (BoundExt Rest))
  : result (Book Sheet (BoundExt Rest)) :=
  let* pos := unpack_i data in
  let e := ext self in
  Return (set_sheets self (_sheet_names self) (_sh_abs_posn self)
            {| _sheetsoffset := Return pos;
               _all_sheets_count := _all_sheets_count e;
               _all_sheets_map := _all_sheets_map e;
               _sheet_visibility := _sheet_visibility e;
               _sheet_num_from_name := _sheet_num_from_name e;
               rest := rest e |}).

(** [Book.handle_boundsheet] *)
Definition handle_boundsheet (data : bytes)
    (self : Book Sheet (BoundExt Rest))
  : result (Book Sheet (BoundExt Rest)) :=
  let bv := biff_version self in
  let* (_, self) := derive_encoding self in
  let* (sheet_name, visibility, sheet_type, abs_posn) :=
    (if bv =? 45 then
       let* sheet_name := unpack_string (PyBytes data) 0 (encoding self) 1 in
       let visibility := 0 in
       let sheet_type := XL_BOUNDSHEET_WORKSHEET in
       let* abs_posn :=
         (if bool_decide (length (_sh_abs_posn self) = 0%nat) then
            let* offset := _sheetsoffset (ext self) in
            Return (offset + base self)
          else Return (-1)) in
       Return (sheet_name, visibility, sheet_type, abs_posn)
     else
       let* (offset, visibility, sheet_type) := unpack_iBB (slice data 0 6) in
       let abs_posn := offset + base self in
       let* sheet_name :=
         (if bv <? BIFF_FIRST_UNICODE then
            unpack_string (PyBytes data) 6 (encoding self) 1
          else unpack_unicode data 6 1) in
       Return (sheet_name, visibility, sheet_type, abs_posn)) in
  let e := ext self in
  let count := _all_sheets_count e + 1 in
  if negb (sheet_type =? XL_BOUNDSHEET_WORKSHEET) then
    Return (set_sheets self (_sheet_names self) (_sh_abs_posn self)
              {| _sheetsoffset := _sheetsoffset e;
                 _all_sheets_count := count;
                 _all_sheets_map := _all_sheets_map e ++ [-1];
                 _sheet_visibility := _sheet_visibility e;
                 _sheet_num_from_name := _sheet_num_from_name e;
                 rest := rest e |})
  else
    let snum := Z.of_nat (length (_sheet_names self)) in
    Return (set_sheets self (_sheet_names self ++ [sheet_name])
              (_sh_abs_posn self ++ [abs_posn])
              {| _sheetsoffset := _sheetsoffset e;
                 _all_sheets_count := count;
                 _all_sheets_map := _all_sheets_map e ++ [snum];
                 _sheet_visibility := _sheet_visibility e ++ [visibility];
                 _sheet_num_from_name :=
                   <[sheet_name := snum]> (_sheet_num_from_name e);
                 rest := rest e |}).

End BoundSheet.

End book_boundsheet.

(** ** What the BOUNDSHEET records keep true *)

Module boundsheet_props.

Import book book_boundsheet.

(** The index of the last entry of [names] that is [name], counting from
    [i]. *)
Fixpoint last_index (i : Z) (name : str) (names : list str) : option Z :=
  match names with
  | [] => None
  | x :: r =>
      match last_index (i + 1) name r with
      | Some j => Some j
      | None => if decide (x = name) then Some i else None
      end
  end.

(** The lists of names, positions and visibilities go together; there is
    one entry of [_all_sheets_map] for each record counted; the entries
    that are not -1 are the indexes of the worksheets in order; a name
    leads to the last worksheet that has it. *)
Definition sheets_aligned {Sheet Rest : Type}
    (bk : Book Sheet (BoundExt Rest)) : Prop :=
  length (_sh_abs_posn bk) = length (_sheet_names bk)
  /\ length (_sheet_visibility (ext bk)) = length (_sheet_names bk)
  /\ _all_sheets_count (ext bk)
     = Z.of_nat (length (_all_sheets_map (ext bk)))
  /\ filter (fun i => i <> -1) (_all_sheets_map (ext bk))
     = Z.of_nat <$> seq 0 (length (_sheet_names bk))
  /\ (forall name,
         _sheet_num_from_name (ext bk) !! name
         = last_index 0 name (_sheet_names bk)).

End boundsheet_props.

(** ** [xlrd/book.py]: [class Name] *)

Module book_name.

Import book.

(** [formula.Ref3D]: the six coordinates of a reference. *)
Record Ref3D : Type := {
  shtxlo : Z; shtxhi : Z;
  rowxlo : Z; rowxhi : Z;
  colxlo : Z; colxhi : Z
}.

(** [formula.Operand]: the attributes [kind] and [value] that [Name]
    reads.  For the kind [oREF] the value is [None] or a list of
    references. *)
Record Operand : Type := {
  kind : Z;
  value : option (list Ref3D)
}.

(** What [Name] uses of the sheet and formula modules: [sheet.nrows],
    [sheet.ncols], [sheet.cell(rowx, colx)] and the constant [oREF]. *)
Class SheetAttrs (Sheet Cell : Type) : Type := {
  nrows : Sheet -> Z;
  ncols : Sheet -> Z;
  Sheet_cell : Sheet -> Z -> Z -> result Cell;
  oREF : Z
}.

Section NameMethods.

Context {Sheet Ext Cell : Type}.
Context `{Biffh} `{Interpreter} `{!Collaborators Sheet Ext}.
Context `{!SheetAttrs Sheet Cell}.

(** The attributes [result] and [book] of a [Name]. *)
Record Name : Type := {
  name_result : option Operand;
  name_book : Book Sheet Ext
}.

Definition not_single_cell : exn :=
  XLRDError (u "Not a constant absolute reference to a single cell").

Definition not_single_area : exn :=
  XLRDError
    (u "Not a constant absolute reference to a single area in a single sheet").

(** [Name.cell]; the dump of the object is logging.  The workbook is
    returned as [sheet_by_index] leaves it. *)
Definition cell (self : Name) : result (Cell * Book Sheet Ext) :=
  match name_result self with
  | Some res =>
      if kind res =? oREF then
        match value res with
        | None => Raise TypeError
        | Some [ref3d] =>
            if (0 <=? shtxlo ref3d) && (shtxlo ref3d =? shtxhi ref3d - 1)
               && (rowxlo ref3d =? rowxhi ref3d - 1)
               && (colxlo ref3d =? colxhi ref3d - 1)
            then
              let* (sh, bk) := sheet_by_index (name_book self)
                                 (shtxlo ref3d) in
              let* c := Sheet_cell sh (rowxlo ref3d) (colxlo ref3d) in
              Return (c, bk)
            else Raise not_single_cell
        | Some _ => Raise not_single_cell
        end
      else Raise not_single_cell
  | None => Raise not_single_cell
  end.

(** [Name.area2d] *)
Definition area2d (self : Name) (clipped : bool)
  : result ((Sheet * Z * Z * Z * Z) * Book Sheet Ext) :=
  match name_result self with
  | Some res =>
      if kind res =? oREF then
        match value res with
        | None => Raise TypeError
        | Some [ref3d] =>
            if (0 <=? shtxlo ref3d) && (shtxlo ref3d =? shtxhi ref3d - 1)
            then
              let* (sh, bk) := sheet_by_index (name_book self)
                                 (shtxlo ref3d) in
              if negb clipped then
                Return ((sh, rowxlo ref3d, rowxhi ref3d, colxlo ref3d,
                         colxhi ref3d), bk)
              else
                let rowxlo := Z.min (rowxlo ref3d) (nrows sh) in
                let rowxhi := Z.max rowxlo
                                (Z.min (rowxhi ref3d) (nrows sh)) in
                let colxlo := Z.min (colxlo ref3d) (ncols sh) in
                let colxhi := Z.max colxlo
                                (Z.min (colxhi ref3d) (ncols sh)) in
                if negb ((0 <=? rowxlo) && (rowxlo <=? rowxhi)
                         && (rowxhi <=? nrows sh))
                then Raise AssertionError
                else if negb ((0 <=? colxlo) && (colxlo <=? colxhi)
                              && (colxhi <=? ncols sh))
                then Raise AssertionError
                else Return ((sh, rowxlo, rowxhi, colxlo, colxhi), bk)
            else Raise not_single_area
        | Some _ => Raise not_single_area
        end
      else Raise not_single_area
  | None => Raise not_single_area
  end.

End NameMethods.

Arguments Name : clear implicits.

End book_name.
(** ** Concrete documents and streams used in the checks below *)

Module examples.

Import compdoc.

(** [str.lower] on the ASCII letters, for concrete runs. *)
Definition ascii_lower (s : str) : str :=
  (fun c : N => if ((65 <=? c) && (c <=? 90))%N then (c + 32)%N else c) <$> s.

Definition stream_node (did : Z) (nm : string) (sid size : Z) : DirNode :=
  {| DID := did; name := u nm; etype := 2; colour := 1; left_DID := -1;
     right_DID := -1; root_DID := -1; first_SID := sid; tot_size := size;
     children := []; parent := 0 |}.

Definition root_node (kids : list Z) (sid size : Z) : DirNode :=
  {| DID := 0; name := u "Root Entry"; etype := 5; colour := 1;
     left_DID := -1; right_DID := -1; root_DID := 1; first_SID := sid;
     tot_size := size; children := kids; parent := -1 |}.

(** A document whose directory holds the root and one stream, [Workbook],
    kept in sector 0 of a two-sector file. *)
Definition small_doc : CompDoc :=
  {| xls_path := None; ignore_workbook_corruption := false;
     mem := replicate 512 Byte.x00 ++ replicate 512 Byte.x41
              ++ replicate 512 Byte.x42;
     sec_size := 512; short_sec_size := 64; dir_first_sec_sid := 1;
     min_size_std_stream := 0; mem_data_secs := 2; mem_data_len := 1024;
     seen := [0; 3]; SAT := [-2; -2];
     dirlist := [root_node [1] (-2) 0; stream_node 1 "Workbook" 0 512];
     SSCS := PyStr []; SSAT := [] |}.

(** A three-sector file whose [Workbook] stream (700 bytes) occupies
    sector 2 and then sector 0. *)
Definition frag_doc : CompDoc :=
  {| xls_path := None; ignore_workbook_corruption := false;
     mem := replicate 512 Byte.x00 ++ replicate 512 Byte.x41
              ++ replicate 512 Byte.x42 ++ replicate 512 Byte.x43;
     sec_size := 512; short_sec_size := 64; dir_first_sec_sid := 1;
     min_size_std_stream := 0; mem_data_secs := 3; mem_data_len := 1536;
     seen := [0; 3; 0]; SAT := [-2; -2; 0];
     dirlist := [root_node [1] (-2) 0; stream_node 1 "Workbook" 2 700];
     SSCS := PyStr []; SSAT := [] |}.

(** A document whose [Workbook] stream (100 bytes) is a short stream: it
    lies in short sectors 0 and 1 of the short-stream container. *)
Definition short_doc : CompDoc :=
  {| xls_path := None; ignore_workbook_corruption := false;
     mem := replicate 512 Byte.x00 ++ replicate 512 Byte.x41
              ++ replicate 512 Byte.x42;
     sec_size := 512; short_sec_size := 64; dir_first_sec_sid := 1;
     min_size_std_stream := 4096; mem_data_secs := 2; mem_data_len := 1024;
     seen := [4; 3]; SAT := [-2; -2];
     dirlist := [root_node [1] 0 128; stream_node 1 "Workbook" 0 100];
     SSCS := PyBytes (replicate 64 Byte.x61 ++ replicate 64 Byte.x62);
     SSAT := [1; -2] |}.

(** A six-byte file and a lazy view of its bytes 0..1 and 4..5. *)
Definition six_bytes : bytes := B [10; 11; 12; 13; 14; 15].

Definition example_fs (f : str) : option bytes :=
  if decide (f = u "six.bin") then Some six_bytes else None.

Definition two_fragments : ScatteredMemory :=
  ScatteredMemory_init (Some (u "six.bin")) [(0, 2); (4, 6)].

(** The four bytes of a 32-bit integer, low byte first. *)
Definition int32_bytes (z : Z) : bytes :=
  B [z mod 256; (z / 256) mod 256; (z / 65536) mod 256; (z / 16777216) mod 256].

(** A 512-byte header whose in-header master table is [msat]. *)
Definition header_with (msat : list Z) : bytes :=
  replicate 76 Byte.x00 ++ concat (int32_bytes <$> msat).

(** A file of two 8-byte sectors (two table entries per sector): sector 0
    is the allocation table, named by the first in-header master entry;
    sector 1 is a master-table extension holding one free entry and the
    end-of-chain link. *)
Definition msat_file : bytes :=
  header_with (0 :: replicate 108 (-1))
    ++ concat (int32_bytes <$> [-3; -4])
    ++ concat (int32_bytes <$> [-1; -2]).

(** The same header with a first master entry that names sector 5 of a
    two-sector file. *)
Definition truncated_file : bytes :=
  header_with (5 :: replicate 108 (-1))
    ++ concat (int32_bytes <$> [-3; -4])
    ++ concat (int32_bytes <$> [-1; -2]).

(** *** Workbooks *)

(** The values that [xlrd/biffh.py] gives to the names that [book.py]
    takes from it. *)
Definition xlrd_encoding_from_codepage (cp : Z) : option str :=
  if cp =? 1200 then Some (u "utf_16_le")
  else if cp =? 10000 then Some (u "mac_roman")
  else if cp =? 10006 then Some (u "mac_greek")
  else if cp =? 10007 then Some (u "mac_cyrillic")
  else if cp =? 10029 then Some (u "mac_latin2")
  else if cp =? 10079 then Some (u "mac_iceland")
  else if cp =? 10081 then Some (u "mac_turkish")
  else if cp =? 32768 then Some (u "mac_roman")
  else if cp =? 32769 then Some (u "cp1252")
  else None.

(** An interpreter that has the codecs [latin_1], [iso-8859-1],
    [cp1252] (on ASCII bytes) and [utf_16_le]. *)
Definition example_unicode (b : bytes) (enc : option str) : result str :=
  match enc with
  | None => Raise TypeError
  | Some e =>
      if decide (e = u "utf_16_le") then decode_utf_16_le b
      else if decide (e = u "latin_1") then Return (decode_latin_1 b)
      else if decide (e = u "iso-8859-1") then Return (decode_latin_1 b)
      else if decide (e = u "cp1252") then Return (decode_latin_1 b)
      else Raise LookupError
  end.

#[global] Instance example_interpreter : book.Interpreter :=
  {| book.repr_bytes := fun b => u "b'...'";
     book.repr_str := fun s => u "'" ++ s ++ u "'";
     book.rstrip := fun s => s;
     book.unicode := example_unicode |}.

#[global] Instance xlrd_biffh : book.Biffh :=
  {| book.XL_WORKBOOK_GLOBALS := 0x5;
     book.XL_WORKBOOK_GLOBALS_4W := 0x100;
     book.XL_WORKSHEET := 0x10;
     book.bofcodes := [0x0809; 0x0409; 0x0209; 0x0009];
     book.boflen := fun op =>
       if op =? 0x0809 then Some 8 else if op =? 0x0409 then Some 6
       else if op =? 0x0209 then Some 6 else if op =? 0x0009 then Some 4
       else None;
     book.biff_text_from_num := fun v =>
       if v =? 0 then Some (u "(not BIFF)") else if v =? 20 then Some (u "2.0")
       else if v =? 21 then Some (u "2.1") else if v =? 30 then Some (u "3")
       else if v =? 40 then Some (u "4S") else if v =? 45 then Some (u "4W")
       else if v =? 50 then Some (u "5") else if v =? 70 then Some (u "7")
       else if v =? 80 then Some (u "8") else if v =? 85 then Some (u "8X")
       else None;
     book.encoding_from_codepage := xlrd_encoding_from_codepage;
     book.unpack_string := fun data pos enc lenlen =>
       match data with
       | PyBytes b =>
           let* n := getitem b pos in
           example_unicode (slice b (pos + lenlen) (pos + lenlen + ord n)) enc
       | PyStr _ => Raise TypeError
       end;
     book.XL_SST := 0xfc; book.XL_FONT := 0x31; book.XL_FONT_B3B4 := 0x231;
     book.XL_FORMAT := 0x41e; book.XL_XF := 0xe0; book.XL_BOUNDSHEET := 0x85;
     book.XL_DATEMODE := 0x22; book.XL_CODEPAGE := 0x42;
     book.XL_COUNTRY := 0x8c; book.XL_EXTERNNAME := 0x23;
     book.XL_EXTERNSHEET := 0x17; book.XL_FILEPASS := 0x2f;
     book.XL_WRITEACCESS := 0x5c; book.XL_SHEETSOFFSET := 0x8e;
     book.XL_SHEETHDR := 0x8f; book.XL_SUPBOOK := 0x1ae; book.XL_NAME := 0x18;
     book.XL_PALETTE := 0x92; book.XL_STYLE := 0x293; book.XL_EOF := 0x0a;
     book.XL_CONTINUE := 0x3c |}.

(** Collaborators that leave the workbook as it is; a sheet is its
    name. *)
Definition idle (data : bytes) (bk : book.Book str unit)
  : result (book.Book str unit) := Return bk.

#[global] Instance idle_collaborators : book.Collaborators str unit :=
  {| book.Sheet_init := fun _ _ nm _ => nm;
     book.Sheet_read := fun sh bk => Return (sh, bk);
     book.initialise_book := fun bk => Return bk;
     book.xf_epilogue := fun bk => Return bk;
     book.names_epilogue := fun bk => Return bk;
     book.palette_epilogue := fun bk => Return bk;
     book.handle_font := idle; book.handle_format := idle;
     book.handle_xf := idle; book.handle_boundsheet := idle;
     book.handle_datemode := idle; book.handle_country := idle;
     book.handle_externname := idle; book.handle_externsheet := idle;
     book.handle_writeaccess := idle; book.handle_sheetsoffset := idle;
     book.handle_sheethdr := idle; book.handle_supbook := idle;
     book.handle_name := idle; book.handle_palette := idle;
     book.handle_style := idle |}.

(** A workbook as [Book.__init__] and [biff2_8_load] leave it on the
    stream [m], the cursor being at [pos]. *)
Definition book_on (m : bytes) (pos : Z) : book.Book str unit :=
  {| book.mem := Some m; book.filestr := Some m; book.base := 0;
     book.stream_len := Z.of_nat (length m); book._position := pos;
     book.biff_version := 0; book.verbosity := 0;
     book.encoding_override := None; book.codepage := None;
     book.encoding := None; book.raw_user_name := false;
     book.user_name := PyStr []; book.formatting_info := false;
     book._resources_released := 0; book._sheet_list := [];
     book._sheet_names := []; book._sh_abs_posn := []; book.nsheets := 0;
     book._sharedstrings := Some []; book._rich_text_runlist_map := Some ∅;
     book.ext := tt |}.

(** A workbook with two sheets, of which the first has been decoded, and
    the same workbook after [release_resources]. *)
Definition two_sheets : book.Book str unit :=
  {| book.mem := Some []; book.filestr := Some []; book.base := 0;
     book.stream_len := 0; book._position := 0;
     book.biff_version := 80; book.verbosity := 0;
     book.encoding_override := None; book.codepage := Some 1200;
     book.encoding := Some (u "utf_16_le"); book.raw_user_name := false;
     book.user_name := PyStr []; book.formatting_info := false;
     book._resources_released := 0;
     book._sheet_list := [Some (u "Sheet1"); None];
     book._sheet_names := [u "Sheet1"; u "Sheet2"];
     book._sh_abs_posn := [100; 200]; book.nsheets := 2;
     book._sharedstrings := Some []; book._rich_text_runlist_map := Some ∅;
     book.ext := tt |}.

Definition released_two_sheets : book.Book str unit :=
  book.release_resources two_sheets.


(** The BOF record of a BIFF8 workbook-globals stream and of a BIFF2
    worksheet. *)
Definition bof_biff8 : bytes :=
  B [0x09; 0x08; 0x10; 0x00; 0x00; 0x06; 0x05; 0x00; 0xbb; 0x0d; 0xcc; 0x07;
     0x00; 0x00; 0x00; 0x00; 0x06; 0x00; 0x00; 0x00].

Definition bof_biff2 : bytes :=
  B [0x09; 0x00; 0x04; 0x00; 0x02; 0x00; 0x10; 0x00].

(** A BIFF8 workbook read with [verbosity=2], on the stream [m]. *)
Definition verbose_book_on (m : bytes) : book.Book str unit :=
  {| book.mem := Some m; book.filestr := Some m; book.base := 0;
     book.stream_len := Z.of_nat (length m); book._position := 0;
     book.biff_version := 80; book.verbosity := 2;
     book.encoding_override := None; book.codepage := None;
     book.encoding := None; book.raw_user_name := false;
     book.user_name := PyStr []; book.formatting_info := false;
     book._resources_released := 0; book._sheet_list := [];
     book._sheet_names := []; book._sh_abs_posn := []; book.nsheets := 0;
     book._sharedstrings := Some []; book._rich_text_runlist_map := Some ∅;
     book.ext := tt |}.

(** The same workbook read with [verbosity=0]. *)
Definition quiet_book_on (m : bytes) : book.Book str unit :=
  book.set_biff_version (book_on m 0) 80.

(** A globals stream that holds a FILEPASS record without payload and
    then the EOF record. *)
Definition filepass_stream : bytes :=
  B [0x2f; 0x00; 0x00; 0x00; 0x0a; 0x00; 0x00; 0x00].

(** The shared string U+1F600, two UTF-16 units, in one fragment; split
    between its two units; and the string "a" followed by U+1F600 split
    after the "a", first compressed and then wide. *)
Definition sst_whole : list bytes :=
  [B [1; 0; 0; 0; 1; 0; 0; 0; 2; 0; 1; 0x3d; 0xd8; 0x00; 0xde]].

Definition sst_split_in_pair : list bytes :=
  [B [1; 0; 0; 0; 1; 0; 0; 0; 2; 0; 1; 0x3d; 0xd8]; B [1; 0x00; 0xde]].

Definition sst_mixed_whole : list bytes :=
  [B [1; 0; 0; 0; 1; 0; 0; 0; 3; 0; 1; 0x61; 0x00; 0x3d; 0xd8; 0x00; 0xde]].

Definition sst_mixed_split : list bytes :=
  [B [1; 0; 0; 0; 1; 0; 0; 0; 3; 0; 0; 0x61]; B [1; 0x3d; 0xd8; 0x00; 0xde]].

End examples.

(** ** Notions used to state the properties *)

Module props.

Import compdoc.

(** A list in ascending order. *)
Definition ascending (a : list Z) : Prop :=
  forall i j x y, (i <= j)%nat -> a !! i = Some x -> a !! j = Some y -> x <= y.

(** The length of a fragment [(start_pos, end_pos)]. *)
Definition size_of (xy : Z * Z) : Z := snd xy - fst xy.

(** A fragment lies within the file. *)
Definition within (file : bytes) (xy : Z * Z) : Prop :=
  0 <= fst xy <= snd xy /\ snd xy <= Z.of_nat (length file).

(** [chain] is the sector chain that the allocation table [sat] gives from
    [s] on: each sector is a position of the table, the table names the
    next one, and after the last one it holds the end-of-chain mark. *)
Fixpoint chain_from (sat : list Z) (s : Z) (chain : list Z) : Prop :=
  match chain with
  | [] => s = EOCSID
  | c :: rest =>
      s = c /\ 0 <= c /\
      exists n, sat !! Z.to_nat c = Some n /\ chain_from sat n rest
  end.

(** The bytes of sector [s]. *)
Definition sector (mem : bytes) (base sec_size s : Z) : bytes :=
  slice mem (base + s * sec_size) (base + s * sec_size + sec_size).

(** Sector [s] lies within the bytes. *)
Definition sector_within (mem : bytes) (base sec_size s : Z) : Prop :=
  base + s * sec_size + sec_size <= Z.of_nat (length mem).

(** The content of a stream: the bytes of its chain's sectors, cut at the
    declared size. *)
Definition stream_content (mem : bytes) (base sec_size : Z) (chain : list Z)
    (size : Z) : bytes :=
  take (Z.to_nat size) (concat (sector mem base sec_size <$> chain)).

(** Every sector of the chain is the successor of the one before. *)
Fixpoint contiguous (chain : list Z) : Prop :=
  match chain with
  | c :: (d :: _) as rest => d = c + 1 /\ contiguous rest
  | _ => True
  end.

(** Sector [c] may be visited: it has a mark, and the mark is clear unless
    revisits are tolerated. *)
Definition visitable (ignore : bool) (seen : list Z) (c : Z) : Prop :=
  exists v, seen !! Z.to_nat c = Some v /\ (v = 0 \/ ignore = true).

(** [buf[off:off + len]] for a located stream, as the workbook reader
    takes its bytes. *)
Definition read_located (fs : str -> option bytes) (buf : located)
    (off len : Z) : result bytes :=
  match buf with
  | Backing m => Return (slice m off (off + len))
  | Owned b => Return (slice b off (off + len))
  | Scattered sm => getitem_slice fs sm off (off + len)
  | NoStream => Raise TypeError
  end.

(** One turn of the walk of [_locate_stream] on sector [s], on the
    fragments found so far: [(slices, start_pos, end_pos, p)]. *)
Definition walk_step (base sec_size : Z) (acc : list (Z * Z) * Z * Z * Z)
    (s : Z) : list (Z * Z) * Z * Z * Z :=
  let '(slices, start_pos, end_pos, p) := acc in
  if s =? p + 1 then (slices, start_pos, end_pos + sec_size, s)
  else ((if p >=? 0 then slices ++ [(start_pos, end_pos)] else slices),
        base + s * sec_size, base + s * sec_size + sec_size, s).

(** The bytes that the fragments found so far cover. *)
Definition acc_bytes (mem : bytes) (acc : list (Z * Z) * Z * Z * Z) : bytes :=
  let '(slices, start_pos, end_pos, p) := acc in
  if p >=? 0 then join_slices mem (slices ++ [(start_pos, end_pos)]) else [].

(** What the walk maintains about the fragments found so far. *)
Definition acc_ok (mem : bytes) (base sec_size : Z)
    (acc : list (Z * Z) * Z * Z * Z) : Prop :=
  let '(slices, start_pos, end_pos, p) := acc in
  (p = -99 /\ slices = [])
  \/ (0 <= p /\ end_pos = base + (p + 1) * sec_size
       /\ Forall (within mem) (slices ++ [(start_pos, end_pos)])).

(** The number of sectors not yet marked in the [seen] array. *)
Definition unmarked (seen : list Z) : nat :=
  length (filter (fun v => v = 0) seen).

(** A master-table entry that names a sector of the file. *)
Definition in_file (mem_data_secs m : Z) : Prop := 0 <= m < mem_data_secs.

#[global] Instance in_file_dec n m : Decision (in_file n m).
Proof. unfold in_file. apply _. Defined.

(** The allocation-table entries that sector [m] holds. *)
Definition sat_sector (mem : bytes) (sec_size m : Z) : list Z :=
  int32s (Z.to_nat (sec_size / 4))
    (slice mem (512 + sec_size * m) (512 + sec_size * m + sec_size)).

(** A master-table entry as the loop over the table leaves it: the
    invalid mark in place of an entry at or beyond the end of the file. *)
Definition msat_entry_after (mem_data_secs m : Z) : Z :=
  if (m =? FREESID) || (m =? EOCSID) then m
  else if m >=? mem_data_secs then EVILSID else m.

(** The error of [get_sheet] on a workbook whose resources are
    released. *)
Definition cant_load : exn :=
  XLRDError (u "Can't load sheets after releasing resources.").

Section Encoding.

Context {Sheet Ext : Type}.
Context `{book.Biffh} `{book.Interpreter}.


End Encoding.

Section BOF.

Context {Sheet Ext : Type}.
Context `{book.Biffh} `{book.Interpreter}.

(** At the cursor of [self] there is a record whose code [opcode] is one
    of the BOF codes, whose length is from 4 to 20 and whose payload, once
    padded with zero bytes to the length that [boflen] gives for the code,
    is [padded]; [after] is the workbook once the record is read, and
    [version2], [streamtype], [build] and [year] are the fields that
    [getbof] unpacks from the payload. *)
Definition bof_record_at (self after : book.Book Sheet Ext)
    (opcode version2 streamtype build year : Z) : Prop :=
  exists s1 s2 length data bl,
    book.get2bytes self = Return (opcode, s1)
    /\ opcode <> book.MY_EOF /\ opcode ∈ book.bofcodes
    /\ book.get2bytes s1 = Return (length, s2)
    /\ 4 <= length <= 20
    /\ book.boflen opcode = Some bl
    /\ book.read s2 (book._position s2) length = Return (data, after)
    /\ Z.of_nat (List.length data) = length
    /\ unpack_HH (slice (data ++ replicate (Z.to_nat (Z.max 0 (bl - length)))
                                   Byte.x00) 0 4)
       = Return (version2, streamtype)
    /\ (if Z.shiftr opcode 8 =? 8 then
          unpack_HH (slice (data ++ replicate (Z.to_nat (Z.max 0 (bl - length)))
                                      Byte.x00) 4 8)
        else Return (0, 0))
       = Return (build, year).

(** The stream kind is one that [getbof] accepts from a caller that asks
    for [rqd_stream]. *)
Definition kind_accepted (rqd_stream version streamtype : Z) : Prop :=
  (rqd_stream = book.XL_WORKBOOK_GLOBALS
   /\ (streamtype = book.XL_WORKBOOK_GLOBALS
       \/ (version = 45 /\ streamtype = book.XL_WORKBOOK_GLOBALS_4W)))
  \/ streamtype = rqd_stream
  \/ (version < 50 /\ streamtype = book.XL_WORKSHEET).

End BOF.

Section Globals.

Context `{book.Biffh}.

(** The code of FILEPASS is none of the codes that [parse_globals] tests
    before it. *)
Definition filepass_told_apart : Prop :=
  book.XL_FILEPASS
  ∉ [book.XL_SST; book.XL_FONT; book.XL_FONT_B3B4; book.XL_FORMAT;
     book.XL_XF; book.XL_BOUNDSHEET; book.XL_DATEMODE; book.XL_CODEPAGE;
     book.XL_COUNTRY; book.XL_EXTERNNAME; book.XL_EXTERNSHEET].

(** A FILEPASS payload that the verbose dump can unpack: two bytes of
    kind, and for kind 0 exactly four bytes more, for kind 1 the bytes 4
    and 5. *)
Definition filepass_payload_dumpable (data : bytes) : Prop :=
  (2 <= length data)%nat
  /\ (le_uint (take 2 data) = 0 -> length data = 6%nat)
  /\ (le_uint (take 2 data) = 1 -> (6 <= length data)%nat).

End Globals.

(** *** Shared strings laid out over fragments *)

(** The two bytes of a 16-bit value, low byte first. *)
Definition le16 (n : Z) : bytes := [byte_of (n mod 256); byte_of (n / 256)].

(** A code point that is a character: below the surrogates, or above them
    and within the code space. *)
Definition scalar (c : N) : Prop :=
  (c < 0xD800 \/ (0xDFFF < c /\ c < 0x110000))%N.

(** The UTF-16 units of a character, and of a text. *)
Definition units_of (c : N) : list Z :=
  if (c <? 0x10000)%N then [Z.of_N c]
  else [0xD800 + (Z.of_N c - 0x10000) / 0x400;
        0xDC00 + (Z.of_N c - 0x10000) mod 0x400].

Definition text_units (t : str) : list Z := concat (units_of <$> t).

Definition encode_utf_16_le (t : str) : bytes :=
  concat (le16 <$> text_units t).

Definition encode_latin_1 (t : str) : bytes :=
  (fun c : N => byte_of (Z.of_N c)) <$> t.

(** A run of characters of a string, written compressed or wide. *)
Definition chunk_ok (c : bool * str) : Prop :=
  if fst c then Forall scalar (snd c)
  else Forall (fun x : N => (x < 256)%N) (snd c).

Definition chunk_bytes (c : bool * str) : bytes :=
  if fst c then encode_utf_16_le (snd c) else encode_latin_1 (snd c).

Definition option_byte (wide : bool) : Byte.byte :=
  if wide then Byte.x01 else Byte.x00.

(** A fragment that continues a string: its own option byte and the next
    run of characters. *)
Definition continuation (c : bool * str) : bytes :=
  option_byte (fst c) :: chunk_bytes c.

(** The text of a string written in runs, and the number of places it
    takes in the table's count of characters. *)
Definition text_of (first : bool * str) (rest : list (bool * str)) : str :=
  snd first ++ concat (snd <$> rest).

Definition places (t : str) : Z := Z.of_nat (length (text_units t)).

Definition le32 (n : Z) : bytes :=
  [byte_of (n mod 256); byte_of (n / 256 mod 256);
   byte_of (n / 65536 mod 256); byte_of (n / 16777216)].

Definition nonempty {A} (l : list A) : bool :=
  match l with [] => false | _ => true end.

(** A string of the shared-string table as it is written: its first run
    of characters, the runs that follow in fragments of their own, its
    rich-text runs and phonetic block, and whether the fragment ends with
    the string. *)
Record sst_string : Type := {
  first_run : bool * str;
  more_runs : list (bool * str);
  rt_runs : list (Z * Z);
  phonetic : bytes;
  ends_fragment : bool
}.

Definition sst_text (s : sst_string) : str :=
  text_of (first_run s) (more_runs s).

(** The option byte of a string: bit 0 wide, bit 2 phonetic, bit 3 rich
    text. *)
Definition header_option (s : sst_string) : Byte.byte :=
  byte_of ((if fst (first_run s) then 1 else 0)
           + (if nonempty (phonetic s) then 4 else 0)
           + (if nonempty (rt_runs s) then 8 else 0)).

Definition sst_header (s : sst_string) : bytes :=
  le16 (places (sst_text s)) ++ [header_option s]
    ++ (if nonempty (rt_runs s)
        then le16 (Z.of_nat (length (rt_runs s))) else [])
    ++ (if nonempty (phonetic s)
        then le32 (Z.of_nat (length (phonetic s))) else []).

Definition run_bytes (r : Z * Z) : bytes := le16 (fst r) ++ le16 (snd r).

Definition sst_trailer (s : sst_string) : bytes :=
  concat (run_bytes <$> rt_runs s) ++ phonetic s.

(** Bytes laid out in fragments: what is left of the current fragment, and
    the fragments after it. *)
Definition layout : Type := bytes * list bytes.

Definition fragments (L : layout) : list bytes := fst L :: snd L.

Definition prepend (pre : bytes) (L : layout) : layout :=
  (pre ++ fst L, snd L).

Definition new_fragment (L : layout) : layout := ([], fragments L).

Fixpoint continuations (rest : list (bool * str)) (after : layout)
  : layout :=
  match rest with
  | [] => after
  | c :: rest' =>
      new_fragment (prepend (continuation c) (continuations rest' after))
  end.

Definition string_layout (s : sst_string) (after : layout) : layout :=
  prepend (sst_header s ++ chunk_bytes (first_run s))
    (continuations (more_runs s)
       (prepend (sst_trailer s)
          (if ends_fragment s then new_fragment after else after))).

Fixpoint strings_layout (ss : list sst_string) : layout :=
  match ss with
  | [] => ([], [])
  | s :: ss' => string_layout s (strings_layout ss')
  end.

(** The fragments of a shared-string table: the eight bytes of the two
    counts, then the strings; a run of characters ends where a fragment
    ends, unless it is the last run of its string. *)
Definition sst_table (counts : bytes) (ss : list sst_string) : list bytes :=
  fragments (prepend counts (strings_layout ss)).

Definition run_ok (r : Z * Z) : Prop :=
  0 <= fst r < 65536 /\ 0 <= snd r < 65536.

(** What a written string has to satisfy: characters that its runs can
    hold, no empty run after the first, and lengths that fit their
    fields. *)
Definition sst_string_ok (s : sst_string) : Prop :=
  chunk_ok (first_run s)
  /\ Forall chunk_ok (more_runs s)
  /\ Forall (fun c : bool * str => snd c <> []) (more_runs s)
  /\ places (sst_text s) < 65536
  /\ Forall run_ok (rt_runs s)
  /\ Z.of_nat (length (rt_runs s)) < 65536
  /\ Z.of_nat (length (phonetic s)) < 2147483648.

(** The same string written in one wide run. *)
Definition unsplit (s : sst_string) : sst_string :=
  {| first_run := (true, sst_text s); more_runs := [];
     rt_runs := rt_runs s; phonetic := phonetic s;
     ends_fragment := ends_fragment s |}.

(** The rich-text runs of the strings, by the strings' positions from
    [k]. *)
Fixpoint add_runs (k : nat) (ss : list sst_string)
    (m : gmap Z (list (Z * Z))) : gmap Z (list (Z * Z)) :=
  match ss with
  | [] => m
  | s :: ss' =>
      add_runs (S k) ss'
        (if nonempty (rt_runs s) then <[Z.of_nat k := rt_runs s]> m else m)
  end.

End props.

Export props.


(** ** Statements about the cell-address helpers *)

Module cell_props.

(** The number that a column name stands for when its letters are read as
    digits 1 to 26 in base 26. *)
Definition letters_value (name : str) : Z :=
  fold_left (fun acc c => acc * 26 + (Z.of_N c - 64)) name 0.

Definition capital (c : N) : Prop := (65 <= c <= 90)%N.

End cell_props.

Export cell_props.

(** ** Statements about records *)

Module record_props.

(** A record as it is written: its code, the length of its payload, and
    the payload. *)
Definition record (code : Z) (payload : bytes) : bytes :=
  le16 code ++ le16 (Z.of_nat (length payload)) ++ payload.

(** A code and a payload that fit the two 16-bit fields. *)
Definition record_ok (code : Z) (payload : bytes) : Prop :=
  0 <= code < 65536 /\ Z.of_nat (length payload) < 65536.

End record_props.

Export record_props.

(** ** Statements about the globals stream *)

Module globals_props.

Import book.

(** The record codes that [parse_globals] has a branch for. *)
Definition handled_codes `{Biffh} : list Z :=
  [XL_SST; XL_FONT; XL_FONT_B3B4; XL_FORMAT; XL_XF; XL_BOUNDSHEET;
   XL_DATEMODE; XL_CODEPAGE; XL_COUNTRY; XL_EXTERNNAME; XL_EXTERNSHEET;
   XL_FILEPASS; XL_WRITEACCESS; XL_SHEETSOFFSET; XL_SHEETHDR; XL_SUPBOOK;
   XL_NAME; XL_PALETTE; XL_STYLE; XL_EOF].

(** Records written one after the other. *)
Definition records (rs : list (Z * bytes)) : bytes :=
  concat ((fun r : Z * bytes => record (fst r) (snd r)) <$> rs).

(** A record that fits its fields and that [parse_globals] has no branch
    for. *)
Definition skipped `{Biffh} (r : Z * bytes) : Prop :=
  record_ok (fst r) (snd r) /\ fst r ∉ handled_codes.

End globals_props.

Export globals_props.

(** ** The way of a walk to a sector *)

Module walk_props.

Import compdoc.


End walk_props.

Export walk_props.

(** ** The extension sectors of the master table *)

Module msat_props.

Import compdoc.

(** From [sid] on, the extension sectors [chain] follow one another: the
    last table entry of each is the number of the next, and the last
    entry of the last is an end-of-chain, free or master mark. *)
Fixpoint msatx_chain (mem : bytes) (sec_size sid : Z) (chain : list Z)
  : Prop :=
  match chain with
  | [] => sid = EOCSID \/ sid = FREESID \/ sid = MSATSID
  | c :: rest =>
      sid = c /\
      exists ents next,
        sat_sector mem sec_size c = ents ++ [next]
        /\ msatx_chain mem sec_size next rest
  end.

(** A list without its last element. *)
Definition but_last (l : list Z) : list Z := take (length l - 1) l.

(** The entries that the extension sectors add to the master table: the
    entries of each sector but its link, in the order of the chain. *)
Definition msatx_entries (mem : bytes) (sec_size : Z) (chain : list Z)
  : list Z :=
  concat ((fun c => but_last (sat_sector mem sec_size c)) <$> chain).

(** The marks once the sectors of [chain] have got the mark [v]. *)
Definition marked (v : Z) (seen chain : list Z) : list Z :=
  foldl (fun sn c => <[Z.to_nat c := v]> sn) seen chain.

End msat_props.

Export msat_props.
(** ** Written shared strings *)

Module sst_examples.

Import examples.

Definition sst_counts : bytes := B [1; 0; 0; 0; 1; 0; 0; 0].

(** The string "a" followed by U+1F600: the "a" compressed, the rest wide
    in a fragment of its own. *)
Definition a_then_emoji : sst_string :=
  {| first_run := (false, [0x61%N]); more_runs := [(true, [0x1F600%N])];
     rt_runs := []; phonetic := []; ends_fragment := false |}.

(** The string "été" in three runs, with two rich-text runs and a
    phonetic block of three bytes, the fragment ending with it. *)
Definition rich_string : sst_string :=
  {| first_run := (false, [0xE9%N]);
     more_runs := [(true, [0x74%N]); (false, [0xE9%N])];
     rt_runs := [(0, 1); (2, 5)]; phonetic := B [7; 8; 9];
     ends_fragment := true |}.

End sst_examples.

(** ** Documents whose chains never end *)

Module more_examples.

Import compdoc examples.

(** A two-sector file read with revisits tolerated, whose sector table
    sends sector 0 to sector 1 and sector 1 back to sector 0. *)
Definition lenient_cyclic_doc : CompDoc :=
  {| xls_path := None; ignore_workbook_corruption := true;
     mem := replicate 512 Byte.x00 ++ replicate 512 Byte.x41
              ++ replicate 512 Byte.x42;
     sec_size := 512; short_sec_size := 64; dir_first_sec_sid := 1;
     min_size_std_stream := 0; mem_data_secs := 2; mem_data_len := 1024;
     seen := [0; 0]; SAT := [1; 0];
     dirlist := [root_node [1] (-2) 0; stream_node 1 "Workbook" 0 700];
     SSCS := PyStr []; SSAT := [] |}.

(** A document whose [Workbook] stream is a short stream, and whose
    short-sector table sends short sector 0 to 1 and 1 back to 0. *)
Definition short_cyclic_doc : CompDoc :=
  {| xls_path := None; ignore_workbook_corruption := false;
     mem := replicate 512 Byte.x00 ++ replicate 512 Byte.x41
              ++ replicate 512 Byte.x42;
     sec_size := 512; short_sec_size := 64; dir_first_sec_sid := 1;
     min_size_std_stream := 4096; mem_data_secs := 2; mem_data_len := 1024;
     seen := [4; 3]; SAT := [-2; -2];
     dirlist := [root_node [1] 0 128; stream_node 1 "Workbook" 0 100];
     SSCS := PyBytes (replicate 64 Byte.x61 ++ replicate 64 Byte.x62);
     SSAT := [1; 0] |}.



End more_examples.

(** ** A workbook whose sheets are not decoded yet *)

Module sheet_examples.

Import examples.

(** The BOF record of a BIFF8 worksheet. *)
Definition bof_sheet8 : bytes :=
  B [0x09; 0x08; 0x10; 0x00; 0x00; 0x06; 0x10; 0x00; 0xbb; 0x0d; 0xcc; 0x07;
     0x00; 0x00; 0x00; 0x00; 0x06; 0x00; 0x00; 0x00].

(** A workbook opened with [on_demand=True] whose stream holds two
    worksheets, none of them decoded. *)
Definition lazy_book : book.Book str unit :=
  {| book.mem := Some (bof_sheet8 ++ bof_sheet8);
     book.filestr := Some (bof_sheet8 ++ bof_sheet8); book.base := 0;
     book.stream_len := 40; book._position := 0;
     book.biff_version := 80; book.verbosity := 0;
     book.encoding_override := None; book.codepage := Some 1200;
     book.encoding := Some (u "utf_16_le"); book.raw_user_name := false;
     book.user_name := PyStr []; book.formatting_info := false;
     book._resources_released := 0;
     book._sheet_list := [None; None];
     book._sheet_names := [u "Sheet1"; u "Sheet2"];
     book._sh_abs_posn := [0; 20]; book.nsheets := 2;
     book._sharedstrings := Some []; book._rich_text_runlist_map := Some ∅;
     book.ext := tt |}.

End sheet_examples.

(** ** A compound document as it is written *)

Module ole_examples.

Import compdoc examples.

(** A directory entry as it is written, 128 bytes: the name in UTF-16
    with its closing U+0000, padded to 64 bytes; the size of the name in
    bytes, the closing U+0000 counted; the type and the colour; the three
    links; 36 bytes (class id, flags and time stamps) left at zero; the
    first sector and the size; four bytes not used. *)
Definition dir_entry (nm : str) (etype colour left right root sid size : Z)
  : bytes :=
  let text := encode_utf_16_le nm ++ [Byte.x00; Byte.x00] in
  text ++ replicate (64 - length text) Byte.x00
    ++ le16 (Z.of_nat (length text))
    ++ [byte_of etype; byte_of colour]
    ++ int32_bytes left ++ int32_bytes right ++ int32_bytes root
    ++ replicate 36 Byte.x00
    ++ int32_bytes sid ++ int32_bytes size
    ++ replicate 4 Byte.x00.

(** What the fields of an entry have to satisfy to fit their places: a
    name of characters whose UTF-16 form, with the closing U+0000, takes
    at most 64 bytes; a type and a colour of one byte; links, first
    sector and size of 32 bits with sign. *)
Definition int32_ok (z : Z) : Prop := -2147483648 <= z < 2147483648.

Definition dir_entry_ok (nm : str)
    (etype colour left right root sid size : Z) : Prop :=
  Forall scalar nm /\ places nm <= 31
  /\ 0 <= etype < 256 /\ 0 <= colour < 256
  /\ int32_ok left /\ int32_ok right /\ int32_ok root
  /\ int32_ok sid /\ int32_ok size.

(** The header of a file with sectors of [2 ^ ssz] bytes and short sectors
    of [2 ^ sssz] bytes, whose eight 32-bit fields are [fields] and whose
    master table is [msat]. *)
Definition ole_header (ssz sssz : Z) (fields msat : list Z) : bytes :=
  compdoc_init.SIGNATURE ++ replicate 16 Byte.x00
    ++ le16 0x3E ++ le16 3 ++ B [0xFE; 0xFF]
    ++ le16 ssz ++ le16 sssz ++ replicate 10 Byte.x00
    ++ concat (int32_bytes <$> fields)
    ++ concat (int32_bytes <$> msat).

(** A file of five sectors of 128 bytes: sector 0 is the sector table,
    sectors 1 and 2 hold the directory (the root and the stream
    [Workbook]), sectors 3 and 4 the 200 bytes of the stream. *)
Definition tiny_ole : bytes :=
  ole_header 7 6 [1; 1; 0; 100; -2; 0; -2; 0] (0 :: replicate 108 (-1))
    ++ concat (int32_bytes <$> ([-3; 2; -2; 4; -2] ++ replicate 27 (-1)))
    ++ dir_entry (u "Root Entry") 5 1 (-1) (-1) 1 (-2) 0
    ++ dir_entry (u "Workbook") 2 1 (-1) (-1) (-1) 3 200
    ++ replicate 128 Byte.x41 ++ replicate 128 Byte.x42.

(** The document that [CompDoc.__init__] builds from this file. *)
Definition tiny_doc : CompDoc :=
  {| xls_path := None; ignore_workbook_corruption := false;
     mem := tiny_ole; sec_size := 128; short_sec_size := 64;
     dir_first_sec_sid := 1; min_size_std_stream := 100;
     mem_data_secs := 5; mem_data_len := 640;
     seen := [2; 3; 3; 0; 0];
     SAT := [-3; 2; -2; 4; -2] ++ replicate 27 (-1);
     dirlist :=
       [{| DID := 0; name := u "Root Entry"; etype := 5; colour := 1;
           left_DID := -1; right_DID := -1; root_DID := 1;
           first_SID := -2; tot_size := 0; children := [1]; parent := -1 |};
        {| DID := 1; name := u "Workbook"; etype := 2; colour := 1;
           left_DID := -1; right_DID := -1; root_DID := -1;
           first_SID := 3; tot_size := 200; children := []; parent := 0 |}];
     SSCS := PyStr []; SSAT := [] |}.

(** A header that declares sectors of 4 bytes. *)
Definition tiny_sector_header : bytes :=
  ole_header 2 6 [1; 1; 0; 100; -2; 0; -2; 0] (0 :: replicate 108 (-1)).

(** A directory of a root and three streams, as [DirNode.__init__]
    leaves its entries: the root's children hang from entry 2, whose left
    link is entry 1 and whose right link is entry 3. *)
Definition fresh_node (did etype left right root : Z) : DirNode :=
  {| DID := did; name := []; etype := etype; colour := 1;
     left_DID := left; right_DID := right; root_DID := root;
     first_SID := -2; tot_size := 0; children := []; parent := -1 |}.

Definition three_streams : list DirNode :=
  [fresh_node 0 5 (-1) (-1) 2; fresh_node 1 2 (-1) (-1) (-1);
   fresh_node 2 2 1 3 (-1); fresh_node 3 2 (-1) (-1) (-1)].

(** The interpreter's default limit of 1000 frames. *)
#[global] Instance default_stack : compdoc_init.Stack :=
  {| compdoc_init.frames_left := 1000 |}.

End ole_examples.

(** ** The family tree of a directory *)

Module tree_props.

Import compdoc compdoc_init.

(** The entries under a storage as their links describe them: a binary
    tree of siblings, in which every member holds the tree of its own
    children (empty unless the member is a storage). *)
Inductive family : Type :=
| Nobody
| Member (l : family) (did : Z) (kids : family) (r : family).

(** The members of one level, from left to right. *)
Fixpoint siblings (t : family) : list Z :=
  match t with
  | Nobody => []
  | Member l d _ r => siblings l ++ d :: siblings r
  end.

(** The members of all levels. *)
Fixpoint members (t : family) : list Z :=
  match t with
  | Nobody => []
  | Member l d k r => members l ++ d :: members r ++ members k
  end.

Fixpoint depth (t : family) : nat :=
  match t with
  | Nobody => 0
  | Member l _ k r => S (depth l `max` (depth k `max` depth r))
  end.

(** The links of the directory describe the tree [t] from entry [did]
    on: a negative link ends a branch; the children of a storage
    (type 1) hang from its [root_DID]. *)
Fixpoint linked (dl : list DirNode) (did : Z) (t : family) : Prop :=
  match t with
  | Nobody => did < 0
  | Member l d k r =>
      did = d /\ 0 <= d /\
      exists n, dl !! Z.to_nat d = Some n
        /\ linked dl (left_DID n) l /\ linked dl (right_DID n) r
        /\ (if etype n =? 1 then linked dl (root_DID n) k else k = Nobody)
  end.

(** The parent and the children that the tree gives to each of its
    members, under the parent [P] of its first level:
    [(did, (parent, children))]. *)
Fixpoint households (P : Z) (t : family) : list (Z * (Z * list Z)) :=
  match t with
  | Nobody => []
  | Member l d k r =>
      households P l ++ (d, (P, siblings k)) :: households P r
        ++ households d k
  end.

(** What [_build_family_tree] leaves alone in an entry. *)
Definition links (n : DirNode) : Z * str * Z * Z * Z * Z * Z * Z * Z :=
  (DID n, name n, etype n, colour n, left_DID n, right_DID n, root_DID n,
   first_SID n, tot_size n).

(** [d.children.extend(ks)] *)
Definition add_children (ks : list Z) (d : DirNode) : DirNode :=
  {| DID := DID d; name := name d; etype := etype d; colour := colour d;
     left_DID := left_DID d; right_DID := right_DID d;
     root_DID := root_DID d; first_SID := first_SID d;
     tot_size := tot_size d; children := children d ++ ks;
     parent := parent d |}.

(** The directory once the tree [t] is entered under the parent [P]. *)
Fixpoint adopt (P : Z) (t : family) (dl : list DirNode) : list DirNode :=
  match t with
  | Nobody => dl
  | Member l d k r =>
      let dl := adopt P l dl in
      let dl := alter (fun n => append_child n d) (Z.to_nat P) dl in
      let dl := alter (fun n => set_parent n P) (Z.to_nat d) dl in
      let dl := adopt P r dl in
      adopt d k dl
  end.

End tree_props.

(** ** A stand-in for [unpack_unicode] and a BIFF 5 workbook *)

Module writeaccess_examples.

Import examples book_writeaccess.

(** A stand-in that knows the uncompressed layout only: a count of
    [lenlen] bytes, one byte of options, then UTF-16 text. *)
#[global] Instance example_unpack_unicode : BiffhUnicode :=
  {| unpack_unicode := fun data pos lenlen =>
       let* n := getitem data pos in
       decode_utf_16_le
         (slice data (pos + lenlen + 1) (pos + lenlen + 1 + 2 * ord n)) |}.

Definition biff5_book : book.Book str unit :=
  book.set_biff_version (book_on [] 0) 50.

(** The payload of a WRITEACCESS record with the name Ann and of a
    CODEPAGE record with the code page 1252. *)
Definition ann : bytes := B [3; 65; 110; 110].

Definition cp1252 : bytes := B [228; 4].

End writeaccess_examples.

(** ** A BIFF 8 workbook before its first BOUNDSHEET record *)

Module boundsheet_examples.

Import examples book_boundsheet.

#[global] Instance xlrd_sheet_types : BiffhSheetTypes :=
  {| XL_BOUNDSHEET_WORKSHEET := 0x00; BIFF_FIRST_UNICODE := 80 |}.

Definition no_sheets : BoundExt unit :=
  {| _sheetsoffset := Raise AttributeError; _all_sheets_count := 0;
     _all_sheets_map := []; _sheet_visibility := [];
     _sheet_num_from_name := ∅; rest := tt |}.

Definition biff8_book : book.Book str (BoundExt unit) :=
  {| book.mem := Some []; book.filestr := Some []; book.base := 0;
     book.stream_len := 0; book._position := 0;
     book.biff_version := 80; book.verbosity := 0;
     book.encoding_override := None; book.codepage := Some 1200;
     book.encoding := Some (u "utf_16_le"); book.raw_user_name := false;
     book.user_name := PyStr []; book.formatting_info := false;
     book._resources_released := 0; book._sheet_list := [];
     book._sheet_names := []; book._sh_abs_posn := []; book.nsheets := 0;
     book._sharedstrings := Some []; book._rich_text_runlist_map := Some ∅;
     book.ext := no_sheets |}.

(** The record of a visible worksheet at offset 1000 with the name
    Jan. *)
Definition boundsheet_jan : bytes :=
  B [232; 3; 0; 0; 0; 0; 3; 1; 74; 0; 97; 0; 110; 0].

End boundsheet_examples.

(** ** A name that refers to an area of the first sheet *)

Module name_examples.

Import examples book_name.

(** Sheets of ten rows and five columns, whose cells are numbers. *)
#[global] Instance ten_by_five : SheetAttrs str Z :=
  {| nrows := fun _ => 10; ncols := fun _ => 5;
     Sheet_cell := fun _ rowx colx => Return (100 * rowx + colx);
     oREF := -1 |}.

Definition area_ref : Ref3D :=
  {| shtxlo := 0; shtxhi := 1; rowxlo := 2; rowxhi := 20;
     colxlo := 1; colxhi := 3 |}.

Definition cell_ref : Ref3D :=
  {| shtxlo := 0; shtxhi := 1; rowxlo := 2; rowxhi := 3;
     colxlo := 1; colxhi := 2 |}.

Definition name_of (r : Ref3D) : Name str unit :=
  {| name_result := Some {| kind := -1; value := Some [r] |};
     name_book := two_sheets |}.

End name_examples.

(** ** [xlrd/book.py]: finding the workbook stream of a file *)

Module book_load.

Import compdoc compdoc_init.



Section Load.

Context `{book.Interpreter} `{Stack}.

(** [str.lower], and the files by name. *)
Variable lower : str -> str.
Variable fs : str -> option bytes.



End Load.

End book_load.
(** * Facts about the runtime fragment *)

Module py_facts.

Lemma getitem_nonneg {A} (l : list A) (i : Z) :
  0 <= i -> getitem l i = match l !! Z.to_nat i with
                          | Some x => Return x
                          | None => Raise IndexError
                          end.
Proof.
  intros Hi. unfold getitem.
  destruct (i <? 0) eqn:E; [lia|]. rewrite E. reflexivity.
Qed.



Lemma array_B_setitem_within (a : list Z) (i v : Z) :
  0 <= i -> (Z.to_nat i < length a)%nat -> 0 <= v <= 255 ->
  array_B_setitem a i v = Return (<[Z.to_nat i := v]> a).
Proof.
  intros Hi Hlt Hv. unfold array_B_setitem.
  destruct (i <? 0) eqn:E; [lia|]. rewrite E.
  destruct (Z.of_nat (length a) <=? i) eqn:E1; [lia|].
  destruct (v <? 0) eqn:E2; [lia|]. destruct (255 <? v) eqn:E3; [lia|].
  reflexivity.
Qed.

Lemma slice_nonneg {A} (l : list A) (a b : Z) :
  0 <= a -> 0 <= b ->
  slice l a b = take (Z.to_nat (b - a)) (drop (Z.to_nat a) l).
Proof.
  intros Ha Hb. unfold slice, clamp.
  destruct (a <? 0) eqn:Ea; [lia|]. destruct (b <? 0) eqn:Eb; [lia|].
  destruct (decide (Z.of_nat (length l) <= a)) as [Hge|Hlt].
  - rewrite !drop_ge by lia. by rewrite !take_nil.
  - replace (Z.min a (Z.of_nat (length l))) with a by lia.
    destruct (decide (b <= Z.of_nat (length l))) as [Hb'|Hb'].
    + replace (Z.min b (Z.of_nat (length l))) with b by lia. reflexivity.
    + replace (Z.min b (Z.of_nat (length l))) with (Z.of_nat (length l)) by lia.
      rewrite !take_ge; [done| |]; rewrite length_drop; lia.
Qed.

Lemma slice_0 {A} (l : list A) (n : Z) :
  0 <= n -> slice l 0 n = take (Z.to_nat n) l.
Proof.
  intros Hn. rewrite slice_nonneg by lia. simpl. f_equal. lia.
Qed.

Lemma slice_length_within {A} (l : list A) (a b : Z) :
  0 <= a <= b -> b <= Z.of_nat (length l) ->
  Z.of_nat (length (slice l a b)) = b - a.
Proof.
  intros Hab Hb. rewrite slice_nonneg by lia.
  rewrite length_take, length_drop. lia.
Qed.

Lemma slice_app_within {A} (l : list A) (a b c : Z) :
  0 <= a <= b -> b <= c ->
  slice l a c = slice l a b ++ slice l b c.
Proof.
  intros Hab Hbc. rewrite !slice_nonneg by lia.
  replace (Z.to_nat (c - a)) with (Z.to_nat (b - a) + Z.to_nat (c - b))%nat by lia.
  rewrite <- take_take_drop, drop_drop. do 3 f_equal. lia.
Qed.

Lemma slice_take_prefix {A} (l : list A) (a b n : Z) :
  0 <= a -> 0 <= n -> a + n <= b ->
  slice l a (a + n) = take (Z.to_nat n) (slice l a b).
Proof.
  intros Ha Hn Hb. rewrite !slice_nonneg by lia.
  rewrite take_take. do 2 f_equal. lia.
Qed.

Lemma slice_of_app_l {A} (l r : list A) (a b : Z) :
  0 <= a -> 0 <= b -> b <= Z.of_nat (length l) ->
  slice (l ++ r) a b = slice l a b.
Proof.
  intros Ha Hb Hlen. rewrite !slice_nonneg by lia.
  destruct (decide (a <= b)) as [Hab|Hab].
  - rewrite drop_app_le by lia. rewrite take_app_le; [done|].
    rewrite length_drop. lia.
  - replace (Z.to_nat (b - a)) with 0%nat by lia. reflexivity.
Qed.

Lemma slice_skip_prefix {A} (pre l : list A) (a b : Z) :
  Z.of_nat (length pre) <= a <= b ->
  slice (pre ++ l) a b
  = slice l (a - Z.of_nat (length pre)) (b - Z.of_nat (length pre)).
Proof.
  intros Ha. rewrite !slice_nonneg by lia.
  replace (Z.to_nat a)
    with (length pre + Z.to_nat (a - Z.of_nat (length pre)))%nat by lia.
  rewrite drop_app_add. do 2 f_equal. lia.
Qed.

(** *** [bisect_left] on a list in ascending order *)

Lemma bisect_loop_S (fuel : nat) (a : list Z) (x : Z) (lo hi : nat) :
  bisect_loop (S fuel) a x lo hi =
    if decide (lo < hi)%nat then
      match a !! ((lo + hi) / 2)%nat with
      | Some v =>
          if v <? x then bisect_loop fuel a x (S ((lo + hi) / 2)) hi
          else bisect_loop fuel a x lo ((lo + hi) / 2)
      | None => lo
      end
    else lo.
Proof. reflexivity. Qed.

Lemma bisect_loop_spec (a : list Z) (x : Z) :
  ascending a ->
  forall fuel lo hi,
    (lo <= hi <= length a)%nat ->
    (hi - lo < fuel)%nat ->
    (forall j y, (j < lo)%nat -> a !! j = Some y -> y < x) ->
    (forall j y, (hi <= j)%nat -> a !! j = Some y -> x <= y) ->
    (bisect_loop fuel a x lo hi <= length a)%nat
    /\ (forall j y, (j < bisect_loop fuel a x lo hi)%nat ->
                    a !! j = Some y -> y < x)
    /\ (forall j y, (bisect_loop fuel a x lo hi <= j)%nat ->
                    a !! j = Some y -> x <= y).
Proof.
  intros Hasc. induction fuel as [|fuel IH]; intros lo hi Hlh Hfuel Hlo Hhi;
    [lia|]. rewrite !bisect_loop_S.
  destruct (decide (lo < hi)%nat) as [Hlt|Hge].
  - assert (Hmid : (lo <= (lo + hi) / 2 < hi)%nat).
    { split; [apply Nat.div_le_lower_bound; lia
             |apply Nat.Div0.div_lt_upper_bound; lia]. }
    destruct (a !! ((lo + hi) / 2)%nat) as [v|] eqn:Ev.
    + destruct (v <? x) eqn:Evx.
      * apply IH; [lia|lia| |done].
        intros j y Hj Hy. assert (y <= v) by (eapply (Hasc j); [|done..]; lia).
        lia.
      * apply IH; [lia|lia|done|].
        intros j y Hj Hy. assert (v <= y) by (eapply (Hasc _ j); [|done..]; lia).
        lia.
    + apply lookup_ge_None in Ev. lia.
  - assert (lo = hi) by lia. subst. repeat split; [lia|done..].
Qed.

Lemma bisect_left_spec (a : list Z) (x : Z) :
  ascending a ->
  (bisect_left a x <= length a)%nat
  /\ (forall j y, (j < bisect_left a x)%nat -> a !! j = Some y -> y < x)
  /\ (forall j y, (bisect_left a x <= j)%nat -> a !! j = Some y -> x <= y).
Proof.
  intros Hasc. unfold bisect_left. apply bisect_loop_spec; [done|lia|lia| |].
  - intros j y Hj. lia.
  - intros j y Hj Hy. apply lookup_lt_Some in Hy. lia.
Qed.

End py_facts.

(** * Properties of the compound-document reader *)

Module compdoc_facts.

Import compdoc examples py_facts.

(** ** The lazy view [ScatteredMemory] *)

Section Scattered.

Variable fs : str -> option bytes.

Lemma sum_cons (x : Z) (l : list Z) : sum (x :: l) = x + sum l.
Proof. reflexivity. Qed.

Lemma sum_app (l k : list Z) : sum (l ++ k) = sum l + sum k.
Proof. unfold sum. induction l as [|x l IH]; simpl; lia. Qed.

Lemma sum_nonneg (l : list Z) : Forall (fun x => 0 <= x) l -> 0 <= sum l.
Proof. induction 1; unfold sum in *; simpl; lia. Qed.

Lemma join_slices_app (file : bytes) (l k : list (Z * Z)) :
  join_slices file (l ++ k) = join_slices file l ++ join_slices file k.
Proof. unfold join_slices. by rewrite fmap_app, concat_app. Qed.

Lemma join_slices_length (file : bytes) (sl : list (Z * Z)) :
  Forall (within file) sl ->
  Z.of_nat (length (join_slices file sl)) = sum (size_of <$> sl).
Proof.
  induction 1 as [|[a b] sl [Hab Hb] _ IH]; [reflexivity|].
  change (join_slices file ((a, b) :: sl))
    with (slice file a b ++ join_slices file sl).
  rewrite length_app, Nat2Z.inj_add, IH. simpl in Hab, Hb.
  rewrite slice_length_within by lia.
  rewrite fmap_cons, sum_cons. unfold size_of at 2. simpl. lia.
Qed.

Lemma cum_sum_length (f : option str) (sl : list (Z * Z)) :
  length (cum_sum (ScatteredMemory_init f sl)) = length sl.
Proof. simpl. by rewrite length_fmap, length_seq, length_fmap. Qed.

Lemma cum_sum_lookup (f : option str) (sl : list (Z * Z)) (i : nat) :
  (i < length sl)%nat ->
  cum_sum (ScatteredMemory_init f sl) !! i
  = Some (sum (size_of <$> take (S i) sl)).
Proof.
  intros Hi. simpl. rewrite list_lookup_fmap, lookup_seq_lt.
  - simpl. by rewrite fmap_take.
  - by rewrite length_fmap.
Qed.

Lemma sizes_nonneg (file : bytes) (sl : list (Z * Z)) :
  Forall (within file) sl -> Forall (fun x => 0 <= x) (size_of <$> sl).
Proof.
  intros H. apply Forall_fmap. eapply Forall_impl; [|exact H].
  intros [a b] [? ?]. unfold size_of. simpl in *. lia.
Qed.

Lemma prefix_sums_mono (l : list Z) (i j : nat) :
  Forall (fun x => 0 <= x) l -> (i <= j)%nat ->
  sum (take i l) <= sum (take j l).
Proof.
  intros Hl Hij. replace j with (i + (j - i))%nat by lia.
  rewrite <- take_take_drop, sum_app.
  assert (0 <= sum (take (j - i) (drop i l))); [|lia].
  apply sum_nonneg, Forall_take, Forall_drop, Hl.
Qed.

Lemma cum_sum_ascending (f : option str) (file : bytes) (sl : list (Z * Z)) :
  Forall (within file) sl ->
  ascending (cum_sum (ScatteredMemory_init f sl)).
Proof.
  intros Hsl i j x y Hij Hx Hy.
  pose proof (lookup_lt_Some _ _ _ Hx) as Hi.
  pose proof (lookup_lt_Some _ _ _ Hy) as Hj.
  rewrite cum_sum_length in Hi, Hj.
  rewrite cum_sum_lookup in Hx, Hy by done.
  injection Hx as <-. injection Hy as <-.
  rewrite !fmap_take. apply prefix_sums_mono; [|lia].
  by eapply sizes_nonneg.
Qed.

(** Slicing the lazy view gives the bytes that slicing the joined
    fragments gives. *)
Lemma getitem_slice_joined (f : str) (file : bytes) (sl : list (Z * Z))
    (start stop : Z) :
  fs f = Some file ->
  Forall (within file) sl ->
  0 <= start <= stop ->
  getitem_slice fs (ScatteredMemory_init (Some f) sl) start stop
  = Return (slice (join_slices file sl) start stop).
Proof.
  intros Hfs Hsl Hss. unfold getitem_slice, open_mmap.
  change (filename (ScatteredMemory_init (Some f) sl)) with (Some f).
  change (slices (ScatteredMemory_init (Some f) sl)) with sl.
  cbv beta iota. rewrite Hfs. cbn [bind].
  set (sm := ScatteredMemory_init (Some f) sl).
  pose proof (cum_sum_ascending (Some f) file sl Hsl) as Hasc. fold sm in Hasc.
  destruct (bisect_left_spec (cum_sum sm) start Hasc) as (Hn0 & Hlt0 & Hge0).
  destruct (bisect_left_spec (cum_sum sm) stop Hasc) as (Hn1 & Hlt1 & Hge1).
  set (i0 := bisect_left (cum_sum sm) start) in *.
  set (i1 := bisect_left (cum_sum sm) stop) in *.
  unfold sm in Hn0, Hn1. rewrite cum_sum_length in Hn0, Hn1.
  assert (Hi01 : (i0 <= i1)%nat).
  { destruct (decide (i0 <= i1)%nat) as [|Hgt]; [done|].
    assert (Hi1 : (i1 < length sl)%nat) by lia.
    pose proof (cum_sum_lookup (Some f) sl i1 Hi1) as Hc. fold sm in Hc.
    pose proof (Hlt0 i1 _ ltac:(lia) Hc). pose proof (Hge1 i1 _ ltac:(lia) Hc).
    lia. }
  set (D := sum (size_of <$> take i0 sl)).
  assert (HD : (if decide (i0 = 0%nat) then Return 0
                else getitem (cum_sum sm) (Z.of_nat i0 - 1)) = Return D
               /\ 0 <= D <= start).
  { destruct (decide (i0 = 0%nat)) as [E|E].
    - unfold D. rewrite E. simpl. split; [done|]. unfold sum. simpl. lia.
    - rewrite getitem_nonneg by lia.
      assert (Hp : (Z.to_nat (Z.of_nat i0 - 1) < length sl)%nat) by lia.
      pose proof (cum_sum_lookup (Some f) sl _ Hp) as Hc. fold sm in Hc.
      rewrite Hc.
      replace (S (Z.to_nat (Z.of_nat i0 - 1))) with i0 in * by lia.
      split; [done|]. fold D in Hc. split.
      + unfold D. apply sum_nonneg. eapply sizes_nonneg, Forall_take, Hsl.
      + assert (Hj : (Z.to_nat (Z.of_nat i0 - 1) < i0)%nat) by lia.
        pose proof (Hlt0 _ _ Hj Hc). lia. }
  destruct HD as [-> [HD0 HD1]]. cbn [bind]. f_equal.
  rewrite (slice_nonneg sl) by lia.
  replace (Z.to_nat (Z.of_nat i1 + 1 - Z.of_nat i0)) with (S i1 - i0)%nat by lia.
  rewrite Nat2Z.id.
  replace (start - D + (stop - start)) with (stop - D) by lia.
  assert (Hsplit : join_slices file sl
                   = join_slices file (take i0 sl)
                     ++ join_slices file (take (S i1 - i0) (drop i0 sl))
                     ++ join_slices file (drop (S i1 - i0) (drop i0 sl))).
  { rewrite <- !join_slices_app. by rewrite !take_drop. }
  rewrite Hsplit.
  assert (Hpre : Z.of_nat (length (join_slices file (take i0 sl))) = D).
  { apply join_slices_length, Forall_take, Hsl. }
  rewrite slice_skip_prefix by lia. rewrite Hpre.
  destruct (decide (i1 < length sl)%nat) as [Hin|Hout].
  - rewrite slice_of_app_l; [done|lia|lia|].
    rewrite join_slices_length by apply Forall_take, Forall_drop, Hsl.
    pose proof (cum_sum_lookup (Some f) sl i1 Hin) as Hc. fold sm in Hc.
    assert (Hj : (i1 <= i1)%nat) by lia.
    pose proof (Hge1 i1 _ Hj Hc) as Hstop.
    rewrite <- (take_drop i0 (take (S i1) sl)) in Hstop.
    rewrite fmap_app, sum_app in Hstop.
    rewrite take_take in Hstop.
    replace (i0 `min` S i1)%nat with i0 in Hstop by lia.
    fold D in Hstop.
    rewrite take_drop_commute.
    replace (i0 + (S i1 - i0))%nat with (S i1) by lia. lia.
  - rewrite (drop_ge (drop i0 sl)) by (rewrite length_drop; lia).
    unfold join_slices at 2. simpl. by rewrite app_nil_r.
Qed.

End Scattered.


(** *** Revisits of a sector in [_locate_stream] *)



(** *** Path lookup *)

Section DirSearchFacts.

Variable lower : str -> str.

(** Child [k] exists and its name differs from [head] even when case is
    ignored. *)
Definition no_match (self : CompDoc) (head : str) (k : Z) : Prop :=
  exists c, getitem (dirlist self) k = Return c /\
            lower (name c) <> lower head.

(** The scan of a storage's children stops at the first child whose
    lower-cased name equals the lower-cased segment. *)
Lemma dir_search_first_match (self : CompDoc) head tail storage_DID st
    pre child post c :
  getitem (dirlist self) storage_DID = Return st ->
  children st = pre ++ child :: post ->
  Forall (no_match self head) pre ->
  getitem (dirlist self) child = Return c ->
  lower (name c) = lower head ->
  _dir_search lower self (head :: tail) storage_DID =
    if etype c =? 2 then Return (Some c)
    else if etype c =? 1 then
      match tail with
      | [] => Raise (CompDocError (u "Requested component is a 'storage'"))
      | _ => _dir_search lower self tail child
      end
    else Raise (CompDocError (u "Requested stream is not a 'user stream'")).
Proof.
  intros Hst Hkids Hpre Hc Hname. simpl. rewrite Hst. simpl. rewrite Hkids.
  clear Hkids Hst. induction Hpre as [|k pre (ck & Hk & Hne) _ IH]; simpl.
  - rewrite Hc. simpl. rewrite decide_True by done. reflexivity.
  - rewrite Hk. simpl. rewrite decide_False by done. exact IH.
Qed.

Lemma dir_search_no_match (self : CompDoc) head tail storage_DID st :
  getitem (dirlist self) storage_DID = Return st ->
  Forall (no_match self head) (children st) ->
  _dir_search lower self (head :: tail) storage_DID = Return None.
Proof.
  intros Hst Hall. simpl. rewrite Hst. simpl.
  induction Hall as [|k pre (ck & Hk & Hne) _ IH]; simpl; [reflexivity|].
  rewrite Hk. simpl. rewrite decide_False by done. exact IH.
Qed.

(** C9, as the code has it.  [_dir_search] compares a path segment with
    the children's names through [lower] on both sides, and the first child
    that matches decides: a stream entry is returned at once, whether the
    segment is the last one or an interior one (the remaining segments are
    not looked at); a storage entry raises [CompDocError] when the segment
    is the last one and is searched with the remaining segments otherwise;
    an entry of any other type raises [CompDocError]; and when no child
    matches the result is [None]. *)
Theorem dir_search_outcomes (self : CompDoc) head tail storage_DID st :
  getitem (dirlist self) storage_DID = Return st ->
  (Forall (no_match self head) (children st) ->
     _dir_search lower self (head :: tail) storage_DID = Return None)
  /\ (forall pre child post c,
        children st = pre ++ child :: post ->
        Forall (no_match self head) pre ->
        getitem (dirlist self) child = Return c ->
        lower (name c) = lower head ->
        (etype c = 2 ->
           _dir_search lower self (head :: tail) storage_DID = Return (Some c))
        /\ (etype c = 1 -> tail = [] ->
             _dir_search lower self (head :: tail) storage_DID
             = Raise (CompDocError (u "Requested component is a 'storage'")))
        /\ (etype c = 1 -> tail <> [] ->
             _dir_search lower self (head :: tail) storage_DID
             = _dir_search lower self tail child)
        /\ (etype c <> 1 -> etype c <> 2 ->
             _dir_search lower self (head :: tail) storage_DID
             = Raise (CompDocError (u "Requested stream is not a 'user stream'")))).
Proof.
  intros Hst. split; [by apply dir_search_no_match|].
  intros pre child post c Hkids Hpre Hc Hname.
  pose proof (dir_search_first_match self head tail storage_DID st pre child
                post c Hst Hkids Hpre Hc Hname) as H.
  repeat split.
  - intros E. rewrite H, E. reflexivity.
  - intros E ->. rewrite H, E. reflexivity.
  - intros E Ht. rewrite H, E. simpl. by destruct tail.
  - intros E1 E2. rewrite H.
    destruct (etype c =? 2) eqn:E; [lia|].
    destruct (etype c =? 1) eqn:E'; [lia|]. reflexivity.
Qed.

End DirSearchFacts.

(** C9 as stated fails: an interior segment that names a stream does not
    make the lookup fail; the stream entry is returned. *)
Lemma dir_search_interior_stream :
  _dir_search ascii_lower small_doc [u "WORKBOOK"; u "no such child"] 0
  = Return (Some (stream_node 1 "Workbook" 0 512))
  /\ ~ raises (_dir_search ascii_lower small_doc
                 [u "WORKBOOK"; u "no such child"] 0).
Proof.
  assert (E : _dir_search ascii_lower small_doc
                [u "WORKBOOK"; u "no such child"] 0
              = Return (Some (stream_node 1 "Workbook" 0 512)))
    by (vm_compute; reflexivity).
  split; [exact E|]. rewrite E. intros [e He]. discriminate.
Qed.


(** ** Locating a stream: the walk along a well-formed chain *)

Lemma chain_from_nonneg (sat : list Z) (chain : list Z) :
  forall s, chain_from sat s chain -> Forall (fun c => 0 <= c) chain.
Proof.
  induction chain as [|c rest IH]; intros s H; [constructor|].
  destruct H as (-> & Hc & n & Hn & Hrest). constructor; [done|].
  by eapply IH.
Qed.

Lemma visitable_after_mark (ignore : bool) (seen : list Z) (c id : Z)
    (rest : list Z) :
  0 <= c ->
  Forall (fun c' => 0 <= c') rest ->
  Forall (visitable ignore seen) rest ->
  ignore = true \/ c ∉ rest ->
  Forall (visitable ignore (<[Z.to_nat c := id]> seen)) rest.
Proof.
  intros Hc Hnn Hvis Hcase. rewrite Forall_forall in *.
  intros c' Hin. destruct (Hvis c' Hin) as (v & Hv & Hz).
  destruct Hcase as [Hign|Hnotin].
  - assert (Hlt : (Z.to_nat c' < length (<[Z.to_nat c := id]> seen))%nat).
    { rewrite length_insert. by eapply lookup_lt_Some. }
    destruct (lookup_lt_is_Some_2 _ _ Hlt) as [v' Hv'].
    exists v'. split; [done|by right].
  - exists v. split; [|done].
    rewrite list_lookup_insert_ne; [done|].
    intros E. apply Hnotin.
    assert (c = c') by (specialize (Hnn c' Hin); simpl in Hnn; lia).
    subst. by apply list_elem_of_In.
Qed.

Lemma locate_loop_on_chain ignore base sat sec_size qname seen_id found_limit :
  0 <= seen_id <= 255 ->
  forall chain fuel s p start_pos end_pos slices tot_found seen,
    chain_from sat s chain ->
    (length chain < fuel)%nat ->
    tot_found + Z.of_nat (length chain) <= found_limit ->
    Forall (visitable ignore seen) chain ->
    ignore = true \/ NoDup chain ->
    exists sl sp ep p' seen',
      foldl (walk_step base sec_size) (slices, start_pos, end_pos, p) chain
      = (sl, sp, ep, p')
      /\ _locate_stream_loop fuel ignore base sat sec_size qname seen_id
           found_limit s p start_pos end_pos slices tot_found seen
         = Return (EOCSID, sp, ep, sl,
                   tot_found + Z.of_nat (length chain), seen').
Proof.
  intros Hid. induction chain as [|c rest IH];
    intros fuel s p start_pos end_pos slices tot_found seen Hch Hfuel Hlim
      Hvis Hdup.
  - simpl in Hch. subst s. exists slices, start_pos, end_pos, p, seen.
    split; [reflexivity|].
    replace (tot_found + Z.of_nat (length (@nil Z))) with tot_found
      by (simpl; lia).
    destruct fuel; reflexivity.
  - destruct Hch as (-> & Hc & n & Hn & Hrest).
    destruct fuel as [|fuel]; [simpl in Hfuel; lia|].
    apply Forall_cons_1 in Hvis as [(v & Hv & Hz) Hvis].
    pose proof (chain_from_nonneg _ _ _ Hrest) as Hnn.
    pose proof (lookup_lt_Some _ _ _ Hv) as Hlt.
    assert (Hrest_vis :
      Forall (visitable ignore (<[Z.to_nat c := seen_id]> seen)) rest).
    { apply visitable_after_mark; [done..|].
      destruct Hdup as [?|Hnd]; [by left|right]. by apply NoDup_cons_1_1 in Hnd. }
    assert (Hdup' : ignore = true \/ NoDup rest).
    { destruct Hdup as [?|Hnd]; [by left|right]. by apply NoDup_cons_1_2 in Hnd. }
    rewrite length_cons in Hlim, Hfuel.
    destruct (IH fuel n c
                (if c =? p + 1 then start_pos else base + c * sec_size)
                (if c =? p + 1 then end_pos + sec_size
                 else base + c * sec_size + sec_size)
                (if c =? p + 1 then slices
                 else if p >=? 0 then slices ++ [(start_pos, end_pos)]
                      else slices)
                (tot_found + 1) (<[Z.to_nat c := seen_id]> seen)
                Hrest ltac:(lia) ltac:(lia) Hrest_vis Hdup')
      as (sl & sp & ep & p' & seen' & Hfold & Hloop).
    exists sl, sp, ep, p', seen'. split.
    + simpl. rewrite <- Hfold. f_equal. by destruct (c =? p + 1).
    + cbn [_locate_stream_loop]. destruct (c >=? 0) eqn:E; [|lia].
      rewrite (getitem_nonneg seen c Hc), Hv. cbn [bind].
      assert (Hcond : negb (v =? 0) && negb ignore = false).
      { destruct Hz as [->| ->]; [reflexivity|by rewrite andb_false_r]. }
      rewrite Hcond. unfold array_B_setitem.
      destruct (c <? 0) eqn:E1; [lia|]. rewrite E1.
      destruct (Z.of_nat (length seen) <=? c) eqn:E3; [lia|].
      destruct (seen_id <? 0) eqn:E4; [lia|].
      destruct (255 <? seen_id) eqn:E5; [lia|].
      cbn [orb bind].
      destruct (tot_found + 1 >? found_limit) eqn:E2; [lia|].
      rewrite (getitem_nonneg sat c Hc), Hn. cbn [bind].
      rewrite Hloop, length_cons.
      replace (tot_found + Z.of_nat (S (length rest)))
        with (tot_found + 1 + Z.of_nat (length rest)) by lia.
      reflexivity.
Qed.

Lemma join_slices_snoc (mem : bytes) (l : list (Z * Z)) (a b : Z) :
  join_slices mem (l ++ [(a, b)]) = join_slices mem l ++ slice mem a b.
Proof.
  rewrite join_slices_app. unfold join_slices at 2. simpl.
  by rewrite app_nil_r.
Qed.

Section Walk.

Variable mem : bytes.
Variables base sec_size : Z.
Hypothesis base_nonneg : 0 <= base.
Hypothesis sec_size_pos : 0 < sec_size.

Lemma walk_step_ok acc s :
  acc_ok mem base sec_size acc ->
  0 <= s ->
  sector_within mem base sec_size s ->
  acc_ok mem base sec_size (walk_step base sec_size acc s)
  /\ acc_bytes mem (walk_step base sec_size acc s)
     = acc_bytes mem acc ++ sector mem base sec_size s.
Proof.
  destruct acc as [[[slices start_pos] end_pos] p].
  unfold acc_ok, walk_step, acc_bytes, sector, sector_within.
  intros Hok Hs Hin.
  assert (Hmul : 0 <= s * sec_size) by nia.
  assert (Hnew : within mem (base + s * sec_size, base + s * sec_size + sec_size)).
  { unfold within. simpl. lia. }
  destruct Hok as [[-> ->]|(Hp & Hend & Hall)].
  - destruct (s =? -99 + 1) eqn:E; [lia|]. simpl.
    destruct (s >=? 0) eqn:E'; [|lia]. split.
    + right. split; [done|]. split; [lia|]. by constructor.
    + unfold join_slices. simpl. by rewrite app_nil_r.
  - destruct (p >=? 0) eqn:Ep; [|lia].
    apply Forall_app in Hall as [Hsl Hlast].
    apply Forall_singleton in Hlast as [Hse Hlen]. simpl in Hse, Hlen.
    destruct (s =? p + 1) eqn:E; cbv beta iota;
      (destruct (s >=? 0) eqn:E'; [|lia]).
    + assert (s = p + 1) by lia. subst s. split.
      * right. split; [done|]. split; [lia|].
        apply Forall_app. split; [done|]. apply Forall_singleton.
        unfold within. simpl. lia.
      * rewrite !join_slices_snoc, <- app_assoc. f_equal.
        rewrite (slice_app_within mem start_pos end_pos (end_pos + sec_size))
          by lia.
        rewrite <- Hend. reflexivity.
    + split.
      * right. split; [done|]. split; [lia|].
        apply Forall_app. split; [|by apply Forall_singleton].
        apply Forall_app. split; [done|]. by apply Forall_singleton.
      * by rewrite (join_slices_snoc mem (slices ++ _)).
Qed.

Lemma walk_fold_ok chain :
  forall acc,
    acc_ok mem base sec_size acc ->
    Forall (fun c => 0 <= c) chain ->
    Forall (sector_within mem base sec_size) chain ->
    acc_ok mem base sec_size (foldl (walk_step base sec_size) acc chain)
    /\ acc_bytes mem (foldl (walk_step base sec_size) acc chain)
       = acc_bytes mem acc ++ concat (sector mem base sec_size <$> chain).
Proof.
  induction chain as [|c rest IH]; intros acc Hok Hnn Hin.
  - simpl. by rewrite app_nil_r.
  - apply Forall_cons_1 in Hnn as [Hc Hnn].
    apply Forall_cons_1 in Hin as [Hcin Hin].
    destruct (walk_step_ok acc c Hok Hc Hcin) as [Hok' Hb].
    destruct (IH _ Hok' Hnn Hin) as [Hok'' Hb'].
    simpl. split; [done|]. rewrite Hb', Hb. by rewrite <- app_assoc.
Qed.

(** While every sector follows the one before, no fragment is closed and
    the current one keeps its start. *)
Lemma walk_fold_contiguous chain :
  forall slices start_pos end_pos p,
    contiguous (p :: chain) ->
    exists ep p',
      foldl (walk_step base sec_size) (slices, start_pos, end_pos, p) chain
      = (slices, start_pos, ep, p').
Proof.
  induction chain as [|c rest IH]; intros slices start_pos end_pos p Hc.
  - by exists end_pos, p.
  - destruct Hc as [-> Hc]. simpl. rewrite Z.eqb_refl. by apply IH.
Qed.

Lemma walk_fold_slices_grow chain :
  forall acc,
    (length acc.1.1.1
     <= length (foldl (walk_step base sec_size) acc chain).1.1.1)%nat.
Proof.
  induction chain as [|c rest IH]; intros acc; [simpl; lia|].
  simpl. etrans; [|apply IH].
  destruct acc as [[[slices start_pos] end_pos] p]. simpl.
  destruct (c =? p + 1); simpl; [lia|].
  destruct (p >=? 0); [rewrite length_app; simpl|]; lia.
Qed.

(** As soon as one sector does not follow the one before, a fragment is
    closed. *)
Lemma walk_fold_fragmented chain :
  forall slices start_pos end_pos p,
    0 <= p ->
    Forall (fun c => 0 <= c) chain ->
    ~ contiguous (p :: chain) ->
    (length slices
     < length (foldl (walk_step base sec_size)
                 (slices, start_pos, end_pos, p) chain).1.1.1)%nat.
Proof.
  induction chain as [|c rest IH]; intros slices start_pos end_pos p Hp Hnn Hnc.
  - exfalso. by apply Hnc.
  - apply Forall_cons_1 in Hnn as [Hc Hnn]. simpl.
    destruct (c =? p + 1) eqn:E.
    + apply IH; [done..|]. intros Hcont. apply Hnc. split; [lia|done].
    + destruct (p >=? 0) eqn:Ep; [|lia].
      pose proof (walk_fold_slices_grow rest
        (slices ++ [(start_pos, end_pos)], base + c * sec_size,
         base + c * sec_size + sec_size, c)) as H.
      simpl in H. rewrite length_app in H. simpl in H. lia.
Qed.

End Walk.

Lemma walk_fold_p_nonneg (base sec_size : Z) chain :
  forall acc,
    0 <= acc.2 ->
    Forall (fun c => 0 <= c) chain ->
    0 <= (foldl (walk_step base sec_size) acc chain).2.
Proof.
  induction chain as [|c rest IH]; intros acc Hp Hnn; [done|].
  apply Forall_cons_1 in Hnn as [Hc Hnn]. simpl. apply IH; [|done].
  destruct acc as [[[slices start_pos] end_pos] p]. simpl.
  by destruct (c =? p + 1).
Qed.

Lemma contiguous_dec (chain : list Z) : contiguous chain \/ ~ contiguous chain.
Proof.
  induction chain as [|c [|d rest] IH]; [by left..|].
  destruct (decide (d = c + 1)) as [->|Hne].
  - destruct IH as [IH|IH]; [left; by split|right]. intros [_ H]. by apply IH.
  - right. intros [H _]. by apply Hne.
Qed.

Lemma sectors_length (mem : bytes) (base sec_size : Z) (chain : list Z) :
  0 <= base -> 0 < sec_size ->
  Forall (fun c => 0 <= c) chain ->
  Forall (sector_within mem base sec_size) chain ->
  Z.of_nat (length (concat (sector mem base sec_size <$> chain)))
  = Z.of_nat (length chain) * sec_size.
Proof.
  intros Hb Hs Hnn Hin. induction chain as [|c rest IH]; [reflexivity|].
  apply Forall_cons_1 in Hnn as [Hc Hnn].
  apply Forall_cons_1 in Hin as [Hcin Hin].
  rewrite fmap_cons. simpl concat. rewrite length_app, Nat2Z.inj_add, IH by done.
  unfold sector, sector_within in *.
  rewrite slice_length_within by nia. rewrite length_cons. lia.
Qed.

Lemma ceil_div_covers (size sec_size : Z) :
  0 < sec_size -> size <= (size + sec_size - 1) / sec_size * sec_size.
Proof.
  intros Hs.
  pose proof (Z.div_mod (size + sec_size - 1) sec_size ltac:(lia)) as Hdm.
  pose proof (Z.mod_pos_bound (size + sec_size - 1) sec_size Hs). lia.
Qed.

(** The loop of [_get_stream] with a size and no marking, on a chain of
    sectors that lie within the buffer. *)
Lemma get_stream_on_chain (mem : bytes) (base : Z) (sat : list Z)
    (sec_size : Z) (name : str) :
  0 <= base -> 0 < sec_size ->
  forall chain fuel s todo sectors seen,
    chain_from sat s chain ->
    (length chain < fuel)%nat ->
    0 <= todo ->
    Forall (sector_within mem base sec_size) chain ->
    exists todo' new,
      _get_stream_sized fuel (PyBytes mem) base sat sec_size name None s todo
        sectors seen
      = Return (EOCSID, todo', sectors ++ (PyBytes <$> new), seen)
      /\ concat new
         = take (Z.to_nat todo) (concat (sector mem base sec_size <$> chain)).
Proof.
  intros Hb Hs. induction chain as [|c rest IH];
    intros fuel s todo sectors seen Hch Hfuel Htodo Hin.
  - simpl in Hch. subst s. exists todo, []. split.
    + rewrite fmap_nil, app_nil_r. by destruct fuel.
    + simpl. by rewrite take_nil.
  - destruct Hch as (-> & Hc & n & Hn & Hrest).
    destruct fuel as [|fuel]; [simpl in Hfuel; lia|].
    apply Forall_cons_1 in Hin as [Hcin Hin].
    rewrite length_cons in Hfuel.
    set (grab := if sec_size >? todo then todo else sec_size).
    assert (Hgrab : 0 <= grab <= todo /\ grab <= sec_size)
      by (unfold grab; destruct (sec_size >? todo) eqn:E; lia).
    destruct (IH fuel n (todo - grab)
                (sectors ++ [PyBytes (slice mem (base + c * sec_size)
                                        (base + c * sec_size + grab))])
                seen Hrest ltac:(lia) ltac:(lia) Hin)
      as (todo' & new & Hloop & Hnew).
    exists todo',
      (slice mem (base + c * sec_size) (base + c * sec_size + grab) :: new).
    split.
    + cbn [_get_stream_sized]. destruct (c >=? 0) eqn:E; [|lia].
      cbn [mark_seen bind]. unfold next_sid.
      rewrite (getitem_nonneg sat c Hc), Hn. cbn [bind buf_slice].
      fold grab. rewrite Hloop, fmap_cons, <- app_assoc. reflexivity.
    + rewrite fmap_cons. simpl concat. rewrite Hnew.
      assert (Hmul : 0 <= c * sec_size) by nia.
      unfold sector_within in Hcin.
      assert (Hlen : Z.of_nat (length (sector mem base sec_size c)) = sec_size).
      { unfold sector. rewrite slice_length_within by lia. lia. }
      rewrite (slice_take_prefix mem _ (base + c * sec_size + sec_size))
        by lia.
      fold (sector mem base sec_size c).
      rewrite take_app. f_equal.
      * unfold grab. destruct (sec_size >? todo) eqn:E; [done|].
        rewrite !take_ge by lia. reflexivity.
      * f_equal. unfold grab. destruct (sec_size >? todo) eqn:E; lia.
Qed.

Lemma join_bytes_fmap (l : list bytes) :
  join_bytes (PyBytes <$> l) = Return (concat l).
Proof.
  induction l as [|b l IH]; [reflexivity|].
  rewrite fmap_cons. simpl. by rewrite IH.
Qed.

Section Locate.

Variable lower : str -> str.
Variable fs : str -> option bytes.

(** A standard stream on a well-formed chain. *)
Lemma locate_stream_standard fuel (self : CompDoc) qname start_sid size
    seen_id chain :
  0 < sec_size self ->
  0 < size ->
  chain_from (SAT self) start_sid chain ->
  Z.of_nat (length chain) = (size + sec_size self - 1) / sec_size self ->
  Forall (sector_within (mem self) 512 (sec_size self)) chain ->
  Forall (visitable (ignore_workbook_corruption self) (seen self)) chain ->
  ignore_workbook_corruption self = true \/ NoDup chain ->
  0 <= seen_id <= 255 ->
  (length chain < fuel)%nat ->
  (1024 * 1024 * 90 <= size ->
   exists f, xls_path self = Some f /\ fs f = Some (mem self)) ->
  exists buf off seen',
    _locate_stream fuel self (mem self) 512 (SAT self) (sec_size self)
      start_sid size qname seen_id
    = Return (buf, off, size, seen')
    /\ read_located fs buf off size
       = Return (stream_content (mem self) 512 (sec_size self) chain size)
    /\ (contiguous chain ->
        buf = Backing (mem self) /\ off = 512 + start_sid * sec_size self)
    /\ (~ contiguous chain ->
        off = 0 /\
        exists sl,
          (size < 1024 * 1024 * 90 ->
           buf = Owned (join_slices (mem self) sl))
          /\ (1024 * 1024 * 90 <= size ->
              buf = Scattered (ScatteredMemory_init (xls_path self) sl))).
Proof.
  intros Hss Hsize Hch Hlen Hin Hvis Hdup Hid Hfuel Hfile.
  set (ss := sec_size self) in *.
  pose proof (chain_from_nonneg _ _ _ Hch) as Hnn.
  pose proof (ceil_div_covers size ss Hss) as Hceil.
  destruct chain as [|c rest].
  { simpl in Hlen. lia. }
  pose proof Hch as (-> & Hc & n & Hn & Hrest).
  destruct (locate_loop_on_chain (ignore_workbook_corruption self) 512
              (SAT self) ss qname seen_id ((size + ss - 1) / ss) Hid
              (c :: rest) fuel c (-99) (-9999) (-8888) [] 0 (seen self)
              Hch Hfuel ltac:(lia) Hvis Hdup)
    as (sl & sp & ep & p' & seen' & Hfold & Hloop).
  (* the fragments after the first sector *)
  set (acc1 := ([] : list (Z * Z), 512 + c * ss, 512 + c * ss + ss, c)).
  assert (Hfold1 : foldl (walk_step 512 ss) acc1 rest = (sl, sp, ep, p')).
  { rewrite <- Hfold. simpl. destruct (c =? -99 + 1) eqn:E; [lia|]. reflexivity. }
  apply Forall_cons_1 in Hnn as [_ Hnn'].
  pose proof Hin as Hin0. apply Forall_cons_1 in Hin0 as [Hcin Hin'].
  assert (Hmul : 0 <= c * ss) by nia.
  assert (Hok1 : acc_ok (mem self) 512 ss acc1).
  { right. split; [done|]. split; [lia|]. apply Forall_singleton.
    unfold within, sector_within in *. simpl. lia. }
  destruct (walk_fold_ok (mem self) 512 ss ltac:(lia) Hss rest acc1 Hok1 Hnn' Hin')
    as [Hok Hbytes].
  pose proof (walk_fold_p_nonneg 512 ss rest acc1 Hc Hnn') as Hp'.
  rewrite Hfold1 in Hok, Hbytes, Hp'. simpl in Hp'.
  assert (Hbytes' : join_slices (mem self) (sl ++ [(sp, ep)])
                    = concat (sector (mem self) 512 ss <$> c :: rest)).
  { unfold acc_bytes, acc1 in Hbytes.
    destruct (p' >=? 0) eqn:E; [|lia]. destruct (c >=? 0) eqn:E'; [|lia].
    rewrite Hbytes. unfold join_slices at 1. simpl. by rewrite app_nil_r. }
  destruct Hok as [[? _]|(_ & Hep & Hall)]; [lia|].
  pose proof (sectors_length (mem self) 512 ss (c :: rest) ltac:(lia) Hss
                ltac:(by constructor) Hin) as Htotal.
  rewrite <- Hbytes' in Htotal.
  rewrite join_slices_length in Htotal by done.
  rewrite <- Hlen in Hceil. rewrite length_cons in Hceil, Htotal.
  (* the outcome of [_locate_stream] *)
  assert (Hrun : _locate_stream fuel self (mem self) 512 (SAT self) ss c size
                   qname seen_id
                 = match sl with
                   | [] => Return (Backing (mem self), sp, size, seen')
                   | _ =>
                       if size <? 1024 * 1024 * 90 then
                         Return (Owned (join_slices (mem self) (sl ++ [(sp, ep)])),
                                 0, size, seen')
                       else
                         Return (Scattered (ScatteredMemory_init (xls_path self)
                                              (sl ++ [(sp, ep)])),
                                 0, size, seen')
                   end).
  { unfold _locate_stream. destruct (c <? 0) eqn:E; [lia|].
    destruct (decide (ss = 0)); [lia|]. rewrite Hloop. cbn [bind].
    rewrite Z.eqb_refl. cbn [negb].
    replace (0 + Z.of_nat (length (c :: rest)) =? (size + ss - 1) / ss)
      with true by lia.
    cbn [negb]. reflexivity. }
  destruct (contiguous_dec (c :: rest)) as [Hcont|Hfrag].
  - (* one run of sectors: the backing bytes themselves *)
    destruct (walk_fold_contiguous 512 ss rest [] (512 + c * ss)
                (512 + c * ss + ss) c Hcont) as (ep0 & p0 & Hfoldc).
    fold acc1 in Hfoldc. rewrite Hfold1 in Hfoldc.
    injection Hfoldc as -> -> <- <-.
    exists (Backing (mem self)), (512 + c * ss), seen'.
    split; [exact Hrun|]. split; [|split; [done|by intros []]].
    unfold read_located, stream_content. f_equal.
    rewrite <- Hbytes'. unfold join_slices. simpl. rewrite app_nil_r.
    apply Forall_singleton in Hall as [Hse Hlast]. simpl in Hse, Hlast.
    unfold sum, size_of in Htotal. simpl in Htotal.
    apply slice_take_prefix; lia.
  - (* several runs: a new buffer or a lazy view, read from 0 *)
    pose proof (walk_fold_fragmented 512 ss rest [] (512 + c * ss)
                  (512 + c * ss + ss) c Hc Hnn' Hfrag) as Hgrow.
    fold acc1 in Hgrow. rewrite Hfold1 in Hgrow. simpl in Hgrow.
    destruct sl as [|x sl']; [simpl in Hgrow; lia|].
    destruct (size <? 1024 * 1024 * 90) eqn:Ebig.
    + exists (Owned (join_slices (mem self) ((x :: sl') ++ [(sp, ep)]))), 0, seen'.
      split; [exact Hrun|]. split; [|split; [done|]].
      * unfold read_located, stream_content. f_equal.
        rewrite Hbytes'. rewrite Z.add_0_l. apply slice_0. lia.
      * intros _. split; [done|]. eexists. split; [done|]. lia.
    + destruct (Hfile ltac:(lia)) as (f & Hpath & Hf).
      exists (Scattered (ScatteredMemory_init (xls_path self)
                           ((x :: sl') ++ [(sp, ep)]))), 0, seen'.
      split; [exact Hrun|]. split; [|split; [done|]].
      * unfold read_located, stream_content. rewrite Hpath.
        rewrite (getitem_slice_joined fs f (mem self)) by (done || lia).
        f_equal. rewrite Hbytes'. rewrite Z.add_0_l. apply slice_0. lia.
      * intros _. split; [done|]. eexists. split; [lia|done].
Qed.

(** A short stream on a well-formed chain of the short-sector table. *)
Lemma locate_stream_short fuel (self : CompDoc) qname d chain sscs :
  _dir_search lower self (split 47%N qname) 0 = Return (Some d) ->
  tot_size d <= mem_data_len self ->
  tot_size d < min_size_std_stream self ->
  0 <= tot_size d ->
  SSCS self = PyBytes sscs ->
  0 < short_sec_size self ->
  chain_from (SSAT self) (first_SID d) chain ->
  Forall (sector_within sscs 0 (short_sec_size self)) chain ->
  (length chain < fuel)%nat ->
  exists b,
    locate_named_stream lower fuel self qname
    = Return (Owned b, 0, tot_size d, seen self)
    /\ read_located fs (Owned b) 0 (tot_size d)
       = Return (stream_content sscs 0 (short_sec_size self) chain (tot_size d)).
Proof.
  intros Hdir Hlen Hshort Hsize Hsscs Hss Hch Hin Hfuel.
  destruct (get_stream_on_chain sscs 0 (SSAT self) (short_sec_size self)
              (qname ++ u " (from SSCS)") ltac:(lia) Hss chain fuel
              (first_SID d) (tot_size d) [] (seen self) Hch Hfuel Hsize Hin)
    as (todo' & new & Hloop & Hnew).
  exists (concat new). split.
  - unfold locate_named_stream. rewrite Hdir. cbn [bind].
    destruct (tot_size d >? mem_data_len self) eqn:E1; [lia|].
    destruct (tot_size d >=? min_size_std_stream self) eqn:E2; [lia|].
    unfold _get_stream. rewrite Hsscs, Hloop. cbn [bind].
    rewrite decide_True by done. rewrite app_nil_l, join_bytes_fmap.
    reflexivity.
  - unfold read_located, stream_content. f_equal.
    rewrite Z.add_0_l, slice_0 by lia. rewrite Hnew, take_take.
    f_equal. lia.
Qed.

(** C1, as the code has it.  For a stream that the directory lookup finds,
    whose declared size does not exceed the file's data, whose directory
    index leaves its mark [DID + 6] within a byte, and whose sector chain
    is well formed (it ends with the end-of-chain mark after exactly the
    number of sectors the size calls for, its sectors lie within the bytes
    and none is marked as seen, or revisits are tolerated),
    [locate_named_stream] returns [(buffer, offset, tot_size)] and
    [buffer[offset : offset + tot_size]] is the stream's content: the
    chain's sector bytes cut at the declared size.  A standard stream
    ([tot_size >= min_size_std_stream]) with a contiguous chain is returned
    as the backing bytes themselves at offset [512 + first_SID * sec_size];
    with a fragmented chain the offset is 0 and the buffer is the joined
    fragments when the size is below 90 MB and a [ScatteredMemory] view
    otherwise, whose slice is the slice of the joined fragments.  A short
    stream ([tot_size < min_size_std_stream]) is always returned as a new
    buffer at offset 0, read through the short-sector table from the
    short-stream container. *)
Theorem locate_named_stream_content fuel (self : CompDoc) qname d chain :
  _dir_search lower self (split 47%N qname) 0 = Return (Some d) ->
  tot_size d <= mem_data_len self ->
  (length chain < fuel)%nat ->
  (min_size_std_stream self <= tot_size d ->
   0 < tot_size d ->
   0 < sec_size self ->
   chain_from (SAT self) (first_SID d) chain ->
   Z.of_nat (length chain)
   = (tot_size d + sec_size self - 1) / sec_size self ->
   Forall (sector_within (mem self) 512 (sec_size self)) chain ->
   Forall (visitable (ignore_workbook_corruption self) (seen self)) chain ->
   ignore_workbook_corruption self = true \/ NoDup chain ->
   0 <= DID d + 6 <= 255 ->
   (1024 * 1024 * 90 <= tot_size d ->
    exists f, xls_path self = Some f /\ fs f = Some (mem self)) ->
   exists buf off seen',
     locate_named_stream lower fuel self qname
     = Return (buf, off, tot_size d, seen')
     /\ read_located fs buf off (tot_size d)
        = Return (stream_content (mem self) 512 (sec_size self) chain
                    (tot_size d))
     /\ (contiguous chain ->
         buf = Backing (mem self)
         /\ off = 512 + first_SID d * sec_size self)
     /\ (~ contiguous chain ->
         off = 0 /\
         exists sl,
           (tot_size d < 1024 * 1024 * 90 ->
            buf = Owned (join_slices (mem self) sl))
           /\ (1024 * 1024 * 90 <= tot_size d ->
               buf = Scattered (ScatteredMemory_init (xls_path self) sl))))
  /\ (tot_size d < min_size_std_stream self ->
      0 <= tot_size d ->
      0 < short_sec_size self ->
      forall sscs,
        SSCS self = PyBytes sscs ->
        chain_from (SSAT self) (first_SID d) chain ->
        Forall (sector_within sscs 0 (short_sec_size self)) chain ->
        exists b,
          locate_named_stream lower fuel self qname
          = Return (Owned b, 0, tot_size d, seen self)
          /\ read_located fs (Owned b) 0 (tot_size d)
             = Return (stream_content sscs 0 (short_sec_size self) chain
                         (tot_size d))).
Proof.
  intros Hdir Hlen Hfuel. split.
  - intros Hstd Hsize Hss Hch Hn Hin Hvis Hdup Hid Hfile.
    destruct (locate_stream_standard fuel self qname (first_SID d)
                (tot_size d) (DID d + 6) chain Hss Hsize Hch Hn Hin Hvis
                Hdup Hid Hfuel Hfile)
      as (buf & off & seen' & Hrun & Hrest).
    exists buf, off, seen'. split; [|exact Hrest].
    unfold locate_named_stream. rewrite Hdir. cbn [bind].
    destruct (tot_size d >? mem_data_len self) eqn:E1; [lia|].
    destruct (tot_size d >=? min_size_std_stream self) eqn:E2; [|lia].
    exact Hrun.
  - intros Hshort Hsize Hss sscs Hsscs Hch Hin.
    by eapply locate_stream_short.
Qed.

End Locate.

(** C1 as stated fails in two places.  A short stream is never returned as
    the backing bytes: although its chain [0; 1] is contiguous, the buffer
    is a new one and the offset is 0, not [512 + first_SID * sec_size].  And
    indexing the lazy view at the first position of its second fragment
    gives the byte that follows the first fragment in the file, not the
    byte that the joined fragments hold there. *)
Lemma locate_short_or_indexed_differs :
  (chain_from (SSAT short_doc) 0 [0; 1] /\ contiguous [0; 1]
   /\ locate_named_stream ascii_lower 3 short_doc (u "Workbook")
      = Return (Owned (replicate 64 Byte.x61 ++ replicate 36 Byte.x62),
                0, 100, seen short_doc)
   /\ ~ exists seen',
         locate_named_stream ascii_lower 3 short_doc (u "Workbook")
         = Return (Backing (mem short_doc), 512 + 0 * 512, 100, seen'))
  /\ (getitem_int example_fs two_fragments 2 = Return (Byte.x0c)
      /\ getitem (join_slices six_bytes (slices two_fragments)) 2
         = Return (Byte.x0e)).
Proof.
  assert (E : locate_named_stream ascii_lower 3 short_doc (u "Workbook")
              = Return (Owned (replicate 64 Byte.x61 ++ replicate 36 Byte.x62),
                        0, 100, seen short_doc))
    by (vm_compute; reflexivity).
  split; [|split; vm_compute; reflexivity].
  split; [|split; [|split]].
  - simpl. repeat split; try lia; eexists; split; try reflexivity.
    simpl. repeat split; try lia. eexists; split; reflexivity.
  - simpl. lia.
  - exact E.
  - rewrite E. intros [seen' H]. discriminate.
Qed.


(** ** Revisits of a sector in [_locate_stream] *)



Section Revisit.

Variable fs : str -> option bytes.


End Revisit.

(** ** The master table and the sector allocation table *)

Lemma pop_Return {A} (l l' : list A) (x : A) :
  pop l = Return (l', x) -> l = l' ++ [x].
Proof.
  unfold pop. destruct (reverse l) as [|y r] eqn:E; [discriminate|].
  intros H. injection H as <- <-.
  rewrite <- (reverse_involutive l), E. by rewrite reverse_cons.
Qed.

Lemma int32s_length (n : nat) (bs : bytes) : length (int32s n bs) = n.
Proof. revert bs. induction n as [|n IH]; intros bs; simpl; by rewrite ?IH. Qed.

Lemma unpack_ni_length (n : Z) (bs : bytes) (ents : list Z) :
  unpack_ni n bs = Return ents -> length ents = Z.to_nat n.
Proof.
  unfold unpack_ni. destruct (decide _); [|discriminate].
  intros H. injection H as <-. apply int32s_length.
Qed.

Lemma unmarked_mark (seen : list Z) (i : nat) (v : Z) :
  seen !! i = Some 0 -> v <> 0 ->
  S (unmarked (<[i := v]> seen)) = unmarked seen.
Proof.
  unfold unmarked. revert i. induction seen as [|x seen IH]; intros i Hi Hv;
    [done|].
  destruct i as [|i]; simpl in Hi.
  - injection Hi as ->. change (<[0%nat := v]> (0 :: seen)) with (v :: seen).
    rewrite filter_cons_False by done. rewrite filter_cons_True by done.
    reflexivity.
  - change (<[S i := v]> (x :: seen)) with (x :: <[i := v]> seen).
    rewrite !filter_cons.
    destruct (decide (x = 0)); simpl; rewrite <- (IH i) by done; reflexivity.
Qed.

Section Tables.

Variable mem : bytes.
Variables sec_size mem_data_secs : Z.
Hypothesis sec_size_nonneg : 0 <= sec_size.

Let nent : Z := sec_size / 4.

Lemma nent_nonneg : 0 <= nent.
Proof. unfold nent. apply Z.div_pos; lia. Qed.

(** Each extension sector adds its entries but the last, which is the
    link to the next extension sector. *)
Lemma MSATX_loop_length fuel :
  forall sid MSAT seen k MSAT' seen' k',
    MSATX_loop fuel mem sec_size mem_data_secs nent sid MSAT seen k
    = Return (MSAT', seen', k') ->
    Z.of_nat (length MSAT') - Z.of_nat (length MSAT) = (k' - k) * (nent - 1).
Proof.
  pose proof nent_nonneg as Hn.
  induction fuel as [|fuel IH]; intros sid MSAT seen k MSAT' seen' k' H;
    simpl in H; destruct (msatx_continues sid); try discriminate;
    try (injection H as <- <- <-; lia).
  destruct (sid >=? mem_data_secs); [discriminate|].
  destruct (sid <? 0); [discriminate|].
  destruct (getitem seen sid) as [v| |]; try discriminate. cbn [bind] in H.
  destruct (negb (v =? 0)); [discriminate|].
  destruct (array_B_setitem seen sid 1) as [seen1| |]; try discriminate.
  cbn [bind] in H.
  destruct (unpack_ni nent _) as [ents| |] eqn:Eu; try discriminate.
  cbn [bind] in H.
  destruct (pop (MSAT ++ ents)) as [[MSAT1 sid1]| |] eqn:Ep; try discriminate.
  cbn [bind] in H. apply IH in H.
  apply pop_Return in Ep. apply unpack_ni_length in Eu.
  apply (f_equal length) in Ep. rewrite !length_app in Ep. simpl in Ep. lia.
Qed.

(** Every turn marks a sector that was not marked: the walk ends within
    as many turns as there are unmarked sectors. *)
Lemma MSATX_loop_terminates fuel :
  forall sid MSAT seen k,
    (unmarked seen < fuel)%nat ->
    MSATX_loop fuel mem sec_size mem_data_secs nent sid MSAT seen k
    <> OutOfFuel.
Proof.
  induction fuel as [|fuel IH]; intros sid MSAT seen k Hfuel; [lia|].
  simpl. destruct (msatx_continues sid); [|discriminate].
  destruct (sid >=? mem_data_secs); [discriminate|].
  destruct (sid <? 0) eqn:Es; [discriminate|].
  rewrite getitem_nonneg by lia.
  destruct (seen !! Z.to_nat sid) as [v|] eqn:Ev; [|discriminate].
  cbn [bind]. destruct (v =? 0) eqn:E0; [|discriminate]. cbn [negb].
  assert (v = 0) by lia. subst v.
  pose proof (lookup_lt_Some _ _ _ Ev) as Hlt.
  rewrite array_B_setitem_within by lia. cbn [bind].
  unfold unpack_ni. destruct (decide _); cbn [bind]; [|discriminate].
  unfold pop. destruct (reverse _) as [|sid1 r]; cbn [bind]; [discriminate|].
  apply IH. pose proof (unmarked_mark seen (Z.to_nat sid) 1 Ev ltac:(lia)).
  lia.
Qed.

(** The loop over the master table: what it appends and how it rewrites
    the table. *)
Lemma SAT_loop_result :
  forall todo done SAT seen dump MSAT' SAT' seen' dump',
    SAT_loop mem sec_size mem_data_secs nent todo done SAT seen dump
    = Return (MSAT', SAT', seen', dump') ->
    MSAT' = done ++ (msat_entry_after mem_data_secs <$> todo)
    /\ SAT' = SAT ++ concat (sat_sector mem sec_size
                               <$> filter (in_file mem_data_secs) todo).
Proof.
  induction todo as [|msid todo IH];
    intros done SAT seen dump MSAT' SAT' seen' dump' H; simpl in H.
  - injection H as <- <- <- <-. simpl. by rewrite !app_nil_r.
  - unfold msat_entry_after at 1. rewrite fmap_cons.
    destruct ((msid =? FREESID) || (msid =? EOCSID)) eqn:E1.
    { apply IH in H as [-> ->]. rewrite <- app_assoc.
      rewrite filter_cons_False; [done|].
      unfold in_file, FREESID, EOCSID in *. lia. }
    destruct (msid >=? mem_data_secs) eqn:E2.
    { apply IH in H as [-> ->]. rewrite <- app_assoc.
      rewrite filter_cons_False; [done|]. unfold in_file. lia. }
    destruct (msid <? -2) eqn:E3; [discriminate|].
    destruct (getitem seen msid) as [v| |]; try discriminate. cbn [bind] in H.
    destruct (negb (v =? 0)); [discriminate|].
    destruct (array_B_setitem seen msid 2) as [seen1| |]; try discriminate.
    cbn [bind] in H.
    destruct (unpack_ni nent _) as [ents| |] eqn:Eu; try discriminate.
    cbn [bind] in H. apply IH in H as [-> ->].
    rewrite <- !app_assoc. split; [done|]. f_equal.
    rewrite filter_cons_True
      by (unfold in_file, FREESID, EOCSID in *; lia).
    rewrite fmap_cons. simpl concat. f_equal.
    unfold unpack_ni in Eu. destruct (decide _); [|discriminate].
    injection Eu as <-. reflexivity.
Qed.

Lemma sat_sectors_length (l : list Z) :
  length (concat (sat_sector mem sec_size <$> l))
  = (length l * Z.to_nat nent)%nat.
Proof.
  induction l as [|m l IH]; [reflexivity|].
  rewrite fmap_cons. simpl. rewrite length_app, IH.
  unfold sat_sector. rewrite int32s_length. reflexivity.
Qed.

Lemma build_MSAT_terminates fuel first tot seen :
  (unmarked seen < fuel)%nat ->
  build_MSAT fuel mem sec_size mem_data_secs first tot seen <> OutOfFuel.
Proof.
  intros Hfuel. unfold build_MSAT, floordiv.
  destruct (decide (4 = 0)); [lia|]. cbn [bind].
  unfold unpack_ni. destruct (decide _); cbn [bind]; [|discriminate].
  destruct (decide (sec_size / 4 = 0)); cbn [bind]; [discriminate|].
  destruct (decide (sec_size / 4 - 1 = 0)); cbn [bind]; [discriminate|].
  destruct (_ && _); [discriminate|].
  by apply MSATX_loop_terminates.
Qed.

Lemma build_MSAT_length fuel first tot seen MSAT seen' k :
  build_MSAT fuel mem sec_size mem_data_secs first tot seen
  = Return (MSAT, seen', k) ->
  Z.of_nat (length MSAT) = 109 + k * (nent - 1).
Proof.
  unfold build_MSAT, floordiv.
  destruct (decide (4 = 0)); [lia|]. cbn [bind].
  destruct (unpack_ni 109 _) as [MSAT0| |] eqn:Eu; cbn [bind];
    try discriminate.
  apply unpack_ni_length in Eu.
  destruct (decide (sec_size / 4 = 0)); cbn [bind]; [discriminate|].
  destruct (decide (sec_size / 4 - 1 = 0)); cbn [bind]; [discriminate|].
  destruct (_ && _).
  - intros H. injection H as <- <- <-. lia.
  - intros H. apply MSATX_loop_length in H. fold nent. lia.
Qed.

Lemma build_SAT_result MSAT seen MSAT' SAT seen' :
  build_SAT mem sec_size mem_data_secs MSAT seen = Return (MSAT', SAT, seen') ->
  MSAT' = msat_entry_after mem_data_secs <$> MSAT
  /\ (SAT = concat (sat_sector mem sec_size
                      <$> filter (in_file mem_data_secs) MSAT)
      \/ SAT = mark_evil_tail mem_data_secs
                 (concat (sat_sector mem sec_size
                            <$> filter (in_file mem_data_secs) MSAT)))
  /\ Z.of_nat (length SAT)
     = nent * Z.of_nat (length (filter (in_file mem_data_secs) MSAT)).
Proof.
  pose proof nent_nonneg as Hn.
  unfold build_SAT, floordiv. destruct (decide (4 = 0)); [lia|]. cbn [bind].
  destruct (SAT_loop _ _ _ _ _ _ _ _ _) as [[[[M S] sn] dump]| |] eqn:E;
    cbn [bind]; try discriminate.
  apply SAT_loop_result in E as [-> ->]. rewrite !app_nil_l.
  assert (Hlen : Z.of_nat (length (concat (sat_sector mem sec_size
                    <$> filter (in_file mem_data_secs) MSAT)))
                 = nent * Z.of_nat (length (filter (in_file mem_data_secs) MSAT))).
  { rewrite sat_sectors_length. fold nent. lia. }
  destruct dump; intros H; injection H as <- <- <-.
  - split; [done|]. split; [by right|]. rewrite <- Hlen.
    unfold mark_evil_tail. rewrite length_app, length_take, length_replicate.
    lia.
  - split; [done|]. split; [by left|]. exact Hlen.
Qed.

Lemma pop_snoc {A} (l : list A) (x : A) : pop (l ++ [x]) = Return (l, x).
Proof. unfold pop. by rewrite reverse_snoc, reverse_involutive. Qed.

Lemma but_last_snoc (l : list Z) (x : Z) : but_last (l ++ [x]) = l.
Proof.
  unfold but_last. rewrite length_app. simpl.
  replace (length l + 1 - 1)%nat with (length l) by lia.
  by rewrite take_app_length.
Qed.

(** The loop over the extension sectors follows their links: it adds the
    entries of each sector but the link, marks the sector with 1 and
    counts it. *)
Lemma MSATX_loop_on_chain :
  sec_size mod 4 = 0 ->
  forall chain fuel sid MSAT seen k,
    msatx_chain mem sec_size sid chain ->
    Forall (fun c => 0 <= c < mem_data_secs
                     /\ sector_within mem 512 sec_size c
                     /\ seen !! Z.to_nat c = Some 0) chain ->
    NoDup chain ->
    (unmarked seen < fuel)%nat ->
    MSATX_loop fuel mem sec_size mem_data_secs nent sid MSAT seen k
    = Return (MSAT ++ msatx_entries mem sec_size chain, marked 1 seen chain,
              k + Z.of_nat (length chain)).
Proof.
  intros Hmod. induction chain as [|c rest IH];
    intros fuel sid MSAT seen k Hch Hall Hdup Hfuel.
  - simpl in Hch.
    assert (E : msatx_continues sid = false)
      by (unfold msatx_continues, EOCSID, FREESID, MSATSID in *;
          destruct Hch as [->|[->| ->]]; reflexivity).
    unfold msatx_entries, marked. simpl. rewrite app_nil_r, Z.add_0_r.
    destruct fuel; simpl; by rewrite E.
  - destruct Hch as (-> & ents & next & Hents & Hrest).
    apply Forall_cons_1 in Hall as [(Hc & Hin & Hc0) Hall].
    pose proof (NoDup_cons_1_1 _ _ Hdup) as Hnotin.
    pose proof (NoDup_cons_1_2 _ _ Hdup) as Hdup'.
    pose proof (lookup_lt_Some _ _ _ Hc0) as Hlt.
    destruct fuel as [|fuel]; [lia|].
    pose proof (unmarked_mark seen (Z.to_nat c) 1 Hc0 ltac:(lia)) as Hless.
    cbn [MSATX_loop].
    assert (E : msatx_continues c = true).
    { unfold msatx_continues, EOCSID, FREESID, MSATSID.
      destruct (c =? -2) eqn:E1; [lia|]. destruct (c =? -1) eqn:E2; [lia|].
      destruct (c =? -4) eqn:E3; [lia|]. reflexivity. }
    rewrite E. destruct (c >=? mem_data_secs) eqn:E1; [lia|].
    destruct (c <? 0) eqn:E2; [lia|].
    rewrite getitem_nonneg, Hc0 by lia. cbn [bind negb Z.eqb].
    rewrite array_B_setitem_within by lia. cbn [bind].
    assert (Hunpack : unpack_ni nent
                        (slice mem (512 + sec_size * c)
                           (512 + sec_size * c + sec_size))
                      = Return (ents ++ [next])).
    { rewrite <- Hents. unfold unpack_ni, sat_sector. fold nent.
      unfold sector_within in Hin.
      assert (Hmul : 0 <= sec_size * c) by nia.
      rewrite decide_True; [reflexivity|].
      rewrite slice_length_within by lia.
      pose proof nent_nonneg. unfold nent in *.
      pose proof (Z.div_mod sec_size 4 ltac:(lia)). lia. }
    rewrite Hunpack. cbn [bind].
    rewrite app_assoc, pop_snoc. cbn [bind].
    rewrite (IH fuel next (MSAT ++ ents) (<[Z.to_nat c := 1]> seen) (k + 1)
               Hrest); [| |done|lia].
    + unfold msatx_entries, marked. rewrite fmap_cons. simpl concat.
      rewrite Hents, but_last_snoc, <- app_assoc, length_cons.
      replace (k + Z.of_nat (S (length rest)))
        with (k + 1 + Z.of_nat (length rest)) by lia.
      reflexivity.
    + rewrite Forall_forall in Hall |- *. intros c' Hc'.
      destruct (Hall c' Hc') as (Hr & Hw & Hz).
      split; [done|]. split; [done|].
      rewrite list_lookup_insert_ne; [done|].
      intros Heq. apply Hnotin. assert (c = c') by lia. subst.
      by apply list_elem_of_In.
Qed.

(** The master table is the 109 entries of the header followed by the
    entries of the extension sectors. *)
Lemma build_MSAT_on_chain fuel first tot seen chain :
  (512 <= length mem)%nat ->
  sec_size mod 4 = 0 ->
  8 <= sec_size ->
  msatx_chain mem sec_size first chain ->
  Forall (fun c => 0 <= c < mem_data_secs
                   /\ sector_within mem 512 sec_size c
                   /\ seen !! Z.to_nat c = Some 0) chain ->
  NoDup chain ->
  (tot = 0 -> first <> 0) ->
  (unmarked seen < fuel)%nat ->
  build_MSAT fuel mem sec_size mem_data_secs first tot seen
  = Return (int32s 109 (slice mem 76 512) ++ msatx_entries mem sec_size chain,
            marked 1 seen chain, Z.of_nat (length chain)).
Proof.
  intros Hhead Hmod Hbig Hch Hall Hdup Hfirst Hfuel.
  unfold build_MSAT, floordiv.
  destruct (decide (4 = 0)); [lia|]. cbn [bind].
  unfold unpack_ni at 1. rewrite decide_True
    by (rewrite slice_length_within; lia).
  cbn [bind].
  assert (Hn : 2 <= sec_size / 4).
  { pose proof (Z.div_mod sec_size 4 ltac:(lia)). lia. }
  destruct (decide (sec_size / 4 = 0)); [lia|]. cbn [bind].
  destruct (decide (sec_size / 4 - 1 = 0)); [lia|]. cbn [bind].
  change (Z.to_nat 109) with 109%nat.
  destruct ((tot =? 0)
            && ((first =? EOCSID) || (first =? FREESID) || (first =? 0)))
    eqn:Eshort.
  - apply andb_true_iff in Eshort as [Etot Efirst].
    destruct chain as [|c rest].
    + change (msatx_entries mem sec_size []) with (@nil Z).
      by rewrite app_nil_r.
    + exfalso. destruct Hch as (-> & _).
      apply Forall_cons_1 in Hall as [(Hc & _) _].
      unfold EOCSID, FREESID in Efirst. lia.
  - by rewrite (MSATX_loop_on_chain Hmod chain fuel first _ seen 0 Hch Hall
                  Hdup Hfuel).
Qed.

End Tables.

(** C7, as the code has it.  The master table starts from the 109
    in-header entries; the walk over the extension sectors stops at an
    end-of-chain, free or master mark, raises [CompDocError] when it comes
    to a sector already marked, and ends within as many turns as there are
    unmarked sectors.  After [k] extension sectors the table holds
    [109 + k * (nent - 1)] entries, [nent = sec_size // 4] being the number
    of entries of a sector.  The allocation table built from it holds the
    [nent] entries of the sector of each master entry that names a sector
    of the file, in the order of the master table; an entry at or beyond
    the end of the file is replaced by the invalid mark and adds nothing
    (the tail of the allocation table past the file's sector count is then
    overwritten with the invalid mark, which leaves its length as it is).
    Where the last entry of each extension sector names the next and the
    last of them ends with a mark, the sectors lying in the file without a
    mark, the master table is the 109 entries of the header followed by
    the entries of each extension sector but its link, in the order of the
    chain; the sectors of the chain get the mark 1 and are counted.  (With
    [MSATX_tot_secs = 0] a first extension sector 0 is taken for no
    extension at all.) *)
Theorem master_and_sector_tables fuel (mem : bytes)
    (sec_size mem_data_secs first tot : Z) (seen : list Z) :
  0 <= sec_size ->
  (unmarked seen < fuel)%nat ->
  build_MSAT fuel mem sec_size mem_data_secs first tot seen <> OutOfFuel
  /\ (forall sid MSAT seen0 k,
        sid = EOCSID \/ sid = FREESID \/ sid = MSATSID ->
        MSATX_loop fuel mem sec_size mem_data_secs (sec_size / 4) sid MSAT
          seen0 k
        = Return (MSAT, seen0, k))
  /\ (forall n sid MSAT (seen0 : list Z) k v,
        0 <= sid < mem_data_secs ->
        seen0 !! Z.to_nat sid = Some v -> v <> 0 ->
        MSATX_loop (S n) mem sec_size mem_data_secs (sec_size / 4) sid MSAT
          seen0 k
        = Raise (CompDocError (corruption_msg (u "MSAT") sid v)))
  /\ (forall MSAT seen' k,
        build_MSAT fuel mem sec_size mem_data_secs first tot seen
        = Return (MSAT, seen', k) ->
        Z.of_nat (length MSAT) = 109 + k * (sec_size / 4 - 1)
        /\ forall MSAT2 SAT seen2,
             build_SAT mem sec_size mem_data_secs MSAT seen'
             = Return (MSAT2, SAT, seen2) ->
             MSAT2 = msat_entry_after mem_data_secs <$> MSAT
             /\ (SAT = concat (sat_sector mem sec_size
                                 <$> filter (in_file mem_data_secs) MSAT)
                 \/ SAT = mark_evil_tail mem_data_secs
                            (concat (sat_sector mem sec_size
                                       <$> filter (in_file mem_data_secs) MSAT)))
             /\ Z.of_nat (length SAT)
                = sec_size / 4
                  * Z.of_nat (length (filter (in_file mem_data_secs) MSAT)))
  /\ (forall chain,
        (512 <= length mem)%nat ->
        sec_size mod 4 = 0 ->
        8 <= sec_size ->
        msatx_chain mem sec_size first chain ->
        Forall (fun c => 0 <= c < mem_data_secs
                         /\ sector_within mem 512 sec_size c
                         /\ seen !! Z.to_nat c = Some 0) chain ->
        NoDup chain ->
        (tot = 0 -> first <> 0) ->
        build_MSAT fuel mem sec_size mem_data_secs first tot seen
        = Return (int32s 109 (slice mem 76 512)
                    ++ msatx_entries mem sec_size chain,
                  marked 1 seen chain, Z.of_nat (length chain))).
Proof.
  intros Hss Hfuel. split; [by apply build_MSAT_terminates|].
  split; [|split; [|split]].
  - intros sid MSAT seen0 k Hsid.
    assert (E : msatx_continues sid = false)
      by (unfold msatx_continues, EOCSID, FREESID, MSATSID in *;
          destruct Hsid as [->|[->| ->]]; reflexivity).
    destruct fuel; simpl; by rewrite E.
  - intros n sid MSAT seen0 k v Hsid Hv Hne. simpl.
    assert (E : msatx_continues sid = true).
    { unfold msatx_continues, EOCSID, FREESID, MSATSID.
      destruct (sid =? -2) eqn:E1; [lia|]. destruct (sid =? -1) eqn:E2; [lia|].
      destruct (sid =? -4) eqn:E3; [lia|]. reflexivity. }
    rewrite E. destruct (sid >=? mem_data_secs) eqn:E1; [lia|].
    destruct (sid <? 0) eqn:E2; [lia|].
    rewrite getitem_nonneg, Hv by lia. cbn [bind].
    destruct (v =? 0) eqn:E3; [lia|]. reflexivity.
  - intros MSAT seen' k H. split.
    + by eapply build_MSAT_length.
    + intros MSAT2 SAT seen2 H2. by eapply build_SAT_result.
  - intros chain Hhead Hmod Hbig Hch Hall Hdup Hfirst.
    by apply build_MSAT_on_chain.
Qed.

(** C7 as stated fails where a master entry names a sector beyond the end
    of the file: the entry 5 is none of the marks, and the allocation
    table gets no entries for it. *)
Lemma sat_skips_entry_beyond_file :
  exists MSAT seen' k,
    build_MSAT 3 truncated_file 8 2 (-2) 0 [0; 0] = Return (MSAT, seen', k)
    /\ MSAT !! 0%nat = Some 5
    /\ 5 <> EOCSID /\ 5 <> FREESID /\ 5 <> SATSID /\ 5 <> MSATSID
    /\ 5 <> EVILSID
    /\ build_SAT truncated_file 8 2 MSAT seen'
       = Return (EVILSID :: replicate 108 FREESID, [], [0; 0])
    /\ @length Z [] <> (Z.to_nat (8 / 4) * 1)%nat.
Proof.
  exists (5 :: replicate 108 (-1)), [0; 0], 0.
  split; [vm_compute; reflexivity|]. split; [reflexivity|].
  unfold EOCSID, FREESID, SATSID, MSATSID, EVILSID.
  repeat (split; [lia|]). split; [vm_compute; reflexivity|].
  vm_compute. lia.
Qed.


(** ** Indexing the lazy view with an integer *)

Lemma slice_lookup {A} (l : list A) (a b : Z) (i : nat) :
  0 <= a -> (Z.of_nat i < b - a) ->
  slice l a b !! i = l !! (Z.to_nat a + i)%nat.
Proof.
  intros Ha Hi. rewrite slice_nonneg by lia.
  rewrite lookup_take_lt by lia. by rewrite lookup_drop.
Qed.

Section ScatteredIndex.

Variable fs : str -> option bytes.

Lemma total_is_last (sl : list (Z * Z)) :
  sum (size_of <$> sl) = sum (size_of <$> take (length sl) sl).
Proof. by rewrite firstn_all. Qed.

(** X9.  Indexing a [ScatteredMemory] view with an integer gives the byte
    of the joined fragments at every position that is not the end offset
    of a fragment (an entry of [cum_sum]).  At the end offset of a
    fragment that is not empty, which is the first position of the next
    fragment, the view gives instead the byte that follows that fragment
    in the file: the search with [bisect_left] stops one fragment
    early. *)
Theorem scattered_memory_index (f : str) (file : bytes)
    (sl : list (Z * Z)) :
  fs f = Some file ->
  Forall (within file) sl ->
  (forall item : Z,
      0 <= item < sum (size_of <$> sl) ->
      item ∉ cum_sum (ScatteredMemory_init (Some f) sl) ->
      getitem_int fs (ScatteredMemory_init (Some f) sl) item
      = getitem (join_slices file sl) item)
  /\ (forall (k : nat) (a b : Z),
        sl !! k = Some (a, b) -> a < b ->
        getitem_int fs (ScatteredMemory_init (Some f) sl)
          (sum (size_of <$> take (S k) sl))
        = getitem file b).
Proof.
  intros Hfs Hsl.
  set (sm := ScatteredMemory_init (Some f) sl).
  pose proof (cum_sum_ascending (Some f) file sl Hsl) as Hasc. fold sm in Hasc.
  assert (Hrun : forall item idx a b,
             0 <= item ->
             bisect_left (cum_sum sm) item = idx ->
             sl !! idx = Some (a, b) ->
             getitem_int fs sm item
             = getitem file (a + (item - sum (size_of <$> take idx sl)))).
  { intros item idx a b Hitem Hidx Hab.
    pose proof (lookup_lt_Some _ _ _ Hab) as Hlt.
    unfold getitem_int, open_mmap.
    change (filename sm) with (Some f). change (slices sm) with sl.
    cbv beta iota. rewrite Hfs. cbn [bind]. rewrite Hidx.
    assert (Hbefore : (if decide (0 < idx)%nat
                       then getitem (cum_sum sm) (Z.of_nat idx - 1)
                       else Return 0)
                      = Return (sum (size_of <$> take idx sl))).
    { destruct (decide (0 < idx)%nat) as [Hpos|Hz].
      - rewrite getitem_nonneg by lia.
        unfold sm. rewrite cum_sum_lookup by lia.
        replace (S (Z.to_nat (Z.of_nat idx - 1))) with idx by lia.
        reflexivity.
      - replace idx with 0%nat by lia. reflexivity. }
    rewrite Hbefore. cbn [bind].
    rewrite (getitem_nonneg sl) by lia. rewrite Nat2Z.id, Hab.
    reflexivity. }
  split.
  - intros item Hitem Hnot.
    destruct (bisect_left_spec (cum_sum sm) item Hasc) as (Hn & Hlow & Hhigh).
    set (idx := bisect_left (cum_sum sm) item) in *.
    unfold sm in Hn. rewrite cum_sum_length in Hn.
    assert (Hidx : (idx < length sl)%nat).
    { destruct (decide (idx < length sl)%nat) as [|Hge]; [done|].
      assert (Hne : (0 < length sl)%nat).
      { destruct sl; [|simpl; lia]. unfold sum in Hitem. simpl in Hitem. lia. }
      pose proof (cum_sum_lookup (Some f) sl (length sl - 1) ltac:(lia))
        as Hlast.
      fold sm in Hlast.
      replace (S (length sl - 1)) with (length sl) in Hlast by lia.
      rewrite <- total_is_last in Hlast.
      pose proof (Hlow (length sl - 1)%nat _ ltac:(lia) Hlast). lia. }
    destruct (lookup_lt_is_Some_2 sl idx Hidx) as [[a b] Hab].
    rewrite (Hrun item idx a b ltac:(lia) eq_refl Hab).
    set (D := sum (size_of <$> take idx sl)).
    assert (HD : 0 <= D <= item).
    { split.
      - apply sum_nonneg. eapply sizes_nonneg, Forall_take, Hsl.
      - destruct (decide (0 < idx)%nat) as [Hpos|Hz].
        + pose proof (cum_sum_lookup (Some f) sl (idx - 1) ltac:(lia)) as Hc.
          fold sm in Hc. replace (S (idx - 1)) with idx in Hc by lia.
          fold D in Hc. pose proof (Hlow (idx - 1)%nat _ ltac:(lia) Hc). lia.
        + unfold D. replace idx with 0%nat by lia. unfold sum. simpl. lia. }
    pose proof (cum_sum_lookup (Some f) sl idx Hidx) as Hcur. fold sm in Hcur.
    assert (Hsplit : take (S idx) sl = take idx sl ++ [(a, b)])
      by (by apply take_S_r).
    rewrite Hsplit, fmap_app, sum_app in Hcur. fold D in Hcur.
    change (sum (size_of <$> [(a, b)])) with (b - a + 0) in Hcur.
    rewrite Z.add_0_r in Hcur.
    assert (Hup : item < D + (b - a)).
    { pose proof (Hhigh idx _ ltac:(lia) Hcur).
      destruct (decide (item = D + (b - a))) as [E|]; [|lia].
      exfalso. apply Hnot. rewrite E. by eapply list_elem_of_lookup_2. }
    pose proof (proj1 (Forall_lookup _ _) Hsl idx (a, b) Hab) as [Hab1 Hb].
    cbn [fst snd] in Hab1, Hb.
    rewrite <- (take_drop_middle sl idx (a, b) Hab) at 1.
    rewrite join_slices_app.
    change (join_slices file ((a, b) :: drop (S idx) sl))
      with (slice file a b ++ join_slices file (drop (S idx) sl)).
    assert (Hpre : Z.of_nat (length (join_slices file (take idx sl))) = D)
      by apply join_slices_length, Forall_take, Hsl.
    rewrite !getitem_nonneg by lia.
    rewrite lookup_app_r by lia.
    assert (Hlen : Z.of_nat (length (slice file a b)) = b - a)
      by (rewrite slice_length_within; lia).
    rewrite lookup_app_l by lia.
    rewrite slice_lookup by lia.
    replace (Z.to_nat a + (Z.to_nat item
                           - length (join_slices file (take idx sl))))%nat
      with (Z.to_nat (a + (item - D))) by lia.
    reflexivity.
  - intros k a b Hk Hab.
    pose proof (lookup_lt_Some _ _ _ Hk) as Hlt.
    set (D := sum (size_of <$> take k sl)).
    assert (Hsplit : take (S k) sl = take k sl ++ [(a, b)])
      by (by apply take_S_r).
    assert (Hitem : sum (size_of <$> take (S k) sl) = D + (b - a)).
    { rewrite Hsplit, fmap_app, sum_app. fold D.
      change (sum (size_of <$> [(a, b)])) with (b - a + 0). lia. }
    assert (HD : 0 <= D)
      by (apply sum_nonneg; eapply sizes_nonneg, Forall_take, Hsl).
    destruct (bisect_left_spec (cum_sum sm) (D + (b - a)) Hasc)
      as (Hn & Hlow & Hhigh).
    set (idx := bisect_left (cum_sum sm) (D + (b - a))) in *.
    pose proof (cum_sum_lookup (Some f) sl k Hlt) as Hcur. fold sm in Hcur.
    rewrite Hitem in Hcur |- *.
    assert (Hidx : idx = k).
    { destruct (decide (idx < k)%nat) as [Hless|Hnl].
      - pose proof (cum_sum_lookup (Some f) sl idx ltac:(lia)) as Hc.
        fold sm in Hc. pose proof (Hhigh idx _ ltac:(lia) Hc) as Hge.
        pose proof (prefix_sums_mono (size_of <$> sl) (S idx) k
                      (sizes_nonneg file sl Hsl) ltac:(lia)) as Hmono.
        rewrite <- !fmap_take in Hmono. fold D in Hmono. lia.
      - destruct (decide (k < idx)%nat) as [Hmore|]; [|lia].
        pose proof (Hlow _ _ Hmore Hcur). lia. }
    rewrite (Hrun (D + (b - a)) k a b ltac:(lia) Hidx Hk). fold D.
    f_equal. lia.
Qed.

End ScatteredIndex.

Lemma scattered_memory_index_witness :
  getitem_int example_fs two_fragments 1
  = getitem (join_slices six_bytes (slices two_fragments)) 1
  /\ getitem_int example_fs two_fragments 2 = getitem six_bytes 2.
Proof.
  pose proof (scattered_memory_index example_fs (u "six.bin") six_bytes
                [(0, 2); (4, 6)] eq_refl) as Hview.
  destruct Hview as [Hin Hend].
  { repeat constructor; simpl; lia. }
  split.
  - apply (Hin 1).
    + vm_compute. split; [discriminate|reflexivity].
    + apply (bool_decide_unpack _). vm_compute. exact I.
  - apply (Hend 0%nat 0 2); [reflexivity|lia].
Defined.

(** ** The walk of [_locate_stream] on any allocation table *)

(** The walk takes at most [found_limit - tot_found + 1] turns: the turn
    that counts one sector too many raises. *)
Lemma locate_loop_bounded ignore base sat sec_size qname seen_id found_limit :
  forall fuel s p start_pos end_pos slices tot_found seen,
    (Z.to_nat (found_limit - tot_found) < fuel)%nat ->
    _locate_stream_loop fuel ignore base sat sec_size qname seen_id found_limit
      s p start_pos end_pos slices tot_found seen
    <> OutOfFuel.
Proof.
  induction fuel as [|fuel IH];
    intros s p start_pos end_pos slices tot_found seen Hfuel; [lia|].
  cbn [_locate_stream_loop]. destruct (s >=? 0) eqn:Es; [|discriminate].
  rewrite getitem_nonneg by lia.
  destruct (seen !! Z.to_nat s) as [v|] eqn:Ev; [|discriminate].
  cbn [bind]. destruct (negb (v =? 0) && negb ignore); [discriminate|].
  unfold array_B_setitem.
  destruct ((if s <? 0 then s + Z.of_nat (length seen) else s) <? 0);
    [discriminate|].
  cbn [orb].
  destruct (Z.of_nat (length seen) <=? _); [discriminate|].
  destruct ((seen_id <? 0) || (255 <? seen_id)); [discriminate|].
  cbn [bind].
  destruct (tot_found + 1 >? found_limit) eqn:Elim; [discriminate|].
  rewrite getitem_nonneg by lia.
  destruct (sat !! Z.to_nat s) as [n|]; [|discriminate].
  cbn [bind]. apply IH. lia.
Qed.

(** What a walk that returns has done: it followed the table from [s] to
    the first negative entry, folded the sectors passed into fragments,
    counted them, and left its mark on each of them and on nothing
    else. *)
Lemma locate_loop_returns ignore base sat sec_size qname seen_id found_limit :
  forall fuel s p start_pos end_pos slices tot_found seen s' sp ep sl tot seen',
    _locate_stream_loop fuel ignore base sat sec_size qname seen_id found_limit
      s p start_pos end_pos slices tot_found seen
    = Return (s', sp, ep, sl, tot, seen') ->
    exists chain p',
      (forall rest, chain_from sat s' rest -> chain_from sat s (chain ++ rest))
      /\ s' < 0
      /\ tot = tot_found + Z.of_nat (length chain)
      /\ foldl (walk_step base sec_size) (slices, start_pos, end_pos, p) chain
         = (sl, sp, ep, p')
      /\ length seen' = length seen
      /\ Forall (fun c => 0 <= c < Z.of_nat (length seen)) chain
      /\ (forall c, c ∈ chain -> seen' !! Z.to_nat c = Some seen_id)
      /\ (forall i : nat, (forall c, c ∈ chain -> i <> Z.to_nat c) ->
            seen' !! i = seen !! i)
      /\ (ignore = false ->
          forall c, c ∈ chain -> seen !! Z.to_nat c = Some 0).
Proof.
  induction fuel as [|fuel IH];
    intros s p start_pos end_pos slices tot_found seen s' sp ep sl tot seen' Hrun.
  - cbn [_locate_stream_loop] in Hrun.
    destruct (s >=? 0) eqn:Es; [discriminate|].
    injection Hrun as <- <- <- <- <- <-.
    exists [], p. repeat split; try done; try (simpl; lia);
      try (intros c Hc; by apply elem_of_nil in Hc);
      intros _ c Hc; by apply elem_of_nil in Hc.
  - cbn [_locate_stream_loop] in Hrun.
    destruct (s >=? 0) eqn:Es.
    2:{ injection Hrun as <- <- <- <- <- <-.
        exists [], p. repeat split; try done; try (simpl; lia);
          try (intros c Hc; by apply elem_of_nil in Hc);
          intros _ c Hc; by apply elem_of_nil in Hc. }
    assert (Hs : 0 <= s) by lia.
    rewrite getitem_nonneg in Hrun by lia.
    destruct (seen !! Z.to_nat s) as [v|] eqn:Ev; [|discriminate].
    cbn [bind] in Hrun.
    destruct (negb (v =? 0) && negb ignore) eqn:Estrict; [discriminate|].
    pose proof (lookup_lt_Some _ _ _ Ev) as Hlt.
    unfold array_B_setitem in Hrun.
    destruct (s <? 0) eqn:Es0; [lia|]. rewrite Es0 in Hrun.
    destruct (Z.of_nat (length seen) <=? s) eqn:Es1; [lia|].
    cbn [orb] in Hrun.
    destruct ((seen_id <? 0) || (255 <? seen_id)) eqn:Eid; [discriminate|].
    cbn [bind] in Hrun.
    destruct (tot_found + 1 >? found_limit) eqn:Elim; [discriminate|].
    rewrite getitem_nonneg in Hrun by lia.
    destruct (sat !! Z.to_nat s) as [n|] eqn:En; [|discriminate].
    cbn [bind] in Hrun.
    destruct (IH _ _ _ _ _ _ _ _ _ _ _ _ _ Hrun)
      as (chain & p' & Hch & Hneg & Htot & Hfold & Hlen & Hrange & Hmark
          & Hkeep & Hclear).
    rewrite length_insert in Hlen, Hrange.
    exists (s :: chain), p'. split; [|split; [|split; [|split; [|split;
      [|split; [|split; [|split]]]]]]].
    + intros rest Hrest. simpl. split; [done|]. split; [done|].
      exists n. split; [done|]. by apply Hch.
    + done.
    + rewrite length_cons. lia.
    + simpl. rewrite <- Hfold. f_equal. by destruct (s =? p + 1).
    + done.
    + constructor; [lia|done].
    + intros c Hc. apply elem_of_cons in Hc as [->|Hc]; [|by apply Hmark].
      destruct (decide (s ∈ chain)) as [Hin|Hnot]; [by apply Hmark|].
      rewrite Hkeep.
      * apply list_lookup_insert_eq. done.
      * intros c Hc E. apply Hnot.
        rewrite Forall_forall in Hrange.
        pose proof (Hrange c ltac:(by apply list_elem_of_In)) as Hc'.
        simpl in Hc'. assert (s = c) by lia. by subst.
    + intros i Hi. rewrite Hkeep.
      * apply list_lookup_insert_ne. intros E.
        apply (Hi s); [by left|done].
      * intros c Hc. apply Hi. by right.
    + intros Hstrict c Hc.
      assert (Hv : v = 0).
      { rewrite Hstrict in Estrict. cbn [negb] in Estrict.
        rewrite andb_true_r in Estrict.
        destruct (v =? 0) eqn:E; [lia|discriminate]. }
      subst v.
      apply elem_of_cons in Hc as [->|Hc]; [done|].
      pose proof (Hclear Hstrict c Hc) as Hc0.
      destruct (decide (Z.to_nat s = Z.to_nat c)) as [E|Hne].
      * by rewrite <- E.
      * by rewrite list_lookup_insert_ne in Hc0.
Qed.

Section AnyTable.

Variable fs : str -> option bytes.

(** The bytes that the fragments of a walk give, read as the caller of
    [_locate_stream] reads them. *)
Lemma walk_result_content (mem : bytes) (path : option str) (ss size : Z)
    (chain : list Z) sl sp ep p' :
  0 < ss ->
  chain <> [] ->
  Forall (fun c => 0 <= c) chain ->
  Forall (sector_within mem 512 ss) chain ->
  foldl (walk_step 512 ss) ([], -9999, -8888, -99) chain = (sl, sp, ep, p') ->
  Z.of_nat (length chain) = (size + ss - 1) / ss ->
  (1024 * 1024 * 90 <= size -> exists f, path = Some f /\ fs f = Some mem) ->
  match sl with
  | [] => read_located fs (Backing mem) sp size
  | _ =>
      if size <? 1024 * 1024 * 90 then
        read_located fs (Owned (join_slices mem (sl ++ [(sp, ep)]))) 0 size
      else
        read_located fs
          (Scattered (ScatteredMemory_init path (sl ++ [(sp, ep)]))) 0 size
  end
  = Return (stream_content mem 512 ss chain size).
Proof.
  intros Hss Hne Hnn Hin Hfold Hlen Hfile.
  pose proof (ceil_div_covers size ss Hss) as Hceil.
  destruct chain as [|c rest]; [done|].
  apply Forall_cons_1 in Hnn as [Hc Hnn'].
  pose proof Hin as Hin0. apply Forall_cons_1 in Hin0 as [Hcin Hin'].
  set (acc1 := ([] : list (Z * Z), 512 + c * ss, 512 + c * ss + ss, c)).
  assert (Hfold1 : foldl (walk_step 512 ss) acc1 rest = (sl, sp, ep, p')).
  { rewrite <- Hfold. simpl. destruct (c =? -99 + 1) eqn:E; [lia|]. reflexivity. }
  assert (Hmul : 0 <= c * ss) by nia.
  assert (Hok1 : acc_ok mem 512 ss acc1).
  { right. split; [done|]. split; [lia|]. apply Forall_singleton.
    unfold within, sector_within in *. simpl. lia. }
  destruct (walk_fold_ok mem 512 ss ltac:(lia) Hss rest acc1 Hok1 Hnn' Hin')
    as [Hok Hbytes].
  pose proof (walk_fold_p_nonneg 512 ss rest acc1 Hc Hnn') as Hp'.
  rewrite Hfold1 in Hok, Hbytes, Hp'. simpl in Hp'.
  assert (Hbytes' : join_slices mem (sl ++ [(sp, ep)])
                    = concat (sector mem 512 ss <$> c :: rest)).
  { unfold acc_bytes, acc1 in Hbytes.
    destruct (p' >=? 0) eqn:E; [|lia]. destruct (c >=? 0) eqn:E'; [|lia].
    rewrite Hbytes. unfold join_slices at 1. simpl. by rewrite app_nil_r. }
  destruct Hok as [[? _]|(_ & Hep & Hall)]; [lia|].
  pose proof (sectors_length mem 512 ss (c :: rest) ltac:(lia) Hss
                ltac:(by constructor) Hin) as Htotal.
  rewrite <- Hbytes' in Htotal.
  rewrite join_slices_length in Htotal by done.
  rewrite <- Hlen in Hceil. rewrite length_cons in Hceil, Htotal, Hlen.
  assert (Hsize : 0 < size).
  { destruct (decide (0 < size)) as [|Hle]; [done|].
    assert ((size + ss - 1) / ss < 1); [|lia].
    apply Z.div_lt_upper_bound; lia. }
  destruct sl as [|x sl'].
  - unfold read_located, stream_content. f_equal.
    rewrite <- Hbytes'. unfold join_slices. simpl. rewrite app_nil_r.
    apply Forall_singleton in Hall as [Hse Hlast]. simpl in Hse, Hlast.
    unfold sum, size_of in Htotal. simpl in Htotal.
    apply slice_take_prefix; lia.
  - destruct (size <? 1024 * 1024 * 90) eqn:Ebig.
    + unfold read_located, stream_content. f_equal.
      rewrite Hbytes'. rewrite Z.add_0_l. apply slice_0. lia.
    + destruct (Hfile ltac:(lia)) as (f & -> & Hf).
      unfold read_located, stream_content.
      rewrite (getitem_slice_joined fs f mem) by (done || lia).
      f_equal. rewrite Hbytes'. rewrite Z.add_0_l. apply slice_0. lia.
Qed.

(** X10.  [_locate_stream] always ends, whatever the allocation table
    holds and whether or not revisits are tolerated: the walk counts the
    sectors it passes and raises as soon as there is one more than the
    expected size calls for, so that it takes at most
    [found_limit + 1] turns, [found_limit] being the number of sectors of
    the expected size. *)
Theorem locate_stream_walk_bounded fuel (self : CompDoc) (mem : bytes)
    base sat sec_size start_sid size qname seen_id :
  (Z.to_nat ((size + sec_size - 1) / sec_size) < fuel)%nat ->
  _locate_stream fuel self mem base sat sec_size start_sid size qname seen_id
  <> OutOfFuel.
Proof.
  intros Hfuel. unfold _locate_stream.
  destruct (start_sid <? 0); [discriminate|].
  destruct (decide (sec_size = 0)); [discriminate|].
  pose proof (locate_loop_bounded (ignore_workbook_corruption self) base sat
                sec_size qname seen_id ((size + sec_size - 1) / sec_size)
                fuel start_sid (-99) (-9999) (-8888) [] 0 (seen self)
                ltac:(rewrite Z.sub_0_r; exact Hfuel)) as Hloop.
  destruct (_locate_stream_loop _ _ _ _ _ _ _ _ _ _ _ _ _ _ _)
    as [[[[[[s sp] ep] sl] tot] seen']| |]; [|discriminate|done].
  cbn [bind]. destruct (negb (s =? EOCSID)); [discriminate|].
  destruct (negb (tot =? _)); [discriminate|].
  destruct sl; [discriminate|].
  destruct (size <? 1024 * 1024 * 90); discriminate.
Qed.

(** X11.  Whatever [_locate_stream] returns is the stream that the
    allocation table describes.  When a call on the document's bytes and
    table returns [(buffer, offset, length, seen')], in a file that holds
    every sector that has a mark, then the table gives from [start_sid] a
    chain that ends with the end-of-chain mark after exactly the number of
    sectors the expected size calls for; [length] is the expected size;
    [buffer[offset : offset + length]] is the content of that chain cut at
    the expected size; and the call has left [seen_id] on the sectors of
    the chain and has changed no other mark.  When revisits are not
    tolerated, the sectors of the chain had no mark before. *)
Theorem locate_stream_sound fuel (self : CompDoc) qname start_sid size
    seen_id buf off len seen' :
  0 < sec_size self ->
  (forall s, 0 <= s < Z.of_nat (length (seen self)) ->
             sector_within (mem self) 512 (sec_size self) s) ->
  (1024 * 1024 * 90 <= size ->
   exists f, xls_path self = Some f /\ fs f = Some (mem self)) ->
  _locate_stream fuel self (mem self) 512 (SAT self) (sec_size self)
    start_sid size qname seen_id
  = Return (buf, off, len, seen') ->
  exists chain,
    chain_from (SAT self) start_sid chain
    /\ Z.of_nat (length chain) = (size + sec_size self - 1) / sec_size self
    /\ len = size
    /\ read_located fs buf off len
       = Return (stream_content (mem self) 512 (sec_size self) chain size)
    /\ length seen' = length (seen self)
    /\ (forall c, c ∈ chain -> seen' !! Z.to_nat c = Some seen_id)
    /\ (forall i : nat, (forall c, c ∈ chain -> i <> Z.to_nat c) ->
          seen' !! i = seen self !! i)
    /\ (ignore_workbook_corruption self = false ->
        forall c, c ∈ chain -> seen self !! Z.to_nat c = Some 0).
Proof.
  intros Hss Hfile_secs Hfile Hrun.
  unfold _locate_stream in Hrun.
  destruct (start_sid <? 0) eqn:Estart; [discriminate|].
  destruct (decide (sec_size self = 0)); [lia|].
  destruct (_locate_stream_loop _ _ _ _ _ _ _ _ _ _ _ _ _ _ _)
    as [[[[[[s sp] ep] sl] tot] seen1]| |] eqn:Hloop; [|discriminate..].
  cbn [bind] in Hrun.
  destruct (s =? EOCSID) eqn:Eend; [|discriminate]. cbn [negb] in Hrun.
  destruct (tot =? (size + sec_size self - 1) / sec_size self) eqn:Etot;
    [|discriminate].
  cbn [negb] in Hrun.
  assert (s = EOCSID) by lia. subst s.
  destruct (locate_loop_returns _ _ _ _ _ _ _ _ _ _ _ _ _ _ _ _ _ _ _ _ _ Hloop)
    as (chain & p' & Hch & _ & Htot & Hfold & Hlen & Hrange & Hmark & Hkeep
        & Hclear).
  specialize (Hch [] eq_refl). rewrite app_nil_r in Hch.
  assert (Hne : chain <> []).
  { intros ->. simpl in Hch. unfold EOCSID in Hch. lia. }
  assert (Hcount : Z.of_nat (length chain)
                   = (size + sec_size self - 1) / sec_size self) by lia.
  pose proof (chain_from_nonneg _ _ _ Hch) as Hnn.
  assert (Hin : Forall (sector_within (mem self) 512 (sec_size self)) chain).
  { rewrite Forall_forall in Hrange |- *. intros c Hc.
    apply Hfile_secs. exact (Hrange c Hc). }
  pose proof (walk_result_content (mem self) (xls_path self) (sec_size self)
                size chain sl sp ep p' Hss Hne Hnn Hin Hfold Hcount Hfile)
    as Hcontent.
  exists chain.
  assert (Hres : len = size
                 /\ read_located fs buf off len
                    = Return (stream_content (mem self) 512 (sec_size self)
                                chain size)
                 /\ seen' = seen1).
  { destruct sl as [|x sl'].
    - injection Hrun as <- <- <- <-. done.
    - destruct (size <? 1024 * 1024 * 90);
        injection Hrun as <- <- <- <-; done. }
  destruct Hres as (-> & Hread & ->).
  repeat split; try done.
Qed.


End AnyTable.

(** ** [_get_stream] on any allocation table *)

Lemma join_bytes_ends (parts : list pybuf) : join_bytes parts <> OutOfFuel.
Proof.
  induction parts as [|[b|t] r IH]; simpl; [discriminate| |discriminate].
  destruct (join_bytes r); [discriminate..|done].
Qed.

(** Without a mark to leave, the loop of [_get_stream] does not end on a
    chain that never ends. *)
Lemma get_stream_unmarked_cycle (self : CompDoc) (mem : pybuf) base sat
    sec_size start_sid size name (reachable : Z -> Prop) :
  reachable start_sid ->
  (forall s, reachable s ->
     0 <= s /\ exists n, sat !! Z.to_nat s = Some n /\ reachable n) ->
  forall fuel,
    _get_stream fuel self mem base sat sec_size start_sid size name None
    = OutOfFuel.
Proof.
  intros Hstart Hclosed fuel.
  assert (Hunsized : forall fuel s sectors seen,
             reachable s ->
             _get_stream_unsized fuel mem base sat sec_size name None s
               sectors seen = OutOfFuel).
  { clear fuel. induction fuel as [|fuel IH]; intros s sectors seen Hs;
      destruct (Hclosed _ Hs) as [Hs0 (n & Hn & Hnext)];
      cbn [_get_stream_unsized]; (destruct (s >=? 0) eqn:Es; [|lia]);
      [reflexivity|].
    cbn [mark_seen bind]. unfold next_sid.
    rewrite getitem_nonneg by lia. rewrite Hn. cbn [bind]. by apply IH. }
  assert (Hsized : forall fuel s todo sectors seen,
             reachable s ->
             _get_stream_sized fuel mem base sat sec_size name None s todo
               sectors seen = OutOfFuel).
  { clear fuel. induction fuel as [|fuel IH]; intros s todo sectors seen Hs;
      destruct (Hclosed _ Hs) as [Hs0 (n & Hn & Hnext)];
      cbn [_get_stream_sized]; (destruct (s >=? 0) eqn:Es; [|lia]);
      [reflexivity|].
    cbn [mark_seen bind]. unfold next_sid.
    rewrite getitem_nonneg by lia. rewrite Hn. cbn [bind]. by apply IH. }
  unfold _get_stream. destruct size as [size|].
  - by rewrite Hsized.
  - by rewrite Hunsized.
Qed.

(** X13.  A short stream whose chain in the short-sector table never ends
    is read for ever.  For a stream that the directory lookup finds and
    whose size is below [min_size_std_stream], [locate_named_stream] and
    [get_named_stream] read the short-stream container through
    [_get_stream] with no mark to leave and no count of the sectors
    passed: when the sectors reachable from the stream's first sector all
    have a successor in the table (a cycle, for one), no number of turns
    of the loop is enough. *)
Theorem short_stream_cycle_never_ends (lower : str -> str) (self : CompDoc)
    qname d (reachable : Z -> Prop) :
  _dir_search lower self (split 47%N qname) 0 = Return (Some d) ->
  tot_size d <= mem_data_len self ->
  tot_size d < min_size_std_stream self ->
  reachable (first_SID d) ->
  (forall s, reachable s ->
     0 <= s /\ exists n, SSAT self !! Z.to_nat s = Some n /\ reachable n) ->
  forall fuel,
    locate_named_stream lower fuel self qname = OutOfFuel
    /\ get_named_stream lower fuel self qname = OutOfFuel.
Proof.
  intros Hdir Hlen Hshort Hstart Hclosed fuel.
  pose proof (get_stream_unmarked_cycle self (SSCS self) 0 (SSAT self)
                (short_sec_size self) (first_SID d) (Some (tot_size d))
                (qname ++ u " (from SSCS)") reachable Hstart Hclosed fuel)
    as Hrun.
  unfold locate_named_stream, get_named_stream. rewrite Hdir. cbn [bind].
  destruct (tot_size d >? mem_data_len self) eqn:E1; [lia|].
  destruct (tot_size d >=? min_size_std_stream self) eqn:E2; [lia|].
  rewrite Hrun. done.
Qed.

(** X14.  [_get_stream] called with a mark to leave that is not 0 always
    ends: every turn of the loop marks a sector that had no mark, so that
    there are no more turns than sectors without a mark. *)
Theorem get_stream_marked_bounded fuel (self : CompDoc) (mem : pybuf) base
    sat sec_size start_sid size name (seen_id : Z) :
  seen_id <> 0 ->
  (unmarked (seen self) < fuel)%nat ->
  _get_stream fuel self mem base sat sec_size start_sid size name
    (Some seen_id)
  <> OutOfFuel.
Proof.
  intros Hid Hfuel.
  assert (Hstep : forall seen s,
             0 <= s ->
             (exists seen1,
                 mark_seen name (Some seen_id) seen s = Return seen1
                 /\ S (unmarked seen1) = unmarked seen)
             \/ exists e, mark_seen name (Some seen_id) seen s = Raise e).
  { intros seen s Hs. unfold mark_seen. rewrite getitem_nonneg by lia.
    destruct (seen !! Z.to_nat s) as [v|] eqn:Ev; [|right; by eexists].
    cbn [bind]. destruct (decide (v = 0)) as [->|]; [|right; by eexists].
    pose proof (lookup_lt_Some _ _ _ Ev) as Hlt.
    unfold array_B_setitem. destruct (s <? 0) eqn:E; [lia|]. rewrite E.
    destruct (Z.of_nat (length seen) <=? s) eqn:E1; [lia|]. cbn [orb].
    destruct ((seen_id <? 0) || (255 <? seen_id)); [right; by eexists|].
    left. eexists. split; [reflexivity|]. by apply unmarked_mark. }
  assert (Hunsized : forall fuel s sectors seen,
             (unmarked seen < fuel)%nat ->
             _get_stream_unsized fuel mem base sat sec_size name
               (Some seen_id) s sectors seen <> OutOfFuel).
  { clear fuel Hfuel. induction fuel as [|fuel IH];
      intros s sectors seen Hfuel; [lia|].
    cbn [_get_stream_unsized]. destruct (s >=? 0) eqn:Es; [|discriminate].
    destruct (Hstep seen s ltac:(lia)) as [(seen1 & -> & Hless)|[e ->]];
      [|discriminate].
    cbn [bind]. unfold next_sid.
    destruct (getitem sat s) as [n| |]; cbn [bind]; [|discriminate..].
    apply IH. lia. }
  assert (Hsized : forall fuel s todo sectors seen,
             (unmarked seen < fuel)%nat ->
             _get_stream_sized fuel mem base sat sec_size name
               (Some seen_id) s todo sectors seen <> OutOfFuel).
  { clear fuel Hfuel. induction fuel as [|fuel IH];
      intros s todo sectors seen Hfuel; [lia|].
    cbn [_get_stream_sized]. destruct (s >=? 0) eqn:Es; [|discriminate].
    destruct (Hstep seen s ltac:(lia)) as [(seen1 & -> & Hless)|[e ->]];
      [|discriminate].
    cbn [bind]. unfold next_sid.
    destruct (getitem sat s) as [n| |]; cbn [bind]; [|discriminate..].
    apply IH. lia. }
  unfold _get_stream. destruct size as [size|].
  - pose proof (Hsized fuel start_sid size [] (seen self) Hfuel) as Hrun.
    destruct (_get_stream_sized _ _ _ _ _ _ _ _ _ _ _)
      as [[[[s todo] sectors] seen']| |]; [|discriminate|done].
    cbn [bind]. destruct (decide (s = EOCSID)); [|discriminate].
    pose proof (join_bytes_ends sectors) as Hj.
    destruct (join_bytes sectors); cbn [bind]; [discriminate..|done].
  - pose proof (Hunsized fuel start_sid [] (seen self) Hfuel) as Hrun.
    destruct (_get_stream_unsized _ _ _ _ _ _ _ _ _ _)
      as [[[s sectors] seen']| |]; [|discriminate|done].
    cbn [bind]. destruct (decide (s = EOCSID)); [|discriminate].
    pose proof (join_bytes_ends sectors) as Hj.
    destruct (join_bytes sectors); cbn [bind]; [discriminate..|done].
Qed.

(** ** [get_named_stream]: the stream as one new [bytes] object *)


Section NamedStream.

Variable lower : str -> str.


End NamedStream.

(** ** The walks at concrete documents *)

Import more_examples.

Lemma locate_stream_walk_bounded_witness :
  _locate_stream 3 lenient_cyclic_doc (compdoc.mem lenient_cyclic_doc) 512
    [1; 0] 512 0 700 (u "Workbook") 7
  <> OutOfFuel.
Proof.
  apply (locate_stream_walk_bounded 3 lenient_cyclic_doc
           (compdoc.mem lenient_cyclic_doc) 512 [1; 0] 512 0 700
           (u "Workbook") 7).
  vm_compute. lia.
Defined.

Lemma locate_stream_sound_witness :
  exists chain,
    chain_from (SAT frag_doc) 2 chain
    /\ Z.of_nat (length chain) = (700 + sec_size frag_doc - 1) / sec_size frag_doc
    /\ 700 = 700
    /\ read_located example_fs
         (Owned (replicate 512 Byte.x43 ++ replicate 512 Byte.x41)) 0 700
       = Return (stream_content (compdoc.mem frag_doc) 512 (sec_size frag_doc)
                   chain 700)
    /\ length [7; 3; 7] = length (seen frag_doc)
    /\ (forall c, c ∈ chain -> [7; 3; 7] !! Z.to_nat c = Some 7)
    /\ (forall i : nat, (forall c, c ∈ chain -> i <> Z.to_nat c) ->
          [7; 3; 7] !! i = seen frag_doc !! i)
    /\ (ignore_workbook_corruption frag_doc = false ->
        forall c, c ∈ chain -> seen frag_doc !! Z.to_nat c = Some 0).
Proof.
  apply (locate_stream_sound example_fs 3 frag_doc (u "Workbook") 2 700 7
           (Owned (replicate 512 Byte.x43 ++ replicate 512 Byte.x41)) 0 700
           [7; 3; 7]).
  - simpl. lia.
  - intros s Hs. unfold sector_within. simpl in *. lia.
  - intros Hbig. lia.
  - vm_compute. reflexivity.
Defined.


Lemma short_stream_cycle_never_ends_witness :
  locate_named_stream ascii_lower 1000 short_cyclic_doc (u "Workbook")
  = OutOfFuel
  /\ get_named_stream ascii_lower 1000 short_cyclic_doc (u "Workbook")
     = OutOfFuel.
Proof.
  apply (short_stream_cycle_never_ends ascii_lower short_cyclic_doc
           (u "Workbook") (stream_node 1 "Workbook" 0 100)
           (fun s => s = 0 \/ s = 1)).
  - vm_compute. reflexivity.
  - simpl. lia.
  - simpl. lia.
  - by left.
  - intros s [->| ->]; (split; [lia|]).
    + exists 1. split; [reflexivity|by right].
    + exists 0. split; [reflexivity|by left].
Defined.

Lemma get_stream_marked_bounded_witness :
  _get_stream 3 lenient_cyclic_doc (PyBytes (compdoc.mem lenient_cyclic_doc))
    512 [1; 0] 512 0 None (u "directory") (Some 3)
  <> OutOfFuel.
Proof.
  apply (get_stream_marked_bounded 3 lenient_cyclic_doc
           (PyBytes (compdoc.mem lenient_cyclic_doc)) 512 [1; 0] 512 0 None
           (u "directory") 3).
  - lia.
  - vm_compute. lia.
Defined.

(** ** The theorems at concrete documents *)


Lemma dir_search_outcomes_witness :
  _dir_search ascii_lower small_doc [u "WORKBOOK"; u "no such child"] 0
  = Return (Some (stream_node 1 "Workbook" 0 512)).
Proof.
  apply (proj1 (proj2 (dir_search_outcomes ascii_lower small_doc
                         (u "WORKBOOK") [u "no such child"] 0
                         (root_node [1] (-2) 0) eq_refl)
                  [] 1 [] (stream_node 1 "Workbook" 0 512)
                  eq_refl (Forall_nil _) eq_refl eq_refl)).
  reflexivity.
Defined.

Lemma locate_named_stream_content_witness :
  exists buf off seen',
    locate_named_stream ascii_lower 3 frag_doc (u "Workbook")
    = Return (buf, off, 700, seen')
    /\ read_located example_fs buf off 700
       = Return (stream_content (compdoc.mem frag_doc) 512 512 [2; 0] 700)
    /\ (contiguous [2; 0] ->
        buf = Backing (compdoc.mem frag_doc) /\ off = 512 + 2 * 512)
    /\ (~ contiguous [2; 0] ->
        off = 0 /\
        exists sl,
          (700 < 1024 * 1024 * 90 ->
           buf = Owned (join_slices (compdoc.mem frag_doc) sl))
          /\ (1024 * 1024 * 90 <= 700 ->
              buf = Scattered (ScatteredMemory_init (xls_path frag_doc) sl))).
Proof.
  apply (proj1 (locate_named_stream_content ascii_lower example_fs 3 frag_doc
                  (u "Workbook") (stream_node 1 "Workbook" 2 700) [2; 0]
                  ltac:(vm_compute; reflexivity) ltac:(simpl; lia)
                  ltac:(simpl; lia))).
  - simpl. lia.
  - simpl. lia.
  - simpl. lia.
  - simpl. repeat split; try lia. exists 0. split; [reflexivity|].
    repeat split; try lia. exists (-2). split; reflexivity.
  - reflexivity.
  - repeat constructor; unfold sector_within; simpl; lia.
  - repeat constructor; exists 0; split; try reflexivity; by left.
  - right. apply NoDup_cons_2; [|apply NoDup_singleton].
    intros H. apply list_elem_of_singleton in H. lia.
  - simpl. lia.
  - simpl. lia.
Defined.

Lemma master_and_sector_tables_witness :
  build_MSAT 3 msat_file 8 2 1 1 [0; 0]
  = Return (0 :: replicate 109 (-1), [0; 1], 1)
  /\ Z.of_nat (length (0 :: replicate 109 (-1))) = 109 + 1 * (8 / 4 - 1)
  /\ build_SAT msat_file 8 2 (0 :: replicate 109 (-1)) [0; 1]
     = Return (0 :: replicate 109 (-1), [-3; -4], [2; 1])
  /\ Z.of_nat (length [-3; -4])
     = 8 / 4 * Z.of_nat (length (filter (in_file 2) (0 :: replicate 109 (-1))))
  /\ build_MSAT 3 msat_file 8 2 1 1 [0; 0]
     = Return (int32s 109 (slice msat_file 76 512)
                 ++ msatx_entries msat_file 8 [1],
               marked 1 [0; 0] [1], Z.of_nat (length [1])).
Proof.
  assert (E1 : build_MSAT 3 msat_file 8 2 1 1 [0; 0]
               = Return (0 :: replicate 109 (-1), [0; 1], 1))
    by (vm_compute; reflexivity).
  assert (E2 : build_SAT msat_file 8 2 (0 :: replicate 109 (-1)) [0; 1]
               = Return (0 :: replicate 109 (-1), [-3; -4], [2; 1]))
    by (vm_compute; reflexivity).
  pose proof (master_and_sector_tables 3 msat_file 8 2 1 1 [0; 0]
                ltac:(lia) ltac:(vm_compute; lia)) as (_ & _ & _ & H & Hchain).
  destruct (H _ _ _ E1) as [Hlen HSAT].
  destruct (HSAT _ _ _ E2) as (_ & _ & Hcount).
  split; [exact E1|]. split; [exact Hlen|]. split; [exact E2|].
  split; [exact Hcount|].
  apply (Hchain [1]).
  - vm_compute. lia.
  - reflexivity.
  - lia.
  - split; [done|]. exists [-1], (-2). split; [vm_compute; reflexivity|].
    by left.
  - constructor; [|constructor].
    split; [lia|]. split; [unfold sector_within; vm_compute; discriminate|].
    reflexivity.
  - apply NoDup_singleton.
  - lia.
Defined.
End compdoc_facts.

(** * Properties of the workbook reader *)

Module book_facts.

Import book examples sst_examples py_facts.

Lemma slice_length_nonneg {A} (l : list A) (a b : Z) :
  0 <= a <= b ->
  Z.of_nat (length (slice l a b))
  = Z.min (b - a) (Z.max 0 (Z.of_nat (length l) - a)).
Proof.
  intros Hab. rewrite slice_nonneg by lia.
  rewrite length_take, length_drop. lia.
Qed.

Section Cursor.

Context {Sheet Ext : Type}.

(** C2, as the code has it.  With fewer than 4 bytes left in the buffer,
    [get_record_parts] raises [struct.error] (the header cannot be
    unpacked); it returns no end-of-stream marker.  The marker [MY_EOF]
    is what the two-byte reader [get2bytes] returns, without raising, when
    fewer than 2 bytes are left, the cursor moving past the bytes that were
    there; and with 4 bytes or more [get_record_parts] returns a record. *)
Theorem cursor_at_end_of_stream (self : Book Sheet Ext) (m : bytes) :
  mem self = Some m ->
  0 <= _position self ->
  (Z.of_nat (length m) - _position self < 4 ->
   get_record_parts self = Raise struct_error)
  /\ (Z.of_nat (length m) - _position self < 2 ->
      get2bytes self
      = Return (MY_EOF,
                set_position self
                  (_position self
                   + Z.max 0 (Z.of_nat (length m) - _position self))))
  /\ (4 <= Z.of_nat (length m) - _position self ->
      exists code len data,
        get_record_parts self
        = Return (code, len, data,
                  set_position self (_position self + 4 + len))).
Proof.
  intros Hm Hpos. split; [|split].
  - intros Hleft. unfold get_record_parts, mem_slice. rewrite Hm. cbn [bind].
    unfold unpack_HH.
    pose proof (slice_length_nonneg m (_position self) (_position self + 4)
                  ltac:(lia)) as Hlen.
    destruct (decide _) as [E|E]; [lia|]. reflexivity.
  - intros Hleft. unfold get2bytes, mem_slice. rewrite Hm. cbn [bind].
    pose proof (slice_length_nonneg m (_position self) (_position self + 2)
                  ltac:(lia)) as Hlen.
    destruct (_ <? 2) eqn:E; [|lia]. do 3 f_equal. lia.
  - intros Hleft. unfold get_record_parts, mem_slice. rewrite Hm. cbn [bind].
    unfold unpack_HH.
    pose proof (slice_length_nonneg m (_position self) (_position self + 4)
                  ltac:(lia)) as Hlen.
    destruct (decide _) as [E|E]; [|lia]. cbn [bind]. eauto.
Qed.

End Cursor.

(** C2 as stated fails: with three bytes left, [get_record_parts] raises;
    it returns nothing, and no end-of-stream marker. *)
Lemma get_record_parts_raises_at_end :
  get_record_parts (book_on (B [10; 0; 0]) 0) = Raise struct_error
  /\ ~ exists r, get_record_parts (book_on (B [10; 0; 0]) 0) = Return r.
Proof.
  split; [reflexivity|]. intros [r H]. discriminate.
Qed.

Lemma cursor_at_end_of_stream_witness :
  get_record_parts (book_on (B [10; 0; 0]) 0) = Raise struct_error
  /\ get2bytes (book_on (B [10; 0; 0]) 3)
     = Return (MY_EOF, set_position (book_on (B [10; 0; 0]) 3) (3 + Z.max 0 0)).
Proof.
  split.
  - apply (proj1 (cursor_at_end_of_stream (book_on (B [10; 0; 0]) 0)
                    (B [10; 0; 0]) eq_refl ltac:(simpl; lia))).
    simpl. lia.
  - apply (proj1 (proj2 (cursor_at_end_of_stream (book_on (B [10; 0; 0]) 3)
                           (B [10; 0; 0]) eq_refl ltac:(simpl; lia)))).
    simpl. lia.
Defined.

(** ** Sheets after the release of resources *)

Section Release.

Context {Sheet Ext : Type}.
Context `{Biffh} `{Interpreter} `{Collaborators Sheet Ext}.

Lemma get_sheet_released (bk : Book Sheet Ext) (n : Z) (up : bool) :
  _resources_released bk <> 0 -> get_sheet bk n up = Raise cant_load.
Proof.
  intros Hrel. unfold get_sheet.
  destruct (_resources_released bk =? 0) eqn:E; [lia|]. reflexivity.
Qed.

Lemma sheets_loop_released (bk : Book Sheet Ext) (pre post : list Z) (k : Z) :
  _resources_released bk <> 0 ->
  Forall (fun j => exists sh, getitem (_sheet_list bk) j = Return (Some sh)) pre ->
  getitem (_sheet_list bk) k = Return None ->
  sheets_loop bk (pre ++ k :: post) = Raise cant_load.
Proof.
  intros Hrel Hpre Hk. induction Hpre as [|j pre [sh Hj] _ IH]; simpl.
  - rewrite Hk. cbn [bind]. by rewrite get_sheet_released.
  - rewrite Hj. cbn [bind]. exact IH.
Qed.

(** C10.  [release_resources] sets [_resources_released] and keeps the
    list of decoded sheets, and doing it again changes nothing.  On a
    workbook whose resources are released, [get_sheet] raises [XLRDError]
    ("Can't load sheets after releasing resources.") for every sheet number
    before it reads anything; so do [sheet_by_index] and [sheet_by_name]
    for a sheet whose place in the list holds [None], and [sheets] when it
    comes to such a place; a sheet that is in the list is returned by
    [sheet_by_index], the workbook staying as it is. *)
Theorem no_sheet_loading_after_release (bk : Book Sheet Ext) :
  _resources_released bk <> 0 ->
  (forall self : Book Sheet Ext,
     _resources_released (release_resources self) <> 0
     /\ _sheet_list (release_resources self) = _sheet_list self
     /\ release_resources (release_resources self) = release_resources self)
  /\ (forall n up, get_sheet bk n up = Raise cant_load)
  /\ (forall i,
       getitem (_sheet_list bk) i = Return None ->
       sheet_by_index bk i = Raise cant_load)
  /\ (forall i sh,
       getitem (_sheet_list bk) i = Return (Some sh) ->
       sheet_by_index bk i = Return (sh, bk))
  /\ (forall nm i,
       index_of (_sheet_names bk) nm 0 = Some i ->
       getitem (_sheet_list bk) i = Return None ->
       sheet_by_name bk nm = Raise cant_load)
  /\ (forall k : nat,
       Z.of_nat k < nsheets bk ->
       (forall j : nat, (j < k)%nat ->
          exists sh, getitem (_sheet_list bk) (Z.of_nat j) = Return (Some sh)) ->
       getitem (_sheet_list bk) (Z.of_nat k) = Return None ->
       sheets bk = Raise cant_load).
Proof.
  intros Hrel. split; [|split; [|split; [|split; [|split]]]].
  - intros self. repeat split. simpl. lia.
  - intros n up. by apply get_sheet_released.
  - intros i Hi. unfold sheet_by_index. rewrite Hi. cbn [bind].
    by apply get_sheet_released.
  - intros i sh Hi. unfold sheet_by_index. rewrite Hi. reflexivity.
  - intros nm i Hidx Hi. unfold sheet_by_name. rewrite Hidx.
    unfold sheet_by_index. rewrite Hi. cbn [bind]. by apply get_sheet_released.
  - intros k Hk Hpre Hnone. unfold sheets.
    assert (Hsplit : Z.of_nat <$> seq 0 (Z.to_nat (nsheets bk))
                     = (Z.of_nat <$> seq 0 k) ++ Z.of_nat k
                         :: (Z.of_nat <$> seq (S k) (Z.to_nat (nsheets bk) - S k))).
    { replace (Z.to_nat (nsheets bk))
        with (k + S (Z.to_nat (nsheets bk) - S k))%nat at 1 by lia.
      rewrite seq_app, fmap_app. simpl. reflexivity. }
    rewrite Hsplit, sheets_loop_released; [reflexivity|done| |done].
    apply Forall_fmap, Forall_seq. intros j Hj. simpl. apply Hpre. lia.
Qed.

End Release.

(** A workbook with two sheets of which the first is decoded, after the
    release of its resources. *)
Lemma no_sheet_loading_after_release_witness :
  get_sheet (released_two_sheets) 1 true = Raise cant_load
  /\ sheet_by_index (released_two_sheets) 0
     = Return (u "Sheet1", released_two_sheets)
  /\ sheet_by_index (released_two_sheets) 1 = Raise cant_load
  /\ sheet_by_name (released_two_sheets) (u "Sheet2") = Raise cant_load
  /\ sheets (released_two_sheets) = Raise cant_load.
Proof.
  pose proof (no_sheet_loading_after_release released_two_sheets
                ltac:(simpl; lia)) as (_ & H1 & H2 & H3 & H4 & H5).
  split; [apply H1|]. split; [by apply H3|]. split; [by apply H2|].
  split; [by apply (H4 _ 1)|].
  apply (H5 1%nat); [simpl; lia| |reflexivity].
  intros j Hj. assert (j = 0%nat) by lia. subst j. by exists (u "Sheet1").
Defined.

(** ** The derivation of the encoding *)

Section DeriveEncoding.

Context {Sheet Ext : Type}.
Context `{Biffh} `{Interpreter}.



End DeriveEncoding.


(** ** The version that a BOF record declares *)

Section Version.

Context {Sheet Ext : Type}.
Context `{Biffh} `{Interpreter}.

Lemma bof_version_range (version1 version2 build year streamtype : Z) :
  bof_version version1 version2 build year streamtype
  ∈ [0; 21; 30; 40; 45; 50; 70; 80].
Proof.
  unfold bof_version. repeat case_match; set_solver.
Qed.

Lemma getbof_returns_bof_version (self after : Book Sheet Ext)
    (rqd_stream version : Z) :
  getbof self rqd_stream = Return (version, after) ->
  exists version1 version2 build year streamtype,
    version = bof_version version1 version2 build year streamtype.
Proof.
  unfold getbof, bof_error. intros Hrun.
  repeat match type of Hrun with
         | bind ?m _ = _ =>
             let E := fresh "E" in
             destruct m as [?| |] eqn:E; cbn [bind] in Hrun;
             try discriminate
         | (let '(_, _) := ?p in _) = _ => destruct p
         | (if ?b then _ else _) = _ =>
             let E := fresh "E" in destruct b eqn:E; try discriminate
         | match ?x with _ => _ end = _ =>
             let E := fresh "E" in destruct x eqn:E; try discriminate
         end;
    injection Hrun as <- <-; eauto 10.
Qed.

Lemma getbof_on_record (self after : Book Sheet Ext)
    (opcode version2 streamtype build year rqd_stream : Z) :
  bof_record_at self after opcode version2 streamtype build year ->
  getbof self rqd_stream
  = (let version :=
       bof_version (Z.shiftr opcode 8) version2 build year streamtype in
     let got_globals :=
       (streamtype =? XL_WORKBOOK_GLOBALS)
       || ((version =? 45) && (streamtype =? XL_WORKBOOK_GLOBALS_4W)) in
     if ((rqd_stream =? XL_WORKBOOK_GLOBALS) && got_globals)
        || (streamtype =? rqd_stream)
     then Return (version, after)
     else if (version <? 50) && (streamtype =? XL_WORKSHEET) then
       Return (version, after)
     else if (version >=? 50) && (streamtype =? 0x0100) then
       bof_error (u "Workspace file -- no spreadsheet data")
     else
       bof_error (not_workbook_msg opcode version2 streamtype build year
                    version)).
Proof.
  intros (s1 & s2 & length & data & bl & H1 & Hne & Hin & H2 & Hlen & Hbl
          & Hread & Hdata & Hv & Hb).
  unfold getbof. rewrite H1. cbn [bind].
  destruct (opcode =? MY_EOF) eqn:E1; [lia|].
  rewrite bool_decide_eq_true_2 by done. cbn [negb].
  rewrite H2. cbn [bind].
  destruct (length =? MY_EOF) eqn:E2; [unfold MY_EOF in *; lia|].
  destruct (4 <=? length) eqn:E3; [|lia].
  destruct (length <=? 20) eqn:E4; [|lia]. cbn [andb negb].
  rewrite Hbl. cbn [bind]. rewrite Hread. cbn [bind].
  destruct (Z.of_nat (List.length data) <? length) eqn:E5; [lia|].
  rewrite Hv. cbn [bind]. rewrite Hb. cbn [bind]. reflexivity.
Qed.

(** C5, as the code has it.  The version that [getbof] works out is: 80
    for the version word 0x0600; for 0x0500, 50 when the year is before
    1994 or the build is 2412, 3218 or 3321, and 70 otherwise; 21 for the
    version words 0x0000, 0x0007 and 0x0200, 30 for 0x0300 and 40 for
    0x0400; 40, 30 and 21 for the high bytes 0x04, 0x02 and 0x00 of the
    record code; and 45 in place of 40 when the stream type is that of the
    4W globals.  The result is always one of 0, 21, 30, 40, 45, 50, 70 and
    80: [getbof] never gives 20; it is 0 for every other high byte of the
    record code and, with the high byte 0x08, for every other version
    word.  On a BOF record, [getbof] returns that
    version when the stream kind is accepted; otherwise it raises
    [XLRDError], with the text "Workspace file -- no spreadsheet data" for
    the stream type 0x0100 and a version of 50 or more, and with the
    record's fields otherwise.  A version 0 that [getbof] returns for the
    workbook globals makes [open_workbook_xls] raise [XLRDError]; any other
    version it returns becomes [biff_version]. *)
Theorem getbof_versions :
  (forall b y st, bof_version 8 0x0600 b y st = 80)
  /\ (forall b y st,
        y < 1994 \/ b = 2412 \/ b = 3218 \/ b = 3321 ->
        bof_version 8 0x0500 b y st = 50)
  /\ (forall b y st,
        1994 <= y -> b <> 2412 -> b <> 3218 -> b <> 3321 ->
        bof_version 8 0x0500 b y st = 70)
  /\ (forall v2 b y st,
        v2 = 0x0000 \/ v2 = 0x0007 \/ v2 = 0x0200 ->
        bof_version 8 v2 b y st = 21)
  /\ (forall b y st, bof_version 8 0x0300 b y st = 30)
  /\ (forall b y st,
        st <> XL_WORKBOOK_GLOBALS_4W -> bof_version 8 0x0400 b y st = 40)
  /\ (forall v2 b y st,
        st <> XL_WORKBOOK_GLOBALS_4W -> bof_version 4 v2 b y st = 40)
  /\ (forall v2 b y st, bof_version 2 v2 b y st = 30)
  /\ (forall v2 b y st, bof_version 0 v2 b y st = 21)
  /\ (forall v1 v2 b y,
        v1 = 4 \/ (v1 = 8 /\ v2 = 0x0400) ->
        bof_version v1 v2 b y XL_WORKBOOK_GLOBALS_4W = 45)
  /\ (forall v1 v2 b y st,
        bof_version v1 v2 b y st ∈ [0; 21; 30; 40; 45; 50; 70; 80])
  /\ (forall v1 v2 b y st,
        (v1 <> 8 /\ v1 <> 4 /\ v1 <> 2 /\ v1 <> 0)
        \/ (v1 = 8 /\ v2 <> 0x0600 /\ v2 <> 0x0500 /\ v2 <> 0x0000
            /\ v2 <> 0x0007 /\ v2 <> 0x0200 /\ v2 <> 0x0300
            /\ v2 <> 0x0400) ->
        bof_version v1 v2 b y st = 0)
  /\ (forall (self after : Book Sheet Ext) rqd_stream version,
        getbof self rqd_stream = Return (version, after) ->
        version ∈ [0; 21; 30; 40; 45; 50; 70; 80])
  /\ (forall (self after : Book Sheet Ext) opcode v2 st b y rqd_stream,
        bof_record_at self after opcode v2 st b y ->
        (kind_accepted rqd_stream (bof_version (Z.shiftr opcode 8) v2 b y st) st ->
         getbof self rqd_stream
         = Return (bof_version (Z.shiftr opcode 8) v2 b y st, after))
        /\ (~ kind_accepted rqd_stream
               (bof_version (Z.shiftr opcode 8) v2 b y st) st ->
            50 <= bof_version (Z.shiftr opcode 8) v2 b y st ->
            st = 0x0100 ->
            getbof self rqd_stream
            = bof_error (u "Workspace file -- no spreadsheet data"))
        /\ (~ kind_accepted rqd_stream
               (bof_version (Z.shiftr opcode 8) v2 b y st) st ->
            ~ (50 <= bof_version (Z.shiftr opcode 8) v2 b y st
               /\ st = 0x0100) ->
            getbof self rqd_stream
            = bof_error (not_workbook_msg opcode v2 st b y
                           (bof_version (Z.shiftr opcode 8) v2 b y st))))
  /\ (forall bk bk' : Book Sheet Ext,
        getbof bk XL_WORKBOOK_GLOBALS = Return (0, bk') ->
        open_workbook_xls_version bk
        = Raise (XLRDError (u "Can't determine file's BIFF version")))
  /\ (forall (bk bk' : Book Sheet Ext) version,
        getbof bk XL_WORKBOOK_GLOBALS = Return (version, bk') ->
        version <> 0 ->
        open_workbook_xls_version bk = Return (set_biff_version bk' version)).
Proof.
  repeat match goal with |- _ /\ _ => split end.
  - intros. reflexivity.
  - intros b y st Hy. unfold bof_version. simpl.
    assert (E : (y <? 1994) || (b =? 2412) || (b =? 3218) || (b =? 3321) = true).
    { destruct Hy as [?|[->|[->| ->]]]; rewrite ?orb_true_r; try reflexivity.
      destruct (y <? 1994) eqn:E; [reflexivity|lia]. }
    rewrite E. reflexivity.
  - intros b y st Hy H1 H2 H3. unfold bof_version. simpl.
    destruct (y <? 1994) eqn:E0; [lia|].
    destruct (b =? 2412) eqn:E1; [lia|]. destruct (b =? 3218) eqn:E2; [lia|].
    destruct (b =? 3321) eqn:E3; [lia|]. reflexivity.
  - intros v2 b y st [->|[->| ->]]; reflexivity.
  - intros. reflexivity.
  - intros b y st Hst. unfold bof_version. simpl.
    destruct (st =? XL_WORKBOOK_GLOBALS_4W) eqn:E; [lia|]. reflexivity.
  - intros v2 b y st Hst. unfold bof_version. simpl.
    destruct (st =? XL_WORKBOOK_GLOBALS_4W) eqn:E; [lia|]. reflexivity.
  - intros. reflexivity.
  - intros. reflexivity.
  - intros v1 v2 b y [->|[-> ->]]; unfold bof_version; simpl;
      by rewrite Z.eqb_refl.
  - apply bof_version_range.
  - intros v1 v2 b y st Hother. unfold bof_version.
    destruct Hother as [(N8 & N4 & N2 & N0)
                       |(-> & N6 & N5 & N0 & N7 & N2 & N3 & N4)].
    + apply Z.eqb_neq in N8, N4, N2, N0. by rewrite N8, N4, N2, N0.
    + apply Z.eqb_neq in N6, N5, N0, N7, N2, N3, N4.
      rewrite Z.eqb_refl. by rewrite N6, N5, N0, N7, N2, N3, N4.
  - intros self after rqd_stream version Hrun.
    destruct (getbof_returns_bof_version _ _ _ _ Hrun)
      as (v1 & v2 & b & y & st & ->).
    apply bof_version_range.
  - intros self after opcode v2 st b y rqd_stream Hrec.
    rewrite (getbof_on_record _ _ _ _ _ _ _ rqd_stream Hrec). cbv zeta.
    set (version := bof_version (Z.shiftr opcode 8) v2 b y st).
    set (c1 := ((rqd_stream =? XL_WORKBOOK_GLOBALS)
                && ((st =? XL_WORKBOOK_GLOBALS)
                    || ((version =? 45) && (st =? XL_WORKBOOK_GLOBALS_4W))))
               || (st =? rqd_stream)).
    set (c2 := (version <? 50) && (st =? XL_WORKSHEET)).
    set (c3 := (version >=? 50) && (st =? 256)).
    assert (Hiff : kind_accepted rqd_stream version st
                   <-> (c1 = true \/ c2 = true)).
    { unfold kind_accepted, c1, c2.
      rewrite !orb_true_iff, !andb_true_iff, !orb_true_iff, !andb_true_iff.
      rewrite !Z.eqb_eq, Z.ltb_lt. tauto. }
    assert (H3 : c3 = true <-> (50 <= version /\ st = 256)).
    { unfold c3. rewrite andb_true_iff, Z.eqb_eq, Z.geb_le. tauto. }
    repeat split.
    + intros Hacc. apply Hiff in Hacc as [->| ->]; [reflexivity|].
      by destruct c1.
    + intros Hno Hv Hst.
      destruct c1 eqn:E1; [exfalso; apply Hno, Hiff; by left|].
      destruct c2 eqn:E2; [exfalso; apply Hno, Hiff; by right|].
      destruct c3 eqn:E3; [reflexivity|].
      assert (false = true) by (apply H3; done). discriminate.
    + intros Hno Hv.
      destruct c1 eqn:E1; [exfalso; apply Hno, Hiff; by left|].
      destruct c2 eqn:E2; [exfalso; apply Hno, Hiff; by right|].
      destruct c3 eqn:E3; [|reflexivity].
      exfalso. apply Hv. by apply H3.
  - intros bk bk' Hrun. unfold open_workbook_xls_version. rewrite Hrun.
    reflexivity.
  - intros bk bk' version Hrun Hne. unfold open_workbook_xls_version.
    rewrite Hrun. cbn [bind].
    destruct (getbof_returns_bof_version _ _ _ _ Hrun)
      as (v1 & v2 & b & y & st & ->).
    pose proof (bof_version_range v1 v2 b y st) as Hr.
    destruct (_ =? 0) eqn:E; [lia|].
    rewrite bool_decide_eq_true_2; [reflexivity|].
    unfold SUPPORTED_VERSIONS. set_solver.
Qed.

End Version.

(** C5 as stated fails for the identifier 20: no BOF record makes [getbof]
    return it, whatever the tables of [biffh] are; the BOF record of a
    BIFF 2 worksheet gives 21. *)
Lemma getbof_never_gives_20 :
  (~ exists (Sheet Ext : Type) (bh : Biffh) (ip : Interpreter)
            (self after : Book Sheet Ext) (rqd_stream : Z),
       getbof self rqd_stream = Return (20, after))
  /\ getbof (book_on bof_biff2 0) XL_WORKSHEET
     = Return (21, book_on bof_biff2 8).
Proof.
  split; [|vm_compute; reflexivity].
  intros (Sheet & Ext & bh & ip & self & after & rqd & Hrun).
  destruct (getbof_returns_bof_version _ _ _ _ Hrun)
    as (v1 & v2 & b & y & st & Hv).
  pose proof (bof_version_range v1 v2 b y st) as Hr. rewrite <- Hv in Hr.
  set_solver.
Qed.

Lemma getbof_versions_witness :
  getbof (book_on bof_biff8 0) XL_WORKBOOK_GLOBALS
  = Return (bof_version 8 0x0600 0x0dbb 0x07cc 0x0005, book_on bof_biff8 20).
Proof.
  pose proof (@getbof_versions str unit xlrd_biffh example_interpreter)
    as (_ & _ & _ & _ & _ & _ & _ & _ & _ & _ & _ & _ & _ & Hrec & _).
  apply (Hrec (book_on bof_biff8 0) (book_on bof_biff8 20) 0x0809 0x0600
           0x0005 0x0dbb 0x07cc XL_WORKBOOK_GLOBALS).
  - exists (book_on bof_biff8 2), (book_on bof_biff8 4), 16,
      (B [0x00; 0x06; 0x05; 0x00; 0xbb; 0x0d; 0xcc; 0x07;
          0x00; 0x00; 0x00; 0x00; 0x06; 0x00; 0x00; 0x00]), 8.
    repeat split; try reflexivity; try (simpl; lia).
    + unfold MY_EOF. lia.
    + simpl. set_solver.
  - left. split; [reflexivity|]. left. reflexivity.
Defined.

(** ** The encryption marker *)

Section Filepass.

Context {Sheet Ext : Type}.
Context `{Biffh} `{Interpreter} `{Collaborators Sheet Ext}.

Lemma unpack_H_cases (bs : bytes) :
  (length bs = 2%nat /\ unpack_H bs = Return (le_uint bs))
  \/ (length bs <> 2%nat /\ unpack_H bs = Raise struct_error).
Proof. unfold unpack_H. destruct (decide _); [left|right]; done. Qed.

Lemma unpack_HH_cases (bs : bytes) :
  (length bs = 4%nat /\ exists r, unpack_HH bs = Return r)
  \/ (length bs <> 4%nat /\ unpack_HH bs = Raise struct_error).
Proof. unfold unpack_HH. destruct (decide _); [left|right]; eauto. Qed.

(** [handle_filepass] never returns: whatever the payload and the
    workbook, it raises. *)
Lemma handle_filepass_raises (data : bytes) (self : Book Sheet Ext) :
  raises (handle_filepass data self).
Proof.
  unfold handle_filepass, raises.
  destruct (_ && _); cbn [bind]; [|eauto].
  destruct (unpack_H_cases (slice data 0 2)) as [[_ ->]|[_ ->]];
    cbn [bind]; [|eauto].
  destruct (_ =? 0).
  - destruct (unpack_HH_cases (slice_from data 2)) as [[_ [r ->]]|[_ ->]];
      cbn [bind]; eauto.
  - destruct (_ =? 1); cbn [bind]; [|eauto].
    destruct (unpack_H_cases (slice data 4 6)) as [[_ ->]|[_ ->]];
      cbn [bind]; eauto.
Qed.

(** The error is "Workbook is encrypted" unless the verbose dump of a
    BIFF8 payload fails first. *)
Lemma handle_filepass_encrypted (data : bytes) (self : Book Sheet Ext) :
  verbosity self < 2 \/ biff_version self < 80
  \/ filepass_payload_dumpable data ->
  handle_filepass data self = Raise (XLRDError (u "Workbook is encrypted")).
Proof.
  intros Hcase. unfold handle_filepass.
  destruct (verbosity self >=? 2) eqn:Ev; [|reflexivity].
  destruct (biff_version self >=? 80) eqn:Eb; [|reflexivity].
  destruct Hcase as [?|[?|(Hlen & Hk0 & Hk1)]]; [lia|lia|]. cbn [andb].
  assert (Hk : slice data 0 2 = take 2 data).
  { rewrite slice_nonneg by lia. reflexivity. }
  rewrite Hk. unfold unpack_H at 1.
  rewrite decide_True by (rewrite length_take; lia). cbn [bind].
  destruct (le_uint (take 2 data) =? 0) eqn:E0.
  - unfold unpack_HH, slice_from, clamp.
    change (2 <? 0) with false. cbv beta iota.
    rewrite decide_True; [reflexivity|].
    rewrite length_drop. specialize (Hk0 ltac:(lia)). lia.
  - destruct (le_uint (take 2 data) =? 1) eqn:E1; [|reflexivity].
    unfold unpack_H. rewrite decide_True; [reflexivity|].
    specialize (Hk1 ltac:(lia)).
    rewrite slice_nonneg by lia. rewrite length_take, length_drop. lia.
Qed.

(** Whatever the workbook and the position of the cursor, a FILEPASS
    record that the loop of [parse_globals] reads goes to
    [handle_filepass], and the loop ends with the error of that handler. *)
Lemma parse_globals_rejects_filepass (fuel : nat) (self after : Book Sheet Ext)
    (length : Z) (data : bytes) :
  filepass_told_apart ->
  get_record_parts self = Return (XL_FILEPASS, length, data, after) ->
  parse_globals_loop (S fuel) self
  = (let* s := handle_filepass data after in parse_globals_loop fuel s)
  /\ raises (parse_globals_loop (S fuel) self).
Proof.
  intros Hd Hrec.
  assert (E : parse_globals_loop (S fuel) self
              = (let* s := handle_filepass data after in
                 parse_globals_loop fuel s)).
  { cbn [parse_globals_loop]. rewrite Hrec. cbn [bind].
    unfold filepass_told_apart in Hd.
    repeat match goal with
           | |- context [XL_FILEPASS =? ?c] =>
               lazymatch c with
               | XL_FILEPASS => fail
               | _ => destruct (XL_FILEPASS =? c) eqn:?;
                      [exfalso; apply Hd;
                       assert (XL_FILEPASS = c) as <- by lia; set_solver|]
               end
           end.
    cbn [orb]. rewrite Z.eqb_refl. reflexivity. }
  split; [exact E|]. rewrite E.
  destruct (handle_filepass_raises data after) as [e ->]. by exists e.
Qed.

End Filepass.

(** C4 on the code: with [verbosity=2], a BIFF8 FILEPASS record whose
    payload is empty makes the verbose dump fail, and the error raised is
    [struct.error], not [XLRDError] "Workbook is encrypted"; the same stream
    read with [verbosity=0] gives that error. *)
Theorem filepass_dump_raises_first :
  handle_filepass [] (verbose_book_on filepass_stream) = Raise struct_error
  /\ parse_globals 3 (verbose_book_on filepass_stream) = Raise struct_error
  /\ parse_globals 3 (quiet_book_on filepass_stream)
     = Raise (XLRDError (u "Workbook is encrypted")).
Proof. repeat split; vm_compute; reflexivity. Qed.

(** ** Shared strings: the codecs on what the encoders write *)

Lemma ord_byte_of (z : Z) : 0 <= z < 256 -> ord (byte_of z) = z.
Proof.
  intros Hz. unfold ord, byte_of.
  destruct (Byte.of_N (Z.to_N z)) as [b|] eqn:E; simpl.
  - apply Byte.to_of_N in E. rewrite E. lia.
  - apply Byte.of_N_None_iff in E. lia.
Qed.

Lemma utf16_units_le16 (us : list Z) :
  Forall (fun w => 0 <= w < 65536) us ->
  utf16_units (concat (le16 <$> us)) = Return us.
Proof.
  induction 1 as [|w us Hw _ IH]; [reflexivity|].
  rewrite fmap_cons. cbn [concat le16 app utf16_units]. rewrite IH.
  rewrite !ord_byte_of.
  - do 2 f_equal. pose proof (Z.div_mod w 256 ltac:(lia)). lia.
  - split; [apply Z.div_pos; lia|apply Z.div_lt_upper_bound; lia].
  - apply Z.mod_pos_bound. lia.
Qed.

Lemma units_of_range (c : N) :
  scalar c -> Forall (fun w => 0 <= w < 65536) (units_of c).
Proof.
  intros Hc. unfold units_of, scalar in *.
  destruct (c <? 65536)%N eqn:E.
  - apply N.ltb_lt in E. constructor; [lia|constructor].
  - apply N.ltb_ge in E.
    assert (Hd : 0 <= (Z.of_N c - 65536) / 1024 < 1024).
    { split; [apply Z.div_pos; lia|apply Z.div_lt_upper_bound; lia]. }
    pose proof (Z.mod_pos_bound (Z.of_N c - 65536) 1024 ltac:(lia)).
    constructor; [lia|]. constructor; [lia|constructor].
Qed.

Lemma text_units_range (t : str) :
  Forall scalar t -> Forall (fun w => 0 <= w < 65536) (text_units t).
Proof.
  induction 1 as [|c t Hc _ IH]; [constructor|].
  unfold text_units. rewrite fmap_cons. simpl. apply Forall_app.
  split; [by apply units_of_range|exact IH].
Qed.

Lemma utf16_code_points_text (t : str) :
  Forall scalar t -> utf16_code_points (text_units t) = Return t.
Proof.
  induction 1 as [|c t Hc _ IH]; [reflexivity|].
  unfold text_units in *. rewrite fmap_cons. cbn [concat].
  unfold scalar in Hc. unfold units_of at 1.
  destruct (c <? 65536)%N eqn:E;
    [apply N.ltb_lt in E|apply N.ltb_ge in E].
  - cbn [app utf16_code_points].
    unfold is_high_surrogate, is_low_surrogate.
    destruct (55296 <=? Z.of_N c) eqn:E1.
    + destruct (Z.of_N c <=? 56319) eqn:E2; [lia|]. cbn [andb].
      destruct (56320 <=? Z.of_N c) eqn:E3; [|lia].
      destruct (Z.of_N c <=? 57343) eqn:E4; [lia|]. cbn [andb].
      rewrite IH. by rewrite N2Z.id.
    + cbn [andb]. destruct (56320 <=? Z.of_N c) eqn:E3; [lia|]. cbn [andb].
      rewrite IH. by rewrite N2Z.id.
  - assert (Hd : 0 <= (Z.of_N c - 65536) / 1024 < 1024).
    { split; [apply Z.div_pos; lia|apply Z.div_lt_upper_bound; lia]. }
    pose proof (Z.mod_pos_bound (Z.of_N c - 65536) 1024 ltac:(lia)) as Hm.
    pose proof (Z.div_mod (Z.of_N c - 65536) 1024 ltac:(lia)) as Hdm.
    cbn [app utf16_code_points].
    unfold is_high_surrogate, is_low_surrogate.
    destruct (55296 <=? 55296 + _) eqn:E1; [|lia].
    destruct (55296 + _ <=? 56319) eqn:E2; [|lia]. cbn [andb].
    destruct (56320 <=? 56320 + _) eqn:E3; [|lia].
    destruct (56320 + _ <=? 57343) eqn:E4; [|lia]. cbn [andb].
    rewrite IH. do 2 f_equal. lia.
Qed.

Lemma decode_encode_utf_16_le (t : str) :
  Forall scalar t -> decode_utf_16_le (encode_utf_16_le t) = Return t.
Proof.
  intros Ht. unfold decode_utf_16_le, encode_utf_16_le.
  rewrite utf16_units_le16 by by apply text_units_range.
  by apply utf16_code_points_text.
Qed.

Lemma decode_encode_latin_1 (t : str) :
  Forall (fun x : N => (x < 256)%N) t ->
  decode_latin_1 (encode_latin_1 t) = t.
Proof.
  induction 1 as [|c t Hc _ IH]; [reflexivity|].
  unfold decode_latin_1, encode_latin_1 in *. rewrite !fmap_cons, IH.
  f_equal. pose proof (ord_byte_of (Z.of_N c) ltac:(lia)) as Ho.
  unfold ord in Ho. lia.
Qed.

Lemma encode_utf_16_le_length (t : str) :
  Z.of_nat (length (encode_utf_16_le t))
  = 2 * Z.of_nat (length (text_units t)).
Proof.
  unfold encode_utf_16_le. induction (text_units t) as [|w us IH];
    [reflexivity|].
  rewrite fmap_cons. cbn [concat le16 app length]. lia.
Qed.

Lemma text_units_latin_1 (t : str) :
  Forall (fun x : N => (x < 256)%N) t ->
  length (text_units t) = length t.
Proof.
  induction 1 as [|c t Hc _ IH]; [reflexivity|].
  unfold text_units in *. rewrite fmap_cons. cbn [concat].
  rewrite length_app, IH. unfold units_of.
  destruct (c <? 65536)%N eqn:E; [reflexivity|apply N.ltb_ge in E; lia].
Qed.

Lemma text_units_app (t t' : str) :
  text_units (t ++ t') = text_units t ++ text_units t'.
Proof. unfold text_units. by rewrite fmap_app, concat_app. Qed.

(** The characters of a run, decoded as the option byte says, are the
    run's text, and the run takes as many places as it has units. *)
Lemma chunk_bytes_length (c : bool * str) :
  chunk_ok c ->
  Z.of_nat (length (chunk_bytes c))
  = (if fst c then 2 else 1) * Z.of_nat (length (text_units (snd c))).
Proof.
  destruct c as [[|] t]; unfold chunk_ok, chunk_bytes; simpl; intros Hok.
  - apply encode_utf_16_le_length.
  - rewrite text_units_latin_1 by done. unfold encode_latin_1.
    rewrite length_fmap. lia.
Qed.

Lemma text_units_nil (t : str) : length (text_units t) = 0%nat -> t = [].
Proof.
  destruct t as [|c t]; [done|]. unfold text_units. rewrite fmap_cons.
  cbn [concat]. rewrite length_app. unfold units_of.
  destruct (c <? 65536)%N; simpl; lia.
Qed.

Lemma places_app (t t' : str) : places (t ++ t') = places t + places t'.
Proof. unfold places. rewrite text_units_app, length_app. lia. Qed.

Lemma places_nonneg (t : str) : 0 <= places t.
Proof. unfold places. lia. Qed.

Lemma places_0 (t : str) : places t = 0 -> t = [].
Proof. unfold places. intros Hp. apply text_units_nil. lia. Qed.

Lemma slice_suffix {A} (pre l : list A) :
  slice (pre ++ l) (Z.of_nat (length pre))
    (Z.of_nat (length pre) + Z.of_nat (length l)) = l.
Proof.
  rewrite slice_nonneg by lia. rewrite Nat2Z.id, drop_app_length.
  apply take_ge. lia.
Qed.

Lemma getitem_within {A} (l : list A) (i : Z) :
  0 <= i < Z.of_nat (length l) -> exists x, getitem l i = Return x.
Proof.
  intros Hi. rewrite getitem_nonneg by lia.
  destruct (lookup_lt_is_Some_2 l (Z.to_nat i) ltac:(lia)) as [x ->].
  by exists x.
Qed.

Lemma unpack_H_le16 (n : Z) : 0 <= n < 65536 -> unpack_H (le16 n) = Return n.
Proof.
  intros Hn. unfold unpack_H, le16. cbn [length].
  destruct (decide (2 = 2)%nat) as [_|]; [|done]. cbn [le_uint].
  rewrite !ord_byte_of.
  - f_equal. pose proof (Z.div_mod n 256 ltac:(lia)). lia.
  - split; [apply Z.div_pos; lia|apply Z.div_lt_upper_bound; lia].
  - apply Z.mod_pos_bound. lia.
Qed.

Lemma SST_chars_S (fuel : nat) (data_tab : list bytes)
    (nchars datainx : Z) (data : bytes) (pos options : Z) (accstrg : str)
    (chars_got : Z) :
  SST_chars (S fuel) data_tab nchars datainx data pos options accstrg
    chars_got
  = let datalen := Z.of_nat (length data) in
    let chars_need := nchars - chars_got in
    let* (accstrg, pos, chars_avail) :=
      (if negb (Z.land options 0x01 =? 0) then
         let chars_avail := Z.min (Z.shiftr (datalen - pos) 1) chars_need in
         let raw_str := slice data pos (pos + 2 * chars_avail) in
         let* decoded := decode_utf_16_le raw_str in
         Return (accstrg ++ decoded, pos + 2 * chars_avail, chars_avail)
       else
         let chars_avail := Z.min (datalen - pos) chars_need in
         let raw_str := slice data pos (pos + chars_avail) in
         Return (accstrg ++ decode_latin_1 raw_str, pos + chars_avail,
                 chars_avail)) in
    let chars_got := chars_got + chars_avail in
    if chars_got =? nchars then Return (accstrg, datainx, data, pos)
    else
      let datainx := datainx + 1 in
      let* data := getitem data_tab datainx in
      let* opt := getitem data 0 in
      SST_chars fuel data_tab nchars datainx data 1 (ord opt) accstrg
        chars_got.
Proof. reflexivity. Qed.

Lemma slice_middle {A} (pre l suf : list A) :
  slice (pre ++ l ++ suf) (Z.of_nat (length pre))
    (Z.of_nat (length pre) + Z.of_nat (length l)) = l.
Proof.
  rewrite slice_nonneg by lia. rewrite Nat2Z.id, drop_app_length.
  replace (Z.to_nat (Z.of_nat (length pre) + Z.of_nat (length l)
                     - Z.of_nat (length pre))) with (length l) by lia.
  apply take_app_length.
Qed.

(** One turn of the loop on a run that fills the rest of its fragment, or
    is the last of its string: the run's text is added and the position
    is the run's end. *)
Lemma SST_chars_run (fuel : nat) (data_tab : list bytes) (nchars : Z)
    (datainx : Z) (pre : bytes) (cur : bool * str) (suf : bytes)
    (options : Z) (accstrg : str) (got : Z) :
  chunk_ok cur ->
  negb (Z.land options 1 =? 0) = fst cur ->
  got + places (snd cur) <= nchars ->
  suf = [] \/ got + places (snd cur) = nchars ->
  SST_chars (S fuel) data_tab nchars datainx (pre ++ chunk_bytes cur ++ suf)
    (Z.of_nat (length pre)) options accstrg got
  = let data := pre ++ chunk_bytes cur ++ suf in
    let chars_got := got + places (snd cur) in
    if chars_got =? nchars
    then Return (accstrg ++ snd cur, datainx, data,
                 Z.of_nat (length pre)
                 + Z.of_nat (length (chunk_bytes cur)))
    else
      let* data := getitem data_tab (datainx + 1) in
      let* opt := getitem data 0 in
      SST_chars fuel data_tab nchars (datainx + 1) data 1 (ord opt)
        (accstrg ++ snd cur) chars_got.
Proof.
  intros Hok Hopt Hneed Hsuf. rewrite SST_chars_S. cbv zeta.
  pose proof (chunk_bytes_length cur Hok) as Hlen.
  fold (places (snd cur)) in Hlen.
  pose proof (places_nonneg (snd cur)) as Hp.
  rewrite Hopt.
  assert (Hrest : Z.of_nat (length (pre ++ chunk_bytes cur ++ suf))
                  - Z.of_nat (length pre)
                  = Z.of_nat (length (chunk_bytes cur))
                    + Z.of_nat (length suf)).
  { rewrite !length_app. lia. }
  rewrite Hrest.
  assert (Hs : Z.of_nat (length suf) = 0
               \/ got + places (snd cur) = nchars).
  { destruct Hsuf as [-> | Hsuf]; [by left|by right]. }
  destruct cur as [[|] t]; cbn [fst snd] in *.
  - assert (Havail : Z.min (Z.shiftr (Z.of_nat (length (chunk_bytes (true, t)))
                                      + Z.of_nat (length suf)) 1)
                       (nchars - got) = places t).
    { rewrite Z.shiftr_div_pow2 by lia. change (2 ^ 1) with 2.
      assert (places t <= (Z.of_nat (length (chunk_bytes (true, t)))
                           + Z.of_nat (length suf)) / 2)
        by (apply Z.div_le_lower_bound; lia).
      destruct Hs as [Hs | Hs].
      - rewrite Hs, Z.add_0_r, Hlen, Z.mul_comm, Z.div_mul by lia. lia.
      - lia. }
    rewrite Havail, <- Hlen, slice_middle.
    unfold chunk_bytes at 1. cbn [fst snd].
    rewrite decode_encode_utf_16_le by exact Hok. cbn [bind].
    reflexivity.
  - rewrite Z.mul_1_l in Hlen.
    assert (Havail : Z.min (Z.of_nat (length (chunk_bytes (false, t)))
                            + Z.of_nat (length suf)) (nchars - got)
                     = places t) by lia.
    rewrite Havail, <- Hlen, slice_middle.
    unfold chunk_bytes at 1. cbn [fst snd].
    rewrite decode_encode_latin_1 by exact Hok. cbn [bind].
    reflexivity.
Qed.

Lemma places_pos (t : str) : t <> [] -> 0 < places t.
Proof.
  intros Ht. pose proof (places_nonneg t).
  destruct (decide (places t = 0)) as [E|E]; [|lia].
  by apply places_0 in E.
Qed.

Lemma option_byte_wide (b : bool) :
  negb (Z.land (ord (option_byte b)) 1 =? 0) = b.
Proof. by destruct b. Qed.

(** The loop over the runs of one string: every run but the last ends
    with its fragment, so the loop goes from fragment to fragment and
    returns the runs' texts in order; it stops at the end of the last
    run. *)
Lemma SST_chars_runs (rest : list (bool * str)) :
  forall (fuel : nat) (done : list bytes) (pre : bytes) (cur : bool * str)
         (options : Z) (accstrg : str) (got nchars : Z) (after : layout),
    chunk_ok cur ->
    Forall chunk_ok rest ->
    Forall (fun c : bool * str => snd c <> []) rest ->
    negb (Z.land options 1 =? 0) = fst cur ->
    (length rest < fuel)%nat ->
    nchars = got + places (text_of cur rest) ->
    exists (done' : list bytes) (pre' : bytes),
      done ++ fragments (prepend (pre ++ chunk_bytes cur)
                           (continuations rest after))
      = done' ++ fragments (prepend pre' after)
      /\ SST_chars fuel
           (done ++ fragments (prepend (pre ++ chunk_bytes cur)
                                 (continuations rest after)))
           nchars (Z.of_nat (length done))
           (pre ++ chunk_bytes cur ++ fst (continuations rest after))
           (Z.of_nat (length pre)) options accstrg got
         = Return (accstrg ++ text_of cur rest, Z.of_nat (length done'),
                   pre' ++ fst after, Z.of_nat (length pre')).
Proof.
  induction rest as [|c rest IH];
    intros fuel done pre cur options accstrg got nchars after
           Hcur Hok Hne Hopt Hfuel Hn;
    (destruct fuel as [|fuel]; [simpl in Hfuel; lia|]);
    unfold text_of in *.
  - simpl in Hn. rewrite app_nil_r in Hn.
    cbn [continuations fmap list_fmap concat]. rewrite app_nil_r.
    rewrite SST_chars_run by (try done; (by right) || lia). cbv zeta.
    rewrite (proj2 (Z.eqb_eq _ _)) by lia.
    exists done, (pre ++ chunk_bytes cur). split; [reflexivity|].
    by rewrite length_app, Nat2Z.inj_add, <- app_assoc.
  - rewrite (fmap_cons snd) in Hn |- *. cbn [concat] in Hn |- *.
    rewrite places_app in Hn.
    pose proof (places_nonneg (concat (snd <$> rest))) as Hp.
    pose proof (places_pos (snd c) (Forall_inv Hne)) as Hc.
    rewrite places_app in Hn.
    cbn [continuations]. set (X := continuations rest after).
    set (tab := done ++ _).
    assert (Htab : tab = (done ++ [pre ++ chunk_bytes cur])
                         ++ fragments (prepend ([option_byte (fst c)]
                                                  ++ chunk_bytes c) X)).
    { unfold tab, fragments, prepend, new_fragment, continuation.
      cbn [fst snd]. by rewrite app_nil_r, <- app_assoc. }
    assert (Hnext : getitem tab (Z.of_nat (length done) + 1)
                    = Return ([option_byte (fst c)] ++ chunk_bytes c
                                ++ fst X)).
    { rewrite getitem_nonneg by lia. rewrite Htab.
      replace (Z.to_nat (Z.of_nat (length done) + 1))
        with (length (done ++ [pre ++ chunk_bytes cur]) + 0)%nat
        by (rewrite length_app; simpl; lia).
      rewrite lookup_app_r by lia.
      replace (length (done ++ [pre ++ chunk_bytes cur]) + 0
               - length (done ++ [pre ++ chunk_bytes cur]))%nat
        with 0%nat by lia.
      reflexivity. }
    destruct (IH fuel (done ++ [pre ++ chunk_bytes cur])
                [option_byte (fst c)] c (ord (option_byte (fst c)))
                (accstrg ++ snd cur) (got + places (snd cur)) nchars after
                (Forall_inv Hok) (Forall_inv_tail Hok) (Forall_inv_tail Hne)
                (option_byte_wide (fst c)) ltac:(simpl in Hfuel; lia)
                ltac:(rewrite places_app; lia))
      as (done' & pre' & Hfr & Heq).
    fold X in Hfr, Heq. rewrite <- Htab in Hfr, Heq.
    rewrite length_app, Nat2Z.inj_add in Heq.
    exists done', pre'. split; [exact Hfr|].
    change (fst (new_fragment (prepend (continuation c) X)))
      with (@nil Byte.byte).
    rewrite SST_chars_run by (try done; (by left) || lia). cbv zeta.
    rewrite (proj2 (Z.eqb_neq _ _)) by lia.
    rewrite Hnext. cbn [bind app getitem Z.ltb Z.compare].
    change (Z.to_nat 0) with 0%nat. cbn [lookup list_lookup bind].
    rewrite <- app_assoc in Heq. exact Heq.
Qed.

(** ** Shared strings: the fields of a string and its rich-text runs *)

Lemma le_uint_le16 (n : Z) : 0 <= n < 65536 -> le_uint (le16 n) = n.
Proof.
  intros Hn. unfold le16. cbn [le_uint]. rewrite !ord_byte_of.
  - pose proof (Z.div_mod n 256 ltac:(lia)). lia.
  - split; [apply Z.div_pos; lia|apply Z.div_lt_upper_bound; lia].
  - apply Z.mod_pos_bound. lia.
Qed.

Lemma unpack_HH_run_bytes (r : Z * Z) :
  run_ok r -> unpack_HH (run_bytes r) = Return r.
Proof.
  intros [Ha Hb]. unfold unpack_HH, run_bytes.
  destruct (decide _) as [_|Hl]; [|by destruct Hl].
  change (take 2 (le16 r.1 ++ le16 r.2)) with (le16 r.1).
  change (drop 2 (le16 r.1 ++ le16 r.2)) with (le16 r.2).
  rewrite !le_uint_le16 by done. by destruct r.
Qed.

Lemma unpack_i_le32 (n : Z) :
  0 <= n < 2147483648 -> unpack_i (le32 n) = Return n.
Proof.
  intros Hn. unfold unpack_i, le32.
  destruct (decide _) as [_|Hl]; [|by destruct Hl].
  unfold le_int32. cbn [le_uint]. rewrite !ord_byte_of.
  - assert (Hv : n mod 256
                 + 256 * (n / 256 mod 256
                          + 256 * (n / 65536 mod 256
                                   + 256 * (n / 16777216 + 256 * 0))) = n).
    { Z.div_mod_to_equations. lia. }
    rewrite Hv. destruct (n <? 2147483648) eqn:E; [done|lia].
  - split; [apply Z.div_pos; lia|apply Z.div_lt_upper_bound; lia].
  - apply Z.mod_pos_bound. lia.
  - apply Z.mod_pos_bound. lia.
  - apply Z.mod_pos_bound. lia.
Qed.

Lemma nonempty_false {A} (l : list A) : nonempty l = false -> l = [].
Proof. by destruct l. Qed.

Lemma header_option_wide (s : sst_string) :
  negb (Z.land (ord (header_option s)) 1 =? 0) = fst (first_run s).
Proof.
  unfold header_option.
  by destruct (fst (first_run s)), (nonempty (phonetic s)),
       (nonempty (rt_runs s)).
Qed.

Lemma header_option_rich (s : sst_string) :
  negb (Z.land (ord (header_option s)) 8 =? 0) = nonempty (rt_runs s).
Proof.
  unfold header_option.
  by destruct (fst (first_run s)), (nonempty (phonetic s)),
       (nonempty (rt_runs s)).
Qed.

Lemma header_option_phonetic (s : sst_string) :
  negb (Z.land (ord (header_option s)) 4 =? 0) = nonempty (phonetic s).
Proof.
  unfold header_option.
  by destruct (fst (first_run s)), (nonempty (phonetic s)),
       (nonempty (rt_runs s)).
Qed.

Lemma slice_field {A} (data pre l suf : list A) (p k : Z) :
  data = pre ++ l ++ suf -> p = Z.of_nat (length pre) ->
  k = Z.of_nat (length l) ->
  slice data p (p + k) = l.
Proof. intros -> -> ->. apply slice_middle. Qed.

Lemma getitem_field {A} (data pre : list A) (x : A) (suf : list A) (p : Z) :
  data = pre ++ x :: suf -> p = Z.of_nat (length pre) ->
  getitem data p = Return x.
Proof.
  intros -> ->. rewrite getitem_nonneg by lia.
  rewrite Nat2Z.id. by rewrite list_lookup_middle.
Qed.

Lemma SST_runs_S (count : nat) (data_tab : list bytes) (datainx : Z)
    (data : bytes) (pos : Z) (runs : list (Z * Z)) :
  SST_runs (S count) data_tab datainx data pos runs
  = let* (datainx, data, pos) :=
      (if pos =? Z.of_nat (length data) then
         let* data := getitem data_tab (datainx + 1) in
         Return (datainx + 1, data, 0)
       else Return (datainx, data, pos)) in
    let* run := unpack_HH (slice data pos (pos + 4)) in
    SST_runs count data_tab datainx data (pos + 4) (runs ++ [run]).
Proof. reflexivity. Qed.

(** The rich-text runs of a string that lie in one fragment are read in
    order, and the position is their end. *)
Lemma SST_runs_in_fragment (rs : list (Z * Z)) :
  forall (data_tab : list bytes) (datainx : Z) (data pre suf : bytes)
         (runs : list (Z * Z)),
    Forall run_ok rs ->
    data = pre ++ concat (run_bytes <$> rs) ++ suf ->
    SST_runs (length rs) data_tab datainx data (Z.of_nat (length pre)) runs
    = Return (runs ++ rs, datainx, data,
              Z.of_nat (length pre) + 4 * Z.of_nat (length rs)).
Proof.
  induction rs as [|r rs IH]; intros data_tab datainx data pre suf runs
    Hok Hdata.
  - cbn [length SST_runs]. rewrite app_nil_r. do 2 f_equal. lia.
  - cbn [length]. rewrite SST_runs_S.
    rewrite (fmap_cons run_bytes) in Hdata. cbn [concat] in Hdata.
    rewrite <- app_assoc in Hdata.
    assert (Hlen : Z.of_nat (length data)
                   = Z.of_nat (length pre) + 4
                     + Z.of_nat (length (concat (run_bytes <$> rs) ++ suf))).
    { rewrite Hdata, !length_app. unfold run_bytes, le16. simpl. lia. }
    rewrite (proj2 (Z.eqb_neq _ _)) by lia. cbn [bind].
    rewrite (slice_field data pre (run_bytes r)
               (concat (run_bytes <$> rs) ++ suf)) by done.
    rewrite unpack_HH_run_bytes by exact (Forall_inv Hok). cbn [bind].
    replace (Z.of_nat (length pre) + 4)
      with (Z.of_nat (length (pre ++ run_bytes r)))
      by (rewrite length_app; unfold run_bytes, le16; simpl; lia).
    rewrite (IH data_tab datainx data (pre ++ run_bytes r) suf
               (runs ++ [r]) (Forall_inv_tail Hok))
      by (by rewrite Hdata, <- !app_assoc).
    rewrite <- app_assoc. do 2 f_equal.
    rewrite length_app. unfold run_bytes, le16. simpl. lia.
Qed.

Lemma SST_strings_S (todo : nat) (data_tab : list bytes) (n_strings i : Z)
    (datainx : Z) (data : bytes) (pos : Z) (strings : list str)
    (richtext_runs : gmap Z (list (Z * Z))) :
  SST_strings (S todo) data_tab n_strings i datainx data pos strings
    richtext_runs
  = let* nchars := unpack_H (slice data pos (pos + 2)) in
    let pos := pos + 2 in
    let* opt := getitem data pos in
    let options := ord opt in
    let pos := pos + 1 in
    let* (rtcount, pos) :=
      (if negb (Z.land options 0x08 =? 0) then
         let* rtcount := unpack_H (slice data pos (pos + 2)) in
         Return (rtcount, pos + 2)
       else Return (0, pos)) in
    let* (phosz, pos) :=
      (if negb (Z.land options 0x04 =? 0) then
         let* phosz := unpack_i (slice data pos (pos + 4)) in
         Return (phosz, pos + 4)
       else Return (0, pos)) in
    let* (accstrg, datainx, data, pos) :=
      SST_chars (S (length data_tab)) data_tab nchars datainx data pos
        options [] 0 in
    let* (richtext_runs, datainx, data, pos) :=
      (if negb (rtcount =? 0) then
         let* (runs, datainx, data, pos) :=
           SST_runs (Z.to_nat rtcount) data_tab datainx data pos [] in
         Return (<[Z.of_nat (length strings) := runs]> richtext_runs,
                 datainx, data, pos)
       else Return (richtext_runs, datainx, data, pos)) in
    let pos := pos + phosz in
    let* (datainx, data, pos) :=
      (if pos >=? Z.of_nat (length data) then
         let pos := pos - Z.of_nat (length data) in
         let datainx := datainx + 1 in
         if datainx <? Z.of_nat (length data_tab) then
           let* data := getitem data_tab datainx in
           Return (datainx, data, pos)
         else if i =? n_strings - 1 then Return (datainx, data, pos)
              else Raise AssertionError
       else Return (datainx, data, pos)) in
    SST_strings todo data_tab n_strings (i + 1) datainx data pos
      (strings ++ [accstrg]) richtext_runs.
Proof. reflexivity. Qed.

(** The fields of a string, read from where the string starts: the
    number of characters, the option byte, and the number of rich-text
    runs and the size of the phonetic block where the option byte has
    them. *)
Lemma SST_strings_header (todo : nat) (data_tab : list bytes)
    (n_strings i : Z) (datainx : Z) (pre : bytes) (s : sst_string)
    (suf : bytes) (strings : list str)
    (richtext_runs : gmap Z (list (Z * Z))) :
  sst_string_ok s ->
  SST_strings (S todo) data_tab n_strings i datainx
    (pre ++ sst_header s ++ suf) (Z.of_nat (length pre)) strings
    richtext_runs
  = let* (accstrg, datainx, data, pos) :=
      SST_chars (S (length data_tab)) data_tab (places (sst_text s)) datainx
        (pre ++ sst_header s ++ suf)
        (Z.of_nat (length pre) + Z.of_nat (length (sst_header s)))
        (ord (header_option s)) [] 0 in
    let* (richtext_runs, datainx, data, pos) :=
      (if nonempty (rt_runs s) then
         let* (runs, datainx, data, pos) :=
           SST_runs (length (rt_runs s)) data_tab datainx data pos [] in
         Return (<[Z.of_nat (length strings) := runs]> richtext_runs,
                 datainx, data, pos)
       else Return (richtext_runs, datainx, data, pos)) in
    let pos := pos + Z.of_nat (length (phonetic s)) in
    let* (datainx, data, pos) :=
      (if pos >=? Z.of_nat (length data) then
         let pos := pos - Z.of_nat (length data) in
         let datainx := datainx + 1 in
         if datainx <? Z.of_nat (length data_tab) then
           let* data := getitem data_tab datainx in
           Return (datainx, data, pos)
         else if i =? n_strings - 1 then Return (datainx, data, pos)
              else Raise AssertionError
       else Return (datainx, data, pos)) in
    SST_strings todo data_tab n_strings (i + 1) datainx data pos
      (strings ++ [accstrg]) richtext_runs.
Proof.
  intros (_ & _ & _ & Hn & _ & Hrc & Hph).
  pose proof (places_nonneg (sst_text s)) as Hp.
  rewrite SST_strings_S. cbv zeta.
  set (data := pre ++ sst_header s ++ suf).
  set (p := Z.of_nat (length pre)).
  rewrite (slice_field data pre (le16 (places (sst_text s)))
             (drop 2 (sst_header s) ++ suf) p 2) by done.
  rewrite unpack_H_le16 by lia. cbn [bind].
  rewrite (getitem_field data (pre ++ le16 (places (sst_text s)))
             (header_option s)
             ((if nonempty (rt_runs s)
               then le16 (Z.of_nat (length (rt_runs s))) else [])
              ++ (if nonempty (phonetic s)
                  then le32 (Z.of_nat (length (phonetic s))) else [])
              ++ suf))
    by (unfold data, p, sst_header; rewrite ?length_app;
        rewrite <- ?app_assoc; simpl; (done || lia)).
  cbn [bind]. rewrite header_option_rich, header_option_phonetic.
  unfold sst_header in *.
  destruct (rt_runs s) as [|r rs] eqn:Er;
    destruct (phonetic s) as [|b bs] eqn:Eb;
    cbn [nonempty app drop] in *.
  - cbn [bind]. change (negb (0 =? 0)) with false. cbv iota.
    replace (p + 2 + 1)
      with (p + Z.of_nat (length (le16 (places (sst_text s))
                                    ++ [header_option s])))
      by (unfold le16; simpl; lia).
    reflexivity.
  - cbn [bind].
    rewrite (slice_field data
               (pre ++ le16 (places (sst_text s)) ++ [header_option s])
               (le32 (Z.of_nat (length (b :: bs)))) suf (p + 2 + 1) 4)
      by (try done; unfold data, p; rewrite ?length_app;
          rewrite <- ?app_assoc; simpl; (done || lia)).
    rewrite unpack_i_le32 by lia. cbn [bind].
    change (negb (0 =? 0)) with false. cbv iota.
    replace (p + 2 + 1 + 4)
      with (p + Z.of_nat (length (le16 (places (sst_text s))
                                    ++ [header_option s]
                                    ++ le32 (Z.of_nat (length (b :: bs))))))
      by (unfold le16, le32; simpl; lia).
    reflexivity.
  - rewrite (slice_field data
               (pre ++ le16 (places (sst_text s)) ++ [header_option s])
               (le16 (Z.of_nat (length (r :: rs)))) suf (p + 2 + 1) 2)
      by (try done; unfold data, p; rewrite ?length_app;
          rewrite <- ?app_assoc; simpl; (done || lia)).
    rewrite unpack_H_le16 by lia. cbn [bind].
    rewrite (proj2 (Z.eqb_neq (Z.of_nat (length (r :: rs))) 0))
      by (simpl; lia).
    cbn [negb]. rewrite Nat2Z.id.
    replace (p + 2 + 1 + 2)
      with (p + Z.of_nat (length (le16 (places (sst_text s))
                                    ++ [header_option s]
                                    ++ le16 (Z.of_nat (length (r :: rs)))
                                    ++ [])))
      by (unfold le16; simpl; lia).
    reflexivity.
  - rewrite (slice_field data
               (pre ++ le16 (places (sst_text s)) ++ [header_option s])
               (le16 (Z.of_nat (length (r :: rs))))
               (le32 (Z.of_nat (length (b :: bs))) ++ suf) (p + 2 + 1) 2)
      by (try done; unfold data, p; rewrite ?length_app;
          rewrite <- ?app_assoc; simpl; (done || lia)).
    rewrite unpack_H_le16 by lia. cbn [bind].
    rewrite (slice_field data
               (pre ++ le16 (places (sst_text s)) ++ [header_option s]
                  ++ le16 (Z.of_nat (length (r :: rs))))
               (le32 (Z.of_nat (length (b :: bs)))) suf (p + 2 + 1 + 2) 4)
      by (try done; unfold data, p; rewrite ?length_app;
          rewrite <- ?app_assoc; simpl; (done || lia)).
    rewrite unpack_i_le32 by lia. cbn [bind].
    rewrite (proj2 (Z.eqb_neq (Z.of_nat (length (r :: rs))) 0))
      by (simpl; lia).
    cbn [negb]. rewrite Nat2Z.id.
    replace (p + 2 + 1 + 2 + 4)
      with (p + Z.of_nat (length (le16 (places (sst_text s))
                                    ++ [header_option s]
                                    ++ le16 (Z.of_nat (length (r :: rs)))
                                    ++ le32 (Z.of_nat (length (b :: bs))))))
      by (unfold le16, le32; simpl; lia).
    reflexivity.
Qed.

(** ** Shared strings: a table laid out in fragments *)

Lemma prepend_prepend (a b : bytes) (L : layout) :
  prepend a (prepend b L) = prepend (a ++ b) L.
Proof. unfold prepend. cbn [fst snd]. by rewrite app_assoc. Qed.

Lemma continuations_length (rest : list (bool * str)) (after : layout) :
  (length rest <= length (snd (continuations rest after)))%nat.
Proof.
  induction rest as [|c rest IH]; cbn [continuations]; [simpl; lia|].
  unfold new_fragment, fragments, prepend. cbn [fst snd length]. lia.
Qed.

Lemma strings_layout_head (s : sst_string) (ss : list sst_string) :
  (0 < length (fst (strings_layout (s :: ss))))%nat.
Proof.
  cbn [strings_layout]. unfold string_layout, prepend, sst_header, le16.
  cbn [fst]. rewrite !length_app. simpl. lia.
Qed.

(** After a string: where the fragment ends with the string, the next
    string starts the next fragment; where it does not, the next string
    follows in the same fragment; the last string ends the table. *)
Lemma SST_strings_end (ss : list sst_string) (ends : bool)
    (done' : list bytes) (pre'' : bytes) (n i : Z) (strs : list str)
    (m : gmap Z (list (Z * Z))) :
  (forall (done : list bytes) (pre : bytes) (strings : list str)
          (runs : gmap Z (list (Z * Z))) (i' : Z),
      i' + Z.of_nat (length ss) = n ->
      SST_strings (length ss)
        (done ++ fragments (prepend pre (strings_layout ss))) n i'
        (Z.of_nat (length done)) (pre ++ fst (strings_layout ss))
        (Z.of_nat (length pre)) strings runs
      = Return (strings ++ (sst_text <$> ss),
                add_runs (length strings) ss runs)) ->
  i + 1 + Z.of_nat (length ss) = n ->
  let A := if ends then new_fragment (strings_layout ss)
           else strings_layout ss in
  let tab := done' ++ fragments (prepend pre'' A) in
  let data := pre'' ++ fst A in
  let pos := Z.of_nat (length pre'') in
  (let* (datainx, data, pos) :=
     (if pos >=? Z.of_nat (length data) then
        if Z.of_nat (length done') + 1 <? Z.of_nat (length tab) then
          let* data2 := getitem tab (Z.of_nat (length done') + 1) in
          Return (Z.of_nat (length done') + 1, data2,
                  pos - Z.of_nat (length data))
        else if i =? n - 1
             then Return (Z.of_nat (length done') + 1, data,
                          pos - Z.of_nat (length data))
             else Raise AssertionError
      else Return (Z.of_nat (length done'), data, pos)) in
   SST_strings (length ss) tab n (i + 1) datainx data pos strs m)
  = Return (strs ++ (sst_text <$> ss), add_runs (length strs) ss m).
Proof.
  intros IH Hi A tab data pos. destruct ends.
  - assert (Hlen : Z.of_nat (length data) = pos).
    { unfold data, pos, A. cbn [new_fragment fst]. by rewrite app_nil_r. }
    assert (Htab : tab = (done' ++ [pre''])
                         ++ fragments (prepend [] (strings_layout ss))).
    { unfold tab, A, new_fragment, fragments, prepend. cbn [fst snd].
      by rewrite app_nil_r, <- app_assoc. }
    rewrite (proj2 (Z.geb_le _ _)) by lia.
    rewrite (proj2 (Z.ltb_lt _ _))
      by (rewrite Htab, !length_app; simpl; lia).
    assert (Hnext : getitem tab (Z.of_nat (length done') + 1)
                    = Return ([] ++ fst (strings_layout ss))).
    { rewrite getitem_nonneg by lia. rewrite Htab.
      replace (Z.to_nat (Z.of_nat (length done') + 1))
        with (length (done' ++ [pre'']) + 0)%nat
        by (rewrite length_app; simpl; lia).
      rewrite lookup_app_r by lia.
      replace (length (done' ++ [pre'']) + 0 - length (done' ++ [pre'']))%nat
        with 0%nat by lia.
      reflexivity. }
    rewrite Hnext. cbn [bind].
    replace (pos - Z.of_nat (length data))
      with (Z.of_nat (length (@nil Byte.byte))) by (simpl; lia).
    replace (Z.of_nat (length done') + 1)
      with (Z.of_nat (length (done' ++ [pre''])))
      by (rewrite length_app; simpl; lia).
    rewrite Htab. apply IH. lia.
  - destruct ss as [|s ss].
    + assert (Hlen : Z.of_nat (length data) = pos).
      { unfold data, pos, A. cbn [strings_layout fst].
        by rewrite app_nil_r. }
      rewrite (proj2 (Z.geb_le _ _)) by lia.
      rewrite (proj2 (Z.ltb_ge _ _))
        by (unfold tab, A, fragments, prepend; cbn [strings_layout fst snd];
            rewrite length_app; simpl; lia).
      rewrite (proj2 (Z.eqb_eq _ _)) by (simpl in Hi; lia).
      cbn [bind length SST_strings fmap list_fmap add_runs].
      by rewrite app_nil_r.
    + pose proof (strings_layout_head s ss) as Hhead.
      assert (Hlen : pos < Z.of_nat (length data)).
      { unfold data, pos, A. rewrite length_app. lia. }
      destruct (pos >=? Z.of_nat (length data)) eqn:E;
        [apply Z.geb_le in E; lia|].
      cbn [bind]. apply IH. lia.
Qed.

Lemma run_bytes_length (rs : list (Z * Z)) :
  length (concat (run_bytes <$> rs)) = (4 * length rs)%nat.
Proof.
  induction rs as [|r rs IH]; [done|].
  rewrite (fmap_cons run_bytes). cbn [concat].
  rewrite length_app, IH. simpl. lia.
Qed.

(** The loop over the strings, from where a string starts: the texts of
    the strings that are left, and their rich-text runs. *)
Lemma SST_strings_layout (n : Z) (ss : list sst_string) :
  Forall sst_string_ok ss ->
  forall (done : list bytes) (pre : bytes) (strings : list str)
         (runs : gmap Z (list (Z * Z))) (i : Z),
    i + Z.of_nat (length ss) = n ->
    SST_strings (length ss)
      (done ++ fragments (prepend pre (strings_layout ss))) n i
      (Z.of_nat (length done)) (pre ++ fst (strings_layout ss))
      (Z.of_nat (length pre)) strings runs
    = Return (strings ++ (sst_text <$> ss),
              add_runs (length strings) ss runs).
Proof.
  induction 1 as [|s ss Hs Hss IH]; intros done pre strings runs i Hi.
  - cbn [length SST_strings fmap list_fmap add_runs]. by rewrite app_nil_r.
  - pose proof Hs as (Hfirst & Hmore & Hne & Hn & Hruns & Hrc & Hph).
    pose (A := if ends_fragment s then new_fragment (strings_layout ss)
               else strings_layout ss).
    pose (T := prepend (sst_trailer s) A).
    pose (C := continuations (more_runs s) T).
    change (strings_layout (s :: ss))
      with (prepend (sst_header s ++ chunk_bytes (first_run s)) C).
    rewrite prepend_prepend, (app_assoc pre).
    set (tab := done ++ _).
    replace (pre ++ fst (prepend (sst_header s ++ chunk_bytes (first_run s))
                           C))
      with (pre ++ sst_header s ++ chunk_bytes (first_run s) ++ fst C)
      by (unfold prepend; cbn [fst]; by rewrite <- app_assoc).
    cbn [length]. rewrite SST_strings_header by exact Hs.
    destruct (SST_chars_runs (more_runs s) (S (length tab)) done
                (pre ++ sst_header s) (first_run s)
                (ord (header_option s)) [] 0 (places (sst_text s)) T
                Hfirst Hmore Hne (header_option_wide s))
      as (done' & pre' & Hfr & Heq).
    { pose proof (continuations_length (more_runs s) T) as Hc.
      change (continuations (more_runs s) T) with C in Hc.
      unfold tab, fragments, prepend. rewrite length_app.
      cbn [fst snd length]. lia. }
    { unfold sst_text. lia. }
    fold C tab in Hfr, Heq.
    rewrite <- app_assoc, length_app, Nat2Z.inj_add in Heq.
    rewrite Heq. cbn [bind app]. fold (sst_text s).
    assert (Hdata : pre' ++ fst T
                    = pre' ++ concat (run_bytes <$> rt_runs s)
                        ++ (phonetic s ++ fst A)).
    { unfold T, prepend, sst_trailer. cbn [fst]. by rewrite <- app_assoc. }
    assert (Hdata' : pre' ++ fst T = (pre' ++ sst_trailer s) ++ fst A).
    { unfold T, prepend. cbn [fst]. by rewrite app_assoc. }
    assert (Hpos : Z.of_nat (length pre')
                   + 4 * Z.of_nat (length (rt_runs s))
                   + Z.of_nat (length (phonetic s))
                   = Z.of_nat (length (pre' ++ sst_trailer s))).
    { unfold sst_trailer. rewrite !length_app.
      rewrite run_bytes_length. lia. }
    assert (Htab : tab = done' ++ fragments (prepend (pre' ++ sst_trailer s)
                                               A)).
    { rewrite Hfr. unfold T. by rewrite prepend_prepend. }
    pose proof (SST_strings_end ss (ends_fragment s) done'
                  (pre' ++ sst_trailer s) n i (strings ++ [sst_text s])
                  (if nonempty (rt_runs s)
                   then <[Z.of_nat (length strings) := rt_runs s]> runs
                   else runs) (IH) ltac:(simpl in Hi; lia)) as Hend.
    cbv zeta in Hend. fold A in Hend.
    rewrite <- Htab, <- Hdata', <- Hpos in Hend.
    replace (length (strings ++ [sst_text s])) with (S (length strings))
      in Hend by (rewrite length_app; simpl; lia).
    rewrite <- (app_assoc strings) in Hend.
    cbn [add_runs fmap list_fmap]. cbn [app] in Hend.
    rewrite <- Hend. clear Hend.
    destruct (nonempty (rt_runs s)) eqn:Er.
    + rewrite (SST_runs_in_fragment (rt_runs s) tab (Z.of_nat (length done'))
                 (pre' ++ fst T) pre' (phonetic s ++ fst A) [] Hruns Hdata).
      cbn [bind app]. reflexivity.
    + apply nonempty_false in Er. rewrite Er. cbn [bind length].
      change (4 * Z.of_nat 0) with 0. rewrite Z.add_0_r. reflexivity.
Qed.

Lemma unpack_SST_table_layout (counts : bytes) (ss : list sst_string) :
  length counts = 8%nat ->
  Forall sst_string_ok ss ->
  unpack_SST_table (sst_table counts ss) (Z.of_nat (length ss))
  = Return (sst_text <$> ss, add_runs 0 ss ∅).
Proof.
  intros Hc Hok. unfold unpack_SST_table, sst_table.
  rewrite getitem_nonneg by lia. change (Z.to_nat 0) with 0%nat.
  unfold fragments at 1. cbn [lookup list_lookup bind].
  rewrite Nat2Z.id.
  pose proof (SST_strings_layout (Z.of_nat (length ss)) ss Hok [] counts
                [] ∅ 0 ltac:(lia)) as Hss.
  rewrite Hc in Hss. exact Hss.
Qed.

Lemma chunk_ok_scalar (c : bool * str) : chunk_ok c -> Forall scalar (snd c).
Proof.
  destruct c as [[|] t]; unfold chunk_ok; cbn [fst snd]; [done|].
  intros Ht. eapply Forall_impl; [|exact Ht].
  intros x Hx. unfold scalar. cbv beta in Hx. lia.
Qed.

Lemma sst_text_unsplit (s : sst_string) : sst_text (unsplit s) = sst_text s.
Proof.
  unfold sst_text at 1, unsplit, text_of. cbn [first_run more_runs snd].
  by rewrite app_nil_r.
Qed.

Lemma unsplit_ok (s : sst_string) : sst_string_ok s -> sst_string_ok (unsplit s).
Proof.
  intros (Hfirst & Hmore & Hne & Hn & Hruns & Hrc & Hph).
  unfold sst_string_ok. rewrite sst_text_unsplit.
  unfold unsplit. cbn [first_run more_runs rt_runs phonetic].
  repeat split; try done.
  unfold chunk_ok. cbn [fst snd]. unfold sst_text, text_of.
  apply Forall_app. split; [by apply chunk_ok_scalar|].
  apply Forall_concat, Forall_fmap.
  eapply Forall_impl; [|exact Hmore].
  intros c Hc. by apply chunk_ok_scalar.
Qed.

Lemma add_runs_unsplit (ss : list sst_string) :
  forall (k : nat) (m : gmap Z (list (Z * Z))),
    add_runs k (unsplit <$> ss) m = add_runs k ss m.
Proof.
  induction ss as [|s ss IH]; intros k m; [done|].
  rewrite fmap_cons. cbn [add_runs]. by rewrite IH.
Qed.

(** Units after a text: the text is decoded, then the units. *)
Lemma utf16_code_points_app (t : str) (us : list Z) :
  Forall scalar t ->
  utf16_code_points (text_units t ++ us)
  = match utf16_code_points us with
    | Return cs => Return (t ++ cs)
    | other => other
    end.
Proof.
  induction 1 as [|c t Hc _ IH].
  - cbn [text_units fmap list_fmap concat app].
    by destruct (utf16_code_points us).
  - unfold text_units in *. rewrite fmap_cons. cbn [concat].
    rewrite <- app_assoc.
    unfold scalar in Hc. unfold units_of at 1.
    destruct (c <? 65536)%N eqn:E;
      [apply N.ltb_lt in E|apply N.ltb_ge in E].
    + cbn [app utf16_code_points].
      unfold is_high_surrogate, is_low_surrogate.
      destruct (55296 <=? Z.of_N c) eqn:E1.
      * destruct (Z.of_N c <=? 56319) eqn:E2; [lia|]. cbn [andb].
        destruct (56320 <=? Z.of_N c) eqn:E3; [|lia].
        destruct (Z.of_N c <=? 57343) eqn:E4; [lia|]. cbn [andb].
        rewrite IH. destruct (utf16_code_points us); [|done..].
        by rewrite N2Z.id.
      * cbn [andb]. destruct (56320 <=? Z.of_N c) eqn:E3; [lia|].
        cbn [andb]. rewrite IH. destruct (utf16_code_points us); [|done..].
        by rewrite N2Z.id.
    + assert (Hd : 0 <= (Z.of_N c - 65536) / 1024 < 1024).
      { split; [apply Z.div_pos; lia|apply Z.div_lt_upper_bound; lia]. }
      pose proof (Z.mod_pos_bound (Z.of_N c - 65536) 1024 ltac:(lia)) as Hm.
      pose proof (Z.div_mod (Z.of_N c - 65536) 1024 ltac:(lia)) as Hdm.
      cbn [app utf16_code_points].
      unfold is_high_surrogate, is_low_surrogate.
      destruct (55296 <=? 55296 + _) eqn:E1; [|lia].
      destruct (55296 + _ <=? 56319) eqn:E2; [|lia]. cbn [andb].
      destruct (56320 <=? 56320 + _) eqn:E3; [|lia].
      destruct (56320 + _ <=? 57343) eqn:E4; [|lia]. cbn [andb].
      rewrite IH. destruct (utf16_code_points us); [|done..].
      do 2 f_equal. lia.
Qed.

(** A text followed by the first unit of a surrogate pair does not
    decode. *)
Lemma decode_unfinished_pair (t : str) (c : N) (hi lo : Z) :
  Forall scalar t ->
  (0x10000 <= c < 0x110000)%N ->
  units_of c = [hi; lo] ->
  decode_utf_16_le (encode_utf_16_le t ++ le16 hi) = Raise UnicodeDecodeError.
Proof.
  intros Ht Hc Hu. unfold units_of in Hu.
  destruct (c <? 65536)%N eqn:E; [apply N.ltb_lt in E; lia|].
  injection Hu as <- <-.
  assert (Hd : 0 <= (Z.of_N c - 65536) / 1024 < 1024).
  { split; [apply Z.div_pos; lia|apply Z.div_lt_upper_bound; lia]. }
  set (hi := 55296 + (Z.of_N c - 65536) / 1024).
  assert (Hbytes : encode_utf_16_le t ++ le16 hi
                   = concat (le16 <$> (text_units t ++ [hi]))).
  { unfold encode_utf_16_le. rewrite fmap_app, concat_app.
    cbn [fmap list_fmap concat]. by rewrite app_nil_r. }
  rewrite Hbytes. unfold decode_utf_16_le.
  rewrite utf16_units_le16.
  - rewrite utf16_code_points_app by done. cbn [utf16_code_points].
    unfold is_high_surrogate.
    destruct (55296 <=? hi) eqn:E1; [|unfold hi in *; lia].
    destruct (hi <=? 56319) eqn:E2; [|unfold hi in *; lia]. reflexivity.
  - apply Forall_app. split; [by apply text_units_range|].
    constructor; [unfold hi; lia|constructor].
Qed.

(** The first string of a table, wide, cut between the two units of the
    surrogate pair of one of its characters: the first fragment's part is
    decoded on its own and the decoder raises, whatever follows. *)
Lemma sst_first_string_cut_in_pair (counts : bytes) (t1 t2 : str) (c : N)
    (hi lo : Z) (rest : bytes) (more : list bytes) (n : Z) :
  length counts = 8%nat ->
  Forall scalar t1 -> Forall scalar t2 ->
  (0x10000 <= c < 0x110000)%N ->
  units_of c = [hi; lo] ->
  places (t1 ++ c :: t2) < 65536 ->
  0 < n ->
  unpack_SST_table
    ((counts ++ le16 (places (t1 ++ c :: t2)) ++ [Byte.x01]
        ++ encode_utf_16_le t1 ++ le16 hi)
     :: (Byte.x01 :: le16 lo ++ encode_utf_16_le t2 ++ rest) :: more) n
  = Raise UnicodeDecodeError.
Proof.
  intros Hcounts Ht1 Ht2 Hc Hu Hplaces Hn.
  set (t := t1 ++ c :: t2) in *.
  set (s := {| first_run := (true, t); more_runs := []; rt_runs := [];
               phonetic := []; ends_fragment := false |}).
  assert (Htext : sst_text s = t)
    by (unfold sst_text, text_of; cbn; apply app_nil_r).
  assert (Hok : sst_string_ok s).
  { unfold sst_string_ok. rewrite Htext. cbn [first_run more_runs rt_runs
      phonetic length]. split; [|repeat split; (done || lia)].
    unfold chunk_ok. cbn [fst snd]. unfold t. apply Forall_app.
    split; [done|]. constructor; [|done]. unfold scalar. lia. }
  assert (Hhead : sst_header s = le16 (places t) ++ [Byte.x01]).
  { unfold sst_header. rewrite Htext. cbn [rt_runs phonetic nonempty].
    by rewrite !app_nil_r. }
  set (suf := encode_utf_16_le t1 ++ le16 hi).
  set (tab := _ :: _ :: more).
  assert (Hdata : counts ++ le16 (places t) ++ [Byte.x01] ++ suf
                  = counts ++ sst_header s ++ suf)
    by (rewrite Hhead; by rewrite <- app_assoc).
  unfold unpack_SST_table. rewrite getitem_nonneg by lia.
  change (tab !! Z.to_nat 0)
    with (Some (counts ++ le16 (places t) ++ [Byte.x01] ++ suf)).
  cbn [bind]. rewrite Hdata.
  destruct (Z.to_nat n) as [|todo] eqn:En; [lia|].
  replace 8 with (Z.of_nat (length counts)) by lia.
  rewrite SST_strings_header by exact Hok.
  assert (Hchars : SST_chars (S (length tab)) tab (places (sst_text s)) 0
                     (counts ++ sst_header s ++ suf)
                     (Z.of_nat (length counts)
                      + Z.of_nat (length (sst_header s)))
                     (ord (header_option s)) [] 0
                   = Raise UnicodeDecodeError); [|by rewrite Hchars].
  rewrite SST_chars_S. cbv zeta. rewrite header_option_wide.
  cbn [first_run fst]. rewrite Htext.
  assert (Hpc : places [c] = 2)
    by (unfold places, text_units; cbn [fmap list_fmap concat];
        by rewrite Hu).
  assert (Hpt : places t = places t1 + 2 + places t2).
  { unfold t. change (c :: t2) with ([c] ++ t2).
    rewrite !places_app, Hpc. lia. }
  assert (Hsuf : Z.of_nat (length suf) = 2 * (places t1 + 1)).
  { unfold suf. rewrite length_app, Nat2Z.inj_add, encode_utf_16_le_length.
    unfold places, le16. cbn [length]. lia. }
  pose proof (places_nonneg t1) as Hp1. pose proof (places_nonneg t2) as Hp2.
  assert (Havail : Z.min
                     (Z.shiftr
                        (Z.of_nat (length (counts ++ sst_header s ++ suf))
                         - (Z.of_nat (length counts)
                            + Z.of_nat (length (sst_header s)))) 1)
                     (places t - 0)
                   = places t1 + 1).
  { rewrite !length_app, !Nat2Z.inj_add, Hsuf.
    replace (Z.of_nat (length counts)
             + (Z.of_nat (length (sst_header s)) + 2 * (places t1 + 1))
             - (Z.of_nat (length counts) + Z.of_nat (length (sst_header s))))
      with ((places t1 + 1) * 2) by lia.
    rewrite Z.shiftr_div_pow2 by lia. change (2 ^ 1) with 2.
    rewrite Z.div_mul by lia. lia. }
  rewrite Havail.
  assert (Hraw : slice (counts ++ sst_header s ++ suf)
                   (Z.of_nat (length counts)
                    + Z.of_nat (length (sst_header s)))
                   (Z.of_nat (length counts)
                    + Z.of_nat (length (sst_header s)) + 2 * (places t1 + 1))
                 = suf).
  { rewrite app_assoc, <- Nat2Z.inj_add, <- length_app, <- Hsuf.
    apply slice_suffix. }
  rewrite Hraw. unfold suf.
  by rewrite (decode_unfinished_pair t1 c hi lo).
Qed.


(** C6, as the code has it.  For a table of strings written in fragments,
    each string with its character payload cut into runs, every run after
    the first in a continuation fragment that starts with its own option
    byte (compressed or wide, whatever the runs before it were), and every
    run holding whole characters (a character that takes a surrogate pair
    has both units in one run), [unpack_SST_table] returns the same as on
    the table whose strings are written unsplit, in one wide run each: the
    strings' texts in order, and their rich-text runs.  Where the first
    string of a table, written wide, is cut between the two units of the
    surrogate pair of one of its characters, the call raises
    [UnicodeDecodeError], whatever the text around the character and
    whatever follows in the table. *)
Theorem sst_split_between_characters (counts : bytes)
    (ss : list sst_string) :
  length counts = 8%nat ->
  Forall sst_string_ok ss ->
  unpack_SST_table (sst_table counts ss) (Z.of_nat (length ss))
  = unpack_SST_table (sst_table counts (unsplit <$> ss))
      (Z.of_nat (length ss))
  /\ unpack_SST_table (sst_table counts ss) (Z.of_nat (length ss))
     = Return (sst_text <$> ss, add_runs 0 ss ∅)
  /\ (forall (t1 t2 : str) (c : N) (hi lo : Z) (rest : bytes)
             (more : list bytes) (n : Z),
        Forall scalar t1 -> Forall scalar t2 ->
        (0x10000 <= c < 0x110000)%N ->
        units_of c = [hi; lo] ->
        places (t1 ++ c :: t2) < 65536 ->
        0 < n ->
        unpack_SST_table
          ((counts ++ le16 (places (t1 ++ c :: t2)) ++ [Byte.x01]
              ++ encode_utf_16_le t1 ++ le16 hi)
           :: (Byte.x01 :: le16 lo ++ encode_utf_16_le t2 ++ rest) :: more) n
        = Raise UnicodeDecodeError).
Proof.
  intros Hc Hok.
  pose proof (unpack_SST_table_layout counts ss Hc Hok) as Hsplit.
  split; [|split; [exact Hsplit|]];
    [|intros; by apply sst_first_string_cut_in_pair].
  rewrite Hsplit.
  pose proof (unpack_SST_table_layout counts (unsplit <$> ss) Hc) as Hwhole.
  rewrite length_fmap, add_runs_unsplit in Hwhole.
  rewrite Hwhole.
  - do 2 f_equal. rewrite <- list_fmap_compose.
    apply list_fmap_ext. intros _ s _. symmetry. apply sst_text_unsplit.
  - apply Forall_fmap. eapply Forall_impl; [|exact Hok].
    intros s Hs. by apply unsplit_ok.
Qed.

(** C6 as stated fails where the boundary lies between the two units of a
    surrogate pair: the second table is the first one cut after 13 bytes,
    the continuation starting with its own option byte; the unsplit string
    decodes to U+1F600, and on the split one the first fragment's unit is
    decoded on its own and the decoder raises. *)
Lemma sst_split_inside_surrogate_pair :
  (exists whole : bytes,
      sst_whole = [whole]
      /\ sst_split_in_pair = [take 13 whole; Byte.x01 :: drop 13 whole])
  /\ unpack_SST_table sst_whole 1 = Return ([[0x1F600%N]], ∅)
  /\ unpack_SST_table sst_split_in_pair 1 = Raise UnicodeDecodeError
  /\ unpack_SST_table sst_split_in_pair 1 <> unpack_SST_table sst_whole 1.
Proof.
  split; [eexists; split; reflexivity|].
  assert (Ew : unpack_SST_table sst_whole 1 = Return ([[0x1F600%N]], ∅))
    by (vm_compute; reflexivity).
  assert (Es : unpack_SST_table sst_split_in_pair 1
               = Raise UnicodeDecodeError) by (vm_compute; reflexivity).
  split; [exact Ew|]. split; [exact Es|]. rewrite Ew, Es. discriminate.
Qed.

Lemma sst_split_between_characters_witness :
  sst_table sst_counts [a_then_emoji] = sst_mixed_split
  /\ sst_table sst_counts (unsplit <$> [a_then_emoji]) = sst_mixed_whole
  /\ unpack_SST_table (sst_table sst_counts [a_then_emoji]) 1
     = unpack_SST_table (sst_table sst_counts (unsplit <$> [a_then_emoji])) 1
  /\ unpack_SST_table (sst_table sst_counts [a_then_emoji]) 1
     = Return ([[0x61%N; 0x1F600%N]], ∅)
  /\ unpack_SST_table
       [sst_counts ++ le16 (places ([0x61%N] ++ [0x1F600%N])) ++ [Byte.x01]
          ++ encode_utf_16_le [0x61%N] ++ le16 0xD83D;
        Byte.x01 :: le16 0xDE00 ++ encode_utf_16_le [] ++ []] 1
     = Raise UnicodeDecodeError.
Proof.
  split; [reflexivity|]. split; [reflexivity|].
  destruct (sst_split_between_characters sst_counts [a_then_emoji] eq_refl)
    as (Hsame & Htext & Hcut).
  - constructor; [|constructor]. unfold sst_string_ok, chunk_ok. simpl.
    split; [constructor; [lia|constructor]|].
    split; [constructor; [|constructor]; constructor;
            [right; lia|constructor]|].
    split; [constructor; [discriminate|constructor]|].
    split; [reflexivity|]. split; [constructor|]. lia.
  - split; [exact Hsame|]. split; [exact Htext|].
    apply (Hcut [0x61%N] [] 0x1F600%N 0xD83D 0xDE00 [] [] 1).
    + constructor; [left; lia|constructor].
    + constructor.
    + lia.
    + reflexivity.
    + vm_compute. reflexivity.
    + lia.
Defined.

(** The code run on a table of two strings, the first one with three
    runs, rich-text runs and a phonetic block. *)
Example sst_two_strings :
  unpack_SST_table (sst_table sst_counts [rich_string; a_then_emoji]) 2
  = Return ([[0xE9%N; 0x74%N; 0xE9%N]; [0x61%N; 0x1F600%N]],
            {[ 0 := [(0, 1); (2, 5)] ]}).
Proof. vm_compute. reflexivity. Qed.

(** ** Cell addresses *)

Section Cells.

Import book_helpers.

Lemma A2Z_letters : _A2Z = (fun i : nat => N.of_nat (65 + i)) <$> seq 0 26.
Proof. reflexivity. Qed.

Lemma A2Z_getitem (r : Z) :
  0 <= r < 26 -> getitem _A2Z r = Return (Z.to_N (65 + r)).
Proof.
  intros Hr. rewrite getitem_nonneg by lia. rewrite A2Z_letters.
  rewrite list_lookup_fmap, lookup_seq_lt by lia. simpl. f_equal. lia.
Qed.

Lemma letters_value_app (pre name : str) :
  letters_value (pre ++ name)
  = fold_left (fun acc c => acc * 26 + (Z.of_N c - 64)) name
      (letters_value pre).
Proof. unfold letters_value. by rewrite fold_left_app. Qed.

Lemma colname_loop_value (fuel : nat) :
  forall (colx : Z) (name : str),
    0 <= colx -> (Z.to_nat colx < fuel)%nat ->
    exists pre : str,
      colname_loop fuel colx name = Return (pre ++ name)
      /\ pre <> [] /\ Forall capital pre /\ letters_value pre = colx + 1.
Proof.
  induction fuel as [|fuel IH]; intros colx name Hc Hfuel; [lia|].
  cbn [colname_loop].
  pose proof (Z.mod_pos_bound colx 26 ltac:(lia)) as Hrem.
  pose proof (Z.div_mod colx 26 ltac:(lia)) as Hdm.
  assert (Hq : 0 <= colx / 26) by (apply Z.div_pos; lia).
  rewrite A2Z_getitem by lia. cbn [bind].
  destruct (colx / 26 =? 0) eqn:E.
  - exists [Z.to_N (65 + colx mod 26)]. split; [reflexivity|].
    split; [done|]. split.
    + constructor; [unfold capital; lia|constructor].
    + unfold letters_value. cbn [fold_left]. lia.
  - destruct (IH (colx / 26 - 1) ([Z.to_N (65 + colx mod 26)] ++ name)
                ltac:(lia) ltac:(lia)) as (pre & Heq & Hne & Hcap & Hval).
    exists (pre ++ [Z.to_N (65 + colx mod 26)]). split.
    + rewrite Heq. by rewrite <- app_assoc.
    + split; [by destruct pre|]. split.
      * apply Forall_app. split; [done|].
        constructor; [unfold capital; lia|constructor].
      * rewrite letters_value_app, Hval. cbn [fold_left]. lia.
Qed.

(** X1.  [colname] numbers the columns in bijective base 26: for every
    column index that is not negative the loop ends (within [colx + 1]
    turns) and returns a non-empty name of capital letters whose value,
    the letters read as the digits 1 to 26, is [colx + 1]; so two indexes
    with the same name are the same index.  A negative index fails the
    assertion. *)
Theorem colname_bijective_base_26 (fuel : nat) (colx : Z) :
  (colx < 0 -> colname fuel colx = Raise AssertionError)
  /\ (0 <= colx -> (Z.to_nat colx < fuel)%nat ->
      exists name : str,
        colname fuel colx = Return name
        /\ name <> [] /\ Forall capital name
        /\ letters_value name = colx + 1)
  /\ (forall (fuel' : nat) (colx' : Z) (name : str),
        colname fuel colx = Return name ->
        colname fuel' colx' = Return name ->
        (Z.to_nat colx < fuel)%nat -> (Z.to_nat colx' < fuel')%nat ->
        colx = colx').
Proof.
  assert (Hval : forall f c n,
             (Z.to_nat c < f)%nat -> colname f c = Return n ->
             0 <= c /\ letters_value n = c + 1).
  { intros f c n Hf Hrun. unfold colname in Hrun.
    destruct (c >=? 0) eqn:E; [|discriminate]. cbn [negb] in Hrun.
    destruct (colname_loop_value f c [] ltac:(lia) Hf)
      as (pre & Heq & _ & _ & Hv).
    rewrite Heq, app_nil_r in Hrun. injection Hrun as <-. lia. }
  split; [|split].
  - intros Hneg. unfold colname.
    destruct (colx >=? 0) eqn:E; [lia|reflexivity].
  - intros Hc Hfuel. unfold colname.
    destruct (colx >=? 0) eqn:E; [|lia]. cbn [negb].
    destruct (colname_loop_value fuel colx [] Hc Hfuel)
      as (pre & Heq & Hne & Hcap & Hv).
    exists pre. by rewrite Heq, app_nil_r.
  - intros fuel' colx' name H1 H2 Hf Hf'.
    destruct (Hval _ _ _ Hf H1) as [_ E1].
    destruct (Hval _ _ _ Hf' H2) as [_ E2]. lia.
Qed.

Lemma colname_bijective_base_26_witness :
  exists name : str,
    colname 28 27 = Return name
    /\ name <> [] /\ Forall capital name /\ letters_value name = 27 + 1.
Proof.
  apply (proj1 (proj2 (colname_bijective_base_26 28 27))); lia.
Defined.

Lemma land_pow2 (x k : Z) :
  0 <= k ->
  Z.land x (2 ^ k) = if Z.testbit x k then 2 ^ k else 0.
Proof.
  intros Hk. apply Z.bits_inj'. intros n Hn.
  rewrite Z.land_spec, Z.pow2_bits_eqb by lia.
  destruct (Z.testbit x k) eqn:E.
  - rewrite Z.pow2_bits_eqb by lia.
    destruct (k =? n) eqn:En; [|by rewrite andb_false_r].
    apply Z.eqb_eq in En as <-. by rewrite E.
  - rewrite Z.bits_0. destruct (k =? n) eqn:En; [|by rewrite andb_false_r].
    apply Z.eqb_eq in En as <-. by rewrite E.
Qed.

(** X2.  [expand_cell_address] loses nothing and reads relative offsets
    as signed numbers: for a row field of 16 bits, the two flags are the
    bits 15 and 14 of the column field; the row field is [out_row] modulo
    65536 and the low byte of the column field is [out_col] modulo 256; an
    absolute row is the row field itself and an absolute column lies in
    0..255; a relative row lies in -32768..32767 and a relative column in
    -128..127. *)
Theorem expand_cell_address_signed (in_row in_col : Z) :
  0 <= in_row < 65536 ->
  exists out_row out_col rel_row rel_col : Z,
    expand_cell_address in_row in_col = (out_row, out_col, rel_row, rel_col)
    /\ rel_row = Z.b2z (Z.testbit in_col 15)
    /\ rel_col = Z.b2z (Z.testbit in_col 14)
    /\ out_row mod 65536 = in_row
    /\ out_col mod 256 = in_col mod 256
    /\ (rel_row = 0 -> out_row = in_row)
    /\ (rel_row = 1 -> -32768 <= out_row < 32768)
    /\ (rel_col = 0 -> 0 <= out_col < 256)
    /\ (rel_col = 1 -> -128 <= out_col < 128).
Proof.
  intros Hrow. unfold expand_cell_address.
  change 0x8000 with (2 ^ 15). change 0x4000 with (2 ^ 14).
  rewrite !land_pow2 by lia.
  change 0xFF with (Z.ones 8). rewrite Z.land_ones by lia.
  change (2 ^ 8) with 256.
  pose proof (Z.mod_pos_bound in_col 256 ltac:(lia)) as Hcol.
  destruct (Z.testbit in_col 15), (Z.testbit in_col 14);
    cbn [Z.b2z negb Z.eqb Z.pow Z.pow_pos Pos.iter Z.mul Pos.mul];
    repeat match goal with
           | |- context [?a >=? ?b] =>
               let E := fresh "E" in destruct (a >=? b) eqn:E
           end;
    eexists _, _, _, _; (split; [reflexivity|]);
    repeat split; intros; try lia;
    try (rewrite <- (Z.mod_small in_row 65536) at 2 by lia;
         rewrite <- (Z_mod_plus_full in_row (-1) 65536); f_equal; lia);
    try (apply Z.mod_small; lia);
    try (rewrite <- (Z.mod_mod in_col 256) at 2 by lia;
         rewrite <- (Z_mod_plus_full (in_col mod 256) (-1) 256);
         f_equal; lia);
    try (apply Z.mod_mod; lia).
Qed.

Lemma expand_cell_address_signed_witness :
  exists out_row out_col rel_row rel_col : Z,
    expand_cell_address 65535 0xC0FE = (out_row, out_col, rel_row, rel_col)
    /\ rel_row = Z.b2z (Z.testbit 0xC0FE 15)
    /\ rel_col = Z.b2z (Z.testbit 0xC0FE 14)
    /\ out_row mod 65536 = 65535
    /\ out_col mod 256 = 0xC0FE mod 256
    /\ (rel_row = 0 -> out_row = 65535)
    /\ (rel_row = 1 -> -32768 <= out_row < 32768)
    /\ (rel_col = 0 -> 0 <= out_col < 256)
    /\ (rel_col = 1 -> -128 <= out_col < 128).
Proof.
  apply (expand_cell_address_signed 65535 0xC0FE). lia.
Defined.

Lemma expand_cell_address_bits (in_row in_col : Z) :
  expand_cell_address in_row in_col
  = ((if Z.testbit in_col 15
      then (if in_row >=? 32768 then in_row - 65536 else in_row)
      else in_row),
     (if Z.testbit in_col 14
      then (if in_col mod 256 >=? 128 then in_col mod 256 - 256
            else in_col mod 256)
      else in_col mod 256),
     Z.b2z (Z.testbit in_col 15), Z.b2z (Z.testbit in_col 14)).
Proof.
  unfold expand_cell_address.
  change 0x8000 with (2 ^ 15). change 0x4000 with (2 ^ 14).
  rewrite !land_pow2 by lia.
  change 0xFF with (Z.ones 8). rewrite Z.land_ones by lia.
  change (2 ^ 8) with 256.
  by destruct (Z.testbit in_col 15), (Z.testbit in_col 14).
Qed.

Lemma colname_two_turns (fuel : nat) (colx : Z) :
  0 <= colx < 702 -> (2 <= fuel)%nat ->
  exists name : str,
    colname fuel colx = Return name
    /\ letters_value name = colx + 1 /\ (length name <= 2)%nat.
Proof.
  intros Hc Hfuel. destruct fuel as [|[|fuel]]; [lia|lia|].
  unfold colname. destruct (colx >=? 0) eqn:E; [|lia]. cbn [negb].
  pose proof (Z.mod_pos_bound colx 26 ltac:(lia)) as Hrem.
  pose proof (Z.div_mod colx 26 ltac:(lia)) as Hdm.
  assert (Hq : 0 <= colx / 26 < 27).
  { split; [apply Z.div_pos; lia|apply Z.div_lt_upper_bound; lia]. }
  cbn [colname_loop]. rewrite A2Z_getitem by lia. cbn [bind].
  destruct (colx / 26 =? 0) eqn:E1.
  - eexists. split; [reflexivity|]. split; [|simpl; lia].
    unfold letters_value. cbn [app fold_left]. lia.
  - assert (Hm : (colx / 26 - 1) mod 26 = colx / 26 - 1)
      by (apply Z.mod_small; lia).
    assert (Hd : (colx / 26 - 1) / 26 = 0) by (apply Z.div_small; lia).
    rewrite Hm, Hd. rewrite A2Z_getitem by lia. cbn [bind Z.eqb].
    eexists. split; [reflexivity|]. split; [|simpl; lia].
    unfold letters_value. cbn [app fold_left]. lia.
Qed.

(** X3.  What [expand_cell_address] returns for a row field of 16 bits,
    [display_cell_address] always displays: the assertion of [colname] is
    not reached, since an absolute column lies in 0..255, and two turns of
    its loop are enough.  The text is the column part followed by the row
    part; an absolute row is shown as ["$"] and the row number from 1, an
    absolute column as ["$"] and a name of one or two letters. *)
Theorem display_of_expanded_address (fuel : nat) (in_row in_col : Z) :
  0 <= in_row < 65536 -> (2 <= fuel)%nat ->
  exists out_row out_col rel_row rel_col : Z,
    expand_cell_address in_row in_col = (out_row, out_col, rel_row, rel_col)
    /\ exists col_part : str,
         display_cell_address fuel out_row out_col rel_row rel_col
         = Return (col_part
                     ++ (if Z.testbit in_col 15 then relative_part out_row
                         else u "$" ++ str_of_int (in_row + 1)))
         /\ (if Z.testbit in_col 14 then col_part = relative_part out_col
             else exists name : str,
                 col_part = u "$" ++ name
                 /\ letters_value name = in_col mod 256 + 1
                 /\ (length name <= 2)%nat).
Proof.
  intros Hrow Hfuel. rewrite expand_cell_address_bits.
  eexists _, _, _, _. split; [reflexivity|].
  pose proof (Z.mod_pos_bound in_col 256 ltac:(lia)) as Hcol.
  unfold display_cell_address.
  destruct (Z.testbit in_col 15), (Z.testbit in_col 14);
    cbn [Z.b2z Z.eqb negb bind].
  - eexists. split; reflexivity.
  - destruct (colname_two_turns fuel (in_col mod 256) ltac:(lia) Hfuel)
      as (name & -> & Hv & Hl).
    cbn [bind]. eexists. split; [reflexivity|]. by exists name.
  - eexists. split; reflexivity.
  - destruct (colname_two_turns fuel (in_col mod 256) ltac:(lia) Hfuel)
      as (name & -> & Hv & Hl).
    cbn [bind]. eexists. split; [reflexivity|]. by exists name.
Qed.

Lemma display_of_expanded_address_witness :
  exists out_row out_col rel_row rel_col : Z,
    expand_cell_address 4 0x401B = (out_row, out_col, rel_row, rel_col)
    /\ exists col_part : str,
         display_cell_address 2 out_row out_col rel_row rel_col
         = Return (col_part
                     ++ (if Z.testbit 0x401B 15 then relative_part out_row
                         else u "$" ++ str_of_int (4 + 1)))
         /\ (if Z.testbit 0x401B 14 then col_part = relative_part out_col
             else exists name : str,
                 col_part = u "$" ++ name
                 /\ letters_value name = 0x401B mod 256 + 1
                 /\ (length name <= 2)%nat).
Proof.
  apply (display_of_expanded_address 2 4 0x401B); lia.
Defined.

(** The displays of the absolute cell AB5 and of a cell one row up, 27
    columns on. *)
Example display_cell_address_examples :
  display_cell_address 2 4 27 0 0 = Return (u "$AB$5")
  /\ display_cell_address 2 (-1) 27 1 1 = Return (u "(*+27)(*-1)").
Proof. split; reflexivity. Qed.

End Cells.

(** ** The record cursor *)

Lemma ord_range (b : Byte.byte) : 0 <= ord b < 256.
Proof. unfold ord. pose proof (Byte.to_N_bounded b). lia. Qed.

Lemma lor_shiftl_8 (hi lo : Z) :
  0 <= hi -> 0 <= lo < 256 -> Z.lor (Z.shiftl hi 8) lo = lo + 256 * hi.
Proof.
  intros Hhi Hlo. rewrite Z.shiftl_mul_pow2 by lia.
  rewrite <- Z.add_nocarry_lor; [change (2 ^ 8) with 256; lia|].
  apply Z.bits_inj'. intros n Hn. rewrite Z.land_spec, Z.bits_0.
  destruct (decide (n < 8)) as [Hlt|Hge].
  - rewrite Z.mul_pow2_bits_low by lia. reflexivity.
  - replace lo with (lo mod 2 ^ 8)
      by (apply Z.mod_small; change (2 ^ 8) with 256; lia).
    rewrite Z.mod_pow2_bits_high by lia. apply andb_false_r.
Qed.

Lemma slice_two {A} (l : list A) (a : Z) :
  0 <= a -> a + 2 <= Z.of_nat (length l) ->
  exists x y, slice l a (a + 2) = [x; y].
Proof.
  intros Ha Hl.
  pose proof (slice_length_within l a (a + 2) ltac:(lia) Hl) as Hlen.
  destruct (slice l a (a + 2)) as [|x [|y [|z r]]]; simpl in Hlen; try lia.
  by exists x, y.
Qed.

Section CursorReads.

Context {Sheet Ext : Type}.

(** X4.  [get2bytes] and [struct.unpack('<H', ...)] read the same number:
    with two bytes or more left, [get2bytes] returns the 16-bit
    little-endian value of the next two bytes, a number below 65536, and
    moves the cursor by 2.  So the marker [MY_EOF], which is not a 16-bit
    number, is returned exactly when fewer than two bytes are left. *)
Theorem get2bytes_is_unpack_H (self : Book Sheet Ext) (m : bytes) :
  mem self = Some m ->
  0 <= _position self ->
  (2 <= Z.of_nat (length m) - _position self ->
   exists v : Z,
     get2bytes self
     = Return (v, set_position self (_position self + 2))
     /\ unpack_H (slice m (_position self) (_position self + 2)) = Return v
     /\ 0 <= v < 65536)
  /\ (forall (v : Z) (self' : Book Sheet Ext),
        get2bytes self = Return (v, self') ->
        (v = MY_EOF <-> Z.of_nat (length m) - _position self < 2)).
Proof.
  intros Hm Hpos.
  assert (Hfull : 2 <= Z.of_nat (length m) - _position self ->
                  exists v : Z,
                    get2bytes self
                    = Return (v, set_position self (_position self + 2))
                    /\ unpack_H (slice m (_position self) (_position self + 2))
                       = Return v
                    /\ 0 <= v < 65536).
  { intros Hleft. unfold get2bytes, mem_slice. rewrite Hm. cbn [bind].
    destruct (slice_two m (_position self) Hpos ltac:(lia))
      as (lo & hi & ->).
    pose proof (ord_range lo). pose proof (ord_range hi).
    cbn [length Z.of_nat Pos.of_succ_nat Pos.succ Z.ltb Z.compare
         Pos.compare Pos.compare_cont].
    rewrite lor_shiftl_8 by lia.
    exists (ord lo + 256 * ord hi). split; [reflexivity|].
    split; [|lia]. unfold unpack_H. cbn [length].
    destruct (decide _) as [_|E]; [|done]. cbn [le_uint]. f_equal. lia. }
  split; [exact Hfull|].
  intros v self' Hrun.
  destruct (decide (2 <= Z.of_nat (length m) - _position self)) as [Hl|Hl].
  - destruct (Hfull Hl) as (w & Heq & _ & Hw).
    rewrite Heq in Hrun. injection Hrun as <- <-.
    unfold MY_EOF. lia.
  - unfold get2bytes, mem_slice in Hrun. rewrite Hm in Hrun.
    cbn [bind] in Hrun.
    pose proof (slice_length_nonneg m (_position self) (_position self + 2)
                  ltac:(lia)) as Hlen.
    destruct (_ <? 2) eqn:E; [|lia]. injection Hrun as <- <-. lia.
Qed.



End CursorReads.

Lemma get2bytes_is_unpack_H_witness :
  exists v : Z,
    get2bytes (book_on (B [9; 8; 16; 0]) 0)
    = Return (v, set_position (book_on (B [9; 8; 16; 0]) 0) (0 + 2))
    /\ unpack_H (slice (B [9; 8; 16; 0]) 0 (0 + 2)) = Return v
    /\ 0 <= v < 65536.
Proof.
  apply (proj1 (get2bytes_is_unpack_H (book_on (B [9; 8; 16; 0]) 0)
                  (B [9; 8; 16; 0]) eq_refl ltac:(simpl; lia))).
  simpl. lia.
Defined.

Lemma unpack_HH_header (code len : Z) :
  0 <= code < 65536 -> 0 <= len < 65536 ->
  unpack_HH (le16 code ++ le16 len) = Return (code, len).
Proof.
  intros Hc Hl. unfold unpack_HH.
  destruct (decide _) as [_|E]; [|by destruct E].
  change (take 2 (le16 code ++ le16 len)) with (le16 code).
  change (drop 2 (le16 code ++ le16 len)) with (le16 len).
  by rewrite !le_uint_le16.
Qed.

Section Records.

Context {Sheet Ext : Type}.

Lemma get_record_parts_reads_record_lemma (self : Book Sheet Ext)
    (pre suf payload : bytes) (code reqd : Z) :
  mem self = Some (pre ++ record code payload ++ suf) ->
  _position self = Z.of_nat (length pre) ->
  record_ok code payload ->
  get_record_parts self
  = Return (code, Z.of_nat (length payload), payload,
            set_position self
              (Z.of_nat (length pre) + 4 + Z.of_nat (length payload)))
  /\ get_record_parts_conditional self code
     = Return (Some code, Z.of_nat (length payload), payload,
               set_position self
                 (Z.of_nat (length pre) + 4 + Z.of_nat (length payload)))
  /\ (reqd <> code ->
      get_record_parts_conditional self reqd = Return (None, 0, [], self)).
Proof.
  intros Hm Hpos [Hcode Hlen].
  set (data := pre ++ record code payload ++ suf) in *.
  assert (Hhead : slice data (Z.of_nat (length pre))
                    (Z.of_nat (length pre) + 4)
                  = le16 code ++ le16 (Z.of_nat (length payload))).
  { apply (slice_field data pre _ (payload ++ suf)); [|done..].
    unfold data, record. by rewrite <- !app_assoc. }
  assert (Hbody : slice data (Z.of_nat (length pre) + 4)
                    (Z.of_nat (length pre) + 4
                     + Z.of_nat (length payload)) = payload).
  { apply (slice_field data
             (pre ++ le16 code ++ le16 (Z.of_nat (length payload)))
             payload suf); [|rewrite !length_app; simpl; lia|done].
    unfold data, record. by rewrite <- !app_assoc. }
  unfold get_record_parts, get_record_parts_conditional, mem_slice.
  rewrite Hm, Hpos. cbn [bind]. rewrite Hhead.
  rewrite unpack_HH_header by lia. cbn [bind].
  rewrite Hbody, Z.eqb_refl. cbn [negb].
  split; [reflexivity|]. split; [reflexivity|].
  intros Hne. destruct (code =? reqd) eqn:E; [lia|]. reflexivity.
Qed.

(** X5.  A record that is written as its code, the length of its payload
    and the payload is read back by [get_record_parts]: the code, the
    length and the payload are returned and the cursor is at the byte
    after the payload.  [get_record_parts_conditional] does the same when
    the code is the required one; otherwise it returns [(None, 0, b'')]
    and leaves the workbook as it was. *)
Theorem get_record_parts_reads_record (self : Book Sheet Ext)
    (pre suf payload : bytes) (code reqd : Z) :
  mem self = Some (pre ++ record code payload ++ suf) ->
  _position self = Z.of_nat (length pre) ->
  record_ok code payload ->
  get_record_parts self
  = Return (code, Z.of_nat (length payload), payload,
            set_position self
              (Z.of_nat (length pre) + 4 + Z.of_nat (length payload)))
  /\ get_record_parts_conditional self code
     = Return (Some code, Z.of_nat (length payload), payload,
               set_position self
                 (Z.of_nat (length pre) + 4 + Z.of_nat (length payload)))
  /\ (reqd <> code ->
      get_record_parts_conditional self reqd = Return (None, 0, [], self)).
Proof. apply get_record_parts_reads_record_lemma. Qed.

(** [get_record_parts_conditional] is [get_record_parts] with a
    look at the code first: whatever the buffer holds, it raises what
    [get_record_parts] raises; when the record has the required code it
    returns what [get_record_parts] returns, the code given as such; and
    when the code is another one it returns [(None, 0, b'')] with the
    cursor where it was. *)
Theorem get_record_parts_conditional_peeks (self : Book Sheet Ext)
    (reqd : Z) :
  get_record_parts_conditional self reqd
  = match get_record_parts self with
    | Return (code, length, data, self') =>
        if code =? reqd then Return (Some code, length, data, self')
        else Return (None, 0, [], self)
    | Raise e => Raise e
    | OutOfFuel => OutOfFuel
    end.
Proof.
  unfold get_record_parts_conditional, get_record_parts, mem_slice.
  destruct (mem self) as [m|]; [|reflexivity]. cbn [bind].
  destruct (unpack_HH _) as [[code length]| |]; [|reflexivity..].
  cbn [bind]. by destruct (code =? reqd).
Qed.

(** X6.  The two ways of reading a record agree.  With four bytes or more
    left, the code and the length that [get_record_parts] returns are
    what two calls of [get2bytes] return, and its payload is what [read]
    then returns for that length.  [get_record_parts] leaves the cursor
    after the declared length, [read] after the bytes that were there: the
    two cursors are the same unless the end of the buffer cuts the payload
    short. *)
Theorem record_header_by_get2bytes (self : Book Sheet Ext) (m : bytes) :
  mem self = Some m ->
  0 <= _position self ->
  4 <= Z.of_nat (length m) - _position self ->
  exists (code len : Z) (data : bytes),
    get_record_parts self
    = Return (code, len, data, set_position self (_position self + 4 + len))
    /\ get2bytes self
       = Return (code, set_position self (_position self + 2))
    /\ get2bytes (set_position self (_position self + 2))
       = Return (len, set_position self (_position self + 4))
    /\ read (set_position self (_position self + 4))
         (_position self + 4) len
       = Return (data,
                 set_position self
                   (_position self + 4 + Z.of_nat (length data)))
    /\ (_position self + 4 + len <= Z.of_nat (length m) ->
        Z.of_nat (length data) = len).
Proof.
  intros Hm Hpos Hleft. set (p := _position self) in *.
  destruct (slice_two m p Hpos ltac:(lia)) as (c0 & c1 & Hc).
  destruct (slice_two m (p + 2) ltac:(lia) ltac:(lia)) as (l0 & l1 & Hl).
  assert (Hhead : slice m p (p + 4) = [c0; c1; l0; l1]).
  { rewrite (slice_app_within m p (p + 2) (p + 4)) by lia.
    rewrite Hc. replace (p + 4) with (p + 2 + 2) by lia. by rewrite Hl. }
  pose proof (ord_range c0). pose proof (ord_range c1).
  pose proof (ord_range l0). pose proof (ord_range l1).
  exists (ord c0 + 256 * ord c1), (ord l0 + 256 * ord l1),
    (slice m (p + 4) (p + 4 + (ord l0 + 256 * ord l1))).
  split; [|split; [|split; [|split]]].
  - unfold get_record_parts, mem_slice. rewrite Hm. fold p. cbn [bind].
    rewrite Hhead. unfold unpack_HH. cbn [length].
    destruct (decide _) as [_|E]; [|done].
    cbn [bind take drop le_uint].
    rewrite !Z.mul_0_r, !Z.add_0_r. reflexivity.
  - unfold get2bytes, mem_slice. rewrite Hm. fold p. cbn [bind].
    rewrite Hc.
    cbn [length Z.of_nat Pos.of_succ_nat Pos.succ Z.ltb Z.compare
         Pos.compare Pos.compare_cont].
    by rewrite lor_shiftl_8 by lia.
  - unfold get2bytes, mem_slice. cbn [mem _position set_position].
    rewrite Hm. cbn [bind]. rewrite Hl.
    cbn [length Z.of_nat Pos.of_succ_nat Pos.succ Z.ltb Z.compare
         Pos.compare Pos.compare_cont].
    rewrite lor_shiftl_8 by lia. do 3 f_equal. lia.
  - unfold read, mem_slice. cbn [mem set_position]. rewrite Hm.
    reflexivity.
  - intros Hfit. rewrite slice_length_within by lia. lia.
Qed.

End Records.

Lemma get_record_parts_reads_record_witness :
  get_record_parts (book_on (B [7; 7] ++ record 0x3C (B [1; 2; 3]) ++ B [9]) 2)
  = Return (0x3C, 3, B [1; 2; 3],
            set_position
              (book_on (B [7; 7] ++ record 0x3C (B [1; 2; 3]) ++ B [9]) 2)
              (2 + 4 + 3)).
Proof.
  refine (proj1 (get_record_parts_reads_record
                   (book_on (B [7; 7] ++ record 0x3C (B [1; 2; 3]) ++ B [9]) 2)
                   (B [7; 7]) (B [9]) (B [1; 2; 3]) 0x3C 0 eq_refl eq_refl _)).
  unfold record_ok. simpl. lia.
Defined.

Lemma record_header_by_get2bytes_witness :
  exists (code len : Z) (data : bytes),
    get_record_parts (book_on (B [0x3C; 0; 9; 0; 1; 2; 3]) 0)
    = Return (code, len, data,
              set_position (book_on (B [0x3C; 0; 9; 0; 1; 2; 3]) 0)
                (0 + 4 + len))
    /\ get2bytes (book_on (B [0x3C; 0; 9; 0; 1; 2; 3]) 0)
       = Return (code,
                 set_position (book_on (B [0x3C; 0; 9; 0; 1; 2; 3]) 0) (0 + 2))
    /\ get2bytes
         (set_position (book_on (B [0x3C; 0; 9; 0; 1; 2; 3]) 0) (0 + 2))
       = Return (len,
                 set_position (book_on (B [0x3C; 0; 9; 0; 1; 2; 3]) 0) (0 + 4))
    /\ read (set_position (book_on (B [0x3C; 0; 9; 0; 1; 2; 3]) 0) (0 + 4))
         (0 + 4) len
       = Return (data,
                 set_position (book_on (B [0x3C; 0; 9; 0; 1; 2; 3]) 0)
                   (0 + 4 + Z.of_nat (length data)))
    /\ (0 + 4 + len <= Z.of_nat (length (B [0x3C; 0; 9; 0; 1; 2; 3])) ->
        Z.of_nat (length data) = len).
Proof.
  apply (record_header_by_get2bytes (book_on (B [0x3C; 0; 9; 0; 1; 2; 3]) 0)
           (B [0x3C; 0; 9; 0; 1; 2; 3]) eq_refl);
    simpl; lia.
Defined.

(** ** The shared-string table read from its records *)

Section SSTRecords.

Context {Sheet Ext : Type} `{Biffh}.

Lemma record_length (code : Z) (payload : bytes) :
  Z.of_nat (length (record code payload)) = 4 + Z.of_nat (length payload).
Proof. unfold record, le16. rewrite !length_app. simpl. lia. Qed.

(** The CONTINUE records that follow are gathered, in order, up to the
    first record with another code; the cursor is left before that
    record. *)
Lemma SST_continues_gathers (rest : list bytes) :
  forall (fuel : nat) (self : Book Sheet Ext) (pre suf : bytes)
         (strlist : list bytes) (code' : Z) (payload' : bytes),
    0 <= XL_CONTINUE < 65536 ->
    Forall (fun f : bytes => Z.of_nat (length f) < 65536) rest ->
    record_ok code' payload' ->
    code' <> XL_CONTINUE ->
    mem self = Some (pre ++ concat (record XL_CONTINUE <$> rest)
                       ++ record code' payload' ++ suf) ->
    _position self = Z.of_nat (length pre) ->
    (length rest < fuel)%nat ->
    exists self' : Book Sheet Ext,
      SST_continues fuel self strlist = Return (strlist ++ rest, self')
      /\ (self' = self \/ exists p, self' = set_position self p)
      /\ _position self'
         = Z.of_nat (length pre)
           + Z.of_nat (length (concat (record XL_CONTINUE <$> rest))).
Proof.
  induction rest as [|f rest IH];
    intros fuel self pre suf strlist code' payload' Hc Hfit Hok Hne Hm Hpos
           Hfuel;
    (destruct fuel as [|fuel]; [simpl in Hfuel; lia|]);
    cbn [SST_continues].
  - cbn [fmap list_fmap concat app] in Hm.
    destruct (get_record_parts_reads_record_lemma self pre suf payload' code'
                XL_CONTINUE Hm Hpos Hok) as (_ & _ & Hno).
    rewrite Hno by lia. cbn [bind]. exists self.
    rewrite app_nil_r. split; [reflexivity|]. split; [by left|].
    simpl. lia.
  - rewrite (fmap_cons (record XL_CONTINUE)) in Hm |- *.
    cbn [concat] in Hm |- *. rewrite <- app_assoc in Hm.
    destruct (get_record_parts_reads_record_lemma self pre
                (concat (record XL_CONTINUE <$> rest)
                   ++ record code' payload' ++ suf) f XL_CONTINUE
                XL_CONTINUE Hm Hpos
                (conj Hc (Forall_inv Hfit))) as (_ & Hyes & _).
    rewrite Hyes. cbn [bind].
    set (self1 := set_position self _).
    destruct (IH fuel self1 (pre ++ record XL_CONTINUE f) suf
                (strlist ++ [f]) code' payload' Hc (Forall_inv_tail Hfit)
                Hok Hne)
      as (self' & Hrun & Hsame & Hp).
    { unfold self1. cbn [mem set_position]. rewrite Hm.
      by rewrite <- !app_assoc. }
    { unfold self1. cbn [_position set_position].
      rewrite length_app, Nat2Z.inj_add, record_length. lia. }
    { simpl in Hfuel. lia. }
    exists self'. rewrite Hrun, <- app_assoc. split; [reflexivity|].
    split.
    + right. destruct Hsame as [->|[p ->]]; [by eexists|by exists p].
    + rewrite Hp, !length_app. lia.
Qed.

(** X7.  A shared-string table written as an SST record and CONTINUE
    records is read back by [handle_sst].  The payload of the SST record
    is the first fragment of the table (the two counts, the second one the
    number of strings, then the strings); each further fragment is the
    payload of a CONTINUE record; a record with another code follows.
    [handle_sst], called with the first fragment, the cursor being after
    the SST record, reads the CONTINUE records and leaves the cursor
    before the record that follows them; [_sharedstrings] is the list of
    the strings' texts, and [_rich_text_runlist_map] holds their rich-text
    runs when [formatting_info] is set and is left as it was otherwise. *)
Theorem handle_sst_reads_table (fuel : nat) (self : Book Sheet Ext)
    (pre suf total first : bytes) (rest : list bytes)
    (ss : list sst_string) (code' : Z) (payload' : bytes) :
  length total = 4%nat ->
  Z.of_nat (length ss) < 2147483648 ->
  Forall sst_string_ok ss ->
  sst_table (total ++ le32 (Z.of_nat (length ss))) ss = first :: rest ->
  0 <= XL_CONTINUE < 65536 ->
  Forall (fun f : bytes => Z.of_nat (length f) < 65536) rest ->
  record_ok code' payload' ->
  code' <> XL_CONTINUE ->
  mem self = Some (pre ++ concat (record XL_CONTINUE <$> rest)
                     ++ record code' payload' ++ suf) ->
  _position self = Z.of_nat (length pre) ->
  (length rest < fuel)%nat ->
  exists self' : Book Sheet Ext,
    handle_sst fuel first self = Return self'
    /\ _sharedstrings self' = Some (sst_text <$> ss)
    /\ _rich_text_runlist_map self'
       = (if formatting_info self then Some (add_runs 0 ss ∅)
          else _rich_text_runlist_map self)
    /\ _position self'
       = Z.of_nat (length pre)
         + Z.of_nat (length (concat (record XL_CONTINUE <$> rest)))
    /\ mem self' = mem self.
Proof.
  intros Htotal Hcount Hss Htab Hc Hfit Hok Hne Hm Hpos Hfuel.
  assert (Hcounts : length (total ++ le32 (Z.of_nat (length ss))) = 8%nat).
  { rewrite length_app, Htotal. reflexivity. }
  pose proof (unpack_SST_table_layout _ ss Hcounts Hss) as Hdecode.
  rewrite Htab in Hdecode.
  assert (Hfirst : first = total ++ le32 (Z.of_nat (length ss))
                             ++ fst (strings_layout ss)).
  { unfold sst_table, fragments, prepend in Htab. cbn [fst snd] in Htab.
    injection Htab as <- _. by rewrite <- app_assoc. }
  assert (Hunique : slice first 4 8 = le32 (Z.of_nat (length ss))).
  { refine (slice_field first total (le32 (Z.of_nat (length ss)))
              (fst (strings_layout ss)) 4 4 Hfirst _ _);
      [by rewrite Htotal|reflexivity]. }
  unfold handle_sst. rewrite Hunique.
  rewrite unpack_i_le32 by lia. cbn [bind].
  destruct (SST_continues_gathers rest fuel self pre suf [first] code'
              payload' Hc Hfit Hok Hne Hm Hpos Hfuel)
    as (self' & -> & Hsame & Hp).
  cbn [bind app]. rewrite Hdecode. cbn [bind].
  assert (Hfi : formatting_info self' = formatting_info self)
    by (by destruct Hsame as [->|[p ->]]).
  assert (Hrt : _rich_text_runlist_map self' = _rich_text_runlist_map self)
    by (by destruct Hsame as [->|[p ->]]).
  assert (Hmem : mem self' = mem self)
    by (by destruct Hsame as [->|[p ->]]).
  rewrite Hfi. destruct (formatting_info self); eexists;
    (split; [reflexivity|]); cbn [set_sst _sharedstrings
      _rich_text_runlist_map _position mem]; by rewrite ?Hrt.
Qed.

End SSTRecords.

Lemma handle_sst_reads_table_witness :
  exists self' : Book str unit,
    handle_sst 2 (sst_counts ++ B [3; 0; 0; 0x61])
      (book_on (record 0x3C (B [1; 0x3d; 0xd8; 0x00; 0xde])
                  ++ record 0x0A []) 0)
    = Return self'
    /\ _sharedstrings self' = Some [[0x61%N; 0x1F600%N]]
    /\ _position self' = 9.
Proof.
  destruct (handle_sst_reads_table (Sheet := str) (Ext := unit) 2
              (book_on (record 0x3C (B [1; 0x3d; 0xd8; 0x00; 0xde])
                          ++ record 0x0A []) 0)
              [] [] (B [1; 0; 0; 0]) (sst_counts ++ B [3; 0; 0; 0x61])
              [B [1; 0x3d; 0xd8; 0x00; 0xde]] [a_then_emoji] 0x0A [])
    as (self' & Hrun & Hs & _ & Hp & _).
  - reflexivity.
  - simpl. lia.
  - constructor; [|constructor]. unfold sst_string_ok, chunk_ok. simpl.
    split; [constructor; [lia|constructor]|].
    split; [constructor; [|constructor]; constructor;
            [right; lia|constructor]|].
    split; [constructor; [discriminate|constructor]|].
    split; [reflexivity|]. split; [constructor|]. lia.
  - reflexivity.
  - simpl. lia.
  - constructor; [simpl; lia|constructor].
  - unfold record_ok. simpl. lia.
  - simpl. lia.
  - reflexivity.
  - reflexivity.
  - simpl. lia.
  - exists self'. split; [exact Hrun|]. split; [exact Hs|exact Hp].
Defined.

(** ** Records that the globals parser has no branch for *)

Section Skipping.

Context {Sheet Ext : Type} `{Biffh} `{Interpreter}
  `{!Collaborators Sheet Ext}.

Lemma set_position_same (self : Book Sheet Ext) :
  set_position self (_position self) = self.
Proof. by destruct self. Qed.

Lemma parse_globals_loop_skip (fuel : nat) (self : Book Sheet Ext)
    (pre suf : bytes) (r : Z * bytes) :
  skipped r ->
  mem self = Some (pre ++ record (fst r) (snd r) ++ suf) ->
  _position self = Z.of_nat (length pre) ->
  parse_globals_loop (S fuel) self
  = parse_globals_loop fuel
      (set_position self
         (Z.of_nat (length pre) + Z.of_nat (length (record (fst r) (snd r))))).
Proof.
  intros [Hok Hno] Hm Hpos. cbn [parse_globals_loop].
  destruct (get_record_parts_reads_record_lemma self pre suf (snd r) (fst r)
              0 Hm Hpos Hok) as (-> & _ & _).
  cbn [bind]. rewrite record_length.
  replace (Z.of_nat (length pre) + (4 + Z.of_nat (length (snd r))))
    with (Z.of_nat (length pre) + 4 + Z.of_nat (length (snd r))) by lia.
  unfold handled_codes in Hno.
  repeat match goal with
         | |- context [fst r =? ?c] =>
             let E := fresh "E" in
             destruct (fst r =? c) eqn:E;
             [apply Z.eqb_eq in E; exfalso; apply Hno; rewrite E;
              set_solver|]
         end.
  cbn [orb]. by destruct (_ && _).
Qed.

(** X8.  [parse_globals] passes over the records that it has no branch
    for: a run of such records is read one by one, no handler is called
    and nothing but the cursor changes, and the loop goes on at the record
    after them.  When fewer than four bytes follow, so that no EOF record
    ends the stream, the loop raises [struct.error]. *)
Theorem parse_globals_skips_unknown (rs : list (Z * bytes)) :
  forall (fuel : nat) (self : Book Sheet Ext) (pre suf : bytes),
    Forall skipped rs ->
    mem self = Some (pre ++ records rs ++ suf) ->
    _position self = Z.of_nat (length pre) ->
    parse_globals_loop (length rs + fuel) self
    = parse_globals_loop fuel
        (set_position self
           (Z.of_nat (length pre) + Z.of_nat (length (records rs))))
    /\ (Z.of_nat (length suf) < 4 ->
        parse_globals_loop (length rs + S fuel) self = Raise struct_error).
Proof.
  induction rs as [|r rs IH]; intros fuel self pre suf Hrs Hm Hpos.
  - cbn [length Nat.add records fmap list_fmap concat] in *.
    rewrite Z.add_0_r, <- Hpos, set_position_same.
    split; [reflexivity|]. intros Hsuf.
    cbn [parse_globals_loop]. unfold get_record_parts, mem_slice.
    rewrite Hm, Hpos. cbn [bind app]. unfold unpack_HH.
    pose proof (slice_length_nonneg (pre ++ suf) (Z.of_nat (length pre))
                  (Z.of_nat (length pre) + 4) ltac:(lia)) as Hlen.
    rewrite length_app in Hlen.
    destruct (decide _) as [E|E]; [lia|]. reflexivity.
  - unfold records in Hm |- *.
    rewrite (fmap_cons (fun r : Z * bytes => record (fst r) (snd r)))
      in Hm |- *.
    cbn [concat] in Hm |- *. rewrite <- app_assoc in Hm.
    fold (records rs) in Hm |- *.
    cbn [length Nat.add].
    pose proof (parse_globals_loop_skip (length rs + fuel) self pre
                  (records rs ++ suf) r (Forall_inv Hrs) Hm Hpos) as Hstep.
    pose proof (parse_globals_loop_skip (length rs + S fuel) self pre
                  (records rs ++ suf) r (Forall_inv Hrs) Hm Hpos) as Hstep'.
    set (self1 := set_position self _) in *.
    destruct (IH fuel self1 (pre ++ record (fst r) (snd r)) suf
                (Forall_inv_tail Hrs)) as [Hgo Hend].
    { unfold self1. cbn [mem set_position]. rewrite Hm.
      by rewrite <- !app_assoc. }
    { unfold self1. cbn [_position set_position].
      rewrite length_app. lia. }
    split.
    + rewrite Hstep, Hgo. f_equal. unfold self1.
      rewrite !length_app. cbn [set_position]. f_equal; lia.
    + intros Hsuf. rewrite Hstep'. by apply Hend.
Qed.

End Skipping.

Lemma parse_globals_skips_unknown_witness :
  parse_globals_loop (1 + 1)
    (book_on (records [(0x3D, B [1; 2])] ++ B [0x0A; 0]) 0)
  = Raise struct_error.
Proof.
  assert (Hskip : Forall skipped [(0x3D, B [1; 2])]).
  { constructor; [|constructor]. split.
    - unfold record_ok. simpl. lia.
    - apply (bool_decide_unpack _). vm_compute. exact I. }
  apply (proj2 (parse_globals_skips_unknown (Sheet := str) (Ext := unit)
                  [(0x3D, B [1; 2])] 0
                  (book_on (records [(0x3D, B [1; 2])] ++ B [0x0A; 0]) 0)
                  [] (B [0x0A; 0]) Hskip eq_refl eq_refl)).
  simpl. lia.
Defined.

(** ** Loading, caching and unloading sheets *)

Section SheetAccess.

Import book_sheets.

Context {Sheet Ext : Type} `{Biffh} `{Interpreter}
  `{!Collaborators Sheet Ext}.

Lemma get2bytes_frame (self self' : Book Sheet Ext) (v : Z) :
  get2bytes self = Return (v, self') -> exists p, self' = set_position self p.
Proof.
  unfold get2bytes, mem_slice. destruct (mem self) as [m|]; [|discriminate].
  cbn [bind]. destruct (_ <? 2).
  - intros [= <- <-]. by eexists.
  - destruct (slice m _ _) as [|lo [|hi [|x r]]]; try discriminate.
    intros [= <- <-]. by eexists.
Qed.

Lemma read_frame (self self' : Book Sheet Ext) (pos len : Z) (data : bytes) :
  read self pos len = Return (data, self') ->
  exists p, self' = set_position self p.
Proof.
  unfold read, mem_slice. destruct (mem self) as [m|]; [|discriminate].
  cbn [bind]. intros [= <- <-]. by eexists.
Qed.

(** [getbof] changes nothing but the cursor. *)
Lemma getbof_frame (self after : Book Sheet Ext) (rqd_stream version : Z) :
  getbof self rqd_stream = Return (version, after) ->
  exists p, after = set_position self p.
Proof.
  unfold getbof, bof_error. intros Hrun.
  destruct (get2bytes self) as [[opcode s1]| |] eqn:E1; cbn [bind] in Hrun;
    try discriminate.
  destruct (get2bytes_frame _ _ _ E1) as [p1 ->].
  destruct (opcode =? MY_EOF); [discriminate|].
  destruct (negb _).
  { destruct (mem_slice _ _ _); discriminate. }
  destruct (get2bytes (set_position self p1)) as [[len s2]| |] eqn:E2;
    cbn [bind] in Hrun; try discriminate.
  destruct (get2bytes_frame _ _ _ E2) as [p2 ->].
  destruct (len =? MY_EOF); [discriminate|].
  destruct (negb _); [discriminate|].
  destruct (boflen opcode); cbn [bind] in Hrun; [|discriminate].
  destruct (read _ _ _) as [[data s3]| |] eqn:E3; cbn [bind] in Hrun;
    try discriminate.
  destruct (read_frame _ _ _ _ _ E3) as [p3 ->].
  exists p3.
  repeat match type of Hrun with
         | bind ?m _ = _ =>
             let E := fresh "E" in
             destruct m as [?| |] eqn:E; cbn [bind] in Hrun;
             try discriminate
         | (let '(_, _) := ?p in _) = _ => destruct p
         | (if ?b then _ else _) = _ =>
             let E := fresh "E" in destruct b eqn:E; try discriminate
         end;
    injection Hrun as <- <-; reflexivity.
Qed.

(** What [get_sheet] does to the list of sheets, when reading a sheet
    leaves the list alone. *)
Lemma get_sheet_list (bk bk' : Book Sheet Ext) (k : nat) (up : bool)
    (sh : Sheet) :
  (forall s b s' b',
      Sheet_read s b = Return (s', b') -> _sheet_list b' = _sheet_list b) ->
  get_sheet bk (Z.of_nat k) up = Return (sh, bk') ->
  (k < length (_sheet_list bk))%nat
  /\ _sheet_list bk' = <[k := Some sh]> (_sheet_list bk).
Proof.
  intros Hkeep. unfold get_sheet.
  destruct (negb _); [discriminate|].
  set (moved := if up then _ else _).
  assert (Hmoved : forall self1, moved = Return self1 ->
                                 _sheet_list self1 = _sheet_list bk).
  { unfold moved. destruct up.
    - destruct (getitem _ _); cbn [bind]; [|discriminate..].
      by intros self1 [= <-].
    - by intros self1 [= <-]. }
  destruct moved as [self1| |]; cbn [bind]; [|discriminate..].
  specialize (Hmoved self1 eq_refl).
  destruct (getbof self1 XL_WORKSHEET) as [[v self2]| |] eqn:Ebof;
    cbn [bind]; [|discriminate..].
  destruct (getbof_frame _ _ _ _ Ebof) as [p ->].
  destruct (getitem (_sheet_names _) _) as [nm| |]; cbn [bind];
    [|discriminate..].
  destruct (Sheet_read _ _) as [[sh1 self3]| |] eqn:Eread; cbn [bind];
    [|discriminate..].
  pose proof (Hkeep _ _ _ _ Eread) as Hlist. cbn [_sheet_list set_position] in Hlist.
  rewrite Hlist, Hmoved. unfold list_setitem.
  destruct (Z.of_nat k <? 0) eqn:E0; [lia|]. rewrite E0.
  destruct (Z.of_nat (length (_sheet_list bk)) <=? Z.of_nat k) eqn:E1;
    cbn [orb bind]; [discriminate|].
  intros [= <- <-]. split; [lia|]. cbn [_sheet_list set_sheet_list].
  by rewrite Nat2Z.id.
Qed.

Section Keeping.

(** Reading a sheet leaves the list of sheets alone. *)
Hypothesis Sheet_read_keeps_list :
  forall s b s' b',
    Sheet_read s b = Return (s', b') -> _sheet_list b' = _sheet_list b.

Lemma sheets_loop_loads (ks : list nat) :
  forall bk bk' : Book Sheet Ext,
    sheets_loop bk (Z.of_nat <$> ks) = Return bk' ->
    length (_sheet_list bk') = length (_sheet_list bk)
    /\ (forall k, k ∈ ks -> exists sh, _sheet_list bk' !! k = Some (Some sh))
    /\ (forall i sh, _sheet_list bk !! i = Some (Some sh) ->
                     _sheet_list bk' !! i = Some (Some sh))
    /\ (forall i, i ∉ ks -> _sheet_list bk' !! i = _sheet_list bk !! i).
Proof.
  induction ks as [|k ks IH]; intros bk bk' Hrun.
  - injection Hrun as <-. split; [done|]. split; [|done].
    intros k Hk. by apply elem_of_nil in Hk.
  - rewrite fmap_cons in Hrun. cbn [sheets_loop] in Hrun.
    rewrite getitem_nonneg in Hrun by lia. rewrite Nat2Z.id in Hrun.
    destruct (_sheet_list bk !! k) as [[sh0|]|] eqn:Ek; cbn [bind] in Hrun;
      [| |discriminate].
    + destruct (IH _ _ Hrun) as (Hlen & Hall & Hold & Hout).
      split; [done|]. split; [|split; [done|]].
      * intros k' Hk'. apply elem_of_cons in Hk' as [->|Hk']; [|by apply Hall].
        exists sh0. by apply Hold.
      * intros i Hi. apply Hout. intros Hin. apply Hi. by right.
    + destruct (get_sheet bk (Z.of_nat k) true) as [[sh bk1]| |] eqn:Eget;
        cbn [bind] in Hrun; [|discriminate..].
      destruct (get_sheet_list _ _ _ _ _ Sheet_read_keeps_list Eget)
        as [Hlt Hlist].
      destruct (IH _ _ Hrun) as (Hlen & Hall & Hold & Hout).
      rewrite Hlist in Hlen, Hold, Hout. rewrite length_insert in Hlen.
      split; [done|]. split; [|split].
      * intros k' Hk'. apply elem_of_cons in Hk' as [->|Hk']; [|by apply Hall].
        exists sh. apply Hold. by apply list_lookup_insert_eq.
      * intros i sh' Hi. apply Hold.
        rewrite list_lookup_insert_ne; [done|]. intros <-. congruence.
      * intros i Hi. rewrite Hout.
        -- apply list_lookup_insert_ne. intros <-. apply Hi. by left.
        -- intros Hin. apply Hi. by right.
Qed.

(** X16.  [sheets] loads every sheet that is not loaded and keeps the
    others.  When reading a sheet leaves the list of sheets alone and
    [sheets] returns, the list it returns is the workbook's list, of the
    same length as before; each of its first [nsheets] places holds a
    sheet; a sheet that was loaded before is still there, the same
    object; and the places from [nsheets] on are as they were. *)
Theorem sheets_loads_all (bk bk' : Book Sheet Ext)
    (l : list (option Sheet)) :
  sheets bk = Return (l, bk') ->
  l = _sheet_list bk'
  /\ length l = length (_sheet_list bk)
  /\ (forall i : nat, Z.of_nat i < nsheets bk ->
        exists sh, l !! i = Some (Some sh))
  /\ (forall (i : nat) sh, _sheet_list bk !! i = Some (Some sh) ->
        l !! i = Some (Some sh))
  /\ (forall i : nat, nsheets bk <= Z.of_nat i ->
        l !! i = _sheet_list bk !! i).
Proof.
  unfold sheets. intros Hrun.
  destruct (sheets_loop bk _) as [bk1| |] eqn:Eloop; cbn [bind] in Hrun;
    [|discriminate..].
  injection Hrun as <- <-.
  destruct (sheets_loop_loads _ _ _ Eloop) as (Hlen & Hall & Hold & Hout).
  split; [done|]. split; [done|]. split; [|split; [done|]].
  - intros i Hi. apply Hall. apply elem_of_seq. lia.
  - intros i Hi. apply Hout. rewrite elem_of_seq. lia.
Qed.

Lemma iter_loop_as_sheets_loop (ks : list nat) :
  forall bk : Book Sheet Ext,
    match sheets_loop bk (Z.of_nat <$> ks) with
    | Return bk' =>
        exists shs,
          iter_loop bk (Z.of_nat <$> ks) = Return (shs, bk')
          /\ Forall2 (fun k sh => _sheet_list bk' !! k = Some (Some sh)) ks shs
    | Raise e => iter_loop bk (Z.of_nat <$> ks) = Raise e
    | OutOfFuel => iter_loop bk (Z.of_nat <$> ks) = OutOfFuel
    end.
Proof.
  induction ks as [|k ks IH]; intros bk.
  - simpl. exists []. split; [done|constructor].
  - rewrite fmap_cons. cbn [sheets_loop iter_loop]. unfold sheet_by_index.
    rewrite getitem_nonneg by lia. rewrite Nat2Z.id.
    destruct (_sheet_list bk !! k) as [[sh0|]|] eqn:Ek; cbn [bind];
      [| |done].
    + specialize (IH bk).
      destruct (sheets_loop bk (Z.of_nat <$> ks)) as [bk'| |] eqn:Eloop.
      * destruct IH as (shs & -> & Hall). cbn [bind].
        exists (sh0 :: shs). split; [done|]. constructor; [|done].
        by apply (sheets_loop_loads _ _ _ Eloop).
      * by rewrite IH.
      * by rewrite IH.
    + destruct (get_sheet bk (Z.of_nat k) true) as [[sh bk1]| |] eqn:Eget;
        cbn [bind]; [|done..].
      destruct (get_sheet_list _ _ _ _ _ Sheet_read_keeps_list Eget)
        as [Hlt Hlist].
      specialize (IH bk1).
      destruct (sheets_loop bk1 (Z.of_nat <$> ks)) as [bk'| |] eqn:Eloop.
      * destruct IH as (shs & -> & Hall). cbn [bind].
        exists (sh :: shs). split; [done|]. constructor; [|done].
        apply (sheets_loop_loads _ _ _ Eloop). rewrite Hlist.
        by apply list_lookup_insert_eq.
      * by rewrite IH.
      * by rewrite IH.
Qed.

Lemma places_of_seq (l : list (option Sheet)) (n : nat) :
  forall (a : nat) (shs : list Sheet),
    Forall2 (fun k sh => l !! k = Some (Some sh)) (seq a n) shs ->
    Some <$> shs = take n (drop a l).
Proof.
  induction n as [|n IH]; intros a shs Hall.
  - apply Forall2_nil_inv_l in Hall as ->. by rewrite take_0.
  - simpl in Hall. apply Forall2_cons_inv_l in Hall
      as (sh & shs' & Hsh & Hrest & ->).
    rewrite fmap_cons. rewrite (drop_S l (Some sh) a Hsh).
    rewrite firstn_cons. f_equal. by apply IH.
Qed.

(** X17.  Iterating over a workbook gives the sheets that [sheets]
    returns.  When reading a sheet leaves the list of sheets alone, the
    generator of [__iter__], run to its end, loads the sheets that
    [sheets] loads and leaves the workbook in the same state; the sheets
    it yields are the first [nsheets] places of the list that [sheets]
    returns; and it raises what [sheets] raises. *)
Theorem iter_yields_sheets (bk : Book Sheet Ext) :
  (forall l bk',
      sheets bk = Return (l, bk') ->
      exists shs,
        Book_iter bk = Return (shs, bk')
        /\ Some <$> shs = take (Z.to_nat (nsheets bk)) l)
  /\ (forall e, sheets bk = Raise e -> Book_iter bk = Raise e).
Proof.
  pose proof (iter_loop_as_sheets_loop (seq 0 (Z.to_nat (nsheets bk))) bk)
    as Hloop.
  unfold sheets, Book_iter. split.
  - intros l bk' Hrun.
    destruct (sheets_loop bk _) as [bk1| |]; cbn [bind] in Hrun;
      [|discriminate..].
    injection Hrun as <- <-.
    destruct Hloop as (shs & Hiter & Hall). exists shs. split; [done|].
    rewrite (places_of_seq _ _ _ _ Hall). by rewrite drop_0.
  - intros e Hrun.
    destruct (sheets_loop bk _) as [bk1| |]; cbn [bind] in Hrun;
      [discriminate| |discriminate].
    by injection Hrun as <-.
Qed.

End Keeping.

(** X18.  A sheet that is loaded is kept, and [unload_sheet] gives it up.
    After [get_sheet] has returned the sheet of an index,
    [sheet_by_index] returns that sheet for the index without reading
    anything, and [sheet_loaded] is true.  After [unload_sheet],
    [sheet_loaded] is false for the same name or index, the other places
    of the list and the names are as they were, and indexing the workbook
    with that name or index decodes the sheet again with [get_sheet]. *)
Theorem sheet_kept_until_unloaded (bk : Book Sheet Ext) :
  (forall i up sh bk1,
      get_sheet bk i up = Return (sh, bk1) ->
      sheet_by_index bk1 i = Return (sh, bk1)
      /\ sheet_loaded bk1 (inl i) = Return true)
  /\ (forall x bk1,
        unload_sheet bk x = Return bk1 ->
        exists i (k : nat),
          sheet_index bk x = Return i
          /\ (k < length (_sheet_list bk))%nat
          /\ Z.of_nat k = (if i <? 0
                           then i + Z.of_nat (length (_sheet_list bk)) else i)
          /\ _sheet_list bk1 = <[k := None]> (_sheet_list bk)
          /\ _sheet_names bk1 = _sheet_names bk
          /\ sheet_loaded bk1 x = Return false
          /\ Book_getitem bk1 x = get_sheet bk1 i true).
Proof.
  split.
  - intros i up sh bk1 Hrun. unfold get_sheet in Hrun.
    destruct (negb _); [discriminate|].
    destruct (if up then _ else _) as [self1| |]; cbn [bind] in Hrun;
      [|discriminate..].
    destruct (getbof self1 XL_WORKSHEET) as [[v self2]| |];
      cbn [bind] in Hrun; [|discriminate..].
    destruct (getitem (_sheet_names _) _) as [nm| |]; cbn [bind] in Hrun;
      [|discriminate..].
    destruct (Sheet_read _ _) as [[sh1 self3]| |]; cbn [bind] in Hrun;
      [|discriminate..].
    unfold list_setitem in Hrun.
    set (j := if i <? 0 then _ else i) in Hrun.
    destruct ((j <? 0) || (Z.of_nat (length (_sheet_list self3)) <=? j))
      eqn:Ej; cbn [bind] in Hrun; [discriminate|].
    injection Hrun as <- <-.
    apply orb_false_elim in Ej as [Ej0 Ej1].
    assert (Hget : getitem (<[Z.to_nat j := Some sh1]> (_sheet_list self3)) i
                   = Return (Some sh1)).
    { unfold getitem. rewrite length_insert. fold j. rewrite Ej0.
      rewrite list_lookup_insert_eq by lia. done. }
    unfold sheet_by_index, sheet_loaded, sheet_index.
    cbn [_sheet_list set_sheet_list bind]. rewrite Hget. done.
  - intros x bk1 Hrun. unfold unload_sheet in Hrun.
    destruct (sheet_index bk x) as [i| |] eqn:Ei; cbn [bind] in Hrun;
      [|discriminate..].
    unfold list_setitem in Hrun.
    set (j := if i <? 0 then _ else i) in Hrun.
    destruct ((j <? 0) || (Z.of_nat (length (_sheet_list bk)) <=? j))
      eqn:Ej; cbn [bind] in Hrun; [discriminate|].
    injection Hrun as <-.
    apply orb_false_elim in Ej as [Ej0 Ej1].
    exists i, (Z.to_nat j). split; [done|]. split; [lia|].
    split; [fold j; lia|]. split; [done|]. split; [done|].
    assert (Hidx : sheet_index (set_sheet_list bk
                                  (<[Z.to_nat j := None]> (_sheet_list bk))) x
                   = Return i).
    { destruct x; exact Ei. }
    assert (Hget : getitem (<[Z.to_nat j := None]> (_sheet_list bk)) i
                   = Return (@None Sheet)).
    { unfold getitem. rewrite length_insert. fold j. rewrite Ej0.
      rewrite list_lookup_insert_eq by lia. done. }
    split.
    + unfold sheet_loaded. rewrite Hidx. cbn [bind _sheet_list set_sheet_list].
      rewrite Hget. done.
    + unfold Book_getitem. destruct x as [i'|nm].
      * injection Ei as ->. unfold sheet_by_index.
        cbn [_sheet_list set_sheet_list]. rewrite Hget. done.
      * unfold sheet_by_name. unfold sheet_index in Hidx.
        destruct (index_of _ nm 0) as [i'|]; [|discriminate].
        injection Hidx as ->. unfold sheet_by_index.
        cbn [_sheet_list set_sheet_list]. rewrite Hget. done.
Qed.

End SheetAccess.

(** ** The sheets of a workbook opened on demand *)

Import sheet_examples book_sheets.

Lemma sheets_loads_all_witness :
  let l := [Some (u "Sheet1"); Some (u "Sheet2")] in
  let bk' := set_sheet_list (set_position lazy_book 40) l in
  l = _sheet_list bk'
  /\ length l = length (_sheet_list lazy_book)
  /\ (forall i : nat, Z.of_nat i < nsheets lazy_book ->
        exists sh, l !! i = Some (Some sh))
  /\ (forall (i : nat) sh, _sheet_list lazy_book !! i = Some (Some sh) ->
        l !! i = Some (Some sh))
  /\ (forall i : nat, nsheets lazy_book <= Z.of_nat i ->
        l !! i = _sheet_list lazy_book !! i).
Proof.
  intros l bk'.
  apply (sheets_loads_all (Collaborators0 := idle_collaborators)
           ltac:(intros s b s' b' Hr; cbn in Hr; by injection Hr as _ <-) lazy_book bk' l).
  vm_compute. reflexivity.
Defined.

Lemma iter_yields_sheets_witness :
  exists shs,
    Book_iter lazy_book
    = Return (shs, set_sheet_list (set_position lazy_book 40)
                     [Some (u "Sheet1"); Some (u "Sheet2")])
    /\ Some <$> shs
       = take (Z.to_nat (nsheets lazy_book))
           [Some (u "Sheet1"); Some (u "Sheet2")].
Proof.
  apply (proj1 (iter_yields_sheets (Collaborators0 := idle_collaborators)
                  ltac:(intros s b s' b' Hr; cbn in Hr; by injection Hr as _ <-) lazy_book)
           [Some (u "Sheet1"); Some (u "Sheet2")]
           (set_sheet_list (set_position lazy_book 40)
              [Some (u "Sheet1"); Some (u "Sheet2")])).
  vm_compute. reflexivity.
Defined.

Lemma sheet_kept_until_unloaded_witness :
  sheet_by_index
    (set_sheet_list (set_position lazy_book 40) [None; Some (u "Sheet2")]) 1
  = Return (u "Sheet2",
            set_sheet_list (set_position lazy_book 40)
              [None; Some (u "Sheet2")])
  /\ sheet_loaded
       (set_sheet_list (set_position lazy_book 40) [None; Some (u "Sheet2")])
       (inl 1)
     = Return true.
Proof.
  apply (proj1 (sheet_kept_until_unloaded (Collaborators0 := idle_collaborators)
                  lazy_book) 1 true (u "Sheet2")
           (set_sheet_list (set_position lazy_book 40)
              [None; Some (u "Sheet2")])).
  vm_compute. reflexivity.
Defined.
End book_facts.

(** * Properties of the opening of a compound document *)

Module compdoc_init_facts.

Import compdoc compdoc_init examples ole_examples py_facts.

(** ** The marks are never more nor fewer *)

Lemma array_B_setitem_length (a b : list Z) (i v : Z) :
  array_B_setitem a i v = Return b -> length b = length a.
Proof.
  unfold array_B_setitem. destruct (_ || _); [discriminate|].
  destruct (_ || _); [discriminate|]. intros [= <-]. apply length_insert.
Qed.

Lemma mark_seen_length (name : str) (id : option Z) (seen seen' : list Z)
    (s : Z) :
  mark_seen name id seen s = Return seen' -> length seen' = length seen.
Proof.
  unfold mark_seen. destruct id as [id|]; [|by intros [= <-]].
  destruct (getitem seen s) as [v| |]; cbn [bind]; [|discriminate..].
  destruct (decide (v = 0)); [|discriminate]. apply array_B_setitem_length.
Qed.

Lemma MSATX_loop_seen_length fuel mem sec_size mem_data_secs nent :
  forall sid MSAT seen k MSAT' seen' k',
    MSATX_loop fuel mem sec_size mem_data_secs nent sid MSAT seen k
    = Return (MSAT', seen', k') ->
    length seen' = length seen.
Proof.
  induction fuel as [|fuel IH]; intros sid MSAT seen k MSAT' seen' k' Hrun;
    simpl in Hrun; destruct (msatx_continues sid); try discriminate;
    try (by injection Hrun as <- <- <-).
  destruct (sid >=? mem_data_secs); [discriminate|].
  destruct (sid <? 0); [discriminate|].
  destruct (getitem seen sid) as [v| |]; try discriminate.
  cbn [bind] in Hrun. destruct (negb (v =? 0)); [discriminate|].
  destruct (array_B_setitem seen sid 1) as [seen1| |] eqn:Eset;
    try discriminate.
  cbn [bind] in Hrun.
  destruct (unpack_ni nent _) as [ents| |]; try discriminate.
  cbn [bind] in Hrun.
  destruct (pop (MSAT ++ ents)) as [[MSAT1 sid1]| |]; try discriminate.
  cbn [bind] in Hrun. apply IH in Hrun.
  apply array_B_setitem_length in Eset. congruence.
Qed.

Lemma SAT_loop_seen_length mem sec_size mem_data_secs nent :
  forall todo done SAT seen dump MSAT' SAT' seen' dump',
    SAT_loop mem sec_size mem_data_secs nent todo done SAT seen dump
    = Return (MSAT', SAT', seen', dump') ->
    length seen' = length seen.
Proof.
  induction todo as [|msid todo IH];
    intros done SAT seen dump MSAT' SAT' seen' dump' Hrun; simpl in Hrun.
  - by injection Hrun as <- <- <- <-.
  - destruct (_ || _); [by eapply IH|].
    destruct (msid >=? mem_data_secs); [by eapply IH|].
    destruct (msid <? -2); [discriminate|].
    destruct (getitem seen msid) as [v| |]; try discriminate.
    cbn [bind] in Hrun. destruct (negb (v =? 0)); [discriminate|].
    destruct (array_B_setitem seen msid 2) as [seen1| |] eqn:Eset;
      try discriminate.
    cbn [bind] in Hrun.
    destruct (unpack_ni nent _) as [ents| |]; try discriminate.
    cbn [bind] in Hrun. apply IH in Hrun.
    apply array_B_setitem_length in Eset. congruence.
Qed.

Lemma get_stream_seen_length fuel (self : CompDoc) mem base sat sec_size
    start_sid size name seen_id b seen' :
  _get_stream fuel self mem base sat sec_size start_sid size name seen_id
  = Return (b, seen') ->
  length seen' = length (seen self).
Proof.
  assert (Hunsized : forall fuel s sectors seen0 s' sectors' seen1,
             _get_stream_unsized fuel mem base sat sec_size name seen_id s
               sectors seen0 = Return (s', sectors', seen1) ->
             length seen1 = length seen0).
  { clear. induction fuel as [|fuel IH];
      intros s sectors seen0 s' sectors' seen1 Hrun;
      cbn [_get_stream_unsized] in Hrun; destruct (s >=? 0);
      try discriminate; try (by injection Hrun as <- <- <-).
    destruct (mark_seen _ _ _ _) as [seen2| |] eqn:Em; cbn [bind] in Hrun;
      [|discriminate..].
    destruct (next_sid _ _ _) as [n| |]; cbn [bind] in Hrun;
      [|discriminate..].
    apply IH in Hrun. apply mark_seen_length in Em. congruence. }
  assert (Hsized : forall fuel s todo sectors seen0 s' todo' sectors' seen1,
             _get_stream_sized fuel mem base sat sec_size name seen_id s todo
               sectors seen0 = Return (s', todo', sectors', seen1) ->
             length seen1 = length seen0).
  { clear. induction fuel as [|fuel IH];
      intros s todo sectors seen0 s' todo' sectors' seen1 Hrun;
      cbn [_get_stream_sized] in Hrun; destruct (s >=? 0);
      try discriminate; try (by injection Hrun as <- <- <- <-).
    destruct (mark_seen _ _ _ _) as [seen2| |] eqn:Em; cbn [bind] in Hrun;
      [|discriminate..].
    destruct (next_sid _ _ _) as [n| |]; cbn [bind] in Hrun;
      [|discriminate..].
    apply IH in Hrun. apply mark_seen_length in Em. congruence. }
  unfold _get_stream. destruct size as [size|].
  - destruct (_get_stream_sized _ _ _ _ _ _ _ _ _ _ _)
      as [[[[s todo] sectors] seen1]| |] eqn:Eloop; cbn [bind];
      [|discriminate..].
    destruct (decide (s = EOCSID)); [|discriminate].
    destruct (join_bytes sectors); cbn [bind]; [|discriminate..].
    intros [= <- <-]. by eapply Hsized.
  - destruct (_get_stream_unsized _ _ _ _ _ _ _ _ _ _)
      as [[[s sectors] seen1]| |] eqn:Eloop; cbn [bind];
      [|discriminate..].
    destruct (decide (s = EOCSID)); [|discriminate].
    destruct (join_bytes sectors); cbn [bind]; [|discriminate..].
    intros [= <- <-]. by eapply Hunsized.
Qed.

(** ** The short-sector table *)

(** What a run of the loop has done when it returns. *)
Lemma SSAT_loop_returns (mem : bytes) (sec_size : Z) (SAT : list Z) :
  forall fuel sid nsecs SSAT seen sid' nsecs' SSAT' seen',
    SSAT_loop fuel mem sec_size (sec_size / 4) SAT sid nsecs SSAT seen
    = Return (sid', nsecs', SSAT', seen') ->
    exists chain,
      (forall rest, chain_from SAT sid' rest -> chain_from SAT sid (chain ++ rest))
      /\ Z.of_nat (length chain) = nsecs - nsecs'
      /\ (sid' < 0 \/ nsecs' <= 0)
      /\ (chain <> [] -> 0 <= nsecs')
      /\ SSAT' = SSAT ++ concat (sat_sector mem sec_size <$> chain)
      /\ length seen' = length seen
      /\ Forall (fun c => 0 <= c < Z.of_nat (length seen)) chain
      /\ NoDup chain
      /\ (forall c, c ∈ chain ->
            seen !! Z.to_nat c = Some 0 /\ seen' !! Z.to_nat c = Some 5)
      /\ (forall i : nat, (forall c, c ∈ chain -> i <> Z.to_nat c) ->
            seen' !! i = seen !! i).
Proof.
  assert (Hstop : forall sid nsecs (SSAT seen : list Z),
             (sid >=? 0) && (nsecs >? 0) = false ->
             exists chain : list Z,
               (forall rest, chain_from SAT sid rest ->
                             chain_from SAT sid (chain ++ rest))
               /\ Z.of_nat (length chain) = nsecs - nsecs
               /\ (sid < 0 \/ nsecs <= 0)
               /\ (chain <> [] -> 0 <= nsecs)
               /\ SSAT = SSAT ++ concat (sat_sector mem sec_size <$> chain)
               /\ length seen = length seen
               /\ Forall (fun c => 0 <= c < Z.of_nat (length seen)) chain
               /\ NoDup chain
               /\ (forall c, c ∈ chain ->
                     seen !! Z.to_nat c = Some 0
                     /\ seen !! Z.to_nat c = Some 5)
               /\ (forall i : nat, (forall c, c ∈ chain -> i <> Z.to_nat c) ->
                     seen !! i = seen !! i)).
  { intros sid nsecs SSAT seen Hcond. exists [].
    split; [done|]. split; [simpl; lia|].
    split; [apply andb_false_iff in Hcond as [?|?]; lia|].
    split; [done|]. split; [by rewrite app_nil_r|]. split; [done|].
    split; [constructor|]. split; [constructor|]. split; [|done].
    intros c Hc. by apply elem_of_nil in Hc. }
  induction fuel as [|fuel IH];
    intros sid nsecs SSAT seen sid' nsecs' SSAT' seen' Hrun;
    cbn [SSAT_loop] in Hrun;
    destruct ((sid >=? 0) && (nsecs >? 0)) eqn:Hcond; try discriminate;
    try (injection Hrun as <- <- <- <-; by apply Hstop).
  apply andb_true_iff in Hcond as [Hsid Hn].
  rewrite getitem_nonneg in Hrun by lia.
  destruct (seen !! Z.to_nat sid) as [v|] eqn:Ev; [|discriminate].
  cbn [bind] in Hrun.
  destruct (v =? 0) eqn:Ev0; [|discriminate]. cbn [negb] in Hrun.
  assert (v = 0) by lia. subst v.
  pose proof (lookup_lt_Some _ _ _ Ev) as Hlt.
  rewrite array_B_setitem_within in Hrun by lia. cbn [bind] in Hrun.
  unfold unpack_ni in Hrun. destruct (decide _); [|discriminate].
  cbn [bind] in Hrun.
  rewrite getitem_nonneg in Hrun by lia.
  destruct (SAT !! Z.to_nat sid) as [n|] eqn:En; [|discriminate].
  cbn [bind] in Hrun.
  destruct (IH _ _ _ _ _ _ _ _ Hrun)
    as (chain & Hch & Hlen & Hend & Hpos & HSSAT & Hseen & Hrange & Hdup
        & Hmark & Hkeep).
  rewrite length_insert in Hseen, Hrange.
  assert (Hnotin : sid ∉ chain).
  { intros Hin. destruct (Hmark _ Hin) as [Hzero _].
    rewrite list_lookup_insert_eq in Hzero by lia. discriminate. }
  assert (Hother : forall c, c ∈ chain -> Z.to_nat sid <> Z.to_nat c).
  { intros c Hc E. apply Hnotin. rewrite Forall_forall in Hrange.
    pose proof (Hrange c ltac:(by apply list_elem_of_In)) as Hc'.
    simpl in Hc'.
    assert (sid = c) by lia. by subst. }
  exists (sid :: chain).
  split; [|split; [|split; [|split; [|split; [|split; [|split; [|split;
    [|split]]]]]]]].
  - intros rest Hrest. simpl. split; [done|]. split; [lia|].
    exists n. split; [done|]. by apply Hch.
  - rewrite length_cons. lia.
  - done.
  - intros _. destruct chain as [|c chain']; [simpl in Hlen; lia|].
    by apply Hpos.
  - rewrite HSSAT, <- app_assoc. f_equal. rewrite fmap_cons. simpl concat.
    f_equal. unfold sat_sector. by rewrite (Z.mul_comm sec_size sid).
  - done.
  - constructor; [lia|done].
  - by apply NoDup_cons_2.
  - intros c Hc. apply elem_of_cons in Hc as [->|Hc].
    + split; [done|]. rewrite Hkeep by (intros c Hc; by apply Hother).
      by apply list_lookup_insert_eq.
    + destruct (Hmark _ Hc) as [Hzero Hfive]. split; [|done].
      rewrite list_lookup_insert_ne in Hzero; [done|by apply Hother].
  - intros i Hi. rewrite Hkeep.
    + apply list_lookup_insert_ne. intros E. apply (Hi sid); [by left|done].
    + intros c Hc. apply Hi. by right.
Qed.

(** X19.  The short-sector table is read from a chain of sectors of
    exactly the declared number.  The loop that builds it takes at most
    [nsecs] turns.  When it ends as the assertion that follows it
    requires ([nsecs == 0 and sid == EOCSID]), the sector table gives
    from the first sector a chain of exactly [nsecs] sectors that ends
    with the end-of-chain mark; the table built holds the entries of
    these sectors in the order of the chain, [sec_size // 4] for each;
    no sector occurs twice, none had a mark, and each has the mark 5
    afterwards, no other mark being changed. *)
Theorem SSAT_loop_reads_chain fuel (mem : bytes) (sec_size : Z)
    (SAT : list Z) (sid nsecs : Z) (seen : list Z) :
  ((Z.to_nat nsecs < fuel)%nat ->
   SSAT_loop fuel mem sec_size (sec_size / 4) SAT sid nsecs [] seen
   <> OutOfFuel)
  /\ (forall SSAT' seen',
        SSAT_loop fuel mem sec_size (sec_size / 4) SAT sid nsecs [] seen
        = Return (EOCSID, 0, SSAT', seen') ->
        exists chain,
          chain_from SAT sid chain
          /\ Z.of_nat (length chain) = nsecs
          /\ SSAT' = concat (sat_sector mem sec_size <$> chain)
          /\ length SSAT' = (length chain * Z.to_nat (sec_size / 4))%nat
          /\ NoDup chain
          /\ length seen' = length seen
          /\ (forall c, c ∈ chain ->
                seen !! Z.to_nat c = Some 0 /\ seen' !! Z.to_nat c = Some 5)
          /\ (forall i : nat, (forall c, c ∈ chain -> i <> Z.to_nat c) ->
                seen' !! i = seen !! i)).
Proof.
  split.
  - generalize (@nil Z) as SSAT. revert sid nsecs seen.
    induction fuel as [|fuel IH]; intros sid nsecs seen SSAT Hfuel; [lia|].
    cbn [SSAT_loop]. destruct ((sid >=? 0) && (nsecs >? 0)) eqn:Hcond;
      [|discriminate].
    apply andb_true_iff in Hcond as [Hsid Hn].
    rewrite getitem_nonneg by lia.
    destruct (seen !! Z.to_nat sid) as [v|] eqn:Ev; cbn [bind];
      [|discriminate].
    destruct (negb (v =? 0)); [discriminate|].
    pose proof (lookup_lt_Some _ _ _ Ev) as Hlt.
    rewrite array_B_setitem_within by lia. cbn [bind].
    unfold unpack_ni. destruct (decide _); cbn [bind]; [|discriminate].
    rewrite getitem_nonneg by lia.
    destruct (SAT !! Z.to_nat sid) as [n|]; cbn [bind]; [|discriminate].
    apply IH. lia.
  - intros SSAT' seen' Hrun.
    destruct (SSAT_loop_returns _ _ _ _ _ _ _ _ _ _ _ _ Hrun)
      as (chain & Hch & Hlen & _ & _ & HSSAT & Hseen & _ & Hdup & Hmark
          & Hkeep).
    specialize (Hch [] eq_refl). rewrite app_nil_r in Hch.
    exists chain. split; [done|]. split; [lia|]. split; [done|].
    split; [|done].
    rewrite HSSAT, app_nil_l. clear.
    induction chain as [|c chain IH]; [reflexivity|].
    rewrite fmap_cons. simpl concat. rewrite length_app, IH.
    unfold sat_sector at 1. rewrite compdoc_facts.int32s_length. simpl. lia.
Qed.


(** ** What [CompDoc.__init__] establishes *)

Lemma le_uint_range (bs : bytes) : 0 <= le_uint bs < 256 ^ Z.of_nat (length bs).
Proof.
  induction bs as [|b bs IH]; [simpl; lia|].
  cbn [le_uint length]. rewrite Nat2Z.inj_succ, Z.pow_succ_r by lia.
  pose proof (book_facts.ord_range b). lia.
Qed.

Lemma unpack_HH_range (bs : bytes) (a b : Z) :
  unpack_HH bs = Return (a, b) -> 0 <= a < 65536 /\ 0 <= b < 65536.
Proof.
  unfold unpack_HH. destruct (decide _) as [Hlen|]; [|discriminate].
  intros [= <- <-].
  pose proof (le_uint_range (take 2 bs)) as Ha.
  pose proof (le_uint_range (drop 2 bs)) as Hb.
  rewrite length_take in Ha. rewrite length_drop in Hb. rewrite Hlen in Ha, Hb.
  change (256 ^ Z.of_nat (2 `min` 4)) with 65536 in Ha.
  change (256 ^ Z.of_nat (4 - 2)) with 65536 in Hb. done.
Qed.

Lemma ceil_sectors (len s : Z) :
  0 < s ->
  (if negb (len mod s =? 0) then len / s + 1 else len / s)
  = (len + s - 1) / s.
Proof.
  intros Hs. pose proof (Z.div_mod len s ltac:(lia)) as Hdm.
  pose proof (Z.mod_pos_bound len s Hs) as Hm.
  destruct (len mod s =? 0) eqn:E; cbn [negb].
  - apply Z.div_unique with (r := s - 1); lia.
  - apply Z.div_unique with (r := len mod s - 1); lia.
Qed.

Lemma build_MSAT_returns fuel (mem : bytes) ss mds first tot
    (seen MSAT seen1 : list Z) (k : Z) :
  build_MSAT fuel mem ss mds first tot seen = Return (MSAT, seen1, k) ->
  512 <= Z.of_nat (length mem)
  /\ ss / 4 <> 0 /\ ss / 4 <> 1 /\ length seen1 = length seen.
Proof.
  unfold build_MSAT, floordiv. destruct (decide (4 = 0)); [lia|].
  cbn [bind]. unfold unpack_ni.
  destruct (decide _) as [Hlen|]; cbn [bind]; [|discriminate].
  destruct (decide (ss / 4 = 0)); cbn [bind]; [discriminate|].
  destruct (decide (ss / 4 - 1 = 0)); cbn [bind]; [discriminate|].
  rewrite (book_facts.slice_length_nonneg mem 76 512) in Hlen by lia.
  intros Hrun. split; [lia|]. split; [done|]. split; [lia|].
  destruct (_ && _).
  - by injection Hrun as <- <- <-.
  - by eapply MSATX_loop_seen_length.
Qed.

Lemma build_SAT_seen_length (mem : bytes) ss mds
    (MSAT seen MSAT' SAT seen' : list Z) :
  build_SAT mem ss mds MSAT seen = Return (MSAT', SAT, seen') ->
  length seen' = length seen.
Proof.
  unfold build_SAT, floordiv. destruct (decide (4 = 0)); [lia|].
  cbn [bind].
  destruct (SAT_loop _ _ _ _ _ _ _ _ _) as [[[[M S] sn] dump]| |] eqn:E;
    cbn [bind]; [|discriminate..].
  apply SAT_loop_seen_length in E.
  destruct dump; intros [= <- <- <-]; done.
Qed.

Section InitFacts.

Context `{book.Interpreter} `{Stack}.

(** What [CompDoc.__init__] has checked and computed when it returns. *)
Lemma CompDoc_init_established fuel (path : option str) (mem : bytes)
    (ignore : bool) (cd : CompDoc) :
  CompDoc_init fuel path mem ignore = Return cd ->
  xls_path cd = path /\ compdoc.mem cd = mem
  /\ ignore_workbook_corruption cd = ignore
  /\ slice mem 0 8 = SIGNATURE
  /\ 512 <= Z.of_nat (length mem)
  /\ (exists ssz, 3 <= ssz <= 20 /\ sec_size cd = 2 ^ ssz)
  /\ (exists sssz, 0 <= sssz <= 20 /\ short_sec_size cd = 2 ^ sssz)
  /\ mem_data_len cd = Z.of_nat (length mem) - 512
  /\ mem_data_secs cd = (mem_data_len cd + sec_size cd - 1) / sec_size cd
  /\ Z.of_nat (length (seen cd)) = mem_data_secs cd
  /\ exists root rest,
       dirlist cd = root :: rest /\ etype root = 5
       /\ (SSCS cd = PyStr [] <-> first_SID root < 0 \/ tot_size root = 0).
Proof.
  intros Hrun. unfold CompDoc_init in Hrun.
  destruct (bool_decide (slice mem 0 8 = SIGNATURE)) eqn:Esig;
    [|discriminate].
  apply bool_decide_eq_true in Esig. cbn [negb] in Hrun.
  destruct (bool_decide (slice mem 28 30 = _)); [|discriminate].
  cbn [negb] in Hrun.
  destruct (unpack_HH (slice mem 24 28)) as [[revision version]| |];
    cbn [bind] in Hrun; [|discriminate..].
  destruct (unpack_HH (slice mem 30 34)) as [[ssz0 sssz0]| |] eqn:Esz;
    cbn [bind] in Hrun; [|discriminate..].
  apply unpack_HH_range in Esz as [Hssz0 Hsssz0].
  set (ssz := if ssz0 >? 20 then 9 else ssz0) in Hrun.
  set (sssz := if sssz0 >? ssz then 6 else sssz0) in Hrun.
  assert (Hssz : 0 <= ssz <= 20)
    by (unfold ssz; destruct (ssz0 >? 20) eqn:E; lia).
  assert (Hsssz : 0 <= sssz <= 20)
    by (unfold sssz; destruct (sssz0 >? ssz) eqn:E; lia).
  rewrite !Z.shiftl_1_l in Hrun.
  set (len := Z.of_nat (length mem) - 512) in Hrun.
  set (mds := if negb (len mod 2 ^ ssz =? 0) then len / 2 ^ ssz + 1
              else len / 2 ^ ssz) in Hrun.
  unfold unpack_ni at 1 in Hrun.
  destruct (decide _) as [Hfields|]; [|discriminate].
  cbn [bind] in Hrun. change (Z.to_nat 8) with 8%nat in Hrun.
  cbn [int32s] in Hrun.
  destruct (build_MSAT _ _ _ _ _ _ _) as [[[MSAT seen1] k]| |] eqn:EM;
    cbn [bind] in Hrun; [|discriminate..].
  apply build_MSAT_returns in EM as (Hlen & Hn0 & Hn1 & Hseen1).
  destruct (build_SAT _ _ _ _ _) as [[[MSAT2 SAT] seen2]| |] eqn:ES;
    cbn [bind] in Hrun; [|discriminate..].
  apply build_SAT_seen_length in ES.
  destruct (_get_stream _ _ _ _ _ _ _ _ _ _) as [[dbytes seen3]| |] eqn:ED;
    cbn [bind] in Hrun; [|discriminate..].
  apply get_stream_seen_length in ED. cbn [seen half_built] in ED.
  destruct (dir_nodes _ _ _ _) as [dirlist0| |]; cbn [bind] in Hrun;
    [|discriminate..].
  destruct (getitem dirlist0 0) as [root0| |]; cbn [bind] in Hrun;
    [|discriminate..].
  destruct (_build_family_tree _ _ _ _) as [dirlist1| |];
    cbn [bind] in Hrun; [|discriminate..].
  rewrite (getitem_nonneg dirlist1 0) in Hrun by lia.
  destruct dirlist1 as [|root rest]; [discriminate|].
  replace ((root :: rest) !! Z.to_nat 0) with (Some root) in Hrun
    by reflexivity.
  cbn [bind] in Hrun.
  destruct (etype root =? 5) eqn:Eroot; cbn [negb] in Hrun; [|discriminate].
  assert (Hpow : 3 <= ssz).
  { destruct (decide (3 <= ssz)) as [|Hsmall]; [done|].
    assert (Hcases : ssz = 0 \/ ssz = 1 \/ ssz = 2) by lia.
    exfalso. destruct Hcases as [E|[E|E]]; rewrite E in Hn0, Hn1;
      vm_compute in Hn0, Hn1; congruence. }
  assert (Hmds : mds = (len + 2 ^ ssz - 1) / 2 ^ ssz).
  { unfold mds. apply ceil_sectors. apply Z.pow_pos_nonneg; lia. }
  assert (Hmds0 : 0 <= mds).
  { rewrite Hmds. apply Z.div_pos; [|apply Z.pow_pos_nonneg; lia].
    pose proof (Z.pow_pos_nonneg 2 ssz ltac:(lia) ltac:(lia)). lia. }
  assert (Hmarks : forall seen' : list Z,
             length seen' = length seen3 -> Z.of_nat (length seen') = mds).
  { intros seen' ->. rewrite ED, ES, Hseen1, length_replicate. lia. }
  set (sscs :=
         if (first_SID root <? 0) || (tot_size root =? 0)
         then Return (PyStr [], seen3)
         else _) in Hrun.
  assert (Hsscs : forall SSCS seen4,
             sscs = Return (SSCS, seen4) ->
             length seen4 = length seen3
             /\ (SSCS = PyStr [] <-> first_SID root < 0 \/ tot_size root = 0)).
  { unfold sscs. intros SSCS seen4.
    destruct ((first_SID root <? 0) || (tot_size root =? 0)) eqn:Econd.
    - intros [= <- <-]. split; [done|]. split; [|done]. intros _.
      apply orb_true_iff in Econd as [?|?]; lia.
    - destruct (_get_stream _ _ _ _ _ _ _ _ _ _) as [[b seen5]| |] eqn:EC;
        cbn [bind]; [|discriminate..].
      intros [= <- <-]. apply get_stream_seen_length in EC.
      cbn [seen half_built] in EC. split; [done|].
      apply orb_false_iff in Econd as [? ?].
      split; [discriminate|lia]. }
  destruct sscs as [[SSCS seen4]| |]; cbn [bind] in Hrun; [|discriminate..].
  destruct (Hsscs _ _ eq_refl) as [Hseen4 HSSCS].
  set (ssat := if tot_size root >? 0 then _ else Return ([], seen4)) in Hrun.
  assert (Hssat : forall SSAT seen5,
             ssat = Return (SSAT, seen5) -> length seen5 = length seen4).
  { unfold ssat. intros SSAT seen5. destruct (tot_size root >? 0).
    - destruct (SSAT_loop _ _ _ _ _ _ _ _ _)
        as [[[[sid nsecs] SSAT1] seen6]| |] eqn:EL; cbn [bind];
        [|discriminate..].
      destruct (_ && _); [|discriminate]. intros [= <- <-].
      destruct (SSAT_loop_returns _ _ _ _ _ _ _ _ _ _ _ _ EL)
        as (chain & _ & _ & _ & _ & _ & Hl & _). exact Hl.
    - by intros [= <- <-]. }
  destruct ssat as [[SSAT seen5]| |]; cbn [bind] in Hrun; [|discriminate..].
  specialize (Hssat _ _ eq_refl).
  injection Hrun as <-. cbn.
  split; [done|]. split; [done|]. split; [done|]. split; [done|].
  split; [done|]. split; [exists ssz; split; [lia|done]|].
  split; [exists sssz; split; [lia|done]|].
  split; [done|]. split; [exact Hmds|].
  split; [apply Hmarks; congruence|].
  exists root, rest. split; [done|]. split; [lia|done].
Qed.

(** X20.  What a document that [CompDoc.__init__] has accepted
    satisfies.  The file starts with the signature and holds the 512
    bytes of the header; the sector size is a power of two from 8 bytes
    to 1 MB (a header that declares less makes the computation of the
    table sizes fail) and the short-sector size a power of two of at most
    1 MB; [mem_data_len] is the size of the file without the header and
    [mem_data_secs] the number of sectors that it takes, the last one
    possibly not whole; there is one mark for each of these sectors; the
    directory is not empty, its first entry is the root entry (type 5),
    and the short-stream container is the empty [str] exactly when the
    root entry has no first sector or no size. *)
Theorem CompDoc_init_invariants fuel (path : option str) (mem : bytes)
    (ignore : bool) (cd : CompDoc) :
  CompDoc_init fuel path mem ignore = Return cd ->
  xls_path cd = path /\ compdoc.mem cd = mem
  /\ ignore_workbook_corruption cd = ignore
  /\ slice mem 0 8 = SIGNATURE
  /\ 512 <= Z.of_nat (length mem)
  /\ (exists ssz, 3 <= ssz <= 20 /\ sec_size cd = 2 ^ ssz)
  /\ (exists sssz, 0 <= sssz <= 20 /\ short_sec_size cd = 2 ^ sssz)
  /\ mem_data_len cd = Z.of_nat (length mem) - 512
  /\ mem_data_secs cd = (mem_data_len cd + sec_size cd - 1) / sec_size cd
  /\ Z.of_nat (length (seen cd)) = mem_data_secs cd
  /\ exists root rest,
       dirlist cd = root :: rest /\ etype root = 5
       /\ (SSCS cd = PyStr [] <-> first_SID root < 0 \/ tot_size root = 0).
Proof. apply CompDoc_init_established. Qed.

(** X21.  A header that declares sectors of 1, 2 or 4 bytes makes
    [CompDoc.__init__] raise [ZeroDivisionError], not [CompDocError]: for
    a file of 512 bytes or more that has the signature and the byte-order
    mark, the number of entries of a sector, [sec_size // 4], is then 0
    or 1, and the sizes of the tables are computed by dividing by it and
    by it less one. *)
Theorem CompDoc_init_tiny_sectors fuel (path : option str) (mem : bytes)
    (ignore : bool) (ssz sssz : Z) :
  slice mem 0 8 = SIGNATURE ->
  slice mem 28 30 = B [0xFE; 0xFF] ->
  512 <= Z.of_nat (length mem) ->
  unpack_HH (slice mem 30 34) = Return (ssz, sssz) ->
  ssz <= 2 ->
  CompDoc_init fuel path mem ignore = Raise ZeroDivisionError.
Proof.
  intros Hsig Hmark Hlen Hsz Hsmall.
  pose proof (unpack_HH_range _ _ _ Hsz) as [Hssz _].
  unfold CompDoc_init.
  rewrite (bool_decide_eq_true_2 _ Hsig), (bool_decide_eq_true_2 _ Hmark).
  cbn [negb].
  assert (Hrev : exists r, unpack_HH (slice mem 24 28) = Return r).
  { unfold unpack_HH. destruct (decide _) as [|Hne]; [by eexists|].
    exfalso. apply Hne.
    pose proof (slice_length_within mem 24 28 ltac:(lia) ltac:(lia)). lia. }
  destruct Hrev as [[revision version] ->]. cbn [bind].
  rewrite Hsz. cbn [bind].
  destruct (ssz >? 20) eqn:E; [lia|].
  set (ss := Z.shiftl 1 ssz).
  assert (Hnent : ss / 4 = 0 \/ ss / 4 = 1).
  { unfold ss. assert (Hcases : ssz = 0 \/ ssz = 1 \/ ssz = 2) by lia.
    destruct Hcases as [->|[->| ->]]; vm_compute; auto. }
  unfold unpack_ni at 1.
  rewrite decide_True
    by (pose proof (slice_length_within mem 44 76 ltac:(lia) ltac:(lia)); lia).
  cbn [bind]. change (Z.to_nat 8) with 8%nat. cbn [int32s].
  unfold build_MSAT, floordiv. rewrite (decide_False (P := 4 = 0)) by lia.
  cbn [bind]. unfold unpack_ni.
  rewrite decide_True
    by (pose proof (slice_length_within mem 76 512 ltac:(lia) ltac:(lia));
        lia).
  cbn [bind]. destruct Hnent as [E0|E1].
  - rewrite decide_True by done. reflexivity.
  - rewrite (decide_False (P := ss / 4 = 0)) by lia. cbn [bind].
    rewrite decide_True by lia. reflexivity.
Qed.

End InitFacts.

(** ** A directory entry read back *)

Lemma le_int32_int32_bytes (z : Z) :
  int32_ok z -> le_int32 (int32_bytes z) = z.
Proof.
  unfold int32_ok. intros Hz. unfold le_int32, int32_bytes, B.
  cbn [fmap list_fmap le_uint].
  rewrite !book_facts.ord_byte_of by (apply Z.mod_pos_bound; lia).
  assert (Hv : z mod 256
               + 256 * (z / 256 mod 256
                        + 256 * (z / 65536 mod 256
                                 + 256 * (z / 16777216 mod 256 + 256 * 0)))
               = z mod 4294967296).
  { Z.div_mod_to_equations. lia. }
  rewrite Hv. destruct (z mod 4294967296 <? 2147483648) eqn:E;
    Z.div_mod_to_equations; lia.
Qed.

Lemma int32_bytes_length (z : Z) : length (int32_bytes z) = 4%nat.
Proof. reflexivity. Qed.

Lemma dir_entry_parts (nm : str) (etype colour left right root sid size : Z) :
  dir_entry nm etype colour left right root sid size
  = (encode_utf_16_le nm
       ++ Byte.x00 :: Byte.x00
            :: replicate (64 - length (encode_utf_16_le nm ++ [Byte.x00; Byte.x00]))
                 Byte.x00)
      ++ (le16 (Z.of_nat (length (encode_utf_16_le nm ++ [Byte.x00; Byte.x00])))
            ++ [byte_of etype; byte_of colour]
            ++ int32_bytes left ++ int32_bytes right ++ int32_bytes root)
      ++ replicate 36 Byte.x00
      ++ (int32_bytes sid ++ int32_bytes size)
      ++ replicate 4 Byte.x00.
Proof. unfold dir_entry. rewrite <- !app_assoc. reflexivity. Qed.

(** X22.  A directory entry as it is written is read back by
    [DirNode.__init__]: for fields that fit their places, the entry read
    from the 128 bytes has the name, the type, the colour, the three
    links, the first sector and the size that were written, the given
    index, no children and the parent -1. *)
Theorem DirNode_init_reads_entry (did : Z) (nm : str)
    (etype colour left right root sid size : Z) :
  dir_entry_ok nm etype colour left right root sid size ->
  length (dir_entry nm etype colour left right root sid size) = 128%nat
  /\ DirNode_init did (dir_entry nm etype colour left right root sid size)
     = Return {| DID := did; name := nm; etype := etype; colour := colour;
                 left_DID := left; right_DID := right; root_DID := root;
                 first_SID := sid; tot_size := size; children := [];
                 parent := -1 |}.
Proof.
  intros (Hnm & Hlen & Het & Hco & Hl & Hr & Hro & Hsid & Hsize).
  assert (Henc : Z.of_nat (length (encode_utf_16_le nm)) = 2 * places nm)
    by (unfold places; apply book_facts.encode_utf_16_le_length).
  assert (Hplaces : 0 <= places nm) by (unfold places; lia).
  set (text := encode_utf_16_le nm) in *.
  assert (Htext : length (text ++ [Byte.x00; Byte.x00])
                  = (length text + 2)%nat)
    by (rewrite length_app; reflexivity).
  pose proof (dir_entry_parts nm etype colour left right root sid size)
    as Hparts.
  fold text in Hparts. rewrite Htext in Hparts.
  set (A := text ++ Byte.x00 :: Byte.x00
                 :: replicate (64 - (length text + 2)) Byte.x00) in Hparts.
  set (Bk := le16 (Z.of_nat (length text + 2))
               ++ [byte_of etype; byte_of colour]
               ++ int32_bytes left ++ int32_bytes right ++ int32_bytes root)
    in Hparts.
  set (D := int32_bytes sid ++ int32_bytes size) in Hparts.
  assert (HA : length A = 64%nat).
  { unfold A. rewrite length_app. cbn [length]. rewrite length_replicate. lia. }
  assert (HB : length Bk = 16%nat) by reflexivity.
  assert (HD : length D = 8%nat) by reflexivity.
  set (dent := dir_entry nm etype colour left right root sid size) in *.
  assert (Hdent : length dent = 128%nat).
  { rewrite Hparts. rewrite !length_app, HA, HB, HD, !length_replicate.
    reflexivity. }
  split; [done|].
  assert (H1 : slice dent 64 80 = Bk).
  { refine (book_facts.slice_field dent A Bk _ 64 16 Hparts _ _); lia. }
  assert (H2 : slice dent 116 124 = D).
  { refine (book_facts.slice_field dent (A ++ Bk ++ replicate 36 Byte.x00) D
              (replicate 4 Byte.x00) 116 8 _ _ _).
    - rewrite Hparts. by rewrite <- !app_assoc.
    - rewrite !length_app, HA, HB, length_replicate. lia.
    - lia. }
  assert (H3 : length (slice dent 100 116) = 16%nat).
  { pose proof (slice_length_within dent 100 116 ltac:(lia) ltac:(lia)). lia. }
  assert (H4 : slice dent 0 (2 * places nm) = text).
  { rewrite slice_0 by lia. rewrite Hparts. unfold A.
    rewrite <- !app_assoc. apply take_app_length'. lia. }
  unfold DirNode_init. rewrite H1, H2.
  unfold unpack_HBBiii. rewrite decide_True by done. cbn [bind].
  unfold unpack_ni. rewrite decide_True by (rewrite HD; lia). cbn [bind].
  change (Z.to_nat 2) with 2%nat. cbn [int32s]. unfold D.
  change (take 4 (int32_bytes sid ++ int32_bytes size))
    with (int32_bytes sid).
  change (take 4 (drop 4 (int32_bytes sid ++ int32_bytes size)))
    with (int32_bytes size).
  unfold Bk.
  change (take 2 (le16 ?n ++ ?r)) with (le16 n).
  rewrite book_facts.le_uint_le16 by lia.
  change (le_uint (take 1 (drop 2 (le16 (Z.of_nat (length text + 2))
            ++ [byte_of etype; byte_of colour] ++ int32_bytes left
            ++ int32_bytes right ++ int32_bytes root))))
    with (ord (byte_of etype) + 256 * 0).
  change (le_uint (take 1 (drop 3 (le16 (Z.of_nat (length text + 2))
            ++ [byte_of etype; byte_of colour] ++ int32_bytes left
            ++ int32_bytes right ++ int32_bytes root))))
    with (ord (byte_of colour) + 256 * 0).
  change (take 4 (drop 4 (le16 (Z.of_nat (length text + 2))
            ++ [byte_of etype; byte_of colour] ++ int32_bytes left
            ++ int32_bytes right ++ int32_bytes root)))
    with (int32_bytes left).
  change (take 4 (drop 8 (le16 (Z.of_nat (length text + 2))
            ++ [byte_of etype; byte_of colour] ++ int32_bytes left
            ++ int32_bytes right ++ int32_bytes root)))
    with (int32_bytes right).
  change (take 4 (drop 12 (le16 (Z.of_nat (length text + 2))
            ++ [byte_of etype; byte_of colour] ++ int32_bytes left
            ++ int32_bytes right ++ int32_bytes root)))
    with (int32_bytes root).
  rewrite !book_facts.ord_byte_of by lia.
  rewrite !le_int32_int32_bytes by done.
  destruct (Z.of_nat (length text + 2) =? 0) eqn:E0;
    [exfalso; apply Z.eqb_eq in E0; lia|].
  replace (Z.of_nat (length text + 2) - 2) with (2 * places nm) by lia.
  rewrite H4. unfold text.
  rewrite book_facts.decode_encode_utf_16_le by done. cbn [bind].
  unfold unpack_IIII. rewrite decide_True by done. cbn [bind].
  do 2 f_equal; lia.
Qed.


(** ** The family tree *)

Import tree_props.

Lemma add_children_add (a b : list Z) (n : DirNode) :
  add_children b (add_children a n) = add_children (a ++ b) n.
Proof. unfold add_children. simpl. f_equal. by rewrite app_assoc. Qed.

Lemma add_children_nil (n : DirNode) : add_children [] n = n.
Proof. destruct n. unfold add_children. simpl. by rewrite app_nil_r. Qed.

Lemma fmap_alter_same {A B} (h : A -> B) (f : A -> A) (i : nat) (l : list A) :
  (forall x, h (f x) = h x) -> h <$> alter f i l = h <$> l.
Proof.
  intros Hf. revert i. induction l as [|x l IH]; intros i; [done|].
  destruct i as [|i]; simpl.
  - by rewrite Hf.
  - f_equal. apply IH.
Qed.

Lemma adopt_same_links (t : family) :
  forall P dl, links <$> adopt P t dl = links <$> dl.
Proof.
  induction t as [|l IHl d k IHk r IHr]; intros P dl; [done|].
  simpl. rewrite IHk, IHr. rewrite !fmap_alter_same by done. apply IHl.
Qed.

Lemma same_links_lookup (dl dl' : list DirNode) (i : nat) (n : DirNode) :
  links <$> dl' = links <$> dl -> dl !! i = Some n ->
  exists n', dl' !! i = Some n' /\ links n' = links n.
Proof.
  intros Heq Hn.
  assert (Hl : (links <$> dl') !! i = Some (links n))
    by (rewrite Heq, list_lookup_fmap, Hn; done).
  rewrite list_lookup_fmap in Hl.
  destruct (dl' !! i) as [n'|]; [|discriminate].
  exists n'. split; [done|]. simpl in Hl. congruence.
Qed.

Lemma linked_same_links (t : family) :
  forall dl dl' c,
    links <$> dl' = links <$> dl -> linked dl c t -> linked dl' c t.
Proof.
  induction t as [|l IHl d k IHk r IHr]; intros dl dl' c Heq Hl; [done|].
  destruct Hl as (-> & Hd & n & Hn & Hleft & Hright & Hkids).
  destruct (same_links_lookup dl dl' _ _ Heq Hn) as (n' & Hn' & Hlinks).
  unfold links in Hlinks. injection Hlinks as _ _ Het _ Hlf Hrt Hro _ _.
  split; [done|]. split; [done|]. exists n'. split; [done|].
  rewrite Hlf, Hrt, Het, Hro.
  split; [by eapply IHl|]. split; [by eapply IHr|].
  destruct (etype n =? 1); [by eapply IHk|done].
Qed.

Lemma linked_members_nonneg (t : family) :
  forall dl c, linked dl c t -> Forall (fun d => 0 <= d) (members t).
Proof.
  induction t as [|l IHl d k IHk r IHr]; intros dl c Hl; [constructor|].
  destruct Hl as (-> & Hd & n & Hn & Hleft & Hright & Hkids).
  simpl. apply Forall_app. split; [by eapply IHl|]. constructor; [done|].
  apply Forall_app. split; [by eapply IHr|].
  destruct (etype n =? 1); [by eapply IHk|]. subst k. constructor.
Qed.

Lemma list_setitem_alter {A} (l : list A) (i : Z) (x : A) (f : A -> A) :
  0 <= i -> l !! Z.to_nat i = Some x ->
  list_setitem l i (f x) = Return (alter f (Z.to_nat i) l).
Proof.
  intros Hi Hx. pose proof (lookup_lt_Some _ _ _ Hx) as Hlt.
  unfold list_setitem. destruct (i <? 0) eqn:E; [lia|]. rewrite E.
  destruct (Z.of_nat (length l) <=? i) eqn:E1; [lia|]. cbn [orb].
  f_equal. symmetry. apply list_eq. intros j.
  destruct (decide (j = Z.to_nat i)) as [->|Hne].
  - rewrite list_lookup_alter_eq, Hx. rewrite list_lookup_insert_eq by lia. done.
  - rewrite list_lookup_alter_ne by done.
    rewrite list_lookup_insert_ne by done. done.
Qed.

(** On a directory whose links describe a tree, the recursion enters the
    tree and ends, one frame being left for each level of the tree and
    for the call that returns at once below the last. *)
Lemma build_family_tree_adopts (t : family) :
  forall frames dl P c,
    linked dl c t -> 0 <= P -> (Z.to_nat P < length dl)%nat ->
    (depth t < frames)%nat ->
    _build_family_tree frames dl P c = Return (adopt P t dl).
Proof.
  induction t as [|l IHl d k IHk r IHr];
    intros frames dl P c Hl HP HPlt Hframes.
  - simpl in Hl. destruct frames as [|frames]; [simpl in Hframes; lia|].
    simpl. destruct (c <? 0) eqn:E; (done || lia).
  - destruct Hl as (-> & Hd & n & Hn & Hleft & Hright & Hkids).
    destruct frames as [|frames]; [simpl in Hframes; lia|].
    simpl in Hframes. cbn [_build_family_tree adopt].
    destruct (d <? 0) eqn:E; [lia|].
    rewrite (getitem_nonneg dl d Hd), Hn. cbn [bind].
    rewrite (IHl frames dl P (left_DID n) Hleft HP HPlt ltac:(lia)).
    cbn [bind].
    set (dl1 := adopt P l dl).
    pose proof (adopt_same_links l P dl) as H1. fold dl1 in H1.
    assert (Hlen1 : length dl1 = length dl)
      by (apply (f_equal length) in H1; by rewrite !length_fmap in H1).
    destruct (lookup_lt_is_Some_2 dl1 (Z.to_nat P) ltac:(lia)) as [p1 Hp1].
    rewrite (getitem_nonneg dl1 P HP), Hp1. cbn [bind].
    rewrite (list_setitem_alter dl1 P p1 (fun n => append_child n d) HP Hp1).
    cbn [bind].
    set (dl2 := alter (fun n => append_child n d) (Z.to_nat P) dl1).
    assert (H2 : links <$> dl2 = links <$> dl)
      by (unfold dl2; rewrite fmap_alter_same by done; exact H1).
    destruct (same_links_lookup dl dl2 _ _ H2 Hn) as (n2 & Hn2 & _).
    rewrite (getitem_nonneg dl2 d Hd), Hn2. cbn [bind].
    rewrite (list_setitem_alter dl2 d n2 (fun n => set_parent n P) Hd Hn2).
    cbn [bind].
    set (dl3 := alter (fun n => set_parent n P) (Z.to_nat d) dl2).
    assert (H3 : links <$> dl3 = links <$> dl)
      by (unfold dl3; rewrite fmap_alter_same by done; exact H2).
    assert (Hlen3 : length dl3 = length dl)
      by (apply (f_equal length) in H3; by rewrite !length_fmap in H3).
    destruct (same_links_lookup dl dl3 _ _ H3 Hn) as (n3 & Hn3 & Hl3).
    rewrite (getitem_nonneg dl3 d Hd), Hn3. cbn [bind].
    unfold links in Hl3. injection Hl3 as _ _ _ _ _ Hrt3 _ _ _.
    rewrite Hrt3.
    rewrite (IHr frames dl3 P (right_DID n)
               (linked_same_links r dl dl3 _ H3 Hright) HP ltac:(lia)
               ltac:(lia)).
    cbn [bind].
    set (dl4 := adopt P r dl3).
    assert (H4 : links <$> dl4 = links <$> dl)
      by (unfold dl4; rewrite adopt_same_links; exact H3).
    assert (Hlen4 : length dl4 = length dl)
      by (apply (f_equal length) in H4; by rewrite !length_fmap in H4).
    destruct (same_links_lookup dl dl4 _ _ H4 Hn) as (n4 & Hn4 & Hl4).
    rewrite (getitem_nonneg dl4 d Hd), Hn4. cbn [bind].
    unfold links in Hl4. injection Hl4 as _ _ Het4 _ _ _ Hro4 _ _.
    rewrite Het4, Hro4.
    pose proof (lookup_lt_Some _ _ _ Hn) as Hdlt.
    destruct (etype n =? 1).
    + apply IHk; [by eapply linked_same_links|lia..].
    + subst k. simpl. reflexivity.
Qed.

(** With fewer frames than that, the recursion comes to the limit of the
    interpreter: on a directory whose links describe a tree nothing else
    can be raised before. *)
Lemma build_family_tree_overflows (t : family) :
  forall frames dl P c,
    linked dl c t -> 0 <= P -> (Z.to_nat P < length dl)%nat ->
    (frames <= depth t)%nat ->
    _build_family_tree frames dl P c = Raise RecursionError.
Proof.
  induction t as [|l IHl d k IHk r IHr];
    intros frames dl P c Hl HP HPlt Hframes.
  - simpl in Hframes. by replace frames with 0%nat by lia.
  - destruct frames as [|frames]; [done|].
    destruct Hl as (-> & Hd & n & Hn & Hleft & Hright & Hkids).
    simpl in Hframes. cbn [_build_family_tree].
    destruct (d <? 0) eqn:E; [lia|].
    rewrite (getitem_nonneg dl d Hd), Hn. cbn [bind].
    destruct (decide (frames <= depth l)%nat) as [Hdeep|Hfits].
    { by rewrite (IHl frames dl P (left_DID n) Hleft HP HPlt Hdeep). }
    rewrite (build_family_tree_adopts l frames dl P (left_DID n) Hleft HP
               HPlt ltac:(lia)).
    cbn [bind].
    set (dl1 := adopt P l dl).
    pose proof (adopt_same_links l P dl) as H1. fold dl1 in H1.
    assert (Hlen1 : length dl1 = length dl)
      by (apply (f_equal length) in H1; by rewrite !length_fmap in H1).
    destruct (lookup_lt_is_Some_2 dl1 (Z.to_nat P) ltac:(lia)) as [p1 Hp1].
    rewrite (getitem_nonneg dl1 P HP), Hp1. cbn [bind].
    rewrite (list_setitem_alter dl1 P p1 (fun n => append_child n d) HP Hp1).
    cbn [bind].
    set (dl2 := alter (fun n => append_child n d) (Z.to_nat P) dl1).
    assert (H2 : links <$> dl2 = links <$> dl)
      by (unfold dl2; rewrite fmap_alter_same by done; exact H1).
    destruct (same_links_lookup dl dl2 _ _ H2 Hn) as (n2 & Hn2 & _).
    rewrite (getitem_nonneg dl2 d Hd), Hn2. cbn [bind].
    rewrite (list_setitem_alter dl2 d n2 (fun n => set_parent n P) Hd Hn2).
    cbn [bind].
    set (dl3 := alter (fun n => set_parent n P) (Z.to_nat d) dl2).
    assert (H3 : links <$> dl3 = links <$> dl)
      by (unfold dl3; rewrite fmap_alter_same by done; exact H2).
    assert (Hlen3 : length dl3 = length dl)
      by (apply (f_equal length) in H3; by rewrite !length_fmap in H3).
    destruct (same_links_lookup dl dl3 _ _ H3 Hn) as (n3 & Hn3 & Hl3).
    rewrite (getitem_nonneg dl3 d Hd), Hn3. cbn [bind].
    unfold links in Hl3. injection Hl3 as _ _ _ _ _ Hrt3 _ _ _.
    rewrite Hrt3.
    pose proof (linked_same_links r dl dl3 _ H3 Hright) as Hright3.
    destruct (decide (frames <= depth r)%nat) as [Hdeepr|Hfitsr].
    { by rewrite (IHr frames dl3 P (right_DID n) Hright3 HP ltac:(lia)
                    Hdeepr). }
    rewrite (build_family_tree_adopts r frames dl3 P (right_DID n) Hright3
               HP ltac:(lia) ltac:(lia)).
    cbn [bind].
    set (dl4 := adopt P r dl3).
    assert (H4 : links <$> dl4 = links <$> dl)
      by (unfold dl4; rewrite adopt_same_links; exact H3).
    assert (Hlen4 : length dl4 = length dl)
      by (apply (f_equal length) in H4; by rewrite !length_fmap in H4).
    destruct (same_links_lookup dl dl4 _ _ H4 Hn) as (n4 & Hn4 & Hl4).
    rewrite (getitem_nonneg dl4 d Hd), Hn4. cbn [bind].
    unfold links in Hl4. injection Hl4 as _ _ Het4 _ _ _ Hro4 _ _.
    rewrite Het4, Hro4.
    pose proof (lookup_lt_Some _ _ _ Hn) as Hdlt.
    destruct (etype n =? 1).
    + apply IHk; [by eapply linked_same_links|lia..].
    + subst k. simpl in Hframes. lia.
Qed.

(** The entries that the tree does not name stay as they were. *)
Lemma adopt_other (t : family) :
  forall P dl (i : nat),
    i <> Z.to_nat P -> (forall d, d ∈ members t -> i <> Z.to_nat d) ->
    adopt P t dl !! i = dl !! i.
Proof.
  induction t as [|l IHl d k IHk r IHr]; intros P dl i HP Hmem; [done|].
  simpl in Hmem |- *.
  assert (Hd : i <> Z.to_nat d) by (apply Hmem; set_solver).
  rewrite IHk by (done || intros x Hx; apply Hmem; set_solver).
  rewrite IHr by (done || intros x Hx; apply Hmem; set_solver).
  rewrite !list_lookup_alter_ne by done.
  apply IHl; [done|]. intros x Hx. apply Hmem. set_solver.
Qed.

(** The parent gets the members of the first level, in order. *)
Lemma adopt_parent (t : family) :
  forall P dl,
    0 <= P -> Forall (fun d => 0 <= d) (members t) -> P ∉ members t ->
    adopt P t dl !! Z.to_nat P
    = add_children (siblings t) <$> dl !! Z.to_nat P.
Proof.
  induction t as [|l IHl d k IHk r IHr]; intros P dl HP Hnn Hnot.
  - simpl. destruct (dl !! Z.to_nat P) as [p|]; [|done]. simpl.
    by rewrite add_children_nil.
  - simpl in Hnn, Hnot |- *.
    apply Forall_app in Hnn as [Hnl Hnn].
    apply Forall_cons_1 in Hnn as [Hd Hnn].
    apply Forall_app in Hnn as [Hnr Hnk].
    assert (HPd : Z.to_nat P <> Z.to_nat d) by (intros E; apply Hnot; set_solver by lia).
    rewrite adopt_other.
    2:{ lia. }
    2:{ intros x Hx E. apply Hnot. rewrite Forall_forall in Hnk.
        pose proof (Hnk x ltac:(by apply list_elem_of_In)) as Hx0.
        simpl in Hx0. assert (P = x) by lia. set_solver. }
    rewrite IHr by (done || set_solver).
    rewrite list_lookup_alter_ne by lia.
    rewrite list_lookup_alter_eq.
    rewrite IHl by (done || set_solver).
    destruct (dl !! Z.to_nat P) as [p|]; [|done]. simpl. f_equal.
    change (append_child (add_children (siblings l) p) d)
      with (add_children [d] (add_children (siblings l) p)).
    rewrite !add_children_add. f_equal.
Qed.

Lemma households_members (t : family) :
  forall P d q ks, (d, (q, ks)) ∈ households P t -> d ∈ members t.
Proof.
  induction t as [|l IHl d0 k IHk r IHr]; intros P d q ks Hin; simpl in *.
  - by apply elem_of_nil in Hin.
  - rewrite !elem_of_app, elem_of_cons, !elem_of_app in Hin.
    rewrite !elem_of_app, elem_of_cons, !elem_of_app.
    destruct Hin as [Hin|[Hin|[Hin|Hin]]].
    + left. by eapply IHl.
    + right. left. by injection Hin.
    + right. right. left. by eapply IHr.
    + right. right. right. by eapply IHk.
Qed.

(** Every member gets its parent and its own children, in order. *)
Lemma adopt_member (t : family) :
  forall P dl d q ks,
    0 <= P -> Forall (fun d => 0 <= d) (members t) ->
    NoDup (P :: members t) ->
    (d, (q, ks)) ∈ households P t ->
    adopt P t dl !! Z.to_nat d
    = (fun n => set_parent (add_children ks n) q) <$> dl !! Z.to_nat d.
Proof.
  induction t as [|l IHl d0 k IHk r IHr]; intros P dl d q ks HP Hnn Hdup Hin.
  - by apply elem_of_nil in Hin.
  - simpl in Hnn, Hdup, Hin |- *.
    pose proof Hnn as Hall.
    apply Forall_app in Hnn as [Hnl Hnn].
    apply Forall_cons_1 in Hnn as [Hd0 Hnn].
    apply Forall_app in Hnn as [Hnr Hnk].
    pose proof (NoDup_cons_1_1 _ _ Hdup) as HPnot.
    apply NoDup_cons_1_2 in Hdup.
    apply list.NoDup_app in Hdup as (Hdl & Hl_out & Hdup).
    pose proof (NoDup_cons_1_1 _ _ Hdup) as Hd0not.
    apply NoDup_cons_1_2 in Hdup.
    apply list.NoDup_app in Hdup as (Hdr & Hr_out & Hdk).
    assert (Hto : forall x y, 0 <= x -> 0 <= y -> Z.to_nat x = Z.to_nat y -> x = y)
      by (intros; lia).
    assert (Hnn_of : forall x, x ∈ members l ++ d0 :: members r ++ members k ->
                               0 <= x).
    { intros x Hx. rewrite Forall_forall in Hall.
      exact (Hall x ltac:(by apply list_elem_of_In)). }
    rewrite !elem_of_app, elem_of_cons, !elem_of_app in Hin.
    destruct Hin as [Hin|[Hin|[Hin|Hin]]].
    + (* a member of the left branch *)
      pose proof (households_members _ _ _ _ _ Hin) as Hd.
      assert (Hd0' : 0 <= d) by (apply Hnn_of; set_solver).
      rewrite adopt_other.
      2:{ intros E. apply Hto in E; [|done..]. subst.
          apply (Hl_out d0 Hd). set_solver. }
      2:{ intros x Hx E. apply Hto in E; [|done|apply Hnn_of; set_solver].
          subst. apply (Hl_out x Hd). set_solver. }
      rewrite adopt_other.
      2:{ intros E. apply Hto in E; [|done..]. subst. apply HPnot. set_solver. }
      2:{ intros x Hx E. apply Hto in E; [|done|apply Hnn_of; set_solver].
          subst. apply (Hl_out x Hd). set_solver. }
      rewrite list_lookup_alter_ne.
      2:{ intros E. apply Hto in E; [|done..]. subst.
          apply (Hl_out d Hd). set_solver. }
      rewrite list_lookup_alter_ne.
      2:{ intros E. apply Hto in E; [|done..]. subst. apply HPnot. set_solver. }
      apply IHl; [done..| |done].
      apply NoDup_cons_2; [set_solver|done].
    + (* the member itself *)
      injection Hin as -> -> ->.
      rewrite adopt_parent by (done || set_solver).
      rewrite adopt_other.
      2:{ intros E. apply Hto in E; [|done..]. subst. apply HPnot. set_solver. }
      2:{ intros x Hx E. apply Hto in E; [|done|apply Hnn_of; set_solver].
          subst. apply Hd0not. set_solver. }
      rewrite list_lookup_alter_eq.
      rewrite list_lookup_alter_ne.
      2:{ intros E. apply Hto in E; [|done..]. subst. apply HPnot. set_solver. }
      rewrite adopt_other.
      2:{ intros E. apply Hto in E; [|done..]. subst. apply HPnot. set_solver. }
      2:{ intros x Hx E. apply Hto in E; [|done|apply Hnn_of; set_solver].
          subst. apply (Hl_out x Hx). set_solver. }
      by destruct (dl !! Z.to_nat d0).
    + (* a member of the right branch *)
      pose proof (households_members _ _ _ _ _ Hin) as Hd.
      assert (Hd0' : 0 <= d) by (apply Hnn_of; set_solver).
      rewrite adopt_other.
      2:{ intros E. apply Hto in E; [|done..]. subst. apply Hd0not. set_solver. }
      2:{ intros x Hx E. apply Hto in E; [|done|apply Hnn_of; set_solver].
          subst. by apply (Hr_out x Hd). }
      rewrite (IHr P _ d q ks); [|done..| |done].
      2:{ apply NoDup_cons_2; [set_solver|done]. }
      rewrite list_lookup_alter_ne.
      2:{ intros E. apply Hto in E; [|done..]. subst. apply Hd0not. set_solver. }
      rewrite list_lookup_alter_ne.
      2:{ intros E. apply Hto in E; [|done..]. subst. apply HPnot. set_solver. }
      rewrite adopt_other; [done| |].
      * intros E. apply Hto in E; [|done..]. subst. apply HPnot. set_solver.
      * intros x Hx E. apply Hto in E; [|done|apply Hnn_of; set_solver].
        subst. apply (Hl_out x Hx). set_solver.
    + (* a member of a lower level *)
      pose proof (households_members _ _ _ _ _ Hin) as Hd.
      assert (Hd0' : 0 <= d) by (apply Hnn_of; set_solver).
      rewrite (IHk d0 _ d q ks); [|done..| |done].
      2:{ apply NoDup_cons_2; [set_solver|done]. }
      rewrite adopt_other.
      2:{ intros E. apply Hto in E; [|done..]. subst. apply HPnot. set_solver. }
      2:{ intros x Hx E. apply Hto in E; [|done|apply Hnn_of; set_solver].
          subst. by apply (Hr_out x Hx). }
      rewrite list_lookup_alter_ne.
      2:{ intros E. apply Hto in E; [|done..]. subst. apply Hd0not. set_solver. }
      rewrite list_lookup_alter_ne.
      2:{ intros E. apply Hto in E; [|done..]. subst. apply HPnot. set_solver. }
      rewrite adopt_other; [done| |].
      * intros E. apply Hto in E; [|done..]. subst. apply HPnot. set_solver.
      * intros x Hx E. apply Hto in E; [|done|apply Hnn_of; set_solver].
        subst. apply (Hl_out x Hx). set_solver.
Qed.

(** X23.  [_build_family_tree] lists the children of every storage in
    the order of its tree, from left to right.  On a directory whose
    links describe a tree of entries under the parent [P], no entry
    occurring twice, the recursion needs one frame of the interpreter for
    each level of the tree and one more: with fewer frames left it raises
    [RecursionError], however well formed the directory; with that many
    it returns.  Afterwards the children of [P] are those it had,
    followed by the members of the first level of the tree in order;
    every member of the tree has its parent in the tree as [parent] and,
    after the children it had, the first level of its own tree as
    [children]; an entry keeps its other attributes; and the entries that
    the tree does not name are as they were. *)
Theorem family_tree_in_order (frames : nat) (dl : list DirNode) (P c : Z)
    (t : family) :
  linked dl c t ->
  0 <= P -> (Z.to_nat P < length dl)%nat ->
  NoDup (P :: members t) ->
  ((frames <= depth t)%nat ->
   _build_family_tree frames dl P c = Raise RecursionError)
  /\ ((depth t < frames)%nat ->
      exists dl',
        _build_family_tree frames dl P c = Return dl'
        /\ links <$> dl' = links <$> dl
        /\ dl' !! Z.to_nat P = add_children (siblings t) <$> dl !! Z.to_nat P
        /\ (forall d q ks,
              (d, (q, ks)) ∈ households P t ->
              exists n,
                dl !! Z.to_nat d = Some n
                /\ dl' !! Z.to_nat d
                   = Some (set_parent (add_children ks n) q))
        /\ (forall i : nat,
              i <> Z.to_nat P ->
              (forall d, d ∈ members t -> i <> Z.to_nat d) ->
              dl' !! i = dl !! i)).
Proof.
  intros Hl HP HPlt Hdup.
  split; [by apply build_family_tree_overflows|].
  intros Hframes. exists (adopt P t dl).
  pose proof (linked_members_nonneg t dl c Hl) as Hnn.
  split; [by apply build_family_tree_adopts|].
  split; [apply adopt_same_links|].
  split; [apply adopt_parent; [done..|by apply NoDup_cons_1_1 in Hdup]|].
  split; [|intros i Hi Hm; by apply adopt_other].
  intros d q ks Hin.
  pose proof (adopt_member t P dl d q ks HP Hnn Hdup Hin) as Hd.
  pose proof (adopt_same_links t P dl) as Hsame.
  destruct (dl !! Z.to_nat d) as [n|] eqn:En.
  - exists n. by rewrite Hd.
  - exfalso. simpl in Hd.
    apply (f_equal (fun l => l !! Z.to_nat d)) in Hsame.
    rewrite !list_lookup_fmap, Hd, En in Hsame.
    (* a member of the tree is an entry of the directory *)
    clear -Hl Hin En. revert P c dl Hl Hin En.
    induction t as [|l IHl d0 k IHk r IHr]; intros P c dl Hl Hin En.
    + by apply elem_of_nil in Hin.
    + destruct Hl as (-> & Hd & n & Hn & Hleft & Hright & Hkids).
      simpl in Hin.
      rewrite !elem_of_app, elem_of_cons, !elem_of_app in Hin.
      destruct Hin as [Hin|[Hin|[Hin|Hin]]].
      * by eapply IHl.
      * injection Hin as -> _ _. congruence.
      * by eapply IHr.
      * destruct (etype n =? 1); [by eapply IHk|].
        subst k. by apply elem_of_nil in Hin.
Qed.

(** ** The opening of a small document *)

(** The file [tiny_ole] is accepted, and its stream is found where it
    lies in the file. *)
Example tiny_ole_opens :
  CompDoc_init 10 None tiny_ole false = Return tiny_doc
  /\ forget_seen (locate_named_stream ascii_lower 5 tiny_doc (u "Workbook"))
     = Return (Backing tiny_ole, 512 + 3 * 128, 200).
Proof. split; vm_compute; reflexivity. Qed.

Lemma SSAT_loop_reads_chain_witness :
  exists chain,
    chain_from [-2] 0 chain
    /\ Z.of_nat (length chain) = 1
    /\ [-3; -4] = concat (sat_sector msat_file 8 <$> chain)
    /\ length [-3; -4] = (length chain * Z.to_nat (8 / 4))%nat
    /\ NoDup chain
    /\ length [5] = length [0]
    /\ (forall c, c ∈ chain ->
          [0] !! Z.to_nat c = Some 0 /\ [5] !! Z.to_nat c = Some 5)
    /\ (forall i : nat, (forall c, c ∈ chain -> i <> Z.to_nat c) ->
          [5] !! i = [0] !! i).
Proof.
  apply (proj2 (SSAT_loop_reads_chain 2 msat_file 8 [-2] 0 1 [0])
           [-3; -4] [5]).
  vm_compute. reflexivity.
Defined.

Lemma CompDoc_init_invariants_witness :
  xls_path tiny_doc = None /\ compdoc.mem tiny_doc = tiny_ole
  /\ ignore_workbook_corruption tiny_doc = false
  /\ slice tiny_ole 0 8 = SIGNATURE
  /\ 512 <= Z.of_nat (length tiny_ole)
  /\ (exists ssz, 3 <= ssz <= 20 /\ sec_size tiny_doc = 2 ^ ssz)
  /\ (exists sssz, 0 <= sssz <= 20 /\ short_sec_size tiny_doc = 2 ^ sssz)
  /\ mem_data_len tiny_doc = Z.of_nat (length tiny_ole) - 512
  /\ mem_data_secs tiny_doc
     = (mem_data_len tiny_doc + sec_size tiny_doc - 1) / sec_size tiny_doc
  /\ Z.of_nat (length (seen tiny_doc)) = mem_data_secs tiny_doc
  /\ exists root rest,
       dirlist tiny_doc = root :: rest /\ etype root = 5
       /\ (SSCS tiny_doc = PyStr []
           <-> first_SID root < 0 \/ tot_size root = 0).
Proof.
  apply (CompDoc_init_invariants 10 None tiny_ole false tiny_doc).
  vm_compute. reflexivity.
Defined.

Lemma CompDoc_init_tiny_sectors_witness :
  CompDoc_init 1 None tiny_sector_header false = Raise ZeroDivisionError.
Proof.
  apply (CompDoc_init_tiny_sectors 1 None tiny_sector_header false 2 6).
  - vm_compute. reflexivity.
  - vm_compute. reflexivity.
  - vm_compute. discriminate.
  - vm_compute. reflexivity.
  - lia.
Defined.

Lemma DirNode_init_reads_entry_witness :
  length (dir_entry (u "Workbook") 2 1 (-1) (-1) (-1) 3 200) = 128%nat
  /\ DirNode_init 1 (dir_entry (u "Workbook") 2 1 (-1) (-1) (-1) 3 200)
     = Return {| DID := 1; name := u "Workbook"; etype := 2; colour := 1;
                 left_DID := -1; right_DID := -1; root_DID := -1;
                 first_SID := 3; tot_size := 200; children := [];
                 parent := -1 |}.
Proof.
  apply (DirNode_init_reads_entry 1 (u "Workbook") 2 1 (-1) (-1) (-1) 3 200).
  unfold dir_entry_ok, int32_ok.
  split; [|split; [vm_compute; discriminate|lia]].
  repeat (constructor; [left; vm_compute; reflexivity|]). constructor.
Defined.

Lemma family_tree_in_order_witness :
  _build_family_tree 2 three_streams 0 2 = Raise RecursionError
  /\ exists dl',
    _build_family_tree 3 three_streams 0 2 = Return dl'
    /\ links <$> dl' = links <$> three_streams
    /\ dl' !! Z.to_nat 0
       = add_children
           (siblings (Member (Member Nobody 1 Nobody Nobody) 2 Nobody
                        (Member Nobody 3 Nobody Nobody)))
           <$> three_streams !! Z.to_nat 0
    /\ (forall d q ks,
          (d, (q, ks))
          ∈ households 0 (Member (Member Nobody 1 Nobody Nobody) 2 Nobody
                            (Member Nobody 3 Nobody Nobody)) ->
          exists n,
            three_streams !! Z.to_nat d = Some n
            /\ dl' !! Z.to_nat d = Some (set_parent (add_children ks n) q))
    /\ (forall i : nat,
          i <> Z.to_nat 0 ->
          (forall d,
              d ∈ members (Member (Member Nobody 1 Nobody Nobody) 2 Nobody
                             (Member Nobody 3 Nobody Nobody)) ->
              i <> Z.to_nat d) ->
          dl' !! i = three_streams !! i).
Proof.
  assert (Hlinked : linked three_streams 2
                      (Member (Member Nobody 1 Nobody Nobody) 2 Nobody
                         (Member Nobody 3 Nobody Nobody))).
  { simpl. split; [done|]. split; [lia|]. eexists. split; [reflexivity|].
    simpl. split; [|split; [|done]].
    + split; [done|]. split; [lia|]. eexists. split; [reflexivity|].
      simpl. split; [lia|]. split; [lia|done].
    + split; [done|]. split; [lia|]. eexists. split; [reflexivity|].
      simpl. split; [lia|]. split; [lia|done]. }
  assert (Hdup : NoDup (0 :: members
                          (Member (Member Nobody 1 Nobody Nobody) 2 Nobody
                             (Member Nobody 3 Nobody Nobody))))
    by (apply (bool_decide_unpack _); vm_compute; exact I).
  split.
  - apply (proj1 (family_tree_in_order 2 three_streams 0 2 _ Hlinked
                    ltac:(lia) ltac:(simpl; lia) Hdup)).
    simpl. lia.
  - apply (proj2 (family_tree_in_order 3 three_streams 0 2 _ Hlinked
                    ltac:(lia) ltac:(simpl; lia) Hdup)).
    simpl. lia.
Defined.

(** ** From the file to the workbook stream *)



Section LoadFacts.

Import book_load.

Context `{book.Interpreter} `{Stack}.

Variable lower : str -> str.
Variable fs : str -> option bytes.


End LoadFacts.


End compdoc_init_facts.

(** * The user name and the encoding ([xlrd/book.py]) *)

Module writeaccess_facts.

Import book book_writeaccess examples writeaccess_examples.

Section WriteAccessFacts.

Context {Sheet Ext : Type} `{Biffh} `{Interpreter} `{BiffhUnicode}.

(** What [derive_encoding] does after its first statement, which has
    left the workbook [s]. *)
Lemma derive_encoding_resolved (bk : Book Sheet Ext) :
  exists (enc : option str) (cpg : option Z),
    (forall bk' : Book Sheet Ext,
        encoding_override bk' = encoding_override bk ->
        codepage bk' = codepage bk ->
        biff_version bk' = biff_version bk ->
        encoding bk' = encoding bk ->
        derive_encoding bk'
        = (let s := set_encoding (set_codepage bk' cpg) enc in
           let* _ := (if bool_decide (cpg = Some 1200) then Return []
                      else unicode trial enc) in
           let* s' := (if raw_user_name s then
                         let* strg := unpack_string (user_name s) 0 enc 1 in
                         Return (set_user_name s false (PyStr (rstrip strg)))
                       else Return s) in
           Return (encoding s', s')))
    /\ (forall cp,
           codepage bk = Some cp ->
           (forall e, encoding_from_codepage cp = Some e -> e <> []) ->
           biff_version bk < 80 ->
           truthy enc = true).
Proof.
  assert (Hrun : forall (enc : option str) (cpg : option Z)
                        (bk' : Book Sheet Ext),
             (if truthy (encoding_override bk') then
                set_encoding bk' (encoding_override bk')
              else
                match codepage bk' with
                | None =>
                    if biff_version bk' <? 80 then
                      set_encoding bk' (Some (u "iso-8859-1"))
                    else set_codepage bk' (Some 1200)
                | Some codepage =>
                    match encoding_from_codepage codepage with
                    | Some encoding => set_encoding bk' (Some encoding)
                    | None =>
                        if (300 <=? codepage) && (codepage <=? 1999) then
                          set_encoding bk'
                            (Some (u "cp" ++ str_of_int codepage))
                        else if biff_version bk' >=? 80 then
                          set_encoding (set_codepage bk' (Some 1200))
                            (Some (u "utf_16_le"))
                        else
                          set_encoding bk'
                            (Some (u "unknown_codepage_"
                                   ++ str_of_int codepage))
                    end
                end)
             = set_encoding (set_codepage bk' cpg) enc ->
             derive_encoding bk'
             = (let s := set_encoding (set_codepage bk' cpg) enc in
                let* _ := (if bool_decide (cpg = Some 1200) then Return []
                           else unicode trial enc) in
                let* s' := (if raw_user_name s then
                              let* strg :=
                                unpack_string (user_name s) 0 enc 1 in
                              Return (set_user_name s false
                                        (PyStr (rstrip strg)))
                            else Return s) in
                Return (encoding s', s'))).
  { intros enc cpg bk' Hfirst. unfold derive_encoding. rewrite Hfirst.
    reflexivity. }
  destruct (truthy (encoding_override bk)) eqn:Eo.
  { exists (encoding_override bk), (codepage bk). split; [|done].
    intros bk' Ho Hc Hb He. apply Hrun. rewrite Ho, Eo, <- Hc.
    by destruct bk'. }
  destruct (codepage bk) as [cp|] eqn:Ecp.
  - destruct (encoding_from_codepage cp) as [e|] eqn:Etab.
    { exists (Some e), (Some cp). split.
      - intros bk' Ho Hc Hb He. apply Hrun. rewrite Ho, Eo, Hc, Etab.
        destruct bk'. cbn in Hc. by subst.
      - intros cp' [= <-] Htable _. specialize (Htable e Etab).
        by destruct e. }
    destruct ((300 <=? cp) && (cp <=? 1999)) eqn:Er.
    { exists (Some (u "cp" ++ str_of_int cp)), (Some cp). split; [|done].
      intros bk' Ho Hc Hb He. apply Hrun. rewrite Ho, Eo, Hc, Etab, Er.
      destruct bk'. cbn in Hc. by subst. }
    destruct (biff_version bk >=? 80) eqn:E8.
    { exists (Some (u "utf_16_le")), (Some 1200). split; [|done].
      intros bk' Ho Hc Hb He. apply Hrun.
      by rewrite Ho, Eo, Hc, Etab, Er, Hb, E8. }
    exists (Some (u "unknown_codepage_" ++ str_of_int cp)), (Some cp).
    split; [|done].
    intros bk' Ho Hc Hb He. apply Hrun. rewrite Ho, Eo, Hc, Etab, Er, Hb, E8.
    destruct bk'. cbn in Hc. by subst.
  - destruct (biff_version bk <? 80) eqn:Ev.
    { exists (Some (u "iso-8859-1")), None. split; [|done].
      intros bk' Ho Hc Hb He. apply Hrun. rewrite Ho, Eo, Hc, Hb, Ev.
      destruct bk'. cbn in Hc. by subst. }
    exists (encoding bk), (Some 1200). split; [|done].
    intros bk' Ho Hc Hb He. apply Hrun. rewrite Ho, Eo, Hc, Hb, Ev, <- He.
    by destruct bk'.
Qed.

(** [derive_encoding] changes the code page, the encoding and the user
    name only, and returns the encoding it has set. *)
Lemma derive_encoding_frame (bk bk1 : Book Sheet Ext) (e : option str) :
  derive_encoding bk = Return (e, bk1) ->
  exists cpg raw un,
    bk1 = set_user_name (set_encoding (set_codepage bk cpg) e) raw un.
Proof.
  intros Hrun.
  destruct (derive_encoding_resolved bk) as (enc & cpg & Hall & _).
  rewrite (Hall bk eq_refl eq_refl eq_refl eq_refl) in Hrun.
  cbv zeta in Hrun.
  destruct (if bool_decide (cpg = Some 1200) then Return []
            else unicode trial enc) as [t| |]; [|done..].
  cbn [bind] in Hrun.
  destruct (raw_user_name (set_encoding (set_codepage bk cpg) enc)) eqn:Er.
  - destruct (unpack_string _ 0 enc 1) as [strg| |]; [|done..].
    cbn [bind] in Hrun. injection Hrun as <- <-. by eexists _, _, _.
  - cbn [bind] in Hrun. injection Hrun as <- <-.
    exists cpg, (raw_user_name bk), (user_name bk). by destruct bk.
Qed.

(** X25.  In a workbook older than BIFF 8 the user name does not depend on
    whether the WRITEACCESS record comes before or after the CODEPAGE
    record.  Before the encoding is known [handle_writeaccess] keeps the
    raw bytes and [derive_encoding] decodes them later; afterwards
    [handle_writeaccess] decodes at once.  When no encoding is set, no
    raw name is pending and the table of code pages holds no empty name
    for the code page of the record, handling the two records in either
    order gives the same workbook, or raises the same error. *)
Theorem user_name_either_order (bk : Book Sheet Ext) (name cp_data : bytes) :
  biff_version bk < 80 ->
  truthy (encoding bk) = false ->
  raw_user_name bk = false ->
  (forall cp e, unpack_H (slice cp_data 0 2) = Return cp ->
                encoding_from_codepage cp = Some e -> e <> []) ->
  (let* bk1 := handle_writeaccess name bk in handle_codepage cp_data bk1)
  = (let* bk2 := handle_codepage cp_data bk in handle_writeaccess name bk2).
Proof.
  intros Hv Henc Hraw Htable.
  unfold handle_writeaccess at 1.
  destruct (biff_version bk <? 80) eqn:Ev; [|lia].
  rewrite Henc. cbn [negb bind].
  unfold handle_codepage.
  destruct (unpack_H (slice cp_data 0 2)) as [cp| |] eqn:Ecp; [|done..].
  cbn [bind]. specialize (Htable cp).
  destruct (derive_encoding_resolved (set_codepage bk (Some cp)))
    as (enc & cpg & Hall & Htrue).
  rewrite (Hall (set_codepage (set_user_name bk true (PyBytes name))
                   (Some cp)) eq_refl eq_refl eq_refl eq_refl).
  rewrite (Hall (set_codepage bk (Some cp)) eq_refl eq_refl eq_refl eq_refl).
  specialize (Htrue cp eq_refl (fun e => Htable e eq_refl) Hv).
  cbv zeta.
  destruct (if bool_decide (cpg = Some 1200) then Return []
            else unicode trial enc) as [t| |]; [|done..].
  cbn [bind]. 
  change (raw_user_name (set_encoding (set_codepage (set_codepage
            (set_user_name bk true (PyBytes name)) (Some cp)) cpg) enc))
    with true.
  change (raw_user_name (set_encoding (set_codepage (set_codepage bk
            (Some cp)) cpg) enc)) with (raw_user_name bk).
  rewrite Hraw. cbn [bind].
  change (user_name (set_encoding (set_codepage (set_codepage
            (set_user_name bk true (PyBytes name)) (Some cp)) cpg) enc))
    with (PyBytes name).
  unfold handle_writeaccess.
  change (biff_version (set_encoding (set_codepage (set_codepage bk
            (Some cp)) cpg) enc)) with (biff_version bk).
  change (encoding (set_encoding (set_codepage (set_codepage bk
            (Some cp)) cpg) enc)) with enc.
  change (raw_user_name (set_encoding (set_codepage (set_codepage bk
            (Some cp)) cpg) enc)) with (raw_user_name bk).
  rewrite Ev, Htrue, Hraw. cbn [negb].
  by destruct (unpack_string (PyBytes name) 0 enc 1).
Qed.

End WriteAccessFacts.

Lemma user_name_either_order_witness :
  (let* bk1 := handle_writeaccess ann biff5_book in
   handle_codepage cp1252 bk1)
  = (let* bk2 := handle_codepage cp1252 biff5_book in
     handle_writeaccess ann bk2).
Proof.
  apply (user_name_either_order biff5_book ann cp1252).
  - vm_compute. reflexivity.
  - reflexivity.
  - reflexivity.
  - intros cp e Hcp. vm_compute in Hcp. injection Hcp as <-.
    intros He. vm_compute in He. discriminate He.
Defined.

End writeaccess_facts.

(** * The BOUNDSHEET records ([xlrd/book.py]) *)

Module boundsheet_facts.

Import book book_writeaccess book_boundsheet boundsheet_props.

Lemma last_index_snoc (names : list str) (x name : str) (i : Z) :
  last_index i name (names ++ [x])
  = if decide (x = name) then Some (i + Z.of_nat (length names))
    else last_index i name names.
Proof.
  revert i. induction names as [|y r IH]; intros i.
  - simpl. destruct (decide (x = name)); [f_equal; lia|done].
  - cbn [app last_index]. rewrite IH.
    destruct (decide (x = name)); [|done].
    f_equal. rewrite length_cons. lia.
Qed.

Section BoundSheetFacts.

Context {Sheet Rest : Type}.
Context `{Biffh} `{Interpreter} `{BiffhUnicode} `{BiffhSheetTypes}.

(** X26.  [handle_boundsheet] keeps the lists of the workbook's sheets
    together.  When the names, positions and visibilities have one entry
    per worksheet, [_all_sheets_map] one entry per record counted by
    [_all_sheets_count], whose entries other than -1 are the indexes of the
    worksheets in order, and [_sheet_num_from_name] leads from a name to
    the last worksheet that has it, the same holds after a BOUNDSHEET
    record that is handled without an error.  The record is counted; a
    worksheet is added at the end of the three lists, mapped to its index
    and found under its name; any other kind of sheet is mapped to -1 and
    leaves the lists and the names alone.  The list of decoded sheets is
    not touched. *)
Theorem handle_boundsheet_keeps_aligned
    (bk bk' : Book Sheet (BoundExt Rest)) (data : bytes) :
  sheets_aligned bk ->
  handle_boundsheet data bk = Return bk' ->
  sheets_aligned bk'
  /\ _all_sheets_count (ext bk') = _all_sheets_count (ext bk) + 1
  /\ _sheet_list bk' = _sheet_list bk
  /\ ((exists name posn vis,
          _sheet_names bk' = _sheet_names bk ++ [name]
          /\ _sh_abs_posn bk' = _sh_abs_posn bk ++ [posn]
          /\ _sheet_visibility (ext bk') = _sheet_visibility (ext bk) ++ [vis]
          /\ _all_sheets_map (ext bk')
             = _all_sheets_map (ext bk)
               ++ [Z.of_nat (length (_sheet_names bk))]
          /\ _sheet_num_from_name (ext bk') !! name
             = Some (Z.of_nat (length (_sheet_names bk)))
          /\ (biff_version bk <> 45 ->
              posn = le_int32 (take 4 (slice data 0 6)) + base bk)
          /\ (biff_version bk = 45 ->
              vis = 0 /\ (_sh_abs_posn bk <> [] -> posn = -1)))
      \/ (_sheet_names bk' = _sheet_names bk
          /\ _sh_abs_posn bk' = _sh_abs_posn bk
          /\ _sheet_visibility (ext bk') = _sheet_visibility (ext bk)
          /\ _all_sheets_map (ext bk') = _all_sheets_map (ext bk) ++ [-1]
          /\ _sheet_num_from_name (ext bk')
             = _sheet_num_from_name (ext bk)
          /\ biff_version bk <> 45)).
Proof.
  intros (Hp & Hv & Hc & Hf & Hn) Hrun. unfold handle_boundsheet in Hrun.
  destruct (derive_encoding bk) as [[e bk1]| |] eqn:Ed; [|done..].
  cbn [bind] in Hrun.
  destruct (writeaccess_facts.derive_encoding_frame bk bk1 e Ed)
    as (cpg & raw & un & ->).
  change (_sh_abs_posn (set_user_name (set_encoding (set_codepage bk cpg) e)
                          raw un)) with (_sh_abs_posn bk) in Hrun.
  change (_sheet_names (set_user_name (set_encoding (set_codepage bk cpg) e)
                          raw un)) with (_sheet_names bk) in Hrun.
  change (ext (set_user_name (set_encoding (set_codepage bk cpg) e)
                 raw un)) with (ext bk) in Hrun.
  change (base (set_user_name (set_encoding (set_codepage bk cpg) e)
                  raw un)) with (base bk) in Hrun.
  change (encoding (set_user_name (set_encoding (set_codepage bk cpg) e)
                      raw un)) with e in Hrun.
  set (s1 := set_user_name (set_encoding (set_codepage bk cpg) e) raw un)
    in *.
  assert (Hmid : exists name vis ty posn,
             (negb (ty =? XL_BOUNDSHEET_WORKSHEET) = true ->
              biff_version bk <> 45)
             /\ (biff_version bk <> 45 ->
                 posn = le_int32 (take 4 (slice data 0 6)) + base bk)
             /\ (biff_version bk = 45 ->
                 vis = 0 /\ (_sh_abs_posn bk <> [] -> posn = -1))
             /\ (if negb (ty =? XL_BOUNDSHEET_WORKSHEET) then
                   Return
                     (set_sheets s1 (_sheet_names bk) (_sh_abs_posn bk)
                        {| _sheetsoffset := _sheetsoffset (ext bk);
                           _all_sheets_count := _all_sheets_count (ext bk) + 1;
                           _all_sheets_map := _all_sheets_map (ext bk) ++ [-1];
                           _sheet_visibility := _sheet_visibility (ext bk);
                           _sheet_num_from_name :=
                             _sheet_num_from_name (ext bk);
                           rest := rest (ext bk) |})
                 else
                   Return
                     (set_sheets s1 (_sheet_names bk ++ [name])
                        (_sh_abs_posn bk ++ [posn])
                        {| _sheetsoffset := _sheetsoffset (ext bk);
                           _all_sheets_count := _all_sheets_count (ext bk) + 1;
                           _all_sheets_map :=
                             _all_sheets_map (ext bk)
                             ++ [Z.of_nat (length (_sheet_names bk))];
                           _sheet_visibility :=
                             _sheet_visibility (ext bk) ++ [vis];
                           _sheet_num_from_name :=
                             <[name := Z.of_nat (length (_sheet_names bk))]>
                               (_sheet_num_from_name (ext bk));
                           rest := rest (ext bk) |}))
                = Return bk').
  { destruct (biff_version bk =? 45) eqn:E45.
    - apply Z.eqb_eq in E45.
      destruct (unpack_string (PyBytes data) 0 e 1) as [name| |]; [|done..].
      cbn [bind] in Hrun.
      destruct (bool_decide (length (_sh_abs_posn bk) = 0%nat)) eqn:Efirst.
      + destruct (_sheetsoffset (ext bk)) as [offset| |]; [|done..].
        cbn [bind] in Hrun.
        exists name, 0, XL_BOUNDSHEET_WORKSHEET, (offset + base bk).
        rewrite Z.eqb_refl in Hrun |- *. cbn [negb] in Hrun |- *.
        repeat split; try done.
        intros Hne. apply bool_decide_eq_true_1 in Efirst.
        by destruct (_sh_abs_posn bk).
      + cbn [bind] in Hrun.
        exists name, 0, XL_BOUNDSHEET_WORKSHEET, (-1).
        rewrite Z.eqb_refl in Hrun |- *. cbn [negb] in Hrun |- *.
        repeat split; done.
    - apply Z.eqb_neq in E45. unfold unpack_iBB in Hrun.
      destruct (decide (length (slice data 0 6) = 6%nat)); [|done].
      cbn [bind] in Hrun.
      destruct (if biff_version bk <? BIFF_FIRST_UNICODE
                then unpack_string (PyBytes data) 6 e 1
                else unpack_unicode data 6 1) as [name| |]; [|done..].
      cbn [bind] in Hrun.
      exists name, (le_uint (take 1 (drop 4 (slice data 0 6)))),
        (le_uint (take 1 (drop 5 (slice data 0 6)))),
        (le_int32 (take 4 (slice data 0 6)) + base bk).
      repeat split; done. }
  clear Hrun. destruct Hmid as (name & vis & ty & posn & H45 & Hposn & Hvis
                                & Hrun).
  destruct (negb (ty =? XL_BOUNDSHEET_WORKSHEET)) eqn:Ety;
    injection Hrun as <-.
  - split; [|split; [done|split; [done|right; repeat split; by auto]]].
    unfold sheets_aligned. cbn.
    split; [done|]. split; [done|]. split.
    { rewrite length_app. simpl. lia. }
    split; [|done].
    rewrite list.filter_app, Hf.
    rewrite filter_cons_False by (intros Hne; by apply Hne).
    by rewrite filter_nil, app_nil_r.
  - split; [|split; [done|split; [done|left]]].
    + unfold sheets_aligned. cbn.
      rewrite !length_app. simpl.
      split; [lia|]. split; [lia|]. split; [lia|]. split.
      * rewrite list.filter_app, Hf.
        rewrite filter_cons_True by lia.
        rewrite filter_nil, Nat.add_1_r, seq_S, fmap_app. reflexivity.
      * intros n. rewrite last_index_snoc, Z.add_0_l.
        destruct (decide (name = n)) as [->|Hne].
        -- by rewrite lookup_insert_eq.
        -- by rewrite lookup_insert_ne.
    + exists name, posn, vis. cbn.
      split; [done|]. split; [done|]. split; [done|]. split; [done|].
      split; [by rewrite lookup_insert_eq|]. by split.
Qed.

End BoundSheetFacts.

Import examples writeaccess_examples boundsheet_examples.

Lemma handle_boundsheet_keeps_aligned_witness :
  exists bk',
    handle_boundsheet boundsheet_jan biff8_book = Return bk'
    /\ sheets_aligned bk'
    /\ _sheet_names bk' = [u "Jan"]
    /\ _sh_abs_posn bk' = [1000]
    /\ _all_sheets_map (ext bk') = [0].
Proof.
  destruct (handle_boundsheet boundsheet_jan biff8_book) as [bk'| |] eqn:E;
    [|vm_compute in E; discriminate E..].
  exists bk'. split; [done|].
  destruct (handle_boundsheet_keeps_aligned biff8_book bk' boundsheet_jan)
    as (Hal & _ & _ & Hadd).
  - repeat split; reflexivity.
  - exact E.
  - split; [exact Hal|].
    vm_compute in E. injection E as <-. by vm_compute.
Defined.

End boundsheet_facts.

(** * The area and the cell of a name ([xlrd/book.py]) *)

Module name_facts.

Import book book_name examples name_examples.

Section NameFacts.

Context {Sheet Ext Cell : Type}.
Context `{Biffh} `{Interpreter} `{!Collaborators Sheet Ext}.
Context `{!SheetAttrs Sheet Cell}.

(** X27.  [Name.area2d] on a name whose result is one reference into one
    sheet.  Unclipped, the coordinates of the reference are returned as
    they are.  Clipped, a reference that starts at a row and a column that
    are not negative gives a rectangle with
    [0 <= rowxlo <= rowxhi <= nrows] and [0 <= colxlo <= colxhi <= ncols]
    that holds exactly the rows and columns of the reference that the
    sheet has; a reference that starts at a negative row or column is not
    clipped at 0: the assertion fails. *)
Theorem area2d_clips_to_sheet (self : Name Sheet Ext) (res : Operand)
    (ref3d : Ref3D) (sh : Sheet) (bk' : Book Sheet Ext) :
  name_result self = Some res ->
  kind res = oREF ->
  value res = Some [ref3d] ->
  0 <= shtxlo ref3d ->
  shtxlo ref3d = shtxhi ref3d - 1 ->
  sheet_by_index (name_book self) (shtxlo ref3d) = Return (sh, bk') ->
  area2d self false
  = Return ((sh, rowxlo ref3d, rowxhi ref3d, colxlo ref3d, colxhi ref3d), bk')
  /\ (0 <= rowxlo ref3d -> 0 <= colxlo ref3d ->
      0 <= nrows sh -> 0 <= ncols sh ->
      exists rlo rhi clo chi,
        area2d self true = Return ((sh, rlo, rhi, clo, chi), bk')
        /\ 0 <= rlo <= rhi /\ rhi <= nrows sh
        /\ 0 <= clo <= chi /\ chi <= ncols sh
        /\ (forall r, rlo <= r < rhi
                      <-> rowxlo ref3d <= r < rowxhi ref3d /\ r < nrows sh)
        /\ (forall c, clo <= c < chi
                      <-> colxlo ref3d <= c < colxhi ref3d /\ c < ncols sh))
  /\ (rowxlo ref3d < 0 \/ colxlo ref3d < 0 ->
      area2d self true = Raise AssertionError).
Proof.
  intros Hres Hkind Hval Hsh Hone Hsheet.
  assert (Hrun : forall clipped,
             area2d self clipped
             = (if negb clipped then
                  Return ((sh, rowxlo ref3d, rowxhi ref3d, colxlo ref3d,
                           colxhi ref3d), bk')
                else
                  let rowxlo := Z.min (rowxlo ref3d) (nrows sh) in
                  let rowxhi := Z.max rowxlo
                                  (Z.min (rowxhi ref3d) (nrows sh)) in
                  let colxlo := Z.min (colxlo ref3d) (ncols sh) in
                  let colxhi := Z.max colxlo
                                  (Z.min (colxhi ref3d) (ncols sh)) in
                  if negb ((0 <=? rowxlo) && (rowxlo <=? rowxhi)
                           && (rowxhi <=? nrows sh))
                  then Raise AssertionError
                  else if negb ((0 <=? colxlo) && (colxlo <=? colxhi)
                                && (colxhi <=? ncols sh))
                  then Raise AssertionError
                  else Return ((sh, rowxlo, rowxhi, colxlo, colxhi), bk'))).
  { intros clipped. unfold area2d. rewrite Hres, Hkind, Z.eqb_refl, Hval.
    destruct (0 <=? shtxlo ref3d) eqn:E0; [|lia].
    destruct (shtxlo ref3d =? shtxhi ref3d - 1) eqn:E1; [|lia].
    cbn [andb]. rewrite Hsheet. reflexivity. }
  split; [by rewrite Hrun|]. split.
  - intros Hr Hc Hnr Hnc.
    exists (Z.min (rowxlo ref3d) (nrows sh)),
      (Z.max (Z.min (rowxlo ref3d) (nrows sh))
         (Z.min (rowxhi ref3d) (nrows sh))),
      (Z.min (colxlo ref3d) (ncols sh)),
      (Z.max (Z.min (colxlo ref3d) (ncols sh))
         (Z.min (colxhi ref3d) (ncols sh))).
    split.
    + rewrite Hrun. cbn [negb]. cbv zeta.
      rewrite !(proj2 (Z.leb_le _ _)) by lia. reflexivity.
    + repeat split; lia.
  - intros Hneg. rewrite Hrun. cbn [negb]. cbv zeta.
    destruct (0 <=? Z.min (rowxlo ref3d) (nrows sh)) eqn:Er; [|done].
    destruct (0 <=? Z.min (colxlo ref3d) (ncols sh)) eqn:Ec; [lia|].
    cbn [andb negb]. by destruct (negb _).
Qed.

(** X28.  [Name.cell] and [Name.area2d] agree: [cell] returns a cell
    exactly when the unclipped area of the name is one cell of one sheet,
    and the cell is the one that the sheet gives at the first row and
    column of that area; both leave the workbook in the same state. *)
Theorem cell_is_area_of_one_cell (self : Name Sheet Ext) :
  (forall c bk',
      cell self = Return (c, bk') ->
      exists sh rowx colx,
        area2d self false
        = Return ((sh, rowx, rowx + 1, colx, colx + 1), bk')
        /\ Sheet_cell sh rowx colx = Return c)
  /\ (forall sh rowx colx bk',
         area2d self false
         = Return ((sh, rowx, rowx + 1, colx, colx + 1), bk') ->
         cell self
         = (let* c := Sheet_cell sh rowx colx in Return (c, bk'))).
Proof.
  unfold cell, area2d.
  destruct (name_result self) as [res|]; [|by split].
  destruct (kind res =? oREF); [|by split].
  destruct (value res) as [[|ref3d [|]]|]; try by split.
  destruct (0 <=? shtxlo ref3d); [|by split].
  destruct (shtxlo ref3d =? shtxhi ref3d - 1); [|by split].
  cbn [andb negb].
  destruct (sheet_by_index (name_book self) (shtxlo ref3d))
    as [[sh bk]| |] eqn:Esh.
  2-3: by split; intros; destruct (_ && _).
  cbn [bind]. split.
  - intros c bk' Hrun.
    destruct (rowxlo ref3d =? rowxhi ref3d - 1) eqn:Er; [|done].
    destruct (colxlo ref3d =? colxhi ref3d - 1) eqn:Ec; [|done].
    cbn [andb] in Hrun.
    destruct (Sheet_cell sh (rowxlo ref3d) (colxlo ref3d)) as [c'| |] eqn:Ecell;
      [|done..].
    cbn [bind] in Hrun. injection Hrun as <- <-.
    exists sh, (rowxlo ref3d), (colxlo ref3d). split; [|done].
    replace (rowxlo ref3d + 1) with (rowxhi ref3d) by lia.
    replace (colxlo ref3d + 1) with (colxhi ref3d) by lia. reflexivity.
  - intros sh' rowx colx bk' Hrun. injection Hrun as <- <- Hr <- Hc <-.
    destruct (rowxlo ref3d =? rowxhi ref3d - 1) eqn:Er; [|lia].
    destruct (colxlo ref3d =? colxhi ref3d - 1) eqn:Ec; [|lia].
    cbn [andb]. reflexivity.
Qed.

End NameFacts.

Lemma area2d_clips_to_sheet_witness :
  area2d (name_of area_ref) false
  = Return ((u "Sheet1", 2, 20, 1, 3), two_sheets)
  /\ area2d (name_of area_ref) true
     = Return ((u "Sheet1", 2, 10, 1, 3), two_sheets).
Proof.
  destruct (area2d_clips_to_sheet (Collaborators0 := idle_collaborators)
              (SheetAttrs0 := ten_by_five)
              (name_of area_ref) {| kind := -1; value := Some [area_ref] |}
              area_ref (u "Sheet1") two_sheets eq_refl eq_refl eq_refl
              ltac:(simpl; lia) eq_refl eq_refl)
    as (Hraw & Hclip & _).
  split; [exact Hraw|].
  destruct (Hclip ltac:(simpl; lia) ltac:(simpl; lia) ltac:(simpl; lia)
              ltac:(simpl; lia)) as (rlo & rhi & clo & chi & Hrun & _).
  rewrite Hrun. vm_compute in Hrun. by injection Hrun as <- <- <- <-.
Defined.

Lemma cell_is_area_of_one_cell_witness :
  cell (name_of cell_ref) = Return (201, two_sheets).
Proof.
  apply (proj2 (cell_is_area_of_one_cell (Collaborators0 := idle_collaborators)
              (SheetAttrs0 := ten_by_five)
                  (name_of cell_ref)) (u "Sheet1") 2 1 two_sheets).
  reflexivity.
Defined.

End name_facts.
